(** * MINDMAP trading bot: position watcher, position store, admission pipeline

    A shallow embedding of the decision-and-position-lifecycle code of the
    bot (TradeWatcherService, TradeHistoryService, MindmapFilterEngine,
    MLPredictionService, BotCoreEngine, TradeExecutor and RedisCacheService)
    together with the properties the specification states about it. *)

From Stdlib Require Import ZArith QArith Qcanon Bool List String Lia Lqa Sorted.
From stdpp Require Import base option gmap sets strings.

Local Open Scope Z_scope.

(** ** JavaScript numbers

    A JS [number] is an IEEE-754 double.  The model keeps the three special
    values, whose arithmetic decides what the code does on a zero entry
    price, and takes finite values as exact rationals: rounding, overflow and
    the sign of zero are not modelled. *)
Module JS.

Inductive number : Type :=
| Fin (q : Qc)
| PInf
| NInf
| NaN.

Definition ofZ (z : Z) : number := Fin (Q2Qc (inject_Z z)).
Definition ofQ (n : Z) (d : positive) : number := Fin (Q2Qc (Qmake n d)).

Definition zero : number := ofZ 0.
Definition one : number := ofZ 1.
Definition hundred : number := ofZ 100.

(** Three-way sign of a finite value. *)
Definition sgn (q : Qc) : comparison := (q ?= 0)%Qc.

Definition neg (a : number) : number :=
  match a with
  | Fin q => Fin (- q)%Qc
  | PInf => NInf
  | NInf => PInf
  | NaN => NaN
  end.

Definition add (a b : number) : number :=
  match a, b with
  | NaN, _ | _, NaN => NaN
  | Fin x, Fin y => Fin (x + y)%Qc
  | PInf, NInf | NInf, PInf => NaN
  | PInf, _ | _, PInf => PInf
  | NInf, _ | _, NInf => NInf
  end.

Definition sub (a b : number) : number := add a (neg b).

(** An infinity scaled by a finite factor. *)
Definition scale_inf (pos : bool) (q : Qc) : number :=
  match sgn q with
  | Eq => NaN
  | Gt => if pos then PInf else NInf
  | Lt => if pos then NInf else PInf
  end.

Definition mul (a b : number) : number :=
  match a, b with
  | NaN, _ | _, NaN => NaN
  | Fin x, Fin y => Fin (x * y)%Qc
  | PInf, Fin y => scale_inf true y
  | NInf, Fin y => scale_inf false y
  | Fin x, PInf => scale_inf true x
  | Fin x, NInf => scale_inf false x
  | PInf, PInf | NInf, NInf => PInf
  | PInf, NInf | NInf, PInf => NInf
  end.

(** [x / 0] is an infinity of the sign of [x], and [0 / 0] is [NaN]. *)
Definition div (a b : number) : number :=
  match a, b with
  | NaN, _ | _, NaN => NaN
  | Fin x, Fin y =>
      match sgn y with
      | Eq => match sgn x with Eq => NaN | Gt => PInf | Lt => NInf end
      | _ => Fin (x / y)%Qc
      end
  | Fin _, (PInf | NInf) => zero
  | (PInf | NInf), (PInf | NInf) => NaN
  | PInf, Fin y => match sgn y with Lt => NInf | _ => PInf end
  | NInf, Fin y => match sgn y with Lt => PInf | _ => NInf end
  end.

(** Comparisons: every comparison with [NaN] is false. *)
Definition ltb (a b : number) : bool :=
  match a, b with
  | NaN, _ | _, NaN => false
  | Fin x, Fin y => match (x ?= y)%Qc with Lt => true | _ => false end
  | NInf, NInf => false
  | NInf, _ => true
  | _, NInf => false
  | PInf, _ => false
  | Fin _, PInf => true
  end.

Definition eqb (a b : number) : bool :=
  match a, b with
  | Fin x, Fin y => match (x ?= y)%Qc with Eq => true | _ => false end
  | PInf, PInf | NInf, NInf => true
  | _, _ => false
  end.

Definition leb (a b : number) : bool := ltb a b || eqb a b.
Definition gtb (a b : number) : bool := ltb b a.
Definition geb (a b : number) : bool := leb b a.

(** [!!x]: zero and [NaN] are falsy. *)
Definition truthy (a : number) : bool :=
  match a with
  | Fin q => match sgn q with Eq => false | _ => true end
  | PInf | NInf => true
  | NaN => false
  end.

(** An optional property read as a number: [undefined] converts to [NaN]. *)
Definition toNumber (o : option number) : number :=
  match o with Some a => a | None => NaN end.

(** [!!o] for an optional numeric property. *)
Definition truthy_opt (o : option number) : bool :=
  match o with Some a => truthy a | None => false end.

(** [a || b] on numbers. *)
Definition or_else (o : option number) (d : number) : number :=
  match o with
  | Some a => if truthy a then a else d
  | None => d
  end.

(** [Math.max]/[Math.min] on finite values, used to state the extrema. *)
Definition max (a b : number) : number := if ltb a b then b else a.
Definition min (a b : number) : number := if ltb b a then b else a.

End JS.

Import JS.

(** ** Trade history entries (TradeHistoryService.ts) *)

Inductive TradeStatus : Type := open | closed | failed.

Global Instance TradeStatus_eq_dec : EqDecision TradeStatus.
Proof. solve_decision. Defined.

(** The [prediction] block a trade carries. *)
Record PredictionInfo : Type := {
  pi_taskType : string;
  pi_classIndex : option number;
  pi_classLabel : option string;
  pi_probability : option number;
  pi_confidence : option number;
  pi_value : option number
}.

(** [sellReason] is a string in the source.  The watcher builds it from a
    fixed prefix and formatted numbers; the model keeps the prefix as a
    constructor and the numbers as arguments. *)
Inductive SellReason : Type :=
| MaxHoldTimeReached (holdTimeMinutes : number)
| StopLossTriggered (priceChangePercent : number)
| TakeProfitReached (priceChangePercent : number)
| SteppedStopTriggered (profitPerc : number) (stopPrice : number)
| TrailingStopTriggered (trailingDropPercent : number)
| ForceClosePricingError
| ForceCloseMessage (message : string)
| OtherReason (text : string).

Record SellConditions : Type := {
  takeProfitPercentage : option number;
  stopLossPercentage : option number;
  trailingStopPercentage : option number;
  trailingStopActivated : option bool;
  maxHoldTimeMinutes : option number;
  stepLevel : option number;
  nextTargetPrice : option number;
  currStopPrice : option number
}.

Definition set_trailingStopActivated (v : option bool) (c : SellConditions) : SellConditions :=
  {| takeProfitPercentage := takeProfitPercentage c;
     stopLossPercentage := stopLossPercentage c;
     trailingStopPercentage := trailingStopPercentage c;
     trailingStopActivated := v; maxHoldTimeMinutes := maxHoldTimeMinutes c;
     stepLevel := stepLevel c; nextTargetPrice := nextTargetPrice c;
     currStopPrice := currStopPrice c |}.

Definition set_stepLevel (v : option number) (c : SellConditions) : SellConditions :=
  {| takeProfitPercentage := takeProfitPercentage c;
     stopLossPercentage := stopLossPercentage c;
     trailingStopPercentage := trailingStopPercentage c;
     trailingStopActivated := trailingStopActivated c;
     maxHoldTimeMinutes := maxHoldTimeMinutes c; stepLevel := v;
     nextTargetPrice := nextTargetPrice c;
     currStopPrice := currStopPrice c |}.

Definition set_nextTargetPrice (v : option number) (c : SellConditions) : SellConditions :=
  {| takeProfitPercentage := takeProfitPercentage c;
     stopLossPercentage := stopLossPercentage c;
     trailingStopPercentage := trailingStopPercentage c;
     trailingStopActivated := trailingStopActivated c;
     maxHoldTimeMinutes := maxHoldTimeMinutes c; stepLevel := stepLevel c;
     nextTargetPrice := v; currStopPrice := currStopPrice c |}.

Definition set_currStopPrice (v : option number) (c : SellConditions) : SellConditions :=
  {| takeProfitPercentage := takeProfitPercentage c;
     stopLossPercentage := stopLossPercentage c;
     trailingStopPercentage := trailingStopPercentage c;
     trailingStopActivated := trailingStopActivated c;
     maxHoldTimeMinutes := maxHoldTimeMinutes c; stepLevel := stepLevel c;
     nextTargetPrice := nextTargetPrice c; currStopPrice := v |}.

Record TradeHistoryEntry : Type := {
  id : string;
  agentId : string;
  tokenMint : string;
  isSimulation : option bool;
  prediction : option PredictionInfo;
  status : TradeStatus;
  openedAt : Z;
  closedAt : option Z;
  entryPrice : number;
  entryAmount : number;
  entryValue : number;
  buyTransactionId : option string;
  exitPrice : option number;
  exitAmount : option number;
  exitValue : option number;
  sellTransactionId : option string;
  sellReason : option SellReason;
  realizedPnL : option number;
  realizedPnLPercentage : option number;
  highestPrice : option number;
  lowestPrice : option number;
  currentPrice : option number;
  lastPriceUpdate : option Z;
  sellConditions : SellConditions;
  ledgerId : option string;
  originalTradeId : option string;
  watchJobId : option string;
  tags : list string;
  notes : option string;
  createdAt : Z;
  updatedAt : Z
}.

Definition set_status (v : TradeStatus) (t : TradeHistoryEntry) : TradeHistoryEntry :=
  {| id := id t; agentId := agentId t; tokenMint := tokenMint t;
     isSimulation := isSimulation t; prediction := prediction t; status := v;
     openedAt := openedAt t; closedAt := closedAt t;
     entryPrice := entryPrice t; entryAmount := entryAmount t;
     entryValue := entryValue t; buyTransactionId := buyTransactionId t;
     exitPrice := exitPrice t; exitAmount := exitAmount t;
     exitValue := exitValue t; sellTransactionId := sellTransactionId t;
     sellReason := sellReason t; realizedPnL := realizedPnL t;
     realizedPnLPercentage := realizedPnLPercentage t;
     highestPrice := highestPrice t; lowestPrice := lowestPrice t;
     currentPrice := currentPrice t; lastPriceUpdate := lastPriceUpdate t;
     sellConditions := sellConditions t; ledgerId := ledgerId t;
     originalTradeId := originalTradeId t; watchJobId := watchJobId t;
     tags := tags t; notes := notes t; createdAt := createdAt t;
     updatedAt := updatedAt t |}.

Definition set_closedAt (v : option Z) (t : TradeHistoryEntry) : TradeHistoryEntry :=
  {| id := id t; agentId := agentId t; tokenMint := tokenMint t;
     isSimulation := isSimulation t; prediction := prediction t;
     status := status t; openedAt := openedAt t; closedAt := v;
     entryPrice := entryPrice t; entryAmount := entryAmount t;
     entryValue := entryValue t; buyTransactionId := buyTransactionId t;
     exitPrice := exitPrice t; exitAmount := exitAmount t;
     exitValue := exitValue t; sellTransactionId := sellTransactionId t;
     sellReason := sellReason t; realizedPnL := realizedPnL t;
     realizedPnLPercentage := realizedPnLPercentage t;
     highestPrice := highestPrice t; lowestPrice := lowestPrice t;
     currentPrice := currentPrice t; lastPriceUpdate := lastPriceUpdate t;
     sellConditions := sellConditions t; ledgerId := ledgerId t;
     originalTradeId := originalTradeId t; watchJobId := watchJobId t;
     tags := tags t; notes := notes t; createdAt := createdAt t;
     updatedAt := updatedAt t |}.

Definition set_exitPrice (v : option number) (t : TradeHistoryEntry) : TradeHistoryEntry :=
  {| id := id t; agentId := agentId t; tokenMint := tokenMint t;
     isSimulation := isSimulation t; prediction := prediction t;
     status := status t; openedAt := openedAt t; closedAt := closedAt t;
     entryPrice := entryPrice t; entryAmount := entryAmount t;
     entryValue := entryValue t; buyTransactionId := buyTransactionId t;
     exitPrice := v; exitAmount := exitAmount t; exitValue := exitValue t;
     sellTransactionId := sellTransactionId t; sellReason := sellReason t;
     realizedPnL := realizedPnL t;
     realizedPnLPercentage := realizedPnLPercentage t;
     highestPrice := highestPrice t; lowestPrice := lowestPrice t;
     currentPrice := currentPrice t; lastPriceUpdate := lastPriceUpdate t;
     sellConditions := sellConditions t; ledgerId := ledgerId t;
     originalTradeId := originalTradeId t; watchJobId := watchJobId t;
     tags := tags t; notes := notes t; createdAt := createdAt t;
     updatedAt := updatedAt t |}.

Definition set_exitAmount (v : option number) (t : TradeHistoryEntry) : TradeHistoryEntry :=
  {| id := id t; agentId := agentId t; tokenMint := tokenMint t;
     isSimulation := isSimulation t; prediction := prediction t;
     status := status t; openedAt := openedAt t; closedAt := closedAt t;
     entryPrice := entryPrice t; entryAmount := entryAmount t;
     entryValue := entryValue t; buyTransactionId := buyTransactionId t;
     exitPrice := exitPrice t; exitAmount := v; exitValue := exitValue t;
     sellTransactionId := sellTransactionId t; sellReason := sellReason t;
     realizedPnL := realizedPnL t;
     realizedPnLPercentage := realizedPnLPercentage t;
     highestPrice := highestPrice t; lowestPrice := lowestPrice t;
     currentPrice := currentPrice t; lastPriceUpdate := lastPriceUpdate t;
     sellConditions := sellConditions t; ledgerId := ledgerId t;
     originalTradeId := originalTradeId t; watchJobId := watchJobId t;
     tags := tags t; notes := notes t; createdAt := createdAt t;
     updatedAt := updatedAt t |}.

Definition set_exitValue (v : option number) (t : TradeHistoryEntry) : TradeHistoryEntry :=
  {| id := id t; agentId := agentId t; tokenMint := tokenMint t;
     isSimulation := isSimulation t; prediction := prediction t;
     status := status t; openedAt := openedAt t; closedAt := closedAt t;
     entryPrice := entryPrice t; entryAmount := entryAmount t;
     entryValue := entryValue t; buyTransactionId := buyTransactionId t;
     exitPrice := exitPrice t; exitAmount := exitAmount t; exitValue := v;
     sellTransactionId := sellTransactionId t; sellReason := sellReason t;
     realizedPnL := realizedPnL t;
     realizedPnLPercentage := realizedPnLPercentage t;
     highestPrice := highestPrice t; lowestPrice := lowestPrice t;
     currentPrice := currentPrice t; lastPriceUpdate := lastPriceUpdate t;
     sellConditions := sellConditions t; ledgerId := ledgerId t;
     originalTradeId := originalTradeId t; watchJobId := watchJobId t;
     tags := tags t; notes := notes t; createdAt := createdAt t;
     updatedAt := updatedAt t |}.

Definition set_sellTransactionId (v : option string) (t : TradeHistoryEntry) : TradeHistoryEntry :=
  {| id := id t; agentId := agentId t; tokenMint := tokenMint t;
     isSimulation := isSimulation t; prediction := prediction t;
     status := status t; openedAt := openedAt t; closedAt := closedAt t;
     entryPrice := entryPrice t; entryAmount := entryAmount t;
     entryValue := entryValue t; buyTransactionId := buyTransactionId t;
     exitPrice := exitPrice t; exitAmount := exitAmount t;
     exitValue := exitValue t; sellTransactionId := v;
     sellReason := sellReason t; realizedPnL := realizedPnL t;
     realizedPnLPercentage := realizedPnLPercentage t;
     highestPrice := highestPrice t; lowestPrice := lowestPrice t;
     currentPrice := currentPrice t; lastPriceUpdate := lastPriceUpdate t;
     sellConditions := sellConditions t; ledgerId := ledgerId t;
     originalTradeId := originalTradeId t; watchJobId := watchJobId t;
     tags := tags t; notes := notes t; createdAt := createdAt t;
     updatedAt := updatedAt t |}.

Definition set_sellReason (v : option SellReason) (t : TradeHistoryEntry) : TradeHistoryEntry :=
  {| id := id t; agentId := agentId t; tokenMint := tokenMint t;
     isSimulation := isSimulation t; prediction := prediction t;
     status := status t; openedAt := openedAt t; closedAt := closedAt t;
     entryPrice := entryPrice t; entryAmount := entryAmount t;
     entryValue := entryValue t; buyTransactionId := buyTransactionId t;
     exitPrice := exitPrice t; exitAmount := exitAmount t;
     exitValue := exitValue t; sellTransactionId := sellTransactionId t;
     sellReason := v; realizedPnL := realizedPnL t;
     realizedPnLPercentage := realizedPnLPercentage t;
     highestPrice := highestPrice t; lowestPrice := lowestPrice t;
     currentPrice := currentPrice t; lastPriceUpdate := lastPriceUpdate t;
     sellConditions := sellConditions t; ledgerId := ledgerId t;
     originalTradeId := originalTradeId t; watchJobId := watchJobId t;
     tags := tags t; notes := notes t; createdAt := createdAt t;
     updatedAt := updatedAt t |}.

Definition set_realizedPnL (v : option number) (t : TradeHistoryEntry) : TradeHistoryEntry :=
  {| id := id t; agentId := agentId t; tokenMint := tokenMint t;
     isSimulation := isSimulation t; prediction := prediction t;
     status := status t; openedAt := openedAt t; closedAt := closedAt t;
     entryPrice := entryPrice t; entryAmount := entryAmount t;
     entryValue := entryValue t; buyTransactionId := buyTransactionId t;
     exitPrice := exitPrice t; exitAmount := exitAmount t;
     exitValue := exitValue t; sellTransactionId := sellTransactionId t;
     sellReason := sellReason t; realizedPnL := v;
     realizedPnLPercentage := realizedPnLPercentage t;
     highestPrice := highestPrice t; lowestPrice := lowestPrice t;
     currentPrice := currentPrice t; lastPriceUpdate := lastPriceUpdate t;
     sellConditions := sellConditions t; ledgerId := ledgerId t;
     originalTradeId := originalTradeId t; watchJobId := watchJobId t;
     tags := tags t; notes := notes t; createdAt := createdAt t;
     updatedAt := updatedAt t |}.

Definition set_realizedPnLPercentage (v : option number) (t : TradeHistoryEntry) : TradeHistoryEntry :=
  {| id := id t; agentId := agentId t; tokenMint := tokenMint t;
     isSimulation := isSimulation t; prediction := prediction t;
     status := status t; openedAt := openedAt t; closedAt := closedAt t;
     entryPrice := entryPrice t; entryAmount := entryAmount t;
     entryValue := entryValue t; buyTransactionId := buyTransactionId t;
     exitPrice := exitPrice t; exitAmount := exitAmount t;
     exitValue := exitValue t; sellTransactionId := sellTransactionId t;
     sellReason := sellReason t; realizedPnL := realizedPnL t;
     realizedPnLPercentage := v; highestPrice := highestPrice t;
     lowestPrice := lowestPrice t; currentPrice := currentPrice t;
     lastPriceUpdate := lastPriceUpdate t;
     sellConditions := sellConditions t; ledgerId := ledgerId t;
     originalTradeId := originalTradeId t; watchJobId := watchJobId t;
     tags := tags t; notes := notes t; createdAt := createdAt t;
     updatedAt := updatedAt t |}.

Definition set_highestPrice (v : option number) (t : TradeHistoryEntry) : TradeHistoryEntry :=
  {| id := id t; agentId := agentId t; tokenMint := tokenMint t;
     isSimulation := isSimulation t; prediction := prediction t;
     status := status t; openedAt := openedAt t; closedAt := closedAt t;
     entryPrice := entryPrice t; entryAmount := entryAmount t;
     entryValue := entryValue t; buyTransactionId := buyTransactionId t;
     exitPrice := exitPrice t; exitAmount := exitAmount t;
     exitValue := exitValue t; sellTransactionId := sellTransactionId t;
     sellReason := sellReason t; realizedPnL := realizedPnL t;
     realizedPnLPercentage := realizedPnLPercentage t; highestPrice := v;
     lowestPrice := lowestPrice t; currentPrice := currentPrice t;
     lastPriceUpdate := lastPriceUpdate t;
     sellConditions := sellConditions t; ledgerId := ledgerId t;
     originalTradeId := originalTradeId t; watchJobId := watchJobId t;
     tags := tags t; notes := notes t; createdAt := createdAt t;
     updatedAt := updatedAt t |}.

Definition set_lowestPrice (v : option number) (t : TradeHistoryEntry) : TradeHistoryEntry :=
  {| id := id t; agentId := agentId t; tokenMint := tokenMint t;
     isSimulation := isSimulation t; prediction := prediction t;
     status := status t; openedAt := openedAt t; closedAt := closedAt t;
     entryPrice := entryPrice t; entryAmount := entryAmount t;
     entryValue := entryValue t; buyTransactionId := buyTransactionId t;
     exitPrice := exitPrice t; exitAmount := exitAmount t;
     exitValue := exitValue t; sellTransactionId := sellTransactionId t;
     sellReason := sellReason t; realizedPnL := realizedPnL t;
     realizedPnLPercentage := realizedPnLPercentage t;
     highestPrice := highestPrice t; lowestPrice := v;
     currentPrice := currentPrice t; lastPriceUpdate := lastPriceUpdate t;
     sellConditions := sellConditions t; ledgerId := ledgerId t;
     originalTradeId := originalTradeId t; watchJobId := watchJobId t;
     tags := tags t; notes := notes t; createdAt := createdAt t;
     updatedAt := updatedAt t |}.

Definition set_currentPrice (v : option number) (t : TradeHistoryEntry) : TradeHistoryEntry :=
  {| id := id t; agentId := agentId t; tokenMint := tokenMint t;
     isSimulation := isSimulation t; prediction := prediction t;
     status := status t; openedAt := openedAt t; closedAt := closedAt t;
     entryPrice := entryPrice t; entryAmount := entryAmount t;
     entryValue := entryValue t; buyTransactionId := buyTransactionId t;
     exitPrice := exitPrice t; exitAmount := exitAmount t;
     exitValue := exitValue t; sellTransactionId := sellTransactionId t;
     sellReason := sellReason t; realizedPnL := realizedPnL t;
     realizedPnLPercentage := realizedPnLPercentage t;
     highestPrice := highestPrice t; lowestPrice := lowestPrice t;
     currentPrice := v; lastPriceUpdate := lastPriceUpdate t;
     sellConditions := sellConditions t; ledgerId := ledgerId t;
     originalTradeId := originalTradeId t; watchJobId := watchJobId t;
     tags := tags t; notes := notes t; createdAt := createdAt t;
     updatedAt := updatedAt t |}.

Definition set_lastPriceUpdate (v : option Z) (t : TradeHistoryEntry) : TradeHistoryEntry :=
  {| id := id t; agentId := agentId t; tokenMint := tokenMint t;
     isSimulation := isSimulation t; prediction := prediction t;
     status := status t; openedAt := openedAt t; closedAt := closedAt t;
     entryPrice := entryPrice t; entryAmount := entryAmount t;
     entryValue := entryValue t; buyTransactionId := buyTransactionId t;
     exitPrice := exitPrice t; exitAmount := exitAmount t;
     exitValue := exitValue t; sellTransactionId := sellTransactionId t;
     sellReason := sellReason t; realizedPnL := realizedPnL t;
     realizedPnLPercentage := realizedPnLPercentage t;
     highestPrice := highestPrice t; lowestPrice := lowestPrice t;
     currentPrice := currentPrice t; lastPriceUpdate := v;
     sellConditions := sellConditions t; ledgerId := ledgerId t;
     originalTradeId := originalTradeId t; watchJobId := watchJobId t;
     tags := tags t; notes := notes t; createdAt := createdAt t;
     updatedAt := updatedAt t |}.

Definition set_sellConditions (v : SellConditions) (t : TradeHistoryEntry) : TradeHistoryEntry :=
  {| id := id t; agentId := agentId t; tokenMint := tokenMint t;
     isSimulation := isSimulation t; prediction := prediction t;
     status := status t; openedAt := openedAt t; closedAt := closedAt t;
     entryPrice := entryPrice t; entryAmount := entryAmount t;
     entryValue := entryValue t; buyTransactionId := buyTransactionId t;
     exitPrice := exitPrice t; exitAmount := exitAmount t;
     exitValue := exitValue t; sellTransactionId := sellTransactionId t;
     sellReason := sellReason t; realizedPnL := realizedPnL t;
     realizedPnLPercentage := realizedPnLPercentage t;
     highestPrice := highestPrice t; lowestPrice := lowestPrice t;
     currentPrice := currentPrice t; lastPriceUpdate := lastPriceUpdate t;
     sellConditions := v; ledgerId := ledgerId t;
     originalTradeId := originalTradeId t; watchJobId := watchJobId t;
     tags := tags t; notes := notes t; createdAt := createdAt t;
     updatedAt := updatedAt t |}.

Definition set_updatedAt (v : Z) (t : TradeHistoryEntry) : TradeHistoryEntry :=
  {| id := id t; agentId := agentId t; tokenMint := tokenMint t;
     isSimulation := isSimulation t; prediction := prediction t;
     status := status t; openedAt := openedAt t; closedAt := closedAt t;
     entryPrice := entryPrice t; entryAmount := entryAmount t;
     entryValue := entryValue t; buyTransactionId := buyTransactionId t;
     exitPrice := exitPrice t; exitAmount := exitAmount t;
     exitValue := exitValue t; sellTransactionId := sellTransactionId t;
     sellReason := sellReason t; realizedPnL := realizedPnL t;
     realizedPnLPercentage := realizedPnLPercentage t;
     highestPrice := highestPrice t; lowestPrice := lowestPrice t;
     currentPrice := currentPrice t; lastPriceUpdate := lastPriceUpdate t;
     sellConditions := sellConditions t; ledgerId := ledgerId t;
     originalTradeId := originalTradeId t; watchJobId := watchJobId t;
     tags := tags t; notes := notes t; createdAt := createdAt t;
     updatedAt := v |}.

(** [!!b] for an optional boolean property. *)
Definition truthy_bool (o : option bool) : bool :=
  match o with Some b => b | None => false end.

(** [Math.max], [Math.min] and [Math.abs]: a [NaN] argument gives [NaN]. *)
Definition mathMax (a b : number) : number :=
  match a, b with
  | NaN, _ | _, NaN => NaN
  | _, _ => if ltb a b then b else a
  end.

Definition mathMin (a b : number) : number :=
  match a, b with
  | NaN, _ | _, NaN => NaN
  | _, _ => if ltb b a then b else a
  end.

Definition mathAbs (a : number) : number :=
  match a with
  | Fin q => if ltb a zero then neg a else a
  | PInf | NInf => PInf
  | NaN => NaN
  end.

(** A string in a condition: the empty string is falsy. *)
Definition truthy_str (o : option string) : bool :=
  match o with
  | Some a => negb (String.eqb a "")
  | None => false
  end.

(** [a || b] on strings. *)
Definition str_or (o : option string) (d : string) : string :=
  match o with
  | Some a => if String.eqb a "" then d else a
  | None => d
  end.

(** [a || b] on integers. *)
Definition or_elseZ (o : option Z) (d : Z) : Z :=
  match o with
  | Some a => if a =? 0 then d else a
  | None => d
  end.

(** [hay.includes(needle)]. *)
Fixpoint str_includes (needle hay : string) : bool :=
  String.prefix needle hay
  || match hay with
     | EmptyString => false
     | String _ rest => str_includes needle rest
     end.

(** ** Position watcher (TradeWatcherService.ts) *)
Module TradeWatcherService.

Record TrailingResult : Type := { activated : bool; updated : bool }.

(** [updateTrailingStopLoss(trade, currentPrice)]: the stepped ratchet.  The
    source mutates [trade] in place; the model returns the mutated entry. *)
Definition updateTrailingStopLoss (trade : TradeHistoryEntry) (currentPrice : number)
  : TradeHistoryEntry * TrailingResult :=
  let conditions := sellConditions trade in
  if negb (truthy_opt (takeProfitPercentage conditions))
     || negb (truthy_opt (trailingStopPercentage conditions))
  then (trade, {| activated := false; updated := false |})
  else
    let raised :=
      negb (truthy_opt (highestPrice trade))
      || gtb currentPrice (toNumber (highestPrice trade)) in
    let trade1 := if raised then set_highestPrice (Some currentPrice) trade else trade in
    let tpPerc := div (toNumber (takeProfitPercentage conditions)) hundred in
    let trailPerc := div (toNumber (trailingStopPercentage conditions)) hundred in
    if negb (truthy_bool (trailingStopActivated conditions)) then
      let priceChangePercent :=
        mul (div (sub currentPrice (entryPrice trade)) (entryPrice trade)) hundred in
      if geb priceChangePercent (toNumber (takeProfitPercentage conditions)) then
        let c1 := set_trailingStopActivated (Some true) conditions in
        let c2 := set_stepLevel (Some one) c1 in
        let c3 := set_currStopPrice (Some (mul currentPrice (sub one trailPerc))) c2 in
        let c4 := set_nextTargetPrice (Some (mul currentPrice (add one tpPerc))) c3 in
        (set_sellConditions c4 trade1, {| activated := true; updated := true |})
      else (trade1, {| activated := false; updated := raised |})
    else if truthy_opt (nextTargetPrice conditions) then
      if geb currentPrice (toNumber (nextTargetPrice conditions)) then
        let oldLevel := or_else (stepLevel conditions) one in
        let c1 := set_stepLevel (Some (add oldLevel one)) conditions in
        let c2 := set_currStopPrice (Some (mul currentPrice (sub one trailPerc))) c1 in
        let c3 := set_nextTargetPrice (Some (mul currentPrice (add one tpPerc))) c2 in
        (set_sellConditions c3 trade1, {| activated := true; updated := true |})
      else (trade1, {| activated := true; updated := raised |})
    else (trade1, {| activated := true; updated := raised |}).

(** Minutes a trade has been held at wall-clock time [now] (milliseconds). *)
Definition holdTimeMinutes (now : Z) (trade : TradeHistoryEntry) : number :=
  div (ofZ (now - openedAt trade)) (ofZ (1000 * 60)).

(** [checkSellConditions(trade, currentPrice)]: the first matching rule, or
    [None] for [{ shouldSell: false }]. *)
Definition checkSellConditions (now : Z) (trade : TradeHistoryEntry) (currentPrice : number)
  : option SellReason :=
  let conditions := sellConditions trade in
  let entry := entryPrice trade in
  let priceChangePercent :=
    if gtb entry zero then mul (div (sub currentPrice entry) entry) hundred else zero in
  let hold := holdTimeMinutes now trade in
  if truthy_opt (maxHoldTimeMinutes conditions)
     && geb hold (toNumber (maxHoldTimeMinutes conditions))
  then Some (MaxHoldTimeReached hold)
  else if truthy_opt (stopLossPercentage conditions)
          && leb priceChangePercent (neg (toNumber (stopLossPercentage conditions)))
  then Some (StopLossTriggered priceChangePercent)
  else if truthy_opt (takeProfitPercentage conditions)
          && negb (truthy_opt (trailingStopPercentage conditions))
          && geb priceChangePercent (toNumber (takeProfitPercentage conditions))
  then Some (TakeProfitReached priceChangePercent)
  else if truthy_bool (trailingStopActivated conditions)
          && truthy_opt (currStopPrice conditions)
  then
    if leb currentPrice (toNumber (currStopPrice conditions)) then
      let profitPerc := mul (div (sub currentPrice entry) entry) hundred in
      Some (SteppedStopTriggered profitPerc (toNumber (currStopPrice conditions)))
    else None
  else if truthy_opt (trailingStopPercentage conditions)
          && negb (truthy_opt (takeProfitPercentage conditions))
          && truthy_opt (highestPrice trade)
  then
    let trailingDropPercent :=
      mul (div (sub currentPrice (toNumber (highestPrice trade)))
               (toNumber (highestPrice trade))) hundred in
    if leb trailingDropPercent (neg (toNumber (trailingStopPercentage conditions)))
    then Some (TrailingStopTriggered trailingDropPercent)
    else None
  else None.

(** What one evaluation of a trade does to its collaborators, in order. *)
Inductive Effect : Type :=
| GetCachedPrice (mint : string)
| HasPriceError (mint : string)
| ExecuteSell (trade : TradeHistoryEntry) (reason : SellReason) (currentPrice : number)
| CloseTrade (tradeId : string) (exitPrice exitAmount : number) (reason : SellReason)
| UpdateTrade (trade : TradeHistoryEntry)
| EmitPriceUpdate (mint : string) (price : number).

(** The price cache as the watcher sees it during one evaluation:
    [getCachedPrice] yields [null] ([None]) when the key is missing or the
    read fails, and [hasPriceError] tells whether the negative cache holds
    the token. *)
Record PriceFeed : Type := {
  cachedPrice : option number;
  priceError : bool
}.

(** The wall clock read at the three places [evaluateTrade] reads it. *)
Record Clock : Type := {
  atStart : Z;
  atPriceUpdate : Z;
  atSellCheck : Z
}.

(** [evaluateTrade(trade)]. *)
Definition evaluateTrade (clock : Clock) (feed : PriceFeed) (trade : TradeHistoryEntry)
  : list Effect :=
  let hold := holdTimeMinutes (atStart clock) trade in
  let maxHold := maxHoldTimeMinutes (sellConditions trade) in
  if truthy_opt maxHold && geb hold (toNumber maxHold) then
    [GetCachedPrice (tokenMint trade);
     ExecuteSell trade (MaxHoldTimeReached hold) (or_else (cachedPrice feed) zero)]
  else
    match cachedPrice feed with
    | None =>
        if priceError feed then
          [GetCachedPrice (tokenMint trade); HasPriceError (tokenMint trade);
           CloseTrade (id trade) zero (entryAmount trade) ForceClosePricingError]
        else [GetCachedPrice (tokenMint trade); HasPriceError (tokenMint trade)]
    | Some currentPrice =>
        let t1 := set_currentPrice (Some currentPrice) trade in
        let t2 := set_lastPriceUpdate (Some (atPriceUpdate clock)) t1 in
        let t3 :=
          if negb (truthy_opt (highestPrice t2))
             || gtb currentPrice (toNumber (highestPrice t2))
          then set_highestPrice (Some currentPrice) t2 else t2 in
        let t4 :=
          if negb (truthy_opt (lowestPrice t3))
             || ltb currentPrice (toNumber (lowestPrice t3))
          then set_lowestPrice (Some currentPrice) t3 else t3 in
        let t5 := fst (updateTrailingStopLoss t4 currentPrice) in
        [GetCachedPrice (tokenMint trade); UpdateTrade t5;
         EmitPriceUpdate (tokenMint trade) currentPrice]
        ++ match checkSellConditions (atSellCheck clock) t5 currentPrice with
           | Some reason => [ExecuteSell t5 reason currentPrice]
           | None => []
           end
    end.

End TradeWatcherService.

(** ** Position store (TradeHistoryService.ts)

    The Redis keyspace of the service, by key family: [trade:<id>] holds the
    JSON of an entry; [agent_trades:<agent>], [token_trades:<mint>],
    [open_trades] and [closed_trades] are sets of ids.  Storage is taken as
    available (no I/O error), and the 90-day expiry of the keys is not
    modelled. *)
Module TradeHistoryService.

(** [JSON.stringify] writes a number that is not finite as [null]. *)
Definition json_number (o : option number) : option number :=
  match o with
  | Some (Fin q) => Some (Fin q)
  | _ => None
  end.

Definition json_conditions (c : SellConditions) : SellConditions :=
  {| takeProfitPercentage := json_number (takeProfitPercentage c);
     stopLossPercentage := json_number (stopLossPercentage c);
     trailingStopPercentage := json_number (trailingStopPercentage c);
     trailingStopActivated := trailingStopActivated c;
     maxHoldTimeMinutes := json_number (maxHoldTimeMinutes c);
     stepLevel := json_number (stepLevel c);
     nextTargetPrice := json_number (nextTargetPrice c);
     currStopPrice := json_number (currStopPrice c) |}.

(** What [getTrade] reads back after [storeTrade] wrote [t]: the optional
    numeric properties go through [json_number]; the required ones (entry
    price, amount and value) are taken to be finite. *)
Definition json_trade (t : TradeHistoryEntry) : TradeHistoryEntry :=
  set_exitPrice (json_number (exitPrice t))
    (set_exitAmount (json_number (exitAmount t))
      (set_exitValue (json_number (exitValue t))
        (set_realizedPnL (json_number (realizedPnL t))
          (set_realizedPnLPercentage (json_number (realizedPnLPercentage t))
            (set_highestPrice (json_number (highestPrice t))
              (set_lowestPrice (json_number (lowestPrice t))
                (set_currentPrice (json_number (currentPrice t))
                  (set_sellConditions (json_conditions (sellConditions t)) t)))))))).

(** Events handed to local listeners and to the dashboard socket. *)
Inductive Emitted : Type :=
| TradeUpdate (trade : TradeHistoryEntry)
| BroadcastTradeUpdate (trade : TradeHistoryEntry)
| BroadcastPriceUpdate (mint : string) (price : number).

Record Store : Type := {
  trades : gmap string TradeHistoryEntry;
  agent_trades : gmap string (gset string);
  token_trades : gmap string (gset string);
  open_trades : gset string;
  closed_trades : gset string;
  emitted : list Emitted
}.

Definition empty_store : Store :=
  {| trades := ∅; agent_trades := ∅; token_trades := ∅;
     open_trades := ∅; closed_trades := ∅; emitted := [] |}.

(** [sAdd] on an index key. *)
Definition index_add (k v : string) (m : gmap string (gset string)) : gmap string (gset string) :=
  <[k := default ∅ (m !! k) ∪ {[v]}]> m.

Definition getTrade (tradeId : string) (s : Store) : option TradeHistoryEntry :=
  trades s !! tradeId.

(** [storeTrade(trade)]: the entry, both indices, the status sets, then the
    [trade_update] event. *)
Definition storeTrade (trade : TradeHistoryEntry) (s : Store) : Store :=
  let opened :=
    match status trade with
    | open => open_trades s ∪ {[id trade]}
    | closed => open_trades s ∖ {[id trade]}
    | failed => open_trades s
    end in
  let closed_ :=
    match status trade with
    | open => closed_trades s ∖ {[id trade]}
    | closed => closed_trades s ∪ {[id trade]}
    | failed => closed_trades s
    end in
  {| trades := <[id trade := json_trade trade]> (trades s);
     agent_trades := index_add (agentId trade) (id trade) (agent_trades s);
     token_trades := index_add (tokenMint trade) (id trade) (token_trades s);
     open_trades := opened;
     closed_trades := closed_;
     emitted := emitted s ++ [TradeUpdate trade] |}.

Definition emit (e : Emitted) (s : Store) : Store :=
  {| trades := trades s; agent_trades := agent_trades s;
     token_trades := token_trades s; open_trades := open_trades s;
     closed_trades := closed_trades s; emitted := emitted s ++ [e] |}.

Record CreateParams : Type := {
  cp_agentId : string;
  cp_tokenMint : string;
  cp_entryPrice : number;
  cp_entryAmount : number;
  cp_buyTransactionId : option string;
  cp_ledgerId : option string;
  cp_originalTradeId : option string;
  cp_watchJobId : option string;
  cp_sellConditions : option SellConditions;
  cp_tags : option (list string);
  cp_prediction : option PredictionInfo;
  cp_isSimulation : option bool
}.

Definition no_conditions : SellConditions :=
  {| takeProfitPercentage := None; stopLossPercentage := None;
     trailingStopPercentage := None; trailingStopActivated := None;
     maxHoldTimeMinutes := None; stepLevel := None;
     nextTargetPrice := None; currStopPrice := None |}.

(** [createTrade(params)]; [tradeId] stands for the generated
    [trade_<time>_<random>] and [now] for [new Date()]. *)
Definition createTrade (tradeId : string) (now : Z) (params : CreateParams) (s : Store)
  : TradeHistoryEntry * Store :=
  let trade :=
    {| id := tradeId; agentId := cp_agentId params; tokenMint := cp_tokenMint params;
       isSimulation := Some (truthy_bool (cp_isSimulation params));
       prediction := cp_prediction params;
       status := open; openedAt := now; closedAt := None;
       entryPrice := cp_entryPrice params; entryAmount := cp_entryAmount params;
       entryValue := mul (cp_entryPrice params) (cp_entryAmount params);
       buyTransactionId := cp_buyTransactionId params;
       exitPrice := None; exitAmount := None; exitValue := None;
       sellTransactionId := None; sellReason := None;
       realizedPnL := None; realizedPnLPercentage := None;
       highestPrice := Some (cp_entryPrice params);
       lowestPrice := Some (cp_entryPrice params);
       currentPrice := Some (cp_entryPrice params);
       lastPriceUpdate := Some now;
       sellConditions := default no_conditions (cp_sellConditions params);
       ledgerId := cp_ledgerId params; originalTradeId := cp_originalTradeId params;
       watchJobId := cp_watchJobId params;
       tags := default [] (cp_tags params); notes := None;
       createdAt := now; updatedAt := now |} in
  (trade, emit (BroadcastTradeUpdate trade) (storeTrade trade s)).

(** [updateTradePrice(tradeId, currentPrice)]. *)
Definition updateTradePrice (now : Z) (tradeId : string) (price : number) (s : Store) : Store :=
  match getTrade tradeId s with
  | None => s
  | Some trade =>
      if decide (status trade = open) then
        let t1 := set_currentPrice (Some price) trade in
        let t2 := set_lastPriceUpdate (Some now) t1 in
        let t3 :=
          if negb (truthy_opt (highestPrice t2)) || gtb price (toNumber (highestPrice t2))
          then set_highestPrice (Some price) t2 else t2 in
        let t4 :=
          if negb (truthy_opt (lowestPrice t3)) || ltb price (toNumber (lowestPrice t3))
          then set_lowestPrice (Some price) t3 else t3 in
        let t5 := set_updatedAt now t4 in
        emit (BroadcastTradeUpdate t5)
          (emit (BroadcastPriceUpdate (tokenMint t5) price) (storeTrade t5 s))
      else s
  end.

(** [updateTrade(trade)]: a full write-through. *)
Definition updateTrade (trade : TradeHistoryEntry) (s : Store) : Store :=
  storeTrade trade s.

Record CloseParams : Type := {
  tradeId : string;
  cl_exitPrice : number;
  cl_exitAmount : number;
  cl_sellTransactionId : option string;
  cl_sellReason : option SellReason
}.

(** [closeTrade(params)]: [None] is the [null] the source returns. *)
Definition closeTrade (now : Z) (params : CloseParams) (s : Store)
  : option TradeHistoryEntry * Store :=
  match getTrade (tradeId params) s with
  | None => (None, s)
  | Some trade =>
      let t1 := set_status closed trade in
      let t2 := set_closedAt (Some now) t1 in
      let t3 := set_exitPrice (Some (cl_exitPrice params)) t2 in
      let t4 := set_exitAmount (Some (cl_exitAmount params)) t3 in
      let exitValue_ := mul (cl_exitPrice params) (cl_exitAmount params) in
      let t5 := set_exitValue (Some exitValue_) t4 in
      let t6 :=
        match cl_sellTransactionId params with
        | Some tx => set_sellTransactionId (Some tx) t5
        | None => t5
        end in
      let t7 :=
        match cl_sellReason params with
        | Some r => set_sellReason (Some r) t6
        | None => t6
        end in
      let pnl := sub exitValue_ (entryValue t7) in
      let t8 := set_realizedPnL (Some pnl) t7 in
      let t9 := set_realizedPnLPercentage (Some (mul (div pnl (entryValue t8)) hundred)) t8 in
      let t10 := set_updatedAt now t9 in
      (Some t10, emit (BroadcastTradeUpdate t10) (storeTrade t10 s))
  end.

(** *** Reading, querying and deleting *)

(** [sRem] on an index key: Redis drops a set key with its last member. *)
Definition index_remove (k v : string) (m : gmap string (gset string)) : gmap string (gset string) :=
  match m !! k with
  | None => m
  | Some ids => if decide (ids ∖ {[v]} = ∅) then delete k m else <[k := ids ∖ {[v]}]> m
  end.

(** [sMembers] on an index key: the ids of an absent key are none.  Redis
    leaves the order of the members open; the model takes the enumeration of
    the set. *)
Definition index_members (k : string) (m : gmap string (gset string)) : list string :=
  elements (default ∅ (m !! k)).

(** The entries read back for a list of ids, skipping the ids without one. *)
Definition fetch (ids : list string) (s : Store) : list TradeHistoryEntry :=
  omap (fun i => getTrade i s) ids.

(** [trades.sort((a, b) => b.createdAt.getTime() - a.createdAt.getTime())]:
    newest first, entries of equal date in their original order. *)
Fixpoint insertNewestFirst (t : TradeHistoryEntry) (l : list TradeHistoryEntry)
  : list TradeHistoryEntry :=
  match l with
  | [] => [t]
  | u :: l' => if createdAt u <=? createdAt t then t :: l else u :: insertNewestFirst t l'
  end.

Definition sortNewestFirst (l : list TradeHistoryEntry) : list TradeHistoryEntry :=
  foldr insertNewestFirst [] l.

(** [getTradesByAgent(agentId, status?)]. *)
Definition getTradesByAgent (agent : string) (wanted : option TradeStatus) (s : Store)
  : list TradeHistoryEntry :=
  sortNewestFirst
    (List.filter
       (fun t => match wanted with Some st => bool_decide (status t = st) | None => true end)
       (fetch (index_members agent (agent_trades s)) s)).

(** [getTradesByToken(tokenMint)]. *)
Definition getTradesByToken (mint : string) (s : Store) : list TradeHistoryEntry :=
  sortNewestFirst (fetch (index_members mint (token_trades s)) s).

(** [getOpenTrades(agentId?)]. *)
Definition getOpenTrades (agent : option string) (s : Store) : list TradeHistoryEntry :=
  sortNewestFirst
    (List.filter
       (fun t => if truthy_str agent then bool_decide (Some (agentId t) = agent) else true)
       (fetch (elements (open_trades s)) s)).

(** [updateTradePriceByWatchId(watchJobId, currentPrice)]: the first open
    entry, in the order of the open set, that carries the watch job. *)
Definition updateTradePriceByWatchId (now : Z) (watch : string) (price : number) (s : Store)
  : Store :=
  match List.filter (fun t => bool_decide (watchJobId t = Some watch))
          (fetch (elements (open_trades s)) s) with
  | [] => s
  | trade :: _ => updateTradePrice now (id trade) price s
  end.

(** [deleteTrade(tradeId)]. *)
Definition deleteTrade (key : string) (s : Store) : bool * Store :=
  match getTrade key s with
  | None => (false, s)
  | Some trade =>
      (true,
       {| trades := delete key (trades s);
          agent_trades := index_remove (agentId trade) key (agent_trades s);
          token_trades := index_remove (tokenMint trade) key (token_trades s);
          open_trades := open_trades s ∖ {[key]};
          closed_trades := closed_trades s ∖ {[key]};
          emitted := emitted s |})
  end.

(** [clearAll()]: every id of the two status sets is deleted, then the
    sets themselves. *)
Definition clearAll (s : Store) : Store :=
  let allIds := elements (open_trades s) ++ elements (closed_trades s) in
  let s' := foldl (fun acc i => snd (deleteTrade i acc)) s allIds in
  {| trades := trades s'; agent_trades := agent_trades s';
     token_trades := token_trades s'; open_trades := ∅; closed_trades := ∅;
     emitted := emitted s' |}.

Record StorageStats : Type := {
  storage_totalTrades : nat;
  storage_openTrades : nat;
  storage_closedTrades : nat;
  storage_agents : nat;
  storage_tokens : nat
}.

(** [getStats()]. *)
Definition getStats (s : Store) : StorageStats :=
  let openCount := size (open_trades s) in
  let closedCount := size (closed_trades s) in
  {| storage_totalTrades := (openCount + closedCount)%nat;
     storage_openTrades := openCount;
     storage_closedTrades := closedCount;
     storage_agents := size (agent_trades s);
     storage_tokens := size (token_trades s) |}.

(** The filters of a query.  Dates are instants; [limit] and [offset] are
    taken to be integers. *)
Record TradeQuery : Type := {
  q_agentId : option string;
  q_tokenMint : option string;
  q_status : option TradeStatus;
  q_startDate : option Z;
  q_endDate : option Z;
  q_minPnL : option number;
  q_maxPnL : option number;
  q_tags : option (list string);
  q_limit : option Z;
  q_offset : option Z
}.

(** [Array.prototype.slice(start, end)] for integer bounds. *)
Definition slice {A : Type} (start stop : Z) (l : list A) : list A :=
  let len := Z.of_nat (length l) in
  let k := if start <? 0 then Z.max (len + start) 0 else Z.min start len in
  let final := if stop <? 0 then Z.max (len + stop) 0 else Z.min stop len in
  take (Z.to_nat (final - k)) (drop (Z.to_nat k) l).

Definition when {A : Type} (b : bool) (f : list A -> list A) (l : list A) : list A :=
  if b then f l else l.

(** [queryTrades(query)]. *)
Definition queryTrades (query : TradeQuery) (s : Store) : list TradeHistoryEntry :=
  let found :=
    if truthy_str (q_agentId query)
    then getTradesByAgent (default "" (q_agentId query)) None s
    else if truthy_str (q_tokenMint query)
    then getTradesByToken (default "" (q_tokenMint query)) s
    else fetch (elements (open_trades s) ++ elements (closed_trades s)) s in
  let f1 :=
    match q_status query with
    | Some st => List.filter (fun t => bool_decide (status t = st)) found
    | None => found
    end in
  let f2 :=
    match q_startDate query with
    | Some d => List.filter (fun t => d <=? openedAt t) f1
    | None => f1
    end in
  let f3 :=
    match q_endDate query with
    | Some d => List.filter (fun t => openedAt t <=? d) f2
    | None => f2
    end in
  let f4 :=
    match q_minPnL query with
    | Some m => List.filter (fun t => geb (or_else (realizedPnL t) zero) m) f3
    | None => f3
    end in
  let f5 :=
    match q_maxPnL query with
    | Some m => List.filter (fun t => leb (or_else (realizedPnL t) zero) m) f4
    | None => f4
    end in
  let f6 :=
    match q_tags query with
    | Some (tag :: more) =>
        List.filter (fun t => existsb (fun g => existsb (String.eqb g) (tags t)) (tag :: more)) f5
    | _ => f5
    end in
  let sorted := sortNewestFirst f6 in
  match q_offset query, q_limit query with
  | None, None => sorted
  | _, _ =>
      let offset := or_elseZ (q_offset query) 0 in
      let limit := or_elseZ (q_limit query) 100 in
      slice offset (offset + limit) sorted
  end.

Definition sum (l : list number) : number := foldl add zero l.

Definition count {A : Type} (l : list A) : number := ofZ (Z.of_nat (length l)).

Record TradeStats : Type := {
  totalTrades : number;
  openTrades : number;
  closedTrades : number;
  winningTrades : number;
  losingTrades : number;
  winRate : number;
  totalPnL : number;
  totalPnLPercentage : number;
  averagePnL : number;
  averagePnLPercentage : number;
  averageWinAmount : number;
  averageLossAmount : number;
  largestWin : number;
  largestLoss : number;
  averageHoldTime : number
}.

(** [getAgentStats(agentId, startDate?, endDate?)]. *)
Definition getAgentStats (agent : string) (startDate endDate : option Z) (s : Store)
  : TradeStats :=
  let allTrades := getTradesByAgent agent None s in
  let inRange :=
    match startDate, endDate with
    | None, None => allTrades
    | _, _ =>
        List.filter
          (fun t =>
             match startDate with Some d => d <=? openedAt t | None => true end
             && match endDate with Some d => openedAt t <=? d | None => true end)
          allTrades
    end in
  let closedOnes := List.filter (fun t => bool_decide (status t = closed)) inRange in
  let openOnes := List.filter (fun t => bool_decide (status t = open)) inRange in
  let winning := List.filter (fun t => gtb (or_else (realizedPnL t) zero) zero) closedOnes in
  let losing := List.filter (fun t => ltb (or_else (realizedPnL t) zero) zero) closedOnes in
  let totalPnL_ := sum (map (fun t => or_else (realizedPnL t) zero) closedOnes) in
  let totalEntryValue := sum (map entryValue closedOnes) in
  let totalPnLPercentage_ :=
    if gtb totalEntryValue zero then mul (div totalPnL_ totalEntryValue) hundred else zero in
  let winAmounts := map (fun t => or_else (realizedPnL t) zero) winning in
  let lossAmounts := map (fun t => mathAbs (or_else (realizedPnL t) zero)) losing in
  let holdTimes :=
    omap (fun t =>
            match closedAt t with
            | Some c => Some (div (ofZ (c - openedAt t)) (ofZ (1000 * 60)))
            | None => None
            end) closedOnes in
  let average (l : list number) : number :=
    match l with [] => zero | _ => div (sum l) (count l) end in
  let largest (l : list number) : number :=
    match l with [] => zero | _ => foldl mathMax NInf l end in
  {| totalTrades := count inRange;
     openTrades := count openOnes;
     closedTrades := count closedOnes;
     winningTrades := count winning;
     losingTrades := count losing;
     winRate :=
       match closedOnes with
       | [] => zero
       | _ => mul (div (count winning) (count closedOnes)) hundred
       end;
     totalPnL := totalPnL_;
     totalPnLPercentage := totalPnLPercentage_;
     averagePnL := match closedOnes with [] => zero | _ => div totalPnL_ (count closedOnes) end;
     averagePnLPercentage :=
       match closedOnes with [] => zero | _ => div totalPnLPercentage_ (count closedOnes) end;
     averageWinAmount := average winAmounts;
     averageLossAmount := average lossAmounts;
     largestWin := largest winAmounts;
     largestLoss := largest lossAmounts;
     averageHoldTime := average holdTimes |}.


End TradeHistoryService.

(** A call to a collaborator either returns or throws. *)
Inductive Outcome (A : Type) : Type :=
| Returned (a : A)
| Thrown (message : string).
Arguments Returned {A} a.
Arguments Thrown {A} message.

(** ** Filter engine (MindmapFilterEngine.ts) *)
Module MindmapFilterEngine.

Record FilterCriteria : Type := {
  minTradeVolume : number;
  minConnectedKOLs : number;
  minInfluenceScore : number;
  minTotalTrades : number;
  minMarketCapUsd : option number;
  minLiquidityUsd : option number;
  minViralVelocity : option number;
  requireSmartMoney : option bool;
  minConsensusScore : option number
}.

Record KOLConnection : Type := {
  kolWallet : string;
  tradeCount : number;
  totalVolume : number;
  lastTradeTime : Z;
  influenceScore : number;
  tradeTypes : list string
}.

Record NetworkMetrics : Type := {
  centrality : number;
  clustering : number;
  totalTrades : number
}.

(** [kolConnections] is an object keyed by wallet; the association list
    keeps its keys in enumeration order. *)
Record MindmapData : Type := {
  tokenMint : string;
  kolConnections : list (string * KOLConnection);
  relatedTokens : list string;
  networkMetrics : NetworkMetrics;
  lastUpdate : Z
}.

Inductive Signal : Type := VIRAL_SPIKE | SMART_MONEY | HIGH_CONSENSUS.

Global Instance Signal_eq_dec : EqDecision Signal.
Proof. solve_decision. Defined.

Record Metrics : Type := {
  m_totalVolume : number;
  m_connectedKOLs : number;
  m_avgInfluenceScore : number;
  m_totalTrades : number;
  m_viralVelocity : option number;
  m_weightedVolume : option number;
  m_consensusScore : option number
}.

(** The rejection messages, by their fixed text. *)
Inductive Rejection : Type :=
| NativeSol
| VolumeBelowMinimum (totalVolume minimum : number)
| ConnectedKOLsBelowMinimum (connected minimum : number)
| TotalTradesBelowMinimum (trades minimum : number)
| InfluenceBelowMinimum (avg minimum : number)
| NoOnChainPrice
| NoTokenSupply
| MarketCapBelowMinimum (marketCap minimum : number)
| OnChainVerificationError (message : string).

Record FilterResult : Type := {
  passed : bool;
  reason : option Rejection;
  metrics : Metrics;
  signals : option (list Signal)
}.

Definition NATIVE_SOL_ADDRESS : string := "So11111111111111111111111111111111111111112".

Definition calculateTotalVolume (d : MindmapData) : number :=
  fold_left (fun acc kc => add acc (totalVolume (snd kc))) (kolConnections d) zero.

Definition countConnectedKOLs (d : MindmapData) : number :=
  ofZ (Z.of_nat (length (kolConnections d))).

Definition calculateAvgInfluenceScore (d : MindmapData) : number :=
  match kolConnections d with
  | [] => zero
  | _ =>
      div (fold_left (fun acc kc => add acc (influenceScore (snd kc))) (kolConnections d) zero)
          (ofZ (Z.of_nat (length (kolConnections d))))
  end.

(** [calculateViralVelocity]: connections whose last trade is later than one
    minute before [now] (milliseconds). *)
Definition calculateViralVelocity (now : Z) (d : MindmapData) : number :=
  let oneMinuteAgo := now - 60000 in
  fold_left
    (fun acc kc => if oneMinuteAgo <? lastTradeTime (snd kc) then add acc one else acc)
    (kolConnections d) zero.

Definition calculateWeightedVolume (d : MindmapData) : number :=
  fold_left
    (fun acc kc => add acc (mul (totalVolume (snd kc)) (div (influenceScore (snd kc)) hundred)))
    (kolConnections d) zero.

Definition includes (x : string) (l : list string) : bool :=
  existsb (String.eqb x) l.

Definition calculateConsensus (d : MindmapData) : number :=
  let buyingKOLs :=
    fold_left (fun acc kc => if includes "buy" (tradeTypes (snd kc)) then add acc one else acc)
      (kolConnections d) zero in
  let totalKOLs := fold_left (fun acc _ => add acc one) (kolConnections d) zero in
  if eqb totalKOLs zero then zero else mul (div buyingKOLs totalKOLs) hundred.

(** The signals of a snapshot, in the order the source pushes them. *)
Definition detectSignals (criteria : FilterCriteria) (now : Z) (d : MindmapData) : list Signal :=
  let totalVolume_ := calculateTotalVolume d in
  let connectedKOLs := countConnectedKOLs d in
  let viralVelocity := calculateViralVelocity now d in
  let weightedVolume := calculateWeightedVolume d in
  let consensusScore := calculateConsensus d in
  (if truthy_opt (minViralVelocity criteria)
      && geb viralVelocity (toNumber (minViralVelocity criteria))
   then [VIRAL_SPIKE] else [])
  ++ (if truthy_bool (requireSmartMoney criteria)
         && gtb weightedVolume (mul totalVolume_ (ofQ 6 10))
      then [SMART_MONEY] else [])
  ++ (if truthy_opt (minConsensusScore criteria)
         && geb consensusScore (toNumber (minConsensusScore criteria))
         && geb connectedKOLs (ofZ 3)
      then [HIGH_CONSENSUS] else []).

(** What the price service and the chain answer during one evaluation. *)
Record ChainView : Type := {
  cachedPrice : option number;
  priceAfterDiscovery : Outcome (option number);
  tokenSupply : Outcome (bool * number);
  solPriceUsd : Outcome number
}.

Definition reject (r : Rejection) (m : Metrics) (s : option (list Signal)) : FilterResult :=
  {| passed := false; reason := Some r; metrics := m; signals := s |}.

(** The market-cap and liquidity block of [evaluate]; [None] when it lets
    the token through. *)
Definition onChainChecks (criteria : FilterCriteria) (chain : ChainView) (m : Metrics)
  : option FilterResult :=
  if gtb (toNumber (minMarketCapUsd criteria)) zero
     || gtb (toNumber (minLiquidityUsd criteria)) zero
  then
    let priced :=
      if truthy_opt (cachedPrice chain) then Returned (cachedPrice chain)
      else priceAfterDiscovery chain in
    match priced with
    | Thrown msg => Some (reject (OnChainVerificationError msg) m None)
    | Returned price =>
        if negb (truthy_opt price) then Some (reject NoOnChainPrice m None)
        else if gtb (toNumber (minMarketCapUsd criteria)) zero then
          match tokenSupply chain with
          | Thrown msg => Some (reject (OnChainVerificationError msg) m None)
          | Returned (success, total_supply) =>
              if negb success || eqb total_supply zero
              then Some (reject NoTokenSupply m None)
              else
                match solPriceUsd chain with
                | Thrown msg => Some (reject (OnChainVerificationError msg) m None)
                | Returned sol =>
                    let marketCapUsd := mul (mul (toNumber price) sol) total_supply in
                    if ltb marketCapUsd (toNumber (minMarketCapUsd criteria))
                    then Some (reject (MarketCapBelowMinimum marketCapUsd
                                         (toNumber (minMarketCapUsd criteria))) m None)
                    else None
                end
          end
        else None
    end
  else None.

(** [evaluate(mindmapData)] at wall-clock time [now]. *)
Definition evaluate (criteria : FilterCriteria) (now : Z) (chain : ChainView) (d : MindmapData)
  : FilterResult :=
  if String.eqb (tokenMint d) NATIVE_SOL_ADDRESS then
    reject NativeSol
      {| m_totalVolume := zero; m_connectedKOLs := zero; m_avgInfluenceScore := zero;
         m_totalTrades := zero; m_viralVelocity := None; m_weightedVolume := None;
         m_consensusScore := None |} None
  else
    let totalVolume_ := calculateTotalVolume d in
    let connectedKOLs := countConnectedKOLs d in
    let avgInfluenceScore := calculateAvgInfluenceScore d in
    let totalTrades_ := totalTrades (networkMetrics d) in
    let signals_ := detectSignals criteria now d in
    let metrics_ :=
      {| m_totalVolume := totalVolume_; m_connectedKOLs := connectedKOLs;
         m_avgInfluenceScore := avgInfluenceScore; m_totalTrades := totalTrades_;
         m_viralVelocity := Some (calculateViralVelocity now d);
         m_weightedVolume := Some (calculateWeightedVolume d);
         m_consensusScore := Some (calculateConsensus d) |} in
    let hasStrongSignal := negb (Nat.eqb (length signals_) 0) in
    if negb hasStrongSignal && ltb totalVolume_ (minTradeVolume criteria) then
      reject (VolumeBelowMinimum totalVolume_ (minTradeVolume criteria)) metrics_ (Some signals_)
    else if negb hasStrongSignal && ltb connectedKOLs (minConnectedKOLs criteria) then
      reject (ConnectedKOLsBelowMinimum connectedKOLs (minConnectedKOLs criteria))
        metrics_ (Some signals_)
    else if negb hasStrongSignal && ltb totalTrades_ (minTotalTrades criteria) then
      reject (TotalTradesBelowMinimum totalTrades_ (minTotalTrades criteria))
        metrics_ (Some signals_)
    else if ltb avgInfluenceScore (minInfluenceScore criteria) then
      reject (InfluenceBelowMinimum avgInfluenceScore (minInfluenceScore criteria))
        metrics_ (Some signals_)
    else
      match onChainChecks criteria chain metrics_ with
      | Some rejected => rejected
      | None => {| passed := true; reason := None; metrics := metrics_;
                   signals := Some signals_ |}
      end.

End MindmapFilterEngine.

(** ** Prediction gate (PredictionService.ts) *)
Module MLPredictionService.

Record PredictionResult : Type := {
  taskType : string;
  classIndex : option number;
  classLabel : option string;
  probability : option number;
  value : option number
}.

Record Prediction : Type := {
  result : PredictionResult;
  confidence : number;
  approved : bool
}.

Definition is_good (label : option string) : bool :=
  match label with
  | Some l => String.eqb l "good"
  | None => false
  end.

(** [predict(tokenMint)], given what [httpClient.predictTrade] did: it
    returned a result or threw (a network failure). *)
Definition predict (response : Outcome PredictionResult) : Prediction :=
  match response with
  | Returned r =>
      let confidence_ := mul (or_else (probability r) zero) hundred in
      let approved_ := is_good (classLabel r) && geb confidence_ (ofZ 65) in
      {| result := r; confidence := confidence_; approved := approved_ |}
  | Thrown _ =>
      {| result := {| taskType := "classification"; classIndex := None;
                      classLabel := Some "unknown"; probability := Some zero;
                      value := None |};
         confidence := zero; approved := false |}
  end.

End MLPredictionService.

(** ** Shared cache (CacheService.ts)

    The Redis keyspace of the bot, by key family.  Every key carries the
    instant (seconds) at which it expires; a key read at or after that
    instant is absent.  The cache is taken as reachable. *)
Module RedisCacheService.

Definition DEFAULT_TTL : Z := 1800.
Definition RETRY_TTL : Z := 3600.
Definition LOCK_TTL : Z := 60.

(** A set key: its members and its expiry. *)
Record SetKey : Type := { members : gset string; set_expires : Z }.

Record Cache : Type := {
  mindmaps : gmap string (MindmapFilterEngine.MindmapData * Z);
  processed_tokens : SetKey;
  prediction_retry : gmap string (Z * Z);
  prediction_failed : SetKey;
  pending_trade : gmap string Z
}.

Definition empty_cache : Cache :=
  {| mindmaps := ∅;
     processed_tokens := {| members := ∅; set_expires := 0 |};
     prediction_retry := ∅;
     prediction_failed := {| members := ∅; set_expires := 0 |};
     pending_trade := ∅ |}.

Definition live_members (now : Z) (k : SetKey) : gset string :=
  if now <? set_expires k then members k else ∅.

(** [sAdd] followed by [expire]. *)
Definition addToSet (now : Z) (value : string) (ttl : Z) (k : SetKey) : SetKey :=
  {| members := live_members now k ∪ {[value]}; set_expires := now + ttl |}.

(** [sIsMember]. *)
Definition isInSet (now : Z) (value : string) (k : SetKey) : bool :=
  bool_decide (value ∈ live_members now k).

Definition set_mindmaps v (c : Cache) : Cache :=
  {| mindmaps := v; processed_tokens := processed_tokens c;
     prediction_retry := prediction_retry c; prediction_failed := prediction_failed c;
     pending_trade := pending_trade c |}.

Definition set_processed_tokens v (c : Cache) : Cache :=
  {| mindmaps := mindmaps c; processed_tokens := v;
     prediction_retry := prediction_retry c; prediction_failed := prediction_failed c;
     pending_trade := pending_trade c |}.

Definition set_prediction_retry v (c : Cache) : Cache :=
  {| mindmaps := mindmaps c; processed_tokens := processed_tokens c;
     prediction_retry := v; prediction_failed := prediction_failed c;
     pending_trade := pending_trade c |}.

Definition set_prediction_failed v (c : Cache) : Cache :=
  {| mindmaps := mindmaps c; processed_tokens := processed_tokens c;
     prediction_retry := prediction_retry c; prediction_failed := v;
     pending_trade := pending_trade c |}.

Definition set_pending_trade v (c : Cache) : Cache :=
  {| mindmaps := mindmaps c; processed_tokens := processed_tokens c;
     prediction_retry := prediction_retry c; prediction_failed := prediction_failed c;
     pending_trade := v |}.

(** [cacheMindmapData] writes [JSON.stringify(data)] and [getMindmapData]
    returns [JSON.parse] of the text.  The model keeps the snapshot itself:
    it tells which snapshot was written under a key and whether one is
    present, not what the text makes of a date or of a number that is not
    finite. *)
Definition cacheMindmapData (now : Z) (tokenMint : string)
    (data : MindmapFilterEngine.MindmapData) (c : Cache) : Cache :=
  set_mindmaps (<[tokenMint := (data, now + DEFAULT_TTL)]> (mindmaps c)) c.

Definition getMindmapData (now : Z) (tokenMint : string) (c : Cache)
  : option MindmapFilterEngine.MindmapData :=
  match mindmaps c !! tokenMint with
  | Some (data, expires) => if now <? expires then Some data else None
  | None => None
  end.

Definition deleteMindmapData (tokenMint : string) (c : Cache) : Cache :=
  set_mindmaps (delete tokenMint (mindmaps c)) c.

Definition isTokenProcessed (now : Z) (tokenMint : string) (c : Cache) : bool :=
  isInSet now tokenMint (processed_tokens c).

Definition markTokenProcessed (now : Z) (tokenMint : string) (c : Cache) : Cache :=
  set_processed_tokens (addToSet now tokenMint DEFAULT_TTL (processed_tokens c)) c.

(** [getPredictionRetryCount]: the stored count, 0 when the key is absent. *)
Definition getPredictionRetryCount (now : Z) (tokenMint : string) (c : Cache) : Z :=
  match prediction_retry c !! tokenMint with
  | Some (count, expires) => if now <? expires then count else 0
  | None => 0
  end.

(** [incrementPredictionRetryCount]: returns the new count. *)
Definition incrementPredictionRetryCount (now : Z) (tokenMint : string) (c : Cache)
  : Z * Cache :=
  let newCount := getPredictionRetryCount now tokenMint c + 1 in
  (newCount,
   set_prediction_retry (<[tokenMint := (newCount, now + RETRY_TTL)]> (prediction_retry c)) c).

Definition markPredictionFailed (now : Z) (tokenMint : string) (c : Cache) : Cache :=
  set_prediction_failed (addToSet now tokenMint RETRY_TTL (prediction_failed c)) c.

Definition isLocked (now : Z) (tokenMint : string) (c : Cache) : bool :=
  match pending_trade c !! tokenMint with
  | Some expires => now <? expires
  | None => false
  end.

(** [acquirePendingTradeLock]: [SET key 1 NX EX 60]. *)
Definition acquirePendingTradeLock (now : Z) (tokenMint : string) (c : Cache)
  : bool * Cache :=
  if isLocked now tokenMint c then (false, c)
  else (true, set_pending_trade (<[tokenMint := now + LOCK_TTL]> (pending_trade c)) c).

Definition releasePendingTradeLock (tokenMint : string) (c : Cache) : Cache :=
  set_pending_trade (delete tokenMint (pending_trade c)) c.

(** [updateMindmapData]: the entry is written again, with a fresh expiry. *)
Definition updateMindmapData (now : Z) (tokenMint : string)
    (data : MindmapFilterEngine.MindmapData) (c : Cache) : Cache :=
  set_mindmaps (<[tokenMint := (data, now + DEFAULT_TTL)]> (mindmaps c)) c.

(** The keys above together with the entry counters
    [bot:entry_count:<mint>], each a count and its expiry. *)
Record Counted : Type := {
  keys : Cache;
  entry_count : gmap string (Z * Z)
}.

(** [get] on a counter key. *)
Definition storedEntryCount (now : Z) (tokenMint : string) (k : Counted) : option Z :=
  match entry_count k !! tokenMint with
  | Some (count, expires) => if now <? expires then Some count else None
  | None => None
  end.

(** [getEntryCount]: a processed token without a counter counts for one. *)
Definition getEntryCount (now : Z) (tokenMint : string) (k : Counted) : Z :=
  match storedEntryCount now tokenMint k with
  | Some count => count
  | None => if isTokenProcessed now tokenMint (keys k) then 1 else 0
  end.

(** [incrementEntryCount]: seed the counter of a processed token, [INCR],
    refresh the expiry, mark the token processed; returns the new count. *)
Definition incrementEntryCount (now : Z) (tokenMint : string) (k : Counted) : Z * Counted :=
  let seeded :=
    match storedEntryCount now tokenMint k with
    | Some count => count
    | None => if isTokenProcessed now tokenMint (keys k) then 1 else 0
    end in
  let count := seeded + 1 in
  (count,
   {| keys := markTokenProcessed now tokenMint (keys k);
      entry_count := <[tokenMint := (count, now + DEFAULT_TTL)]> (entry_count k) |}).

(** [resetTradingState]: the two sets, the entry counters, the retry
    counters and the locks are deleted; the snapshots stay. *)
Definition resetTradingState (k : Counted) : Counted :=
  {| keys :=
       {| mindmaps := mindmaps (keys k);
          processed_tokens := {| members := ∅; set_expires := 0 |};
          prediction_retry := ∅;
          prediction_failed := {| members := ∅; set_expires := 0 |};
          pending_trade := ∅ |};
     entry_count := ∅ |}.

End RedisCacheService.

(** ** The engine's view of the world

    The shared cache, and the calls made so far to the two external
    services: the prediction endpoint and the swap backend. *)
Record SwapRequest : Type := {
  sw_amount : number;
  sw_action : string;
  sw_mint : string;
  sw_takeProfitPercentage : number;
  sw_stopLossPercentage : number;
  sw_enableTrailingStop : bool;
  sw_trailingStopPercentage : option number;
  sw_maxHoldTimeMinutes : number;
  sw_prediction : option PredictionInfo
}.

Record SwapResult : Type := {
  sr_success : bool;
  sr_message : option string;
  sr_txid : option string
}.

Record World : Type := {
  cache : RedisCacheService.Cache;
  predictionCalls : list string;
  swapCalls : list SwapRequest;
  tokensEvaluated : Z;
  tradesExecuted : Z
}.

Definition set_cache (v : RedisCacheService.Cache) (w : World) : World :=
  {| cache := v; predictionCalls := predictionCalls w; swapCalls := swapCalls w;
     tokensEvaluated := tokensEvaluated w; tradesExecuted := tradesExecuted w |}.

(** A computation that reads and writes the world. *)
Definition M (A : Type) : Type := World -> A * World.

Definition ret {A : Type} (a : A) : M A := fun w => (a, w).

Definition bind {A B : Type} (m : M A) (k : A -> M B) : M B :=
  fun w => let (a, w') := m w in k a w'.

Global Instance M_ret : MRet M := @ret.
Global Instance M_bind : MBind M := fun A B k m => bind m k.

Definition readCache {A : Type} (f : RedisCacheService.Cache -> A) : M A :=
  fun w => (f (cache w), w).

Definition writeCache (f : RedisCacheService.Cache -> RedisCacheService.Cache) : M unit :=
  fun w => (tt, set_cache (f (cache w)) w).

(** ** Buy execution (TradeExecutor.ts) *)
Module TradeExecutor.

Record RiskManagementConfig : Type := {
  takeProfitPercentage : number;
  stopLossPercentage : number;
  trailingStopEnabled : bool;
  trailingStopPercentage : option number
}.

Record TradeRequest : Type := {
  tokenMint : string;
  amount : number;
  riskConfig : RiskManagementConfig;
  prediction : option PredictionInfo
}.

Record TradeResult : Type := {
  success : bool;
  tr_tokenMint : string;
  transactionSignature : option string;
  error : option string
}.

Section Executor.

(** [ledgerTools.performSwap]: the answer to the [n]-th call made. *)
Variable performSwap : nat -> SwapRequest -> Outcome SwapResult.

Definition callSwap (req : SwapRequest) : M (Outcome SwapResult) :=
  fun w =>
    (performSwap (length (swapCalls w)) req,
     {| cache := cache w; predictionCalls := predictionCalls w;
        swapCalls := swapCalls w ++ [req];
        tokensEvaluated := tokensEvaluated w; tradesExecuted := tradesExecuted w |}).

Definition buyRequest (trade : TradeRequest) : SwapRequest :=
  let risk := riskConfig trade in
  {| sw_amount := amount trade; sw_action := "buy"; sw_mint := tokenMint trade;
     sw_takeProfitPercentage := takeProfitPercentage risk;
     sw_stopLossPercentage := stopLossPercentage risk;
     sw_enableTrailingStop := trailingStopEnabled risk;
     sw_trailingStopPercentage :=
       if trailingStopEnabled risk
       then Some (or_else (trailingStopPercentage risk) (stopLossPercentage risk))
       else None;
     sw_maxHoldTimeMinutes := ofZ 60;
     sw_prediction := prediction trade |}.

(** [execute(trade)].  Its first step is the swap itself: the duplicate
    check is commented out in the source and left to the caller.  A thrown
    error is reported by its message, which the source wraps in a fixed
    format. *)
Definition execute (now : Z) (trade : TradeRequest) : M TradeResult :=
  swapResult ← callSwap (buyRequest trade);
  match swapResult with
  | Thrown msg =>
      ret {| success := false; tr_tokenMint := tokenMint trade;
             transactionSignature := None; error := Some msg |}
  | Returned r =>
      if negb (sr_success r) then
        ret {| success := false; tr_tokenMint := tokenMint trade;
               transactionSignature := None;
               error := Some (str_or (sr_message r) "Swap execution failed") |}
      else
        writeCache (RedisCacheService.markTokenProcessed now (tokenMint trade)) ;;
        writeCache (RedisCacheService.deleteMindmapData (tokenMint trade)) ;;
        ret {| success := true; tr_tokenMint := tokenMint trade;
               transactionSignature := sr_txid r; error := None |}
  end.

End Executor.
End TradeExecutor.

(** ** Orchestrator (BotCoreEngine.ts) *)
Module BotCoreEngine.

Definition MAX_PREDICTION_RETRIES : Z := 3.

Section Engine.

(** The injected collaborators: the filter engine, the prediction endpoint
    behind [predictionService] (the answer to the [n]-th call made), the
    swap backend behind [tradeExecutor], and the configuration. *)
Variable filterEngine : MindmapFilterEngine.MindmapData -> MindmapFilterEngine.FilterResult.
Variable predictTrade : nat -> string -> Outcome MLPredictionService.PredictionResult.
Variable performSwap : nat -> SwapRequest -> Outcome SwapResult.
Variable buyAmount : number.
Variable risk : TradeExecutor.RiskManagementConfig.

(** [predictionService.predict(tokenMint)]. *)
Definition predict (tokenMint : string) : M MLPredictionService.Prediction :=
  fun w =>
    (MLPredictionService.predict (predictTrade (length (predictionCalls w)) tokenMint),
     {| cache := cache w; predictionCalls := predictionCalls w ++ [tokenMint];
        swapCalls := swapCalls w;
        tokensEvaluated := tokensEvaluated w; tradesExecuted := tradesExecuted w |}).

Definition countEvaluation : M unit :=
  fun w =>
    (tt, {| cache := cache w; predictionCalls := predictionCalls w;
            swapCalls := swapCalls w;
            tokensEvaluated := tokensEvaluated w + 1;
            tradesExecuted := tradesExecuted w |}).

Definition countTrade : M unit :=
  fun w =>
    (tt, {| cache := cache w; predictionCalls := predictionCalls w;
            swapCalls := swapCalls w;
            tokensEvaluated := tokensEvaluated w;
            tradesExecuted := tradesExecuted w + 1 |}).

(** [evaluateAndExecute(tokenMint, mindmapData)]. *)
Definition evaluateAndExecute (now : Z) (tokenMint : string)
    (mindmapData : MindmapFilterEngine.MindmapData) : M unit :=
  countEvaluation ;;
  let filterResult := filterEngine mindmapData in
  if negb (MindmapFilterEngine.passed filterResult) then ret tt
  else
    retryCount ← readCache (RedisCacheService.getPredictionRetryCount now tokenMint);
    predictionResult ← predict tokenMint;
    if negb (MLPredictionService.approved predictionResult) then
      newRetryCount ←
        (fun w =>
           let (n, c) :=
             RedisCacheService.incrementPredictionRetryCount now tokenMint (cache w) in
           (n, set_cache c w));
      if MAX_PREDICTION_RETRIES <=? newRetryCount then
        writeCache (RedisCacheService.markPredictionFailed now tokenMint)
      else ret tt
    else
      tradeResult ←
        TradeExecutor.execute performSwap now
          {| TradeExecutor.tokenMint := tokenMint; TradeExecutor.amount := buyAmount;
             TradeExecutor.riskConfig := risk; TradeExecutor.prediction := None |};
      if TradeExecutor.success tradeResult then countTrade else ret tt.

(** [processToken(tokenMint, providedMindmapData?)]. *)
Definition processToken (now : Z) (tokenMint : string)
    (providedMindmapData : option MindmapFilterEngine.MindmapData) : M unit :=
  isProcessed ← readCache (RedisCacheService.isTokenProcessed now tokenMint);
  if (isProcessed : bool) then ret tt
  else
    isPredictionFailed ←
      readCache (fun c => RedisCacheService.isInSet now tokenMint
                            (RedisCacheService.prediction_failed c));
    if (isPredictionFailed : bool) then ret tt
    else
      match providedMindmapData with
      | Some mindmapData => evaluateAndExecute now tokenMint mindmapData
      | None =>
          cached ← readCache (RedisCacheService.getMindmapData now tokenMint);
          match cached with
          | Some mindmapData => evaluateAndExecute now tokenMint mindmapData
          | None => ret tt
          end
      end.

(** *** Event handlers *)

Record TradeData : Type := {
  tokenIn : option string;
  tokenOut : option string;
  mint : option string;
  amountIn : number;
  amountOut : number;
  tradeType : string
}.

(** The [trade] of a [kol_trade_update] event. *)
Record KOLTrade : Type := {
  kolWallet : string;
  timestamp : Z;
  tradeData : TradeData
}.

(** [kolConnections[wallet]]. *)
Fixpoint connectionOf (wallet : string) (l : list (string * MindmapFilterEngine.KOLConnection))
  : option MindmapFilterEngine.KOLConnection :=
  match l with
  | [] => None
  | (k, c) :: l' => if String.eqb k wallet then Some c else connectionOf wallet l'
  end.

(** The connection under [wallet] replaced by its image under [f]. *)
Fixpoint alterConnection (wallet : string)
    (f : MindmapFilterEngine.KOLConnection -> MindmapFilterEngine.KOLConnection)
    (l : list (string * MindmapFilterEngine.KOLConnection))
  : list (string * MindmapFilterEngine.KOLConnection) :=
  match l with
  | [] => []
  | (k, c) :: l' =>
      if String.eqb k wallet then (k, f c) :: l' else (k, c) :: alterConnection wallet f l'
  end.

(** What one trade does to the connection of its actor. *)
Definition recordTrade (newTrade : KOLTrade) (c : MindmapFilterEngine.KOLConnection)
  : MindmapFilterEngine.KOLConnection :=
  let kind := tradeType (tradeData newTrade) in
  let tradeCount_ := add (MindmapFilterEngine.tradeCount c) one in
  let tradeVolume :=
    if String.eqb kind "buy" then amountOut (tradeData newTrade)
    else amountIn (tradeData newTrade) in
  let totalVolume_ := add (MindmapFilterEngine.totalVolume c) tradeVolume in
  {| MindmapFilterEngine.kolWallet := MindmapFilterEngine.kolWallet c;
     MindmapFilterEngine.tradeCount := tradeCount_;
     MindmapFilterEngine.totalVolume := totalVolume_;
     MindmapFilterEngine.lastTradeTime := timestamp newTrade;
     MindmapFilterEngine.influenceScore :=
       mathMin hundred (add (mul tradeCount_ (ofZ 10)) (div totalVolume_ (ofZ 1000)));
     MindmapFilterEngine.tradeTypes :=
       if MindmapFilterEngine.includes kind (MindmapFilterEngine.tradeTypes c)
       then MindmapFilterEngine.tradeTypes c
       else MindmapFilterEngine.tradeTypes c ++ [kind] |}.

(** [recalculateMindmapMetrics(existingData, newTrade)] at wall-clock time
    [date]. *)
Definition recalculateMindmapMetrics (date : Z) (existingData : MindmapFilterEngine.MindmapData)
    (newTrade : KOLTrade) : MindmapFilterEngine.MindmapData :=
  let wallet := kolWallet newTrade in
  let connections := MindmapFilterEngine.kolConnections existingData in
  let known :=
    match connectionOf wallet connections with
    | Some _ => connections
    | None =>
        connections ++
        [(wallet,
          {| MindmapFilterEngine.kolWallet := wallet;
             MindmapFilterEngine.tradeCount := zero;
             MindmapFilterEngine.totalVolume := zero;
             MindmapFilterEngine.lastTradeTime := timestamp newTrade;
             MindmapFilterEngine.influenceScore := zero;
             MindmapFilterEngine.tradeTypes := [] |})]
    end in
  let network := MindmapFilterEngine.networkMetrics existingData in
  {| MindmapFilterEngine.tokenMint := MindmapFilterEngine.tokenMint existingData;
     MindmapFilterEngine.kolConnections := alterConnection wallet (recordTrade newTrade) known;
     MindmapFilterEngine.relatedTokens := MindmapFilterEngine.relatedTokens existingData;
     MindmapFilterEngine.networkMetrics :=
       {| MindmapFilterEngine.centrality := MindmapFilterEngine.centrality network;
          MindmapFilterEngine.clustering := MindmapFilterEngine.clustering network;
          MindmapFilterEngine.totalTrades :=
            add (MindmapFilterEngine.totalTrades network) one |};
     MindmapFilterEngine.lastUpdate := date |}.

(** The tokens a trade touches: [mint], [tokenIn] and [tokenOut] where
    set, each once, in the order a [Set] keeps them. *)
Definition affectedTokens (td : TradeData) : list string :=
  let add_ (o : option string) (l : list string) : list string :=
    match o with
    | Some t => if negb (String.eqb t "") && negb (existsb (String.eqb t) l) then l ++ [t] else l
    | None => l
    end in
  add_ (tokenOut td) (add_ (tokenIn td) (add_ (mint td) [])).

(** [handleKOLTradeUpdate(data)]: the snapshot of every affected token that
    has one is recalculated and written back. *)
Definition handleKOLTradeUpdate (now date : Z) (trade : KOLTrade) : M unit :=
  fun w =>
    (tt,
     foldl
       (fun acc tokenMint =>
          match RedisCacheService.getMindmapData now tokenMint (cache acc) with
          | None => acc
          | Some cachedData =>
              set_cache
                (RedisCacheService.updateMindmapData now tokenMint
                   (recalculateMindmapMetrics date cachedData trade) (cache acc)) acc
          end)
       w (affectedTokens (tradeData trade))).

(** A [mindmap_update] event: the snapshot comes under [data] or under
    [mindmapData]. *)
Record MindmapEvent : Type := {
  ev_tokenMint : option string;
  ev_data : option MindmapFilterEngine.MindmapData;
  ev_mindmapData : option MindmapFilterEngine.MindmapData
}.

(** [handleMindmapUpdate(event)]. *)
Definition handleMindmapUpdate (now : Z) (event : MindmapEvent) : M unit :=
  let mindmapData :=
    match ev_data event with
    | Some d => Some d
    | None => ev_mindmapData event
    end in
  match ev_tokenMint event, mindmapData with
  | Some tokenMint, Some data =>
      if String.eqb tokenMint "" then ret tt
      else if String.eqb tokenMint MindmapFilterEngine.NATIVE_SOL_ADDRESS then ret tt
      else
        writeCache (RedisCacheService.cacheMindmapData now tokenMint data) ;;
        isProcessed ← readCache (RedisCacheService.isTokenProcessed now tokenMint);
        if (isProcessed : bool) then ret tt
        else processToken now tokenMint (Some data)
  | _, _ => ret tt
  end.

End Engine.
End BotCoreEngine.


(** ** Paper wallet (PaperWalletService.ts)

    The hash [paper_wallet:balance] and the flag [paper_wallet:initialized].
    A balance is stored as the text of a number and read back as that
    number. *)
Module PaperWalletService.

Record Wallet : Type := {
  balances : gmap string number;
  initialized : bool
}.

Definition empty_wallet : Wallet := {| balances := ∅; initialized := false |}.

Definition set_balance (mint : string) (v : number) (w : Wallet) : Wallet :=
  {| balances := <[mint := v]> (balances w); initialized := initialized w |}.

(** [initializeWallet(initialSol)]. *)
Definition initializeWallet (initialSol : number) (w : Wallet) : Wallet :=
  if initialized w then w
  else {| balances := <["SOL" := initialSol]> (balances w); initialized := true |}.

(** [getBalance(mint)]: 0 for a token the wallet never held. *)
Definition getBalance (mint : string) (w : Wallet) : number :=
  default zero (balances w !! mint).

(** [deposit(mint, amount)]: returns the new balance. *)
Definition deposit (mint : string) (amount : number) (w : Wallet) : number * Wallet :=
  let newBalance := add (getBalance mint w) amount in
  (newBalance, set_balance mint newBalance w).

Section Withdraw.

(** The text of a number inside a message. *)
Variable show : number -> string.

(** [withdraw(mint, amount)]: throws when the balance is short. *)
Definition withdraw (mint : string) (amount : number) (w : Wallet) : Outcome number * Wallet :=
  let current := getBalance mint w in
  if ltb current amount then
    (Thrown ("Insufficient paper funds for " +:+ mint +:+ ". Required: " +:+ show amount
             +:+ ", Available: " +:+ show current), w)
  else
    let newBalance := sub current amount in
    (Returned newBalance, set_balance mint newBalance w).

End Withdraw.

(** [resetWallet(initialSol)]. *)
Definition resetWallet (initialSol : number) (w : Wallet) : Wallet :=
  {| balances := {["SOL" := initialSol]}; initialized := true |}.

End PaperWalletService.

(** ** Swaps (SolanaTxService.ts, class AgentLedgerTools) *)
Module AgentLedgerTools.

Inductive Action : Type := buy | sell.

Global Instance Action_eq_dec : EqDecision Action.
Proof. solve_decision. Defined.

Record WatchConfig : Type := {
  wc_takeProfitPercentage : option number;
  wc_stopLossPercentage : option number;
  wc_trailingStopPercentage : option number;
  wc_maxHoldTimeMinutes : option number;
  wc_enableTrailingStop : option bool
}.

Record SwapParams : Type := {
  amount : number;
  action : Action;
  mint : string;
  watchConfig : option WatchConfig;
  prediction : option PredictionInfo
}.

(** The part of a swap response the bot reads. *)
Record Rate : Type := {
  amountIn : option number;
  amountOut : option number;
  executionPrice : option number
}.

Record SwapResponse : Type := {
  rate : option Rate;
  txid : option string;
  transactionId : option string
}.

Record SwapData : Type := {
  swapResponse : option SwapResponse;
  entryPrice : number
}.

(** What [performSwap] returns. *)
Record LedgerResult : Type := {
  success : bool;
  message : option string;
  data : option SwapData
}.

Definition failure (msg : option string) : LedgerResult :=
  {| success := false; message := msg; data := None |}.

(** The environment variables the class reads, as the code converts them:
    [Number(process.env.X)] is [NaN] for a variable that is not set. *)
Record Env : Type := {
  SIMULATING : bool;
  AGENT_ID : option string;
  TAKE_PROFIT_PERCENTAGE : number;
  STOP_LOSS_PERCENTAGE : number;
  MAX_HOLD_TIME_MINUTES : number;
  TRAILING_STOP_ENABLED : bool;
  TRAILING_STOP_PERCENTAGE : number
}.

(** [swapClient.getTokenBalance]: [status] and [data?.balance]. *)
Record TokenBalance : Type := {
  tb_status : bool;
  tb_balance : option number
}.

(** The options handed to [swapClient.performSwap] (the payer apart). *)
Record SwapOptions : Type := {
  fromToken : string;
  toToken : string;
  so_amount : number;
  slippage : number;
  priorityFee : number
}.

(** What [swapClient.performSwap] answers. *)
Record ClientResult : Type := {
  cr_success : bool;
  cr_message : option string;
  cr_swapResponse : option SwapResponse;
  cr_txid : option string
}.

(** What is outside the process answers during one [performSwap]: the
    clock, the price service, the chain, the swap client, and the random
    parts of the identifiers the call generates. *)
Record Outside : Type := {
  dateNow : Z;
  tokenPrice : Outcome (option number);
  feeBalance : Outcome bool;
  solBalance : Outcome number;
  tokenBalance : Outcome TokenBalance;
  recentFees : Outcome (option (list (Z * Z)));
  clientSwap : SwapOptions -> Outcome ClientResult;
  newTradeId : string;
  simTxid : string;
  simDataTxid : string
}.

(** The state the class reads and writes: the paper wallet and the trade
    history (both in Redis), the priority fee it caches, and the swaps it
    has sent to the client. *)
Record Ledger : Type := {
  wallet : PaperWalletService.Wallet;
  history : TradeHistoryService.Store;
  lastPriorityFee : number;
  lastPriorityFeeTime : Z;
  sent : list SwapOptions
}.

Definition set_wallet (v : PaperWalletService.Wallet) (l : Ledger) : Ledger :=
  {| wallet := v; history := history l; lastPriorityFee := lastPriorityFee l;
     lastPriorityFeeTime := lastPriorityFeeTime l; sent := sent l |}.

Definition set_history (v : TradeHistoryService.Store) (l : Ledger) : Ledger :=
  {| wallet := wallet l; history := v; lastPriorityFee := lastPriorityFee l;
     lastPriorityFeeTime := lastPriorityFeeTime l; sent := sent l |}.

Definition PRIORITY_FEE_CACHE_TTL_MS : Z := 5000.

(** [a.sort((x, y) => key(y) - key(x))] and [a.sort((x, y) => x - y)] on
    integers: insertion keeps equal elements in their order. *)
Fixpoint insertBy {A : Type} (before : A -> A -> bool) (x : A) (l : list A) : list A :=
  match l with
  | [] => [x]
  | y :: l' => if before y x then y :: insertBy before x l' else x :: l
  end.

Definition sortBy {A : Type} (before : A -> A -> bool) (l : list A) : list A :=
  foldr (insertBy before) [] l.

(** The 75th percentile of the positive fees of the 20 most recent slots,
    in micro-lamports; [None] when there is none.  A sample is a slot and
    its fee, both integers. *)
Definition percentileFee (samples : list (Z * Z)) : option Z :=
  let bySlot := sortBy (fun a b => fst b <? fst a) samples in
  let recentSamples :=
    sortBy (fun a b => a <? b)
      (List.filter (fun fee => 0 <? fee) (map snd (take 20 bySlot))) in
  match recentSamples with
  | [] => None
  | _ =>
      let index := Z.to_nat (3 * Z.of_nat (length recentSamples) / 4) in
      Some (or_elseZ (recentSamples !! index) 5000)
  end.

(** [getDynamicPriorityFee()], in SOL. *)
Definition getDynamicPriorityFee (x : Outside) (l : Ledger) : number * Ledger :=
  if gtb (lastPriorityFee l) zero
     && (dateNow x - lastPriorityFeeTime l <? PRIORITY_FEE_CACHE_TTL_MS)
  then (lastPriorityFee l, l)
  else
    match recentFees x with
    | Thrown _ =>
        (if gtb (lastPriorityFee l) zero then lastPriorityFee l else ofQ 5 10000, l)
    | Returned None | Returned (Some []) => (ofQ 5 10000, l)
    | Returned (Some samples) =>
        match percentileFee samples with
        | None => (ofQ 5 10000, l)
        | Some feeMicroLamports =>
            let feeInSol :=
              div (mul (ofZ feeMicroLamports) (ofQ 1 1000000)) (ofZ 1000000000) in
            let cappedFee := mathMin (mathMax feeInSol (ofQ 1 10000)) (ofQ 1 100) in
            (cappedFee,
             {| wallet := wallet l; history := history l; lastPriorityFee := cappedFee;
                lastPriorityFeeTime := dateNow x; sent := sent l |})
        end
    end.

(** The sell conditions a buy is recorded with: the watch configuration,
    else the environment, else a default. *)
Definition sellConditionsOf (env : Env) (config : option WatchConfig) : SellConditions :=
  let field (f : WatchConfig -> option number) : option number :=
    match config with Some c => f c | None => None end in
  let trailing :=
    truthy_bool (match config with Some c => wc_enableTrailingStop c | None => None end)
    || TRAILING_STOP_ENABLED env in
  {| takeProfitPercentage :=
       Some (or_else (field wc_takeProfitPercentage)
               (or_else (Some (TAKE_PROFIT_PERCENTAGE env)) (ofZ 20)));
     stopLossPercentage :=
       Some (or_else (field wc_stopLossPercentage)
               (or_else (Some (STOP_LOSS_PERCENTAGE env)) (ofZ 10)));
     trailingStopPercentage :=
       if trailing
       then Some (or_else (field wc_trailingStopPercentage)
                    (or_else (Some (TRAILING_STOP_PERCENTAGE env)) (ofZ 10)))
       else None;
     trailingStopActivated := None;
     maxHoldTimeMinutes :=
       Some (or_else (field wc_maxHoldTimeMinutes)
               (or_else (Some (MAX_HOLD_TIME_MINUTES env)) (ofZ 60)));
     stepLevel := None; nextTargetPrice := None; currStopPrice := None |}.

(** The [createTrade] call that records a buy. *)
Definition recordBuy (env : Env) (x : Outside) (params : SwapParams)
    (response : option SwapResponse) (buyTxid : option string) (simulated : option bool)
    (l : Ledger) : Ledger :=
  let rate_ := match response with Some r => rate r | None => None end in
  let field (f : Rate -> option number) : option number :=
    match rate_ with Some r => f r | None => None end in
  set_history
    (snd (TradeHistoryService.createTrade (newTradeId x) (dateNow x)
            {| TradeHistoryService.cp_agentId := str_or (AGENT_ID env) "default_agent";
               TradeHistoryService.cp_tokenMint := mint params;
               TradeHistoryService.cp_entryPrice := or_else (field executionPrice) zero;
               TradeHistoryService.cp_entryAmount := or_else (field amountOut) zero;
               TradeHistoryService.cp_buyTransactionId := Some (str_or buyTxid "");
               TradeHistoryService.cp_ledgerId := None;
               TradeHistoryService.cp_originalTradeId := None;
               TradeHistoryService.cp_watchJobId := None;
               TradeHistoryService.cp_sellConditions :=
                 Some (sellConditionsOf env (watchConfig params));
               TradeHistoryService.cp_tags := None;
               TradeHistoryService.cp_prediction := prediction params;
               TradeHistoryService.cp_isSimulation := simulated |}
            (history l))) l.

(** The result of a balance validation: [balanceData?.available] is absent
    when the validation carries no balance data. *)
Record Validation : Type := {
  v_success : bool;
  v_message : string;
  v_available : option number
}.

Definition MOCK_FEE : number := ofQ 5 1000000.
Definition TOLERANCE : number := ofQ 1 1000000000.

Section Messages.

(** The text of a number inside a message: [String(x)] and
    [x.toFixed(4)]. *)
Variable show : number -> string.
Variable toFixed4 : number -> string.

(** [validateTradeBalanceMock]. *)
Definition validateTradeBalanceMock (params : SwapParams) (l : Ledger) : Validation :=
  match action params with
  | buy =>
      let solBalance_ := PaperWalletService.getBalance "SOL" (wallet l) in
      if ltb solBalance_ (amount params) then
        {| v_success := false;
           v_message := "Insufficient Paper SOL. Required: " +:+ show (amount params)
                        +:+ ", Available: " +:+ show solBalance_;
           v_available := Some solBalance_ |}
      else
        {| v_success := true;
           v_message := "Paper Balance validated. Available: " +:+ show solBalance_;
           v_available := Some solBalance_ |}
  | sell =>
      let tokenBalance_ := PaperWalletService.getBalance (mint params) (wallet l) in
      if ltb tokenBalance_ (sub (amount params) TOLERANCE) then
        {| v_success := false;
           v_message := "Insufficient Paper Token Balance. Required: " +:+ show (amount params)
                        +:+ ", Available: " +:+ show tokenBalance_;
           v_available := Some tokenBalance_ |}
      else
        {| v_success := true;
           v_message := "Paper Token Balance validated. Available: " +:+ show tokenBalance_;
           v_available := Some tokenBalance_ |}
  end.

(** [validateTradeBalance]: the live check, against the chain. *)
Definition validateTradeBalance (x : Outside) (params : SwapParams) : Validation :=
  let failed (msg : string) : Validation :=
    {| v_success := false; v_message := "Balance validation failed: " +:+ msg;
       v_available := None |} in
  match feeBalance x with
  | Thrown msg => failed msg
  | Returned false =>
      {| v_success := false;
         v_message := "Insufficient SOL balance for transaction fees. Minimum 0.001 SOL required.";
         v_available := None |}
  | Returned true =>
      match action params with
      | buy =>
          match solBalance x with
          | Thrown msg => failed msg
          | Returned balanceInSol =>
              if ltb balanceInSol (amount params) then
                {| v_success := false;
                   v_message := "Insufficient SOL balance for buy trade. Required: "
                                +:+ show (amount params) +:+ " SOL, Available: "
                                +:+ toFixed4 balanceInSol +:+ " SOL";
                   v_available := Some balanceInSol |}
              else
                {| v_success := true;
                   v_message := "Balance validated. Available: " +:+ toFixed4 balanceInSol
                                +:+ " SOL";
                   v_available := Some balanceInSol |}
          end
      | sell =>
          match tokenBalance x with
          | Thrown msg => failed msg
          | Returned tb =>
              match tb_balance tb with
              | Some held =>
                  if negb (tb_status tb) || eqb held zero then
                    {| v_success := false;
                       v_message := "Insufficient token balance for sell trade. Required: "
                                    +:+ show (amount params) +:+ ", Available: "
                                    +:+ show (or_else (Some held) zero);
                       v_available := Some (or_else (Some held) zero) |}
                  else
                    {| v_success := true;
                       v_message := "Token balance validated. Available: " +:+ show held;
                       v_available := Some held |}
              | None =>
                  {| v_success := false;
                     v_message := "Insufficient token balance for sell trade. Required: "
                                  +:+ show (amount params) +:+ ", Available: " +:+ show zero;
                     v_available := Some zero |}
              end
          end
      end
  end.

(** [performSwapMock]: the paper trade. *)
Definition performSwapMock (env : Env) (x : Outside) (params : SwapParams) (l : Ledger)
  : LedgerResult * Ledger :=
  if eqb (amount params) zero then
    (failure (Some "Amount must be greater than 0"), l)
  else
    match tokenPrice x with
    | Thrown msg => (failure (Some msg), l)
    | Returned None => (failure (Some "Could not fetch token price for simulation"), l)
    | Returned (Some currentPrice) =>
        let paid (amountIn_ amountOut_ : number) (l' : Ledger) : LedgerResult * Ledger :=
          let response :=
            {| rate := Some {| amountIn := Some amountIn_; amountOut := Some amountOut_;
                               executionPrice := Some currentPrice |};
               txid := Some (simTxid x); transactionId := None |} in
          let l'' :=
            match action params with
            | buy => recordBuy env x params (Some response) (Some (simDataTxid x)) (Some true) l'
            | sell => l'
            end in
          ({| success := true; message := Some "Paper Swap successful";
              data := Some {| swapResponse := Some response;
                              entryPrice := or_else (Some currentPrice) zero |} |}, l'') in
        match action params with
        | buy =>
            let solBalance_ := PaperWalletService.getBalance "SOL" (wallet l) in
            if ltb solBalance_ (add (amount params) MOCK_FEE) then
              (failure (Some ("Insufficient Paper SOL. Required: " +:+ show (amount params)
                              +:+ ", Available: " +:+ show solBalance_)), l)
            else
              match PaperWalletService.withdraw show "SOL" (add (amount params) MOCK_FEE)
                      (wallet l) with
              | (Thrown msg, _) => (failure (Some msg), l)
              | (Returned _, w1) =>
                  let amountOut_ := div (amount params) currentPrice in
                  let w2 := snd (PaperWalletService.deposit (mint params) amountOut_ w1) in
                  paid (amount params) amountOut_ (set_wallet w2 l)
              end
        | sell =>
            let tokenBalance_ := PaperWalletService.getBalance (mint params) (wallet l) in
            if ltb tokenBalance_ (sub (amount params) TOLERANCE) then
              (failure (Some ("Insufficient Paper Token Balance. Required: "
                              +:+ show (amount params) +:+ ", Available: "
                              +:+ show tokenBalance_)), l)
            else
              match PaperWalletService.withdraw show (mint params) (amount params)
                      (wallet l) with
              | (Thrown msg, _) => (failure (Some msg), l)
              | (Returned _, w1) =>
                  let amountOut_ := mul (amount params) currentPrice in
                  let w2 :=
                    snd (PaperWalletService.deposit "SOL" (sub amountOut_ MOCK_FEE) w1) in
                  paid (amount params) amountOut_ (set_wallet w2 l)
              end
        end
    end.

Definition with_amount (v : number) (params : SwapParams) : SwapParams :=
  {| amount := v; action := action params; mint := mint params;
     watchConfig := watchConfig params; prediction := prediction params |}.

Definition NATIVE_MINT : string := "So11111111111111111111111111111111111111112".

(** The live swap, once the balance is validated; [None] stands for an
    exception, which [performSwap] catches. *)
Definition liveSwap (env : Env) (x : Outside) (params : SwapParams) (validated : Validation)
    (l : Ledger) : option LedgerResult * Ledger :=
  let totalAmount : option number :=
    match action params with
    | sell =>
        match v_available validated with
        | Some available => Some available
        | None =>
            match tokenBalance x with
            | Thrown _ => None
            | Returned tb =>
                match tb_balance tb with
                | Some held => Some (if tb_status tb then held else zero)
                | None => Some zero
                end
            end
        end
    | buy => Some (amount params)
    end in
  match totalAmount with
  | None => (None, l)
  | Some total =>
      if eqb total zero then (Some (failure (Some "No token balance found")), l)
      else
        let (fee, l1) := getDynamicPriorityFee x l in
        let options :=
          {| fromToken := match action params with buy => NATIVE_MINT | sell => mint params end;
             toToken := match action params with buy => mint params | sell => NATIVE_MINT end;
             so_amount := total; slippage := ofZ 30; priorityFee := fee |} in
        let l2 :=
          {| wallet := wallet l1; history := history l1;
             lastPriorityFee := lastPriorityFee l1;
             lastPriorityFeeTime := lastPriorityFeeTime l1; sent := sent l1 ++ [options] |} in
        match clientSwap x options with
        | Thrown _ => (None, l2)
        | Returned answer =>
            if negb (cr_success answer) then (Some (failure (cr_message answer)), l2)
            else
              let response := cr_swapResponse answer in
              let l3 :=
                match action params with
                | buy => recordBuy env x params response (cr_txid answer) None l2
                | sell => l2
                end in
              let price :=
                match response with
                | Some r => match rate r with Some q => executionPrice q | None => None end
                | None => None
                end in
              (Some {| success := true; message := Some "Swap successful";
                       data := Some {| swapResponse := response;
                                       entryPrice := or_else price zero |} |}, l3)
        end
  end.

(** [performSwap]: validation, then the paper trade or the live swap.  An
    exception is answered by a failure whose message is read from a
    property the error does not have. *)
Definition performSwap (env : Env) (x : Outside) (params : SwapParams) (l : Ledger)
  : LedgerResult * Ledger :=
  let validated :=
    if SIMULATING env then validateTradeBalanceMock params l
    else validateTradeBalance x params in
  if negb (v_success validated) then (failure (Some (v_message validated)), l)
  else if SIMULATING env then
    let amount_ :=
      match v_available validated with
      | Some available =>
          if ltb available (amount params) && bool_decide (action params = sell)
          then available else amount params
      | None => amount params
      end in
    performSwapMock env x (with_amount amount_ params) l
  else
    match liveSwap env x params validated l with
    | (Some result, l') => (result, l')
    | (None, l') => (failure None, l')
    end.

End Messages.

End AgentLedgerTools.

(** ** Position watcher, acting (TradeWatcherService.ts)

    [executeSell] and one evaluation of a trade carried out against the
    ledger and the trade history. *)
Module TradeWatcherLoop.

(** What the watcher works on: the ledger (with the trade history it
    shares), the trades whose sale is in flight, and the [price_update]
    events it has emitted. *)
Record Desk : Type := {
  ledger : AgentLedgerTools.Ledger;
  processingTrades : gset string;
  priceEvents : list (string * number)
}.

Definition set_ledger (v : AgentLedgerTools.Ledger) (d : Desk) : Desk :=
  {| ledger := v; processingTrades := processingTrades d; priceEvents := priceEvents d |}.

Definition set_processingTrades (v : gset string) (d : Desk) : Desk :=
  {| ledger := ledger d; processingTrades := v; priceEvents := priceEvents d |}.

Definition inHistory (f : TradeHistoryService.Store -> TradeHistoryService.Store) (d : Desk)
  : Desk :=
  set_ledger (AgentLedgerTools.set_history (f (AgentLedgerTools.history (ledger d))) (ledger d)) d.

Definition historyOf (d : Desk) : TradeHistoryService.Store :=
  AgentLedgerTools.history (ledger d).

Section Loop.

Variable show : number -> string.
Variable toFixed4 : number -> string.
Variable env : AgentLedgerTools.Env.

(** The three messages after which a failed sale closes the position. *)
Definition signalsMissingBalance (msg : string) : bool :=
  str_includes "No token balance" msg
  || str_includes "insufficient funds" msg
  || str_includes "Insufficient Paper" msg.

(** [executeSell(trade, reason, currentPrice)]; [x] is what the outside
    answers during the swap and [closeTime] the instant of the close. *)
Definition executeSell (x : AgentLedgerTools.Outside) (closeTime : Z)
    (trade : TradeHistoryEntry) (reason : SellReason) (currentPrice : number) (d : Desk)
  : Desk :=
  if bool_decide (id trade ∈ processingTrades d) then d
  else
    let d1 := set_processingTrades (processingTrades d ∪ {[id trade]}) d in
    let (result, l1) :=
      AgentLedgerTools.performSwap show toFixed4 env x
        {| AgentLedgerTools.amount := entryAmount trade;
           AgentLedgerTools.action := AgentLedgerTools.sell;
           AgentLedgerTools.mint := tokenMint trade;
           AgentLedgerTools.watchConfig := None;
           AgentLedgerTools.prediction := None |} (ledger d1) in
    let d2 := set_ledger l1 d1 in
    let d3 :=
      if AgentLedgerTools.success result then
        let response :=
          match AgentLedgerTools.data result with
          | Some sd => AgentLedgerTools.swapResponse sd
          | None => None
          end in
        let rate_ :=
          match response with Some r => AgentLedgerTools.rate r | None => None end in
        let txId :=
          str_or (match response with Some r => AgentLedgerTools.txid r | None => None end)
            (str_or
               (match response with
                | Some r => AgentLedgerTools.transactionId r
                | None => None
                end) "unknown_tx") in
        let exitPrice_ :=
          or_else (match rate_ with Some q => AgentLedgerTools.executionPrice q | None => None end)
            (or_else (Some currentPrice) zero) in
        let exitAmount_ :=
          or_else (match rate_ with Some q => AgentLedgerTools.amountIn q | None => None end)
            (entryAmount trade) in
        inHistory
          (fun s =>
             snd (TradeHistoryService.closeTrade closeTime
                    {| TradeHistoryService.tradeId := id trade;
                       TradeHistoryService.cl_exitPrice := exitPrice_;
                       TradeHistoryService.cl_exitAmount := exitAmount_;
                       TradeHistoryService.cl_sellTransactionId := Some txId;
                       TradeHistoryService.cl_sellReason := Some reason |} s)) d2
      else
        match AgentLedgerTools.message result with
        | Some msg =>
            if negb (String.eqb msg "") && signalsMissingBalance msg then
              inHistory
                (fun s =>
                   snd (TradeHistoryService.closeTrade closeTime
                          {| TradeHistoryService.tradeId := id trade;
                             TradeHistoryService.cl_exitPrice :=
                               or_else (Some currentPrice) zero;
                             TradeHistoryService.cl_exitAmount := zero;
                             TradeHistoryService.cl_sellTransactionId := None;
                             TradeHistoryService.cl_sellReason :=
                               Some (ForceCloseMessage msg) |} s)) d2
            else d2
        | None => d2
        end in
    set_processingTrades (processingTrades d3 ∖ {[id trade]}) d3.

(** One effect of an evaluation, carried out. *)
Definition perform (x : AgentLedgerTools.Outside) (closeTime : Z)
    (e : TradeWatcherService.Effect) (d : Desk) : Desk :=
  match e with
  | TradeWatcherService.GetCachedPrice _ | TradeWatcherService.HasPriceError _ => d
  | TradeWatcherService.ExecuteSell trade reason price =>
      executeSell x closeTime trade reason price d
  | TradeWatcherService.CloseTrade tradeId exitPrice_ exitAmount_ reason =>
      inHistory
        (fun s =>
           snd (TradeHistoryService.closeTrade closeTime
                  {| TradeHistoryService.tradeId := tradeId;
                     TradeHistoryService.cl_exitPrice := exitPrice_;
                     TradeHistoryService.cl_exitAmount := exitAmount_;
                     TradeHistoryService.cl_sellTransactionId := None;
                     TradeHistoryService.cl_sellReason := Some reason |} s)) d
  | TradeWatcherService.UpdateTrade trade =>
      inHistory (TradeHistoryService.updateTrade trade) d
  | TradeWatcherService.EmitPriceUpdate mint price =>
      {| ledger := ledger d; processingTrades := processingTrades d;
         priceEvents := priceEvents d ++ [(mint, price)] |}
  end.

(** [evaluateTrade(trade)], carried out. *)
Definition evaluateTrade (clock : TradeWatcherService.Clock) (feed : TradeWatcherService.PriceFeed)
    (x : AgentLedgerTools.Outside) (closeTime : Z) (trade : TradeHistoryEntry) (d : Desk)
  : Desk :=
  foldl (fun acc e => perform x closeTime e acc) d
    (TradeWatcherService.evaluateTrade clock feed trade).

(** What [processOpenTrades] does with one open trade: a trade whose sale
    is in flight is skipped. *)
Definition processOpenTrade (clock : TradeWatcherService.Clock)
    (feed : TradeWatcherService.PriceFeed) (x : AgentLedgerTools.Outside) (closeTime : Z)
    (trade : TradeHistoryEntry) (d : Desk) : Desk :=
  if bool_decide (id trade ∈ processingTrades d) then d
  else evaluateTrade clock feed x closeTime trade d.

End Loop.

End TradeWatcherLoop.

(** ** Buy execution over HTTP (TradeExecutor.ts, the variant with the
    duplicate check)

    This variant sends the swap to the API server, which queues it, and
    checks itself that the token was not bought before. *)
Module QueuedTradeExecutor.

Record WatchRequest : Type := {
  wr_takeProfitPercentage : number;
  wr_stopLossPercentage : number;
  wr_enableTrailingStop : bool;
  wr_trailingPercentage : option number
}.

Record HttpSwapRequest : Type := {
  tradeType : string;
  hs_mint : string;
  hs_amount : number;
  hs_watchConfig : WatchRequest
}.

Record HttpSwapResult : Type := {
  hr_success : bool;
  hr_jobId : option string;
  hr_message : option string;
  hr_error : option string
}.

(** The cache and the requests sent so far. *)
Record State : Type := {
  cache : RedisCacheService.Cache;
  requests : list HttpSwapRequest
}.

Section Executor.

(** [httpClient.performSwap]: the answer to the [n]-th request sent. *)
Variable performSwap : nat -> HttpSwapRequest -> Outcome HttpSwapResult.

Definition swapRequest (trade : TradeExecutor.TradeRequest) : HttpSwapRequest :=
  let risk := TradeExecutor.riskConfig trade in
  {| tradeType := "buy"; hs_mint := TradeExecutor.tokenMint trade;
     hs_amount := TradeExecutor.amount trade;
     hs_watchConfig :=
       {| wr_takeProfitPercentage := TradeExecutor.takeProfitPercentage risk;
          wr_stopLossPercentage := TradeExecutor.stopLossPercentage risk;
          wr_enableTrailingStop := TradeExecutor.trailingStopEnabled risk;
          wr_trailingPercentage :=
            if TradeExecutor.trailingStopEnabled risk
            then Some (TradeExecutor.stopLossPercentage risk) else None |} |}.

(** [execute(trade)]: duplicate check, swap, then the token is marked and
    its snapshot deleted.  A thrown error is reported by its message, which
    the source wraps in a fixed format. *)
Definition execute (now : Z) (trade : TradeExecutor.TradeRequest) (s : State)
  : TradeExecutor.TradeResult * State :=
  let tokenMint := TradeExecutor.tokenMint trade in
  if RedisCacheService.isTokenProcessed now tokenMint (cache s) then
    ({| TradeExecutor.success := false; TradeExecutor.tr_tokenMint := tokenMint;
        TradeExecutor.transactionSignature := None;
        TradeExecutor.error := Some "Token already processed - duplicate trade prevented" |}, s)
  else
    let request := swapRequest trade in
    let s1 := {| cache := cache s; requests := requests s ++ [request] |} in
    match performSwap (length (requests s)) request with
    | Thrown msg =>
        ({| TradeExecutor.success := false; TradeExecutor.tr_tokenMint := tokenMint;
            TradeExecutor.transactionSignature := None;
            TradeExecutor.error := Some msg |}, s1)
    | Returned r =>
        if negb (hr_success r) then
          ({| TradeExecutor.success := false; TradeExecutor.tr_tokenMint := tokenMint;
              TradeExecutor.transactionSignature := None;
              TradeExecutor.error :=
                Some (str_or (hr_error r) (str_or (hr_message r) "Swap execution failed")) |},
           s1)
        else
          ({| TradeExecutor.success := true; TradeExecutor.tr_tokenMint := tokenMint;
              TradeExecutor.transactionSignature := hr_jobId r;
              TradeExecutor.error := None |},
           {| cache :=
                RedisCacheService.deleteMindmapData tokenMint
                  (RedisCacheService.markTokenProcessed now tokenMint (cache s1));
              requests := requests s1 |})
    end.

End Executor.

End QueuedTradeExecutor.

(** * The arithmetic of the source, in double precision

    The sum, difference, product and quotient of two JavaScript numbers are
    those of IEEE 754 binary64: the exact result, rounded to the nearest
    double, and on a tie to the one whose significand is even.  A finite
    double is [k * 2 ^ u] with [|k| < 2 ^ 53] and [-1074 <= u]; a result that
    rounds to [2 ^ 1024] or beyond is an infinity.  A finite double is kept
    as the rational it denotes, so the comparisons of [JS] apply to it
    unchanged; the sign of zero is not kept. *)

Module Binary64.

(** [n / d] over [2 ^ u], as a fraction of integers. *)
Definition scaled (n d : positive) (u : Z) : Z * Z :=
  if 0 <=? u then (Zpos n, Z.shiftl (Zpos d) u) else (Z.shiftl (Zpos n) (- u), Zpos d).

(** The exponent [e] of [n / d]: [2 ^ e <= n / d < 2 ^ (e + 1)]. *)
Definition exponent (n d : positive) : Z :=
  let e := Z.log2 (Zpos n) - Z.log2 (Zpos d) in
  let (a, b) := scaled n d e in
  if b <=? a then e else e - 1.

(** The integer nearest to [a / b], the even one on a tie. *)
Definition nearest (a b : Z) : Z :=
  let k := a / b in
  match 2 * (a mod b) ?= b with
  | Lt => k
  | Gt => k + 1
  | Eq => if Z.even k then k else k + 1
  end.

(** The double nearest to [n / d]: 53 bits at the exponent of [n / d], fewer
    below [2 ^ -1022] where the spacing stays [2 ^ -1074]; [None] when the
    rounded value leaves the range. *)
Definition nearest_double (n d : positive) : option Qc :=
  let u := Z.max (exponent n d - 52) (-1074) in
  let (a, b) := scaled n d u in
  let k := nearest a b in
  if 0 <=? u then
    if 2 ^ 1024 <=? Z.shiftl k u then None else Some (Q2Qc (inject_Z (Z.shiftl k u)))
  else Some (Q2Qc (Qmake k (Z.to_pos (Z.shiftl 1 (- u))))).

(** Rounding is symmetric about zero. *)
Definition round64 (q : Qc) : number :=
  match Qnum (this q) with
  | Z0 => Fin q
  | Zpos n =>
      match nearest_double n (Qden (this q)) with Some m => Fin m | None => PInf end
  | Zneg n =>
      match nearest_double n (Qden (this q)) with Some m => Fin (- m)%Qc | None => NInf end
  end.

(** The special values are their own rounding. *)
Definition rnd (a : number) : number :=
  match a with
  | Fin q => round64 q
  | _ => a
  end.

Definition add (a b : number) : number := rnd (JS.add a b).
Definition sub (a b : number) : number := rnd (JS.sub a b).
Definition mul (a b : number) : number := rnd (JS.mul a b).
Definition div (a b : number) : number := rnd (JS.div a b).

(** A decimal literal of the source: the double nearest to [n / d]. *)
Definition ofQ (n : Z) (d : positive) : number := round64 (Q2Qc (Qmake n d)).

End Binary64.

(** ** The functions that compute, with the rounding of the source

    A JavaScript number is a double.  The modules above take the sum,
    difference, product and quotient of two numbers exactly; the functions
    below are those among them whose result depends on arithmetic, and
    their callers, with the same text: here [add], [sub], [mul], [div] and
    the decimal literals [ofQ] are those of [Binary64].  Records, and the
    functions that only compare, store or look up, are shared. *)
Module Rounded.

Import Binary64.

Module TradeWatcherService.

Import TradeWatcherService.

(** [updateTrailingStopLoss(trade, currentPrice)]: the stepped ratchet.  The
    source mutates [trade] in place; the model returns the mutated entry. *)
Definition updateTrailingStopLoss (trade : TradeHistoryEntry) (currentPrice : number)
  : TradeHistoryEntry * TrailingResult :=
  let conditions := sellConditions trade in
  if negb (truthy_opt (takeProfitPercentage conditions))
     || negb (truthy_opt (trailingStopPercentage conditions))
  then (trade, {| activated := false; updated := false |})
  else
    let raised :=
      negb (truthy_opt (highestPrice trade))
      || gtb currentPrice (toNumber (highestPrice trade)) in
    let trade1 := if raised then set_highestPrice (Some currentPrice) trade else trade in
    let tpPerc := div (toNumber (takeProfitPercentage conditions)) hundred in
    let trailPerc := div (toNumber (trailingStopPercentage conditions)) hundred in
    if negb (truthy_bool (trailingStopActivated conditions)) then
      let priceChangePercent :=
        mul (div (sub currentPrice (entryPrice trade)) (entryPrice trade)) hundred in
      if geb priceChangePercent (toNumber (takeProfitPercentage conditions)) then
        let c1 := set_trailingStopActivated (Some true) conditions in
        let c2 := set_stepLevel (Some one) c1 in
        let c3 := set_currStopPrice (Some (mul currentPrice (sub one trailPerc))) c2 in
        let c4 := set_nextTargetPrice (Some (mul currentPrice (add one tpPerc))) c3 in
        (set_sellConditions c4 trade1, {| activated := true; updated := true |})
      else (trade1, {| activated := false; updated := raised |})
    else if truthy_opt (nextTargetPrice conditions) then
      if geb currentPrice (toNumber (nextTargetPrice conditions)) then
        let oldLevel := or_else (stepLevel conditions) one in
        let c1 := set_stepLevel (Some (add oldLevel one)) conditions in
        let c2 := set_currStopPrice (Some (mul currentPrice (sub one trailPerc))) c1 in
        let c3 := set_nextTargetPrice (Some (mul currentPrice (add one tpPerc))) c2 in
        (set_sellConditions c3 trade1, {| activated := true; updated := true |})
      else (trade1, {| activated := true; updated := raised |})
    else (trade1, {| activated := true; updated := raised |}).

(** Minutes a trade has been held at wall-clock time [now] (milliseconds). *)
Definition holdTimeMinutes (now : Z) (trade : TradeHistoryEntry) : number :=
  div (ofZ (now - openedAt trade)) (ofZ (1000 * 60)).

(** [checkSellConditions(trade, currentPrice)]: the first matching rule, or
    [None] for [{ shouldSell: false }]. *)
Definition checkSellConditions (now : Z) (trade : TradeHistoryEntry) (currentPrice : number)
  : option SellReason :=
  let conditions := sellConditions trade in
  let entry := entryPrice trade in
  let priceChangePercent :=
    if gtb entry zero then mul (div (sub currentPrice entry) entry) hundred else zero in
  let hold := holdTimeMinutes now trade in
  if truthy_opt (maxHoldTimeMinutes conditions)
     && geb hold (toNumber (maxHoldTimeMinutes conditions))
  then Some (MaxHoldTimeReached hold)
  else if truthy_opt (stopLossPercentage conditions)
          && leb priceChangePercent (neg (toNumber (stopLossPercentage conditions)))
  then Some (StopLossTriggered priceChangePercent)
  else if truthy_opt (takeProfitPercentage conditions)
          && negb (truthy_opt (trailingStopPercentage conditions))
          && geb priceChangePercent (toNumber (takeProfitPercentage conditions))
  then Some (TakeProfitReached priceChangePercent)
  else if truthy_bool (trailingStopActivated conditions)
          && truthy_opt (currStopPrice conditions)
  then
    if leb currentPrice (toNumber (currStopPrice conditions)) then
      let profitPerc := mul (div (sub currentPrice entry) entry) hundred in
      Some (SteppedStopTriggered profitPerc (toNumber (currStopPrice conditions)))
    else None
  else if truthy_opt (trailingStopPercentage conditions)
          && negb (truthy_opt (takeProfitPercentage conditions))
          && truthy_opt (highestPrice trade)
  then
    let trailingDropPercent :=
      mul (div (sub currentPrice (toNumber (highestPrice trade)))
               (toNumber (highestPrice trade))) hundred in
    if leb trailingDropPercent (neg (toNumber (trailingStopPercentage conditions)))
    then Some (TrailingStopTriggered trailingDropPercent)
    else None
  else None.

(** [evaluateTrade(trade)]. *)
Definition evaluateTrade (clock : Clock) (feed : PriceFeed) (trade : TradeHistoryEntry)
  : list Effect :=
  let hold := holdTimeMinutes (atStart clock) trade in
  let maxHold := maxHoldTimeMinutes (sellConditions trade) in
  if truthy_opt maxHold && geb hold (toNumber maxHold) then
    [GetCachedPrice (tokenMint trade);
     ExecuteSell trade (MaxHoldTimeReached hold) (or_else (cachedPrice feed) zero)]
  else
    match cachedPrice feed with
    | None =>
        if priceError feed then
          [GetCachedPrice (tokenMint trade); HasPriceError (tokenMint trade);
           CloseTrade (id trade) zero (entryAmount trade) ForceClosePricingError]
        else [GetCachedPrice (tokenMint trade); HasPriceError (tokenMint trade)]
    | Some currentPrice =>
        let t1 := set_currentPrice (Some currentPrice) trade in
        let t2 := set_lastPriceUpdate (Some (atPriceUpdate clock)) t1 in
        let t3 :=
          if negb (truthy_opt (highestPrice t2))
             || gtb currentPrice (toNumber (highestPrice t2))
          then set_highestPrice (Some currentPrice) t2 else t2 in
        let t4 :=
          if negb (truthy_opt (lowestPrice t3))
             || ltb currentPrice (toNumber (lowestPrice t3))
          then set_lowestPrice (Some currentPrice) t3 else t3 in
        let t5 := fst (updateTrailingStopLoss t4 currentPrice) in
        [GetCachedPrice (tokenMint trade); UpdateTrade t5;
         EmitPriceUpdate (tokenMint trade) currentPrice]
        ++ match checkSellConditions (atSellCheck clock) t5 currentPrice with
           | Some reason => [ExecuteSell t5 reason currentPrice]
           | None => []
           end
    end.

End TradeWatcherService.

Module TradeHistoryService.

Import TradeHistoryService.

(** [createTrade(params)]; [tradeId] stands for the generated
    [trade_<time>_<random>] and [now] for [new Date()]. *)
Definition createTrade (tradeId : string) (now : Z) (params : CreateParams) (s : Store)
  : TradeHistoryEntry * Store :=
  let trade :=
    {| id := tradeId; agentId := cp_agentId params; tokenMint := cp_tokenMint params;
       isSimulation := Some (truthy_bool (cp_isSimulation params));
       prediction := cp_prediction params;
       status := open; openedAt := now; closedAt := None;
       entryPrice := cp_entryPrice params; entryAmount := cp_entryAmount params;
       entryValue := mul (cp_entryPrice params) (cp_entryAmount params);
       buyTransactionId := cp_buyTransactionId params;
       exitPrice := None; exitAmount := None; exitValue := None;
       sellTransactionId := None; sellReason := None;
       realizedPnL := None; realizedPnLPercentage := None;
       highestPrice := Some (cp_entryPrice params);
       lowestPrice := Some (cp_entryPrice params);
       currentPrice := Some (cp_entryPrice params);
       lastPriceUpdate := Some now;
       sellConditions := default no_conditions (cp_sellConditions params);
       ledgerId := cp_ledgerId params; originalTradeId := cp_originalTradeId params;
       watchJobId := cp_watchJobId params;
       tags := default [] (cp_tags params); notes := None;
       createdAt := now; updatedAt := now |} in
  (trade, emit (BroadcastTradeUpdate trade) (storeTrade trade s)).

(** [closeTrade(params)]: [None] is the [null] the source returns. *)
Definition closeTrade (now : Z) (params : CloseParams) (s : Store)
  : option TradeHistoryEntry * Store :=
  match getTrade (tradeId params) s with
  | None => (None, s)
  | Some trade =>
      let t1 := set_status closed trade in
      let t2 := set_closedAt (Some now) t1 in
      let t3 := set_exitPrice (Some (cl_exitPrice params)) t2 in
      let t4 := set_exitAmount (Some (cl_exitAmount params)) t3 in
      let exitValue_ := mul (cl_exitPrice params) (cl_exitAmount params) in
      let t5 := set_exitValue (Some exitValue_) t4 in
      let t6 :=
        match cl_sellTransactionId params with
        | Some tx => set_sellTransactionId (Some tx) t5
        | None => t5
        end in
      let t7 :=
        match cl_sellReason params with
        | Some r => set_sellReason (Some r) t6
        | None => t6
        end in
      let pnl := sub exitValue_ (entryValue t7) in
      let t8 := set_realizedPnL (Some pnl) t7 in
      let t9 := set_realizedPnLPercentage (Some (mul (div pnl (entryValue t8)) hundred)) t8 in
      let t10 := set_updatedAt now t9 in
      (Some t10, emit (BroadcastTradeUpdate t10) (storeTrade t10 s))
  end.

End TradeHistoryService.

Module MindmapFilterEngine.

Import MindmapFilterEngine.

Definition calculateTotalVolume (d : MindmapData) : number :=
  fold_left (fun acc kc => add acc (totalVolume (snd kc))) (kolConnections d) zero.

Definition calculateAvgInfluenceScore (d : MindmapData) : number :=
  match kolConnections d with
  | [] => zero
  | _ =>
      div (fold_left (fun acc kc => add acc (influenceScore (snd kc))) (kolConnections d) zero)
          (ofZ (Z.of_nat (length (kolConnections d))))
  end.

(** [calculateViralVelocity]: connections whose last trade is later than one
    minute before [now] (milliseconds). *)
Definition calculateViralVelocity (now : Z) (d : MindmapData) : number :=
  let oneMinuteAgo := now - 60000 in
  fold_left
    (fun acc kc => if oneMinuteAgo <? lastTradeTime (snd kc) then add acc one else acc)
    (kolConnections d) zero.

Definition calculateWeightedVolume (d : MindmapData) : number :=
  fold_left
    (fun acc kc => add acc (mul (totalVolume (snd kc)) (div (influenceScore (snd kc)) hundred)))
    (kolConnections d) zero.

Definition calculateConsensus (d : MindmapData) : number :=
  let buyingKOLs :=
    fold_left (fun acc kc => if includes "buy" (tradeTypes (snd kc)) then add acc one else acc)
      (kolConnections d) zero in
  let totalKOLs := fold_left (fun acc _ => add acc one) (kolConnections d) zero in
  if eqb totalKOLs zero then zero else mul (div buyingKOLs totalKOLs) hundred.

(** The signals of a snapshot, in the order the source pushes them. *)
Definition detectSignals (criteria : FilterCriteria) (now : Z) (d : MindmapData) : list Signal :=
  let totalVolume_ := calculateTotalVolume d in
  let connectedKOLs := countConnectedKOLs d in
  let viralVelocity := calculateViralVelocity now d in
  let weightedVolume := calculateWeightedVolume d in
  let consensusScore := calculateConsensus d in
  (if truthy_opt (minViralVelocity criteria)
      && geb viralVelocity (toNumber (minViralVelocity criteria))
   then [VIRAL_SPIKE] else [])
  ++ (if truthy_bool (requireSmartMoney criteria)
         && gtb weightedVolume (mul totalVolume_ (ofQ 6 10))
      then [SMART_MONEY] else [])
  ++ (if truthy_opt (minConsensusScore criteria)
         && geb consensusScore (toNumber (minConsensusScore criteria))
         && geb connectedKOLs (ofZ 3)
      then [HIGH_CONSENSUS] else []).

(** The market-cap and liquidity block of [evaluate]; [None] when it lets
    the token through. *)
Definition onChainChecks (criteria : FilterCriteria) (chain : ChainView) (m : Metrics)
  : option FilterResult :=
  if gtb (toNumber (minMarketCapUsd criteria)) zero
     || gtb (toNumber (minLiquidityUsd criteria)) zero
  then
    let priced :=
      if truthy_opt (cachedPrice chain) then Returned (cachedPrice chain)
      else priceAfterDiscovery chain in
    match priced with
    | Thrown msg => Some (reject (OnChainVerificationError msg) m None)
    | Returned price =>
        if negb (truthy_opt price) then Some (reject NoOnChainPrice m None)
        else if gtb (toNumber (minMarketCapUsd criteria)) zero then
          match tokenSupply chain with
          | Thrown msg => Some (reject (OnChainVerificationError msg) m None)
          | Returned (success, total_supply) =>
              if negb success || eqb total_supply zero
              then Some (reject NoTokenSupply m None)
              else
                match solPriceUsd chain with
                | Thrown msg => Some (reject (OnChainVerificationError msg) m None)
                | Returned sol =>
                    let marketCapUsd := mul (mul (toNumber price) sol) total_supply in
                    if ltb marketCapUsd (toNumber (minMarketCapUsd criteria))
                    then Some (reject (MarketCapBelowMinimum marketCapUsd
                                         (toNumber (minMarketCapUsd criteria))) m None)
                    else None
                end
          end
        else None
    end
  else None.

(** [evaluate(mindmapData)] at wall-clock time [now]. *)
Definition evaluate (criteria : FilterCriteria) (now : Z) (chain : ChainView) (d : MindmapData)
  : FilterResult :=
  if String.eqb (tokenMint d) NATIVE_SOL_ADDRESS then
    reject NativeSol
      {| m_totalVolume := zero; m_connectedKOLs := zero; m_avgInfluenceScore := zero;
         m_totalTrades := zero; m_viralVelocity := None; m_weightedVolume := None;
         m_consensusScore := None |} None
  else
    let totalVolume_ := calculateTotalVolume d in
    let connectedKOLs := countConnectedKOLs d in
    let avgInfluenceScore := calculateAvgInfluenceScore d in
    let totalTrades_ := totalTrades (networkMetrics d) in
    let signals_ := detectSignals criteria now d in
    let metrics_ :=
      {| m_totalVolume := totalVolume_; m_connectedKOLs := connectedKOLs;
         m_avgInfluenceScore := avgInfluenceScore; m_totalTrades := totalTrades_;
         m_viralVelocity := Some (calculateViralVelocity now d);
         m_weightedVolume := Some (calculateWeightedVolume d);
         m_consensusScore := Some (calculateConsensus d) |} in
    let hasStrongSignal := negb (Nat.eqb (length signals_) 0) in
    if negb hasStrongSignal && ltb totalVolume_ (minTradeVolume criteria) then
      reject (VolumeBelowMinimum totalVolume_ (minTradeVolume criteria)) metrics_ (Some signals_)
    else if negb hasStrongSignal && ltb connectedKOLs (minConnectedKOLs criteria) then
      reject (ConnectedKOLsBelowMinimum connectedKOLs (minConnectedKOLs criteria))
        metrics_ (Some signals_)
    else if negb hasStrongSignal && ltb totalTrades_ (minTotalTrades criteria) then
      reject (TotalTradesBelowMinimum totalTrades_ (minTotalTrades criteria))
        metrics_ (Some signals_)
    else if ltb avgInfluenceScore (minInfluenceScore criteria) then
      reject (InfluenceBelowMinimum avgInfluenceScore (minInfluenceScore criteria))
        metrics_ (Some signals_)
    else
      match onChainChecks criteria chain metrics_ with
      | Some rejected => rejected
      | None => {| passed := true; reason := None; metrics := metrics_;
                   signals := Some signals_ |}
      end.

End MindmapFilterEngine.

Module PaperWalletService.

Import PaperWalletService.

(** [deposit(mint, amount)]: returns the new balance. *)
Definition deposit (mint : string) (amount : number) (w : Wallet) : number * Wallet :=
  let newBalance := add (getBalance mint w) amount in
  (newBalance, set_balance mint newBalance w).

Section Withdraw.

Variable show : number -> string.

(** [withdraw(mint, amount)]: throws when the balance is short. *)
Definition withdraw (mint : string) (amount : number) (w : Wallet) : Outcome number * Wallet :=
  let current := getBalance mint w in
  if ltb current amount then
    (Thrown ("Insufficient paper funds for " +:+ mint +:+ ". Required: " +:+ show amount
             +:+ ", Available: " +:+ show current), w)
  else
    let newBalance := sub current amount in
    (Returned newBalance, set_balance mint newBalance w).

End Withdraw.

End PaperWalletService.

Module AgentLedgerTools.

Import AgentLedgerTools.

(** [getDynamicPriorityFee()], in SOL. *)
Definition getDynamicPriorityFee (x : Outside) (l : Ledger) : number * Ledger :=
  if gtb (lastPriorityFee l) zero
     && (dateNow x - lastPriorityFeeTime l <? PRIORITY_FEE_CACHE_TTL_MS)
  then (lastPriorityFee l, l)
  else
    match recentFees x with
    | Thrown _ =>
        (if gtb (lastPriorityFee l) zero then lastPriorityFee l else ofQ 5 10000, l)
    | Returned None | Returned (Some []) => (ofQ 5 10000, l)
    | Returned (Some samples) =>
        match percentileFee samples with
        | None => (ofQ 5 10000, l)
        | Some feeMicroLamports =>
            let feeInSol :=
              div (mul (ofZ feeMicroLamports) (ofQ 1 1000000)) (ofZ 1000000000) in
            let cappedFee := mathMin (mathMax feeInSol (ofQ 1 10000)) (ofQ 1 100) in
            (cappedFee,
             {| wallet := wallet l; history := history l; lastPriorityFee := cappedFee;
                lastPriorityFeeTime := dateNow x; sent := sent l |})
        end
    end.

(** The [createTrade] call that records a buy. *)
Definition recordBuy (env : Env) (x : Outside) (params : SwapParams)
    (response : option SwapResponse) (buyTxid : option string) (simulated : option bool)
    (l : Ledger) : Ledger :=
  let rate_ := match response with Some r => rate r | None => None end in
  let field (f : Rate -> option number) : option number :=
    match rate_ with Some r => f r | None => None end in
  set_history
    (snd (TradeHistoryService.createTrade (newTradeId x) (dateNow x)
            {| TradeHistoryService.cp_agentId := str_or (AGENT_ID env) "default_agent";
               TradeHistoryService.cp_tokenMint := mint params;
               TradeHistoryService.cp_entryPrice := or_else (field executionPrice) zero;
               TradeHistoryService.cp_entryAmount := or_else (field amountOut) zero;
               TradeHistoryService.cp_buyTransactionId := Some (str_or buyTxid "");
               TradeHistoryService.cp_ledgerId := None;
               TradeHistoryService.cp_originalTradeId := None;
               TradeHistoryService.cp_watchJobId := None;
               TradeHistoryService.cp_sellConditions :=
                 Some (sellConditionsOf env (watchConfig params));
               TradeHistoryService.cp_tags := None;
               TradeHistoryService.cp_prediction := prediction params;
               TradeHistoryService.cp_isSimulation := simulated |}
            (history l))) l.

Definition MOCK_FEE : number := ofQ 5 1000000.
Definition TOLERANCE : number := ofQ 1 1000000000.

Section Messages.

Variable show : number -> string.
Variable toFixed4 : number -> string.

(** [validateTradeBalanceMock]. *)
Definition validateTradeBalanceMock (params : SwapParams) (l : Ledger) : Validation :=
  match action params with
  | buy =>
      let solBalance_ := PaperWalletService.getBalance "SOL" (wallet l) in
      if ltb solBalance_ (amount params) then
        {| v_success := false;
           v_message := "Insufficient Paper SOL. Required: " +:+ show (amount params)
                        +:+ ", Available: " +:+ show solBalance_;
           v_available := Some solBalance_ |}
      else
        {| v_success := true;
           v_message := "Paper Balance validated. Available: " +:+ show solBalance_;
           v_available := Some solBalance_ |}
  | sell =>
      let tokenBalance_ := PaperWalletService.getBalance (mint params) (wallet l) in
      if ltb tokenBalance_ (sub (amount params) TOLERANCE) then
        {| v_success := false;
           v_message := "Insufficient Paper Token Balance. Required: " +:+ show (amount params)
                        +:+ ", Available: " +:+ show tokenBalance_;
           v_available := Some tokenBalance_ |}
      else
        {| v_success := true;
           v_message := "Paper Token Balance validated. Available: " +:+ show tokenBalance_;
           v_available := Some tokenBalance_ |}
  end.

(** [performSwapMock]: the paper trade. *)
Definition performSwapMock (env : Env) (x : Outside) (params : SwapParams) (l : Ledger)
  : LedgerResult * Ledger :=
  if eqb (amount params) zero then
    (failure (Some "Amount must be greater than 0"), l)
  else
    match tokenPrice x with
    | Thrown msg => (failure (Some msg), l)
    | Returned None => (failure (Some "Could not fetch token price for simulation"), l)
    | Returned (Some currentPrice) =>
        let paid (amountIn_ amountOut_ : number) (l' : Ledger) : LedgerResult * Ledger :=
          let response :=
            {| rate := Some {| amountIn := Some amountIn_; amountOut := Some amountOut_;
                               executionPrice := Some currentPrice |};
               txid := Some (simTxid x); transactionId := None |} in
          let l'' :=
            match action params with
            | buy => recordBuy env x params (Some response) (Some (simDataTxid x)) (Some true) l'
            | sell => l'
            end in
          ({| success := true; message := Some "Paper Swap successful";
              data := Some {| swapResponse := Some response;
                              entryPrice := or_else (Some currentPrice) zero |} |}, l'') in
        match action params with
        | buy =>
            let solBalance_ := PaperWalletService.getBalance "SOL" (wallet l) in
            if ltb solBalance_ (add (amount params) MOCK_FEE) then
              (failure (Some ("Insufficient Paper SOL. Required: " +:+ show (amount params)
                              +:+ ", Available: " +:+ show solBalance_)), l)
            else
              match PaperWalletService.withdraw show "SOL" (add (amount params) MOCK_FEE)
                      (wallet l) with
              | (Thrown msg, _) => (failure (Some msg), l)
              | (Returned _, w1) =>
                  let amountOut_ := div (amount params) currentPrice in
                  let w2 := snd (PaperWalletService.deposit (mint params) amountOut_ w1) in
                  paid (amount params) amountOut_ (set_wallet w2 l)
              end
        | sell =>
            let tokenBalance_ := PaperWalletService.getBalance (mint params) (wallet l) in
            if ltb tokenBalance_ (sub (amount params) TOLERANCE) then
              (failure (Some ("Insufficient Paper Token Balance. Required: "
                              +:+ show (amount params) +:+ ", Available: "
                              +:+ show tokenBalance_)), l)
            else
              match PaperWalletService.withdraw show (mint params) (amount params)
                      (wallet l) with
              | (Thrown msg, _) => (failure (Some msg), l)
              | (Returned _, w1) =>
                  let amountOut_ := mul (amount params) currentPrice in
                  let w2 :=
                    snd (PaperWalletService.deposit "SOL" (sub amountOut_ MOCK_FEE) w1) in
                  paid (amount params) amountOut_ (set_wallet w2 l)
              end
        end
    end.

(** The live swap, once the balance is validated; [None] stands for an
    exception, which [performSwap] catches. *)
Definition liveSwap (env : Env) (x : Outside) (params : SwapParams) (validated : Validation)
    (l : Ledger) : option LedgerResult * Ledger :=
  let totalAmount : option number :=
    match action params with
    | sell =>
        match v_available validated with
        | Some available => Some available
        | None =>
            match tokenBalance x with
            | Thrown _ => None
            | Returned tb =>
                match tb_balance tb with
                | Some held => Some (if tb_status tb then held else zero)
                | None => Some zero
                end
            end
        end
    | buy => Some (amount params)
    end in
  match totalAmount with
  | None => (None, l)
  | Some total =>
      if eqb total zero then (Some (failure (Some "No token balance found")), l)
      else
        let (fee, l1) := getDynamicPriorityFee x l in
        let options :=
          {| fromToken := match action params with buy => NATIVE_MINT | sell => mint params end;
             toToken := match action params with buy => mint params | sell => NATIVE_MINT end;
             so_amount := total; slippage := ofZ 30; priorityFee := fee |} in
        let l2 :=
          {| wallet := wallet l1; history := history l1;
             lastPriorityFee := lastPriorityFee l1;
             lastPriorityFeeTime := lastPriorityFeeTime l1; sent := sent l1 ++ [options] |} in
        match clientSwap x options with
        | Thrown _ => (None, l2)
        | Returned answer =>
            if negb (cr_success answer) then (Some (failure (cr_message answer)), l2)
            else
              let response := cr_swapResponse answer in
              let l3 :=
                match action params with
                | buy => recordBuy env x params response (cr_txid answer) None l2
                | sell => l2
                end in
              let price :=
                match response with
                | Some r => match rate r with Some q => executionPrice q | None => None end
                | None => None
                end in
              (Some {| success := true; message := Some "Swap successful";
                       data := Some {| swapResponse := response;
                                       entryPrice := or_else price zero |} |}, l3)
        end
  end.

(** [performSwap]: validation, then the paper trade or the live swap.  An
    exception is answered by a failure whose message is read from a
    property the error does not have. *)
Definition performSwap (env : Env) (x : Outside) (params : SwapParams) (l : Ledger)
  : LedgerResult * Ledger :=
  let validated :=
    if SIMULATING env then validateTradeBalanceMock params l
    else validateTradeBalance show toFixed4 x params in
  if negb (v_success validated) then (failure (Some (v_message validated)), l)
  else if SIMULATING env then
    let amount_ :=
      match v_available validated with
      | Some available =>
          if ltb available (amount params) && bool_decide (action params = sell)
          then available else amount params
      | None => amount params
      end in
    performSwapMock env x (with_amount amount_ params) l
  else
    match liveSwap env x params validated l with
    | (Some result, l') => (result, l')
    | (None, l') => (failure None, l')
    end.

End Messages.

End AgentLedgerTools.

Module TradeWatcherLoop.

Import TradeWatcherLoop.

Section Loop.

Variable show : number -> string.
Variable toFixed4 : number -> string.
Variable env : AgentLedgerTools.Env.

(** [executeSell(trade, reason, currentPrice)]; [x] is what the outside
    answers during the swap and [closeTime] the instant of the close. *)
Definition executeSell (x : AgentLedgerTools.Outside) (closeTime : Z)
    (trade : TradeHistoryEntry) (reason : SellReason) (currentPrice : number) (d : Desk)
  : Desk :=
  if bool_decide (id trade ∈ processingTrades d) then d
  else
    let d1 := set_processingTrades (processingTrades d ∪ {[id trade]}) d in
    let (result, l1) :=
      AgentLedgerTools.performSwap show toFixed4 env x
        {| AgentLedgerTools.amount := entryAmount trade;
           AgentLedgerTools.action := AgentLedgerTools.sell;
           AgentLedgerTools.mint := tokenMint trade;
           AgentLedgerTools.watchConfig := None;
           AgentLedgerTools.prediction := None |} (ledger d1) in
    let d2 := set_ledger l1 d1 in
    let d3 :=
      if AgentLedgerTools.success result then
        let response :=
          match AgentLedgerTools.data result with
          | Some sd => AgentLedgerTools.swapResponse sd
          | None => None
          end in
        let rate_ :=
          match response with Some r => AgentLedgerTools.rate r | None => None end in
        let txId :=
          str_or (match response with Some r => AgentLedgerTools.txid r | None => None end)
            (str_or
               (match response with
                | Some r => AgentLedgerTools.transactionId r
                | None => None
                end) "unknown_tx") in
        let exitPrice_ :=
          or_else (match rate_ with Some q => AgentLedgerTools.executionPrice q | None => None end)
            (or_else (Some currentPrice) zero) in
        let exitAmount_ :=
          or_else (match rate_ with Some q => AgentLedgerTools.amountIn q | None => None end)
            (entryAmount trade) in
        inHistory
          (fun s =>
             snd (TradeHistoryService.closeTrade closeTime
                    {| TradeHistoryService.tradeId := id trade;
                       TradeHistoryService.cl_exitPrice := exitPrice_;
                       TradeHistoryService.cl_exitAmount := exitAmount_;
                       TradeHistoryService.cl_sellTransactionId := Some txId;
                       TradeHistoryService.cl_sellReason := Some reason |} s)) d2
      else
        match AgentLedgerTools.message result with
        | Some msg =>
            if negb (String.eqb msg "") && signalsMissingBalance msg then
              inHistory
                (fun s =>
                   snd (TradeHistoryService.closeTrade closeTime
                          {| TradeHistoryService.tradeId := id trade;
                             TradeHistoryService.cl_exitPrice :=
                               or_else (Some currentPrice) zero;
                             TradeHistoryService.cl_exitAmount := zero;
                             TradeHistoryService.cl_sellTransactionId := None;
                             TradeHistoryService.cl_sellReason :=
                               Some (ForceCloseMessage msg) |} s)) d2
            else d2
        | None => d2
        end in
    set_processingTrades (processingTrades d3 ∖ {[id trade]}) d3.

(** One effect of an evaluation, carried out. *)
Definition perform (x : AgentLedgerTools.Outside) (closeTime : Z)
    (e : TradeWatcherService.Effect) (d : Desk) : Desk :=
  match e with
  | TradeWatcherService.GetCachedPrice _ | TradeWatcherService.HasPriceError _ => d
  | TradeWatcherService.ExecuteSell trade reason price =>
      executeSell x closeTime trade reason price d
  | TradeWatcherService.CloseTrade tradeId exitPrice_ exitAmount_ reason =>
      inHistory
        (fun s =>
           snd (TradeHistoryService.closeTrade closeTime
                  {| TradeHistoryService.tradeId := tradeId;
                     TradeHistoryService.cl_exitPrice := exitPrice_;
                     TradeHistoryService.cl_exitAmount := exitAmount_;
                     TradeHistoryService.cl_sellTransactionId := None;
                     TradeHistoryService.cl_sellReason := Some reason |} s)) d
  | TradeWatcherService.UpdateTrade trade =>
      inHistory (TradeHistoryService.updateTrade trade) d
  | TradeWatcherService.EmitPriceUpdate mint price =>
      {| ledger := ledger d; processingTrades := processingTrades d;
         priceEvents := priceEvents d ++ [(mint, price)] |}
  end.

(** [evaluateTrade(trade)], carried out. *)
Definition evaluateTrade (clock : TradeWatcherService.Clock) (feed : TradeWatcherService.PriceFeed)
    (x : AgentLedgerTools.Outside) (closeTime : Z) (trade : TradeHistoryEntry) (d : Desk)
  : Desk :=
  foldl (fun acc e => perform x closeTime e acc) d
    (TradeWatcherService.evaluateTrade clock feed trade).

(** What [processOpenTrades] does with one open trade: a trade whose sale
    is in flight is skipped. *)
Definition processOpenTrade (clock : TradeWatcherService.Clock)
    (feed : TradeWatcherService.PriceFeed) (x : AgentLedgerTools.Outside) (closeTime : Z)
    (trade : TradeHistoryEntry) (d : Desk) : Desk :=
  if bool_decide (id trade ∈ processingTrades d) then d
  else evaluateTrade clock feed x closeTime trade d.

End Loop.

End TradeWatcherLoop.

End Rounded.
(** * Auxiliary definitions *)

(** ** Decidable equality, to evaluate the model on concrete inputs *)

Global Instance Qc_eq_decision : EqDecision Qc.
Proof.
  intros x y. destruct (Qeq_bool (this x) (this y)) eqn:E.
  - left. apply Qc_is_canon, Qeq_bool_iff, E.
  - right. intros ->.
    rewrite (proj2 (Qeq_bool_iff _ _) (Qeq_refl _)) in E. discriminate.
Defined.

Global Instance number_eq_decision : EqDecision number.
Proof. solve_decision. Defined.

Global Instance SellConditions_eq_decision : EqDecision SellConditions.
Proof. solve_decision. Defined.

Global Instance SellReason_eq_decision : EqDecision SellReason.
Proof. solve_decision. Defined.

Global Instance PredictionInfo_eq_decision : EqDecision PredictionInfo.
Proof. solve_decision. Defined.

Global Instance TradeHistoryEntry_eq_decision : EqDecision TradeHistoryEntry.
Proof. solve_decision. Defined.

Global Instance Effect_eq_decision : EqDecision TradeWatcherService.Effect.
Proof. solve_decision. Defined.

(** The rational behind an integer literal. *)
Definition qc (z : Z) : Qc := Q2Qc (inject_Z z).

(** ** The stepped trailing stop *)
Section SteppedTrailing.

Import TradeWatcherService.

(** The percentage change [updateTrailingStopLoss] compares with the
    take-profit level. *)
Definition priceChange (t : TradeHistoryEntry) (p : number) : number :=
  mul (div (sub p (entryPrice t)) (entryPrice t)) hundred.

(** The percentage change [checkSellConditions] uses for its stop-loss and
    take-profit rules. *)
Definition guardedPriceChange (t : TradeHistoryEntry) (p : number) : number :=
  if gtb (entryPrice t) zero then priceChange t p else zero.

(** The rule [checkSellConditions] tries first. *)
Definition maxHoldRule (now : Z) (t : TradeHistoryEntry) : bool :=
  truthy_opt (maxHoldTimeMinutes (sellConditions t))
  && geb (holdTimeMinutes now t) (toNumber (maxHoldTimeMinutes (sellConditions t))).

Definition isSteppedStop (r : option SellReason) : bool :=
  match r with
  | Some (SteppedStopTriggered _ _) => true
  | _ => false
  end.

(** The watcher's successive calls of [updateTrailingStopLoss] on one trade. *)
Definition watch (prices : list number) (t : TradeHistoryEntry) : TradeHistoryEntry :=
  fold_left (fun t p => fst (updateTrailingStopLoss t p)) prices t.

(** Scenario S1: entry 100, amount 100, take profit 50%, trailing stop 10%. *)
Definition s1_conditions : SellConditions :=
  {| takeProfitPercentage := Some (ofZ 50); stopLossPercentage := None;
     trailingStopPercentage := Some (ofZ 10); trailingStopActivated := None;
     maxHoldTimeMinutes := None; stepLevel := None;
     nextTargetPrice := None; currStopPrice := None |}.

Definition s1_params : TradeHistoryService.CreateParams :=
  {| TradeHistoryService.cp_agentId := "agent";
     TradeHistoryService.cp_tokenMint := "MINT";
     TradeHistoryService.cp_entryPrice := ofZ 100;
     TradeHistoryService.cp_entryAmount := ofZ 100;
     TradeHistoryService.cp_buyTransactionId := None;
     TradeHistoryService.cp_ledgerId := None;
     TradeHistoryService.cp_originalTradeId := None;
     TradeHistoryService.cp_watchJobId := None;
     TradeHistoryService.cp_sellConditions := Some s1_conditions;
     TradeHistoryService.cp_tags := None;
     TradeHistoryService.cp_prediction := None;
     TradeHistoryService.cp_isSimulation := None |}.

Definition s1_position : TradeHistoryEntry :=
  fst (TradeHistoryService.createTrade "trade_s1" 0 s1_params
         TradeHistoryService.empty_store).

End SteppedTrailing.

(** ** Positions used to evaluate the watcher *)
Section WatcherScenarios.

Import TradeWatcherService.

(** A position recorded with entry price 0, as [performSwap] does when the
    swap response carries no execution price ([executionPrice || 0]); take
    profit 50%, trailing stop 10%. *)
Definition zero_entry_params : TradeHistoryService.CreateParams :=
  {| TradeHistoryService.cp_agentId := "agent";
     TradeHistoryService.cp_tokenMint := "MINT";
     TradeHistoryService.cp_entryPrice := zero;
     TradeHistoryService.cp_entryAmount := ofZ 100;
     TradeHistoryService.cp_buyTransactionId := None;
     TradeHistoryService.cp_ledgerId := None;
     TradeHistoryService.cp_originalTradeId := None;
     TradeHistoryService.cp_watchJobId := None;
     TradeHistoryService.cp_sellConditions := Some s1_conditions;
     TradeHistoryService.cp_tags := None;
     TradeHistoryService.cp_prediction := None;
     TradeHistoryService.cp_isSimulation := None |}.

Definition zero_entry_position : TradeHistoryEntry :=
  fst (TradeHistoryService.createTrade "trade_zero" 0 zero_entry_params
         TradeHistoryService.empty_store).

(** Scenario S3: opened at [t0 = 0] with a 60-minute hold limit. *)
Definition s3_position : TradeHistoryEntry :=
  set_sellConditions
    {| takeProfitPercentage := Some (ofZ 50); stopLossPercentage := Some (ofZ 20);
       trailingStopPercentage := Some (ofZ 10); trailingStopActivated := None;
       maxHoldTimeMinutes := Some (ofZ 60); stepLevel := None;
       nextTargetPrice := None; currStopPrice := None |} s1_position.

(** One hour after [t0], with no price in the cache and the token in the
    negative cache. *)
Definition s3_clock : Clock :=
  {| atStart := 3600000; atPriceUpdate := 3600000; atSellCheck := 3600000 |}.

Definition dead_feed : PriceFeed := {| cachedPrice := None; priceError := true |}.

End WatcherScenarios.

(** ** Snapshots and criteria used to evaluate the filter *)
Section FilterScenarios.

Import MindmapFilterEngine.



(** Scenario S4: an actor that traded at [now], with influence 60 and
    volume 100. *)
Definition s4_connection (now : Z) (wallet : string) : KOLConnection :=
  {| kolWallet := wallet; tradeCount := one; totalVolume := ofZ 100;
     lastTradeTime := now; influenceScore := ofZ 60; tradeTypes := ["buy"%string] |}.

Definition s4_snapshot (now : Z) : MindmapData :=
  {| tokenMint := "TokenS4";
     kolConnections :=
       map (fun w => (w, s4_connection now w))
         ["KOL1"; "KOL2"; "KOL3"; "KOL4"; "KOL5"]%string;
     relatedTokens := [];
     networkMetrics := {| centrality := zero; clustering := zero; totalTrades := ofZ 10 |};
     lastUpdate := now |}.



End FilterScenarios.

(** ** Stores used to evaluate the position store *)
Section StoreScenarios.

Import TradeHistoryService.

(** A store holding one open position recorded with entry price 0. *)
Definition zero_entry_store : Store :=
  snd (createTrade "trade_zero" 0 zero_entry_params empty_store).

(** A store holding the open position of scenario S1 (entry price 100). *)
Definition s1_store : Store :=
  snd (createTrade "trade_s1" 0 s1_params empty_store).

(** The price extrema recorded for a position. *)
Definition extrema (tradeId : string) (s : Store) : option (option number * option number) :=
  match getTrade tradeId s with
  | Some t => Some (highestPrice t, lowestPrice t)
  | None => None
  end.

End StoreScenarios.

(** ** The states of the ratchet *)
Section RatchetStates.

Local Open Scope Qc_scope.

(** A price as the watcher receives it: a positive real, or the 0 that
    stands for a price it does not know. *)
Definition price (p : number) : Prop :=
  exists q : Qc, p = Fin q /\ 0 <= q.

(** What the machine has stored once it is active: a step level of at
    least 1, and the stop and target derived from the price [p0 > 0] of
    the last step. *)
Definition ratchet_state (tp trail : Qc) (c : SellConditions) : Prop :=
  takeProfitPercentage c = Some (Fin tp)
  /\ trailingStopPercentage c = Some (Fin trail)
  /\ (truthy_bool (trailingStopActivated c) = true ->
      exists n p0 : Qc,
        1 <= n /\ 0 < p0
        /\ stepLevel c = Some (Fin n)
        /\ currStopPrice c = Some (Fin (p0 * (1 - trail / qc 100)))
        /\ nextTargetPrice c = Some (Fin (p0 * (1 + tp / qc 100)))).

End RatchetStates.

(** ** Worlds of the orchestrator *)
Section EngineWorlds.

Import RedisCacheService BotCoreEngine.

Variable predictTrade : nat -> string -> Outcome MLPredictionService.PredictionResult.

(** The answer the prediction gate gives to the next call. *)
Definition nextApproved (token : string) (w : World) : bool :=
  MLPredictionService.approved
    (MLPredictionService.predict (predictTrade (length (predictionCalls w)) token)).

(** The world after an evaluation that the prediction gate rejected. *)
Definition afterRejection (now : Z) (token : string) (w : World) : World :=
  let (n, c) := incrementPredictionRetryCount now token (cache w) in
  {| cache := if MAX_PREDICTION_RETRIES <=? n then markPredictionFailed now token c else c;
     predictionCalls := predictionCalls w ++ [token];
     swapCalls := swapCalls w;
     tokensEvaluated := tokensEvaluated w + 1;
     tradesExecuted := tradesExecuted w |}.

(** A world in which nothing has happened yet. *)
Definition initial_world : World :=
  {| cache := empty_cache; predictionCalls := []; swapCalls := [];
     tokensEvaluated := 0; tradesExecuted := 0 |}.

End EngineWorlds.

(** ** Collaborators used to evaluate the orchestrator *)
Section EngineScenarios.

(** A filter engine that lets every snapshot through. *)
Definition permissive_filter (d : MindmapFilterEngine.MindmapData)
  : MindmapFilterEngine.FilterResult :=
  {| MindmapFilterEngine.passed := true; MindmapFilterEngine.reason := None;
     MindmapFilterEngine.metrics :=
       {| MindmapFilterEngine.m_totalVolume := zero;
          MindmapFilterEngine.m_connectedKOLs := zero;
          MindmapFilterEngine.m_avgInfluenceScore := zero;
          MindmapFilterEngine.m_totalTrades := zero;
          MindmapFilterEngine.m_viralVelocity := None;
          MindmapFilterEngine.m_weightedVolume := None;
          MindmapFilterEngine.m_consensusScore := None |};
     MindmapFilterEngine.signals := Some [] |}.

(** A prediction endpoint that answers 'bad' with probability 0.9. *)
Definition rejecting_endpoint (n : nat) (token : string)
  : Outcome MLPredictionService.PredictionResult :=
  Returned {| MLPredictionService.taskType := "classification";
              MLPredictionService.classIndex := None;
              MLPredictionService.classLabel := Some "bad"%string;
              MLPredictionService.probability := Some (ofQ 9 10);
              MLPredictionService.value := None |}.

(** A swap backend that fills every order. *)
Definition filling_backend (n : nat) (req : SwapRequest) : Outcome SwapResult :=
  Returned {| sr_success := true; sr_message := Some "Swap successful"%string;
              sr_txid := Some "tx"%string |}.

Definition s5_risk : TradeExecutor.RiskManagementConfig :=
  {| TradeExecutor.takeProfitPercentage := ofZ 50;
     TradeExecutor.stopLossPercentage := ofZ 20;
     TradeExecutor.trailingStopEnabled := true;
     TradeExecutor.trailingStopPercentage := Some (ofZ 10) |}.

End EngineScenarios.

(** ** The position store and its indices *)
Section StoreInvariant.

Import TradeHistoryService.

(** The store is consistent when its status sets and its two indices say
    what its entries say: an id is in the open (closed) set exactly when
    the entry under it is open (closed), an id is indexed under an agent
    (a token) exactly when the entry under it belongs to that agent (that
    token), every entry is stored under its own id, none is failed, and no
    index key holds an empty set. *)
Record consistent (s : Store) : Prop := {
  keyed : forall k t, trades s !! k = Some t -> id t = k;
  settled : forall k t, trades s !! k = Some t -> status t <> failed;
  open_listed :
    forall k, k ∈ open_trades s <-> exists t, trades s !! k = Some t /\ status t = open;
  closed_listed :
    forall k, k ∈ closed_trades s <-> exists t, trades s !! k = Some t /\ status t = closed;
  agent_listed :
    forall a k, k ∈ default ∅ (agent_trades s !! a)
                <-> exists t, trades s !! k = Some t /\ agentId t = a;
  token_listed :
    forall m k, k ∈ default ∅ (token_trades s !! m)
                <-> exists t, trades s !! k = Some t /\ tokenMint t = m;
  agent_keys : forall a, agent_trades s !! a <> Some ∅;
  token_keys : forall m, token_trades s !! m <> Some ∅
}.

(** The store with its event log forgotten. *)
Definition contents (s : Store)
  : gmap string TradeHistoryEntry * gmap string (gset string) * gmap string (gset string)
    * gset string * gset string :=
  (trades s, agent_trades s, token_trades s, open_trades s, closed_trades s).

(** The order of a list sorted newest first. *)
Definition newerFirst (x y : TradeHistoryEntry) : Prop := createdAt y <= createdAt x.

(** A query without its paging. *)
Definition unpaged (query : TradeQuery) : TradeQuery :=
  {| q_agentId := q_agentId query; q_tokenMint := q_tokenMint query;
     q_status := q_status query; q_startDate := q_startDate query;
     q_endDate := q_endDate query; q_minPnL := q_minPnL query;
     q_maxPnL := q_maxPnL query; q_tags := q_tags query;
     q_limit := None; q_offset := None |}.

(** What the filters of a query ask of an entry. *)
Definition matches (query : TradeQuery) (t : TradeHistoryEntry) : Prop :=
  (forall st, q_status query = Some st -> status t = st)
  /\ (forall d, q_startDate query = Some d -> d <= openedAt t)
  /\ (forall d, q_endDate query = Some d -> openedAt t <= d)
  /\ (forall m, q_minPnL query = Some m -> geb (or_else (realizedPnL t) zero) m = true)
  /\ (forall m, q_maxPnL query = Some m -> leb (or_else (realizedPnL t) zero) m = true).

End StoreInvariant.

(** ** Requests and collaborators of the buy path *)
Section BuyPath.

(** The swap request the orchestrator's buy of a token comes down to. *)
Definition engineRequest (buyAmount : number) (risk : TradeExecutor.RiskManagementConfig)
    (token : string) : SwapRequest :=
  TradeExecutor.buyRequest
    {| TradeExecutor.tokenMint := token; TradeExecutor.amount := buyAmount;
       TradeExecutor.riskConfig := risk; TradeExecutor.prediction := None |}.

(** A prediction endpoint that answers 'good' with probability 0.9. *)
Definition approving_endpoint (n : nat) (token : string)
  : Outcome MLPredictionService.PredictionResult :=
  Returned {| MLPredictionService.taskType := "classification";
              MLPredictionService.classIndex := None;
              MLPredictionService.classLabel := Some "good"%string;
              MLPredictionService.probability := Some (ofQ 9 10);
              MLPredictionService.value := None |}.

(** An API server that queues every swap. *)
Definition queueing_server (n : nat) (req : QueuedTradeExecutor.HttpSwapRequest)
  : Outcome QueuedTradeExecutor.HttpSwapResult :=
  Returned {| QueuedTradeExecutor.hr_success := true;
              QueuedTradeExecutor.hr_jobId := Some "job"%string;
              QueuedTradeExecutor.hr_message := None;
              QueuedTradeExecutor.hr_error := None |}.

(** The answer of [execute] to a token that was bought before. *)
Definition duplicate_refused (token : string) : TradeExecutor.TradeResult :=
  {| TradeExecutor.success := false; TradeExecutor.tr_tokenMint := token;
     TradeExecutor.transactionSignature := None;
     TradeExecutor.error := Some "Token already processed - duplicate trade prevented"%string |}.

End BuyPath.

(** ** Events used to evaluate the handlers *)
Section HandlerScenarios.

(** A buy of [TokenS4] by an actor the snapshot does not know. *)
Definition s4_trade : BotCoreEngine.KOLTrade :=
  {| BotCoreEngine.kolWallet := "KOL9";
     BotCoreEngine.timestamp := 5000;
     BotCoreEngine.tradeData :=
       {| BotCoreEngine.tokenIn := Some "So11111111111111111111111111111111111111112"%string;
          BotCoreEngine.tokenOut := Some "TokenS4"%string;
          BotCoreEngine.mint := Some "TokenS4"%string;
          BotCoreEngine.amountIn := ofZ 2;
          BotCoreEngine.amountOut := ofZ 3000;
          BotCoreEngine.tradeType := "buy" |} |}.

(** A world whose cache holds the snapshot of scenario S4, cached at 0. *)
Definition s4_world : World :=
  set_cache (RedisCacheService.cacheMindmapData 0 "TokenS4" (s4_snapshot 0)
               RedisCacheService.empty_cache) initial_world.

End HandlerScenarios.

(** ** Counts over a snapshot *)
Section SnapshotCounts.

Import MindmapFilterEngine.

(** The actors whose last trade is less than a minute old. *)
Definition recentActors (now : Z) (d : MindmapData) : list (string * KOLConnection) :=
  List.filter (fun kc => now - 60000 <? lastTradeTime (snd kc)) (kolConnections d).

(** The actors that have bought. *)
Definition buyingActors (d : MindmapData) : list (string * KOLConnection) :=
  List.filter (fun kc => includes "buy" (tradeTypes (snd kc))) (kolConnections d).

(** The price the on-chain block works with: the cached one, or the one
    found after a discovery. *)
Definition pricedAt (chain : ChainView) : Outcome (option number) :=
  if truthy_opt (cachedPrice chain) then Returned (cachedPrice chain)
  else priceAfterDiscovery chain.

End SnapshotCounts.

(** ** Ledgers and answers used to evaluate the swaps *)
Section LedgerScenarios.

Import AgentLedgerTools.

(** A fee, in SOL, that [getDynamicPriorityFee] may have cached: none yet
    (0), or one between 0.0001 and 0.01. *)
Definition cappedFee (fee : number) : Prop :=
  fee = zero
  \/ exists q : Qc, fee = Fin q /\ (Q2Qc (1 # 10000) <= q)%Qc /\ (q <= Q2Qc (1 # 100))%Qc.

(** A ledger on which nothing has happened: an empty paper wallet, an
    empty history, no cached fee. *)
Definition new_ledger : Ledger :=
  {| wallet := PaperWalletService.empty_wallet;
     history := TradeHistoryService.empty_store;
     lastPriorityFee := zero; lastPriorityFeeTime := 0; sent := [] |}.

(** The outside at instant [now], with a token price of [p] and the recent
    prioritization fees [fees]; the chain and the swap client do not
    answer. *)
Definition outside_at (now : Z) (p : option number) (fees : list (Z * Z)) : Outside :=
  {| dateNow := now; tokenPrice := Returned p;
     feeBalance := Thrown "unreachable"; solBalance := Thrown "unreachable";
     tokenBalance := Thrown "unreachable"; recentFees := Returned (Some fees);
     clientSwap := fun _ => Thrown "unreachable";
     newTradeId := "trade_1"; simTxid := "sim_tx_1"; simDataTxid := "sim_tx_2" |}.

(** The mock network fee as a rational. *)
Definition mockFee : Qc := Q2Qc (5 # 1000000).

(** The tolerance of the paper sale as a rational. *)
Definition tolerance : Qc := Q2Qc (1 # 1000000000).

(** Paper trading with no exit configured in the environment. *)
Definition paper_env : Env :=
  {| SIMULATING := true; AGENT_ID := None;
     TAKE_PROFIT_PERCENTAGE := NaN; STOP_LOSS_PERCENTAGE := NaN;
     MAX_HOLD_TIME_MINUTES := NaN; TRAILING_STOP_ENABLED := false;
     TRAILING_STOP_PERCENTAGE := NaN |}.

(** A text for the numbers of a message, for the worked examples. *)
Definition show_nought (x : number) : string := "0".

(** A paper wallet of one SOL. *)
Definition funded_ledger : Ledger :=
  set_wallet (PaperWalletService.initializeWallet one PaperWalletService.empty_wallet)
    new_ledger.

(** A paper buy of a quarter SOL of the token MINT. *)
Definition quarter_buy : SwapParams :=
  {| amount := ofQ 1 4; action := buy; mint := "MINT"; watchConfig := None;
     prediction := None |}.

End LedgerScenarios.

(** ** The text of a number inside a message *)
Section NumberText.

(** The characters [String(x)] writes for a number: digits, sign, point
    and exponent, and the letters of NaN and Infinity. *)
Definition numeric (c : Ascii.ascii) : bool :=
  existsb (Ascii.eqb c) (list_ascii_of_string "0123456789.-+eNaInfity").

(** A text made of such characters only. *)
Fixpoint numeral (s : string) : bool :=
  match s with
  | EmptyString => true
  | String c rest => numeric c && numeral rest
  end.

(** A text without its numeric characters. *)
Fixpoint strip (s : string) : string :=
  match s with
  | EmptyString => EmptyString
  | String c rest => if numeric c then strip rest else String c (strip rest)
  end.

End NumberText.

(** ** Desks used to evaluate the watcher's sales *)
Section DeskScenarios.

Import AgentLedgerTools TradeWatcherLoop.

(** The ledger after the paper buy of a quarter SOL at a price of one half. *)
Definition bought_ledger : Ledger :=
  snd (performSwap show_nought show_nought paper_env
         (outside_at 1000 (Some (ofQ 1 2)) []) quarter_buy funded_ledger).

(** The position the watcher finds on it. *)
Definition bought_position : TradeHistoryEntry :=
  hd s1_position (TradeHistoryService.getOpenTrades None (history bought_ledger)).

Definition bought_desk : Desk :=
  {| ledger := bought_ledger; processingTrades := ∅; priceEvents := [] |}.

(** Live trading with no exit configured in the environment. *)
Definition live_env : Env :=
  {| SIMULATING := false; AGENT_ID := None;
     TAKE_PROFIT_PERCENTAGE := NaN; STOP_LOSS_PERCENTAGE := NaN;
     MAX_HOLD_TIME_MINUTES := NaN; TRAILING_STOP_ENABLED := false;
     TRAILING_STOP_PERCENTAGE := NaN |}.

(** A chain on which the fee balance is sufficient and the token account
    is empty. *)
Definition emptied_chain : Outside :=
  {| dateNow := 2000; tokenPrice := Returned (Some one);
     feeBalance := Returned true; solBalance := Returned one;
     tokenBalance := Returned {| tb_status := true; tb_balance := Some zero |};
     recentFees := Returned None;
     clientSwap := fun _ => Thrown "unreachable";
     newTradeId := "trade_2"; simTxid := "sim_tx_3"; simDataTxid := "sim_tx_4" |}.

(** One hour and a second after the buy; the price cache has nothing. *)
Definition hour_later : TradeWatcherService.Clock :=
  {| TradeWatcherService.atStart := 3601000; TradeWatcherService.atPriceUpdate := 3601000;
     TradeWatcherService.atSellCheck := 3601000 |}.

Definition silent_feed : TradeWatcherService.PriceFeed :=
  {| TradeWatcherService.cachedPrice := None; TradeWatcherService.priceError := false |}.

End DeskScenarios.

(** ** What serialisation keeps of a prediction *)
Section StoredPrediction.

Import TradeHistoryService.

(** [JSON.stringify] on the prediction an entry carries: its numbers go
    through [json_number] like every other number of the entry. *)
Definition json_prediction (p : PredictionInfo) : PredictionInfo :=
  {| pi_taskType := pi_taskType p;
     pi_classIndex := json_number (pi_classIndex p);
     pi_classLabel := pi_classLabel p;
     pi_probability := json_number (pi_probability p);
     pi_confidence := json_number (pi_confidence p);
     pi_value := json_number (pi_value p) |}.

End StoredPrediction.

(** * Auxiliary definitions, in double precision *)
Module InDoubles.

Import Binary64.

(** ** The stepped trailing stop *)
Section SteppedTrailing.

Import TradeWatcherService Rounded.TradeWatcherService.

(** The percentage change [updateTrailingStopLoss] compares with the
    take-profit level. *)
Definition priceChange (t : TradeHistoryEntry) (p : number) : number :=
  mul (div (sub p (entryPrice t)) (entryPrice t)) hundred.

(** The percentage change [checkSellConditions] uses for its stop-loss and
    take-profit rules. *)
Definition guardedPriceChange (t : TradeHistoryEntry) (p : number) : number :=
  if gtb (entryPrice t) zero then priceChange t p else zero.

(** The percentage by which a price lies below the highest price. *)
Definition trailingDrop (t : TradeHistoryEntry) (p : number) : number :=
  mul (div (sub p (toNumber (highestPrice t))) (toNumber (highestPrice t))) hundred.

(** The stop and the target that a step at price [p] sets. *)
Definition stopAt (c : SellConditions) (p : number) : number :=
  mul p (sub one (div (toNumber (trailingStopPercentage c)) hundred)).

Definition targetAt (c : SellConditions) (p : number) : number :=
  mul p (add one (div (toNumber (takeProfitPercentage c)) hundred)).

(** The two rules [checkSellConditions] tries before the stepped stop. *)
Definition maxHoldRule (now : Z) (t : TradeHistoryEntry) : bool :=
  truthy_opt (maxHoldTimeMinutes (sellConditions t))
  && geb (holdTimeMinutes now t) (toNumber (maxHoldTimeMinutes (sellConditions t))).

Definition stopLossRule (t : TradeHistoryEntry) (p : number) : bool :=
  truthy_opt (stopLossPercentage (sellConditions t))
  && leb (guardedPriceChange t p) (neg (toNumber (stopLossPercentage (sellConditions t)))).

(** The watcher's successive calls of [updateTrailingStopLoss] on one trade. *)
Definition watch (prices : list number) (t : TradeHistoryEntry) : TradeHistoryEntry :=
  fold_left (fun t p => fst (updateTrailingStopLoss t p)) prices t.

(** The position of scenario S1 with a 20% stop loss, after its activation
    at 150. *)
Definition s1_active_with_stop_loss : TradeHistoryEntry :=
  let t := watch [ofZ 150] s1_position in
  set_sellConditions
    {| takeProfitPercentage := takeProfitPercentage (sellConditions t);
       stopLossPercentage := Some (ofZ 20);
       trailingStopPercentage := trailingStopPercentage (sellConditions t);
       trailingStopActivated := trailingStopActivated (sellConditions t);
       maxHoldTimeMinutes := maxHoldTimeMinutes (sellConditions t);
       stepLevel := stepLevel (sellConditions t);
       nextTargetPrice := nextTargetPrice (sellConditions t);
       currStopPrice := currStopPrice (sellConditions t) |} t.

(** Scenario S2: entry 1.00, stop loss 20%, take profit 50%, no
    trailing stop. *)
Definition s2_position : TradeHistoryEntry :=
  set_sellConditions
    {| takeProfitPercentage := Some (ofZ 50); stopLossPercentage := Some (ofZ 20);
       trailingStopPercentage := None; trailingStopActivated := None;
       maxHoldTimeMinutes := None; stepLevel := None;
       nextTargetPrice := None; currStopPrice := None |}
    (fst (Rounded.TradeHistoryService.createTrade "trade_s2" 0
            {| TradeHistoryService.cp_agentId := "agent";
               TradeHistoryService.cp_tokenMint := "MINT";
               TradeHistoryService.cp_entryPrice := ofZ 1;
               TradeHistoryService.cp_entryAmount := ofZ 100;
               TradeHistoryService.cp_buyTransactionId := None;
               TradeHistoryService.cp_ledgerId := None;
               TradeHistoryService.cp_originalTradeId := None;
               TradeHistoryService.cp_watchJobId := None;
               TradeHistoryService.cp_sellConditions := None;
               TradeHistoryService.cp_tags := None;
               TradeHistoryService.cp_prediction := None;
               TradeHistoryService.cp_isSimulation := None |}
            TradeHistoryService.empty_store)).

(** The position of scenario S1 (entered and peaking at 100) with a
    trailing stop of 29% and nothing else. *)
Definition trailing_only_position : TradeHistoryEntry :=
  set_sellConditions
    {| takeProfitPercentage := None; stopLossPercentage := None;
       trailingStopPercentage := Some (ofZ 29); trailingStopActivated := None;
       maxHoldTimeMinutes := None; stepLevel := None;
       nextTargetPrice := None; currStopPrice := None |} s1_position.

End SteppedTrailing.

End InDoubles.

(** * Auxiliary definitions, in double precision: the filter *)
Module FilterInDoubles.

Import MindmapFilterEngine.

(** A chain view on which every call answers: a price of 0.001 SOL, a
    supply of 1000000 and SOL at 150 USD. *)
Definition answering_chain : ChainView :=
  {| cachedPrice := Some (Binary64.ofQ 1 1000); priceAfterDiscovery := Returned None;
     tokenSupply := Returned (true, ofZ 1000000); solPriceUsd := Returned (ofZ 150) |}.

(** A token at 0.0000001 SOL with a supply of 1000000000 and SOL at 150
    USD: a market cap of 15000 USD in exact arithmetic. *)
Definition boundary_chain : ChainView :=
  {| cachedPrice := Some (Binary64.ofQ 1 10000000); priceAfterDiscovery := Returned None;
     tokenSupply := Returned (true, ofZ 1000000000); solPriceUsd := Returned (ofZ 150) |}.

(** The criteria of S4 with a market-cap floor. *)
Definition s4_with_cap (floor : number) : FilterCriteria :=
  {| minTradeVolume := ofZ 10000; minConnectedKOLs := ofZ 5;
     minInfluenceScore := ofZ 50; minTotalTrades := ofZ 5;
     minMarketCapUsd := Some floor; minLiquidityUsd := Some zero;
     minViralVelocity := Some (ofZ 5); requireSmartMoney := Some true;
     minConsensusScore := Some (ofZ 70) |}.

End FilterInDoubles.

(** * Auxiliary definitions, in double precision: the ledger and the sales *)
Module LedgerInDoubles.

Import AgentLedgerTools TradeWatcherLoop.

(** A rational that is a double. *)
Definition representable (q : Qc) : Prop := Binary64.round64 q = Fin q.

(** The request [executeSell] sends for a trade. *)
Definition sellRequest (t : TradeHistoryEntry) : SwapParams :=
  {| amount := entryAmount t; action := sell; mint := tokenMint t;
     watchConfig := None; prediction := None |}.

(** The rate a swap result reports. *)
Definition reportedRate (r : LedgerResult) : option Rate :=
  match match data r with Some sd => swapResponse sd | None => None end with
  | Some response => rate response
  | None => None
  end.

(** [swapResponse?.rate?.executionPrice] and [swapResponse?.rate?.amountIn]. *)
Definition reportedPrice (r : LedgerResult) : option number :=
  match reportedRate r with Some q => executionPrice q | None => None end.

Definition reportedAmount (r : LedgerResult) : option number :=
  match reportedRate r with Some q => amountIn q | None => None end.

(** A failure after which [executeSell] closes the position: its message
    is not empty and names a missing balance. *)
Definition namesMissingBalance (r : LedgerResult) : bool :=
  match message r with
  | Some msg => negb (String.eqb msg "") && signalsMissingBalance msg
  | None => false
  end.

(** The ledger after the paper buy of a quarter SOL at a price of one half. *)
Definition bought_ledger : Ledger :=
  snd (Rounded.AgentLedgerTools.performSwap show_nought show_nought paper_env
         (outside_at 1000 (Some (ofQ 1 2)) []) quarter_buy funded_ledger).

(** The position the watcher finds on it. *)
Definition bought_position : TradeHistoryEntry :=
  hd s1_position (TradeHistoryService.getOpenTrades None (history bought_ledger)).

Definition bought_desk : Desk :=
  {| ledger := bought_ledger; processingTrades := ∅; priceEvents := [] |}.

(** The same desk with an empty paper wallet. *)
Definition emptied_desk : Desk :=
  {| ledger := set_wallet PaperWalletService.empty_wallet bought_ledger;
     processingTrades := ∅; priceEvents := [] |}.

(** A paper wallet of 0.020005 SOL. *)
Definition tight_ledger : Ledger :=
  set_wallet
    (PaperWalletService.initializeWallet (Binary64.ofQ 20005 1000000)
       PaperWalletService.empty_wallet) new_ledger.

(** A paper buy of 0.02 SOL of the token MINT. *)
Definition tight_buy : SwapParams :=
  {| amount := Binary64.ofQ 2 100; action := buy; mint := "MINT"; watchConfig := None;
     prediction := None |}.

(** A paper wallet of 100000000 SOL. *)
Definition rich_ledger : Ledger :=
  set_wallet
    (PaperWalletService.initializeWallet (ofZ 100000000) PaperWalletService.empty_wallet)
    new_ledger.

(** A paper buy for 10000000 SOL of the token MINT. *)
Definition large_buy : SwapParams :=
  {| amount := ofZ 10000000; action := buy; mint := "MINT"; watchConfig := None;
     prediction := None |}.

(** The ledger after that buy at a price of 1, once 7000000.4 more tokens
    have come into the wallet and left it again: the wallet then holds
    (10000000 + 7000000.4) - 7000000.4 tokens. *)
Definition worn_ledger : Ledger :=
  let l := snd (Rounded.AgentLedgerTools.performSwap show_nought show_nought paper_env
                  (outside_at 1000 (Some one) []) large_buy rich_ledger) in
  let w1 := snd (Rounded.PaperWalletService.deposit "MINT" (Binary64.ofQ 70000004 10)
                   (wallet l)) in
  let w2 := snd (Rounded.PaperWalletService.withdraw show_nought "MINT"
                   (Binary64.ofQ 70000004 10) w1) in
  set_wallet w2 l.

Definition worn_position : TradeHistoryEntry :=
  hd s1_position (TradeHistoryService.getOpenTrades None (history worn_ledger)).

Definition worn_desk : Desk :=
  {| ledger := worn_ledger; processingTrades := ∅; priceEvents := [] |}.

End LedgerInDoubles.
(** * Properties *)

(** ** Arithmetic of finite numbers *)
Section NumberFacts.

Local Open Scope Qc_scope.

Lemma ofZ_Fin z : ofZ z = Fin (qc z).
Proof. reflexivity. Qed.

Lemma sgn_Gt q : sgn q = Gt <-> 0 < q.
Proof. unfold sgn. symmetry. apply (Qcgt_alt q 0). Qed.

Lemma sgn_Lt q : sgn q = Lt <-> q < 0.
Proof. unfold sgn. symmetry. apply Qclt_alt. Qed.

Lemma sgn_Eq q : sgn q = Eq <-> q = 0.
Proof. unfold sgn. symmetry. apply Qceq_alt. Qed.

Lemma ltb_Fin x y : ltb (Fin x) (Fin y) = true <-> x < y.
Proof.
  simpl. rewrite Qclt_alt. destruct (x ?= y); split; congruence.
Qed.

Lemma eqb_Fin x y : eqb (Fin x) (Fin y) = true <-> x = y.
Proof.
  simpl. rewrite Qceq_alt. destruct (x ?= y); split; congruence.
Qed.

Lemma leb_Fin x y : leb (Fin x) (Fin y) = true <-> x <= y.
Proof.
  unfold leb. rewrite orb_true_iff, ltb_Fin, eqb_Fin. split.
  - intros [H | ->]; [apply Qclt_le_weak, H | apply Qcle_refl].
  - intros H. destruct (Qcle_lt_or_eq _ _ H); auto.
Qed.

Lemma geb_Fin x y : geb (Fin x) (Fin y) = true <-> y <= x.
Proof. unfold geb. apply leb_Fin. Qed.

Lemma gtb_Fin x y : gtb (Fin x) (Fin y) = true <-> y < x.
Proof. unfold gtb. apply ltb_Fin. Qed.

Lemma truthy_Fin q : truthy (Fin q) = true <-> q <> 0.
Proof.
  simpl. rewrite <- sgn_Eq. destruct (sgn q); split; congruence.
Qed.

Lemma qc_100_pos : 0 < qc 100.
Proof. reflexivity. Qed.

Lemma div_Fin_pos x y : 0 < y -> div (Fin x) (Fin y) = Fin (x / y).
Proof. intros H. unfold div. rewrite (proj2 (sgn_Gt y) H). reflexivity. Qed.

Lemma div_hundred q : div (Fin q) hundred = Fin (q / qc 100).
Proof. unfold hundred. rewrite ofZ_Fin. apply div_Fin_pos, qc_100_pos. Qed.

Lemma one_Fin : one = Fin 1.
Proof. compute_done. Qed.

Lemma zero_Fin : zero = Fin 0.
Proof. compute_done. Qed.

End NumberFacts.


(** ** C1: the stepped trailing stop *)
Section SteppedTrailingFacts.

Import TradeWatcherService.

Lemma update_inactive_step t p :
  let c := sellConditions t in
  truthy_opt (takeProfitPercentage c) = true ->
  truthy_opt (trailingStopPercentage c) = true ->
  truthy_bool (trailingStopActivated c) = false ->
  sellConditions (fst (updateTrailingStopLoss t p)) =
    if geb (priceChange t p) (toNumber (takeProfitPercentage c)) then
      set_nextTargetPrice
        (Some (mul p (add one (div (toNumber (takeProfitPercentage c)) hundred))))
        (set_currStopPrice
           (Some (mul p (sub one (div (toNumber (trailingStopPercentage c)) hundred))))
           (set_stepLevel (Some one) (set_trailingStopActivated (Some true) c)))
    else c.
Proof.
  intros c Htp Htr Hin. unfold updateTrailingStopLoss. fold c.
  rewrite Htp, Htr, Hin. simpl negb. cbv iota. simpl orb. cbv iota.
  fold (priceChange t p).
  destruct (geb (priceChange t p) _); [reflexivity|].
  destruct (_ || _); reflexivity.
Qed.

Lemma update_active_step t p g :
  let c := sellConditions t in
  truthy_opt (takeProfitPercentage c) = true ->
  truthy_opt (trailingStopPercentage c) = true ->
  truthy_bool (trailingStopActivated c) = true ->
  nextTargetPrice c = Some g -> truthy g = true ->
  sellConditions (fst (updateTrailingStopLoss t p)) =
    if geb p g then
      set_nextTargetPrice
        (Some (mul p (add one (div (toNumber (takeProfitPercentage c)) hundred))))
        (set_currStopPrice
           (Some (mul p (sub one (div (toNumber (trailingStopPercentage c)) hundred))))
           (set_stepLevel (Some (add (or_else (stepLevel c) one) one)) c))
    else c.
Proof.
  intros c Htp Htr Hact Hg Hgt. unfold updateTrailingStopLoss. fold c.
  rewrite Htp, Htr, Hact, Hg. simpl negb. cbv iota. simpl orb. cbv iota.
  simpl truthy_opt. rewrite Hgt. simpl toNumber.
  destruct (geb p g); [reflexivity|].
  destruct (_ || _); reflexivity.
Qed.

Lemma update_unconfigured t p :
  truthy_opt (takeProfitPercentage (sellConditions t)) = false
  \/ truthy_opt (trailingStopPercentage (sellConditions t)) = false ->
  fst (updateTrailingStopLoss t p) = t.
Proof.
  intros H. unfold updateTrailingStopLoss.
  destruct H as [-> | ->]; [reflexivity|].
  rewrite orb_true_r. reflexivity.
Qed.

End SteppedTrailingFacts.

(** ** C3: a position with entry price 0 *)
Section ZeroEntryPrice.

Import TradeWatcherService.

Local Open Scope Qc_scope.

(** [checkSellConditions] guards its percentage: on entry price 0 it is 0. *)
Lemma zero_entry_guarded_change (t : TradeHistoryEntry) (p : number) :
  entryPrice t = zero -> guardedPriceChange t p = zero.
Proof. intros H. unfold guardedPriceChange. rewrite H. reflexivity. Qed.

(** With entry price 0 the unguarded division of [updateTrailingStopLoss]
    yields [Infinity] at every positive price, which passes any finite
    take-profit level. *)
Lemma zero_entry_price_change (t : TradeHistoryEntry) (q : Qc) :
  entryPrice t = zero -> 0 < q -> priceChange t (Fin q) = PInf.
Proof.
  intros He Hq. unfold priceChange. rewrite He, zero_Fin.
  assert (Hs : sub (Fin q) (Fin 0) = Fin q).
  { unfold sub, neg, add. f_equal. ring. }
  rewrite Hs. unfold div.
  rewrite (proj2 (sgn_Eq 0) eq_refl), (proj2 (sgn_Gt q) Hq).
  reflexivity.
Qed.

Lemma zero_entry_activates (t : TradeHistoryEntry) (q tp : Qc) :
  entryPrice t = zero ->
  takeProfitPercentage (sellConditions t) = Some (Fin tp) -> tp <> 0 ->
  truthy_opt (trailingStopPercentage (sellConditions t)) = true ->
  truthy_bool (trailingStopActivated (sellConditions t)) = false ->
  0 < q ->
  trailingStopActivated (sellConditions (fst (updateTrailingStopLoss t (Fin q)))) = Some true.
Proof.
  intros He Htp Hnz Htr Hin Hq.
  assert (Htp' : truthy_opt (takeProfitPercentage (sellConditions t)) = true).
  { rewrite Htp. apply truthy_Fin, Hnz. }
  rewrite (update_inactive_step t (Fin q) Htp' Htr Hin).
  rewrite (zero_entry_price_change t q He Hq), Htp. reflexivity.
Qed.

(** C3. On the position recorded with entry price 0, take profit 50 and
    trailing stop 10, a price of 1 makes [updateTrailingStopLoss] divide by
    the zero entry price: the change is Infinity, not 0, and the trailing
    state goes from inactive to active (level 1, stop 0.9, target 1.5).
    [checkSellConditions] guards its own percentage (0 here) but then
    reports the stepped stop at price 0.5 with an infinite profit. *)
Theorem C3_zero_entry_price_activates_trailing :
  let t := zero_entry_position in
  let t' := fst (updateTrailingStopLoss t (ofZ 1)) in
  entryPrice t = zero
  /\ truthy_bool (trailingStopActivated (sellConditions t)) = false
  /\ guardedPriceChange t (ofZ 1) = zero
  /\ priceChange t (ofZ 1) = PInf
  /\ trailingStopActivated (sellConditions t') = Some true
  /\ stepLevel (sellConditions t') = Some one
  /\ currStopPrice (sellConditions t') = Some (ofQ 9 10)
  /\ nextTargetPrice (sellConditions t') = Some (ofQ 3 2)
  /\ checkSellConditions 0 t' (ofQ 1 2) = Some (SteppedStopTriggered PInf (ofQ 9 10)).
Proof. cbv zeta. repeat split; compute_done. Qed.

End ZeroEntryPrice.

(** ** C4: the max-hold short-circuit *)
Section MaxHold.

Import TradeWatcherService.

Lemma qc_le (a b : Z) : (a <= b)%Z -> (qc a <= qc b)%Qc.
Proof.
  intros H. unfold Qcle, qc, Q2Qc. simpl this.
  rewrite !Qred_correct. rewrite <- Zle_Qle. exact H.
Qed.

Lemma qc_lt (a b : Z) : (a < b)%Z -> (qc a < qc b)%Qc.
Proof.
  intros H. unfold Qclt, qc, Q2Qc. simpl this.
  rewrite !Qred_correct. rewrite <- Zlt_Qlt. exact H.
Qed.

Lemma qc_mult (a b : Z) : (qc a * qc b)%Qc = qc (a * b).
Proof.
  apply Qc_is_canon. unfold Qcmult, qc, Q2Qc. simpl this.
  rewrite !Qred_correct. rewrite inject_Z_mult. reflexivity.
Qed.

(** Whole minutes: the hold time reaches [k] minutes as soon as
    [k * 60000] milliseconds have elapsed, the boundary included. *)
Lemma hold_time_reaches (now k : Z) (t : TradeHistoryEntry) :
  (k * 60000 <= now - openedAt t)%Z ->
  geb (holdTimeMinutes now t) (ofZ k) = true.
Proof.
  intros H. unfold holdTimeMinutes. change (1000 * 60)%Z with 60000%Z.
  rewrite !ofZ_Fin.
  assert (Hpos : (0 < qc 60000)%Qc) by reflexivity.
  rewrite (div_Fin_pos _ _ Hpos). apply geb_Fin.
  apply Qcmult_lt_0_le_reg_r with (z := qc 60000); [exact Hpos|].
  unfold Qcdiv. rewrite <- Qcmult_assoc, Qcmult_inv_l, Qcmult_1_r.
  - rewrite qc_mult. apply qc_le, H.
  - intros E. rewrite E in Hpos. discriminate.
Qed.

Lemma truthy_ofZ (k : Z) : k <> 0%Z -> truthy (ofZ k) = true.
Proof.
  intros H. rewrite ofZ_Fin. apply truthy_Fin. intros E.
  apply (f_equal this) in E. unfold qc, Q2Qc in E. simpl in E.
  assert (E' : (inject_Z k == 0)%Q).
  { rewrite <- (Qred_correct (inject_Z k)). rewrite E. reflexivity. }
  unfold Qeq in E'. simpl in E'. lia.
Qed.

End MaxHold.

(** ** C6: the prediction gate *)
Section PredictionGate.

Import MLPredictionService.

Lemma is_good_iff (label : option string) : is_good label = true <-> label = Some "good"%string.
Proof.
  destruct label as [l|]; simpl.
  - rewrite String.eqb_eq. split; congruence.
  - split; discriminate.
Qed.

(** The confidence of a finite probability is the exact product. *)
Lemma confidence_finite (r : PredictionResult) (q : Qc) :
  probability r = Some (Fin q) ->
  confidence (predict (Returned r)) = Fin (q * qc 100)%Qc.
Proof.
  intros H. simpl. rewrite H. simpl or_else.
  destruct (sgn q) eqn:E; try reflexivity.
  apply sgn_Eq in E. subst q. compute_done.
Qed.

(** C6. The gate computes confidence = probability * 100 (a missing
    probability counts as 0) and approves exactly when the label is 'good'
    and the confidence is at least 65: a confidence below 65, however
    close, blocks, and exactly 65 approves.  A prediction call that fails
    yields approved = false. *)
Theorem C6_prediction_gate :
  (forall r : PredictionResult,
     confidence (predict (Returned r)) = mul (or_else (probability r) zero) hundred
     /\ (approved (predict (Returned r)) = true <->
         classLabel r = Some "good"%string
         /\ geb (confidence (predict (Returned r))) (ofZ 65) = true))
  /\ (forall (r : PredictionResult) (q : Qc),
        probability r = Some (Fin q) ->
        classLabel r = Some "good"%string ->
        (approved (predict (Returned r)) = true <-> (qc 65 <= q * qc 100)%Qc))
  /\ (forall r : PredictionResult,
        classLabel r = Some "good"%string ->
        (probability r = Some (ofQ 65 100) -> approved (predict (Returned r)) = true)
        /\ (probability r = Some (ofQ 64999 100000) ->
            approved (predict (Returned r)) = false))
  /\ (forall message : string,
        approved (predict (Thrown message)) = false
        /\ confidence (predict (Thrown message)) = zero).
Proof.
  split; [|split; [|split]].
  - intros r. split; [reflexivity|].
    simpl. rewrite andb_true_iff, is_good_iff. reflexivity.
  - intros r q Hp Hl.
    pose proof (confidence_finite r q Hp) as Hc. simpl in Hc.
    simpl. rewrite Hc, Hl. simpl is_good.
    rewrite andb_true_l, ofZ_Fin. apply geb_Fin.
  - intros r Hl. split; intros Hp; simpl; rewrite Hl, Hp; compute_done.
  - intros message. split; reflexivity.
Qed.

Lemma C6_prediction_gate_witness :
  let r := {| taskType := "classification"; classIndex := None;
              classLabel := Some "good"%string; probability := Some (ofQ 65 100);
              value := None |} in
  approved (predict (Returned r)) = true.
Proof.
  refine (proj1 (proj1 (proj2 (proj2 C6_prediction_gate)) _ _) _).
  - reflexivity.
  - reflexivity.
Defined.

End PredictionGate.

(** ** C7: signal override and influence floor *)
Section FilterGate.

Import MindmapFilterEngine.












End FilterGate.

(** ** C8 and C9: closing a position and updating its price *)
Section PositionStore.

Import TradeHistoryService.

Lemma json_trade_id t : id (json_trade t) = id t.
Proof. reflexivity. Qed.

Lemma json_trade_status t : status (json_trade t) = status t.
Proof. reflexivity. Qed.

Lemma storeTrade_lookup t s :
  getTrade (id t) (storeTrade t s) = Some (json_trade t).
Proof. unfold getTrade, storeTrade. simpl. apply lookup_insert_eq. Qed.

Lemma storeTrade_lookup_ne t s (k : string) :
  k <> id t -> getTrade k (storeTrade t s) = getTrade k s.
Proof. intros H. unfold getTrade, storeTrade. simpl. apply lookup_insert_ne. congruence. Qed.

Lemma getTrade_emit e s (k : string) : getTrade k (emit e s) = getTrade k s.
Proof. reflexivity. Qed.

Lemma storeTrade_closed_sets t s :
  status t = closed ->
  (id t ∉ open_trades (storeTrade t s)) /\ (id t ∈ closed_trades (storeTrade t s)).
Proof.
  intros H. unfold storeTrade. rewrite H. simpl. split.
  - rewrite elem_of_difference, elem_of_singleton. intros [_ Hn]. apply Hn. reflexivity.
  - apply elem_of_union_r, elem_of_singleton. reflexivity.
Qed.

Lemma closeTrade_found now params s trade :
  getTrade (tradeId params) s = Some trade ->
  exists t',
    closeTrade now params s
      = (Some t', emit (BroadcastTradeUpdate t') (storeTrade t' s))
    /\ id t' = id trade
    /\ status t' = closed
    /\ closedAt t' = Some now
    /\ exitPrice t' = Some (cl_exitPrice params)
    /\ exitAmount t' = Some (cl_exitAmount params)
    /\ exitValue t' = Some (mul (cl_exitPrice params) (cl_exitAmount params))
    /\ realizedPnL t'
       = Some (sub (mul (cl_exitPrice params) (cl_exitAmount params)) (entryValue trade))
    /\ realizedPnLPercentage t'
       = Some (mul (div (sub (mul (cl_exitPrice params) (cl_exitAmount params))
                             (entryValue trade))
                        (entryValue trade)) hundred)
    /\ entryValue t' = entryValue trade.
Proof.
  intros H. unfold closeTrade. rewrite H.
  eexists. split; [reflexivity|].
  destruct (cl_sellTransactionId params), (cl_sellReason params);
    repeat split; reflexivity.
Qed.

(** C8. Closing returns null exactly when no position has the id, and the
    store is then unchanged.  Otherwise the returned position has status
    closed, closedAt = now, exitValue = exitPrice * exitAmount, realizedPnL
    = exitValue - entryValue and realizedPnLPct = realizedPnL / entryValue
    * 100; its id leaves the open set and enters the closed set, and the
    store holds it as closed.  No position that is not open before the
    call is open after it. *)
Theorem C8_close_position :
  forall (now : Z) (params : CloseParams) (s : Store),
    (fst (closeTrade now params s) = None <-> getTrade (tradeId params) s = None)
    /\ (getTrade (tradeId params) s = None -> snd (closeTrade now params s) = s)
    /\ (forall trade : TradeHistoryEntry,
          getTrade (tradeId params) s = Some trade ->
          exists t' : TradeHistoryEntry,
            fst (closeTrade now params s) = Some t'
            /\ id t' = id trade
            /\ status t' = closed
            /\ closedAt t' = Some now
            /\ exitValue t' = Some (mul (cl_exitPrice params) (cl_exitAmount params))
            /\ realizedPnL t'
               = Some (sub (mul (cl_exitPrice params) (cl_exitAmount params))
                           (entryValue trade))
            /\ realizedPnLPercentage t'
               = Some (mul (div (sub (mul (cl_exitPrice params) (cl_exitAmount params))
                                     (entryValue trade))
                                (entryValue trade)) hundred)
            /\ (id t' ∉ open_trades (snd (closeTrade now params s)))
            /\ (id t' ∈ closed_trades (snd (closeTrade now params s)))
            /\ (exists stored : TradeHistoryEntry,
                  getTrade (id t') (snd (closeTrade now params s)) = Some stored
                  /\ status stored = closed))
    /\ (forall (k : string) (t : TradeHistoryEntry),
          getTrade k s = Some t -> status t <> open ->
          exists t' : TradeHistoryEntry,
            getTrade k (snd (closeTrade now params s)) = Some t'
            /\ status t' <> open).
Proof.
  intros now params s.
  destruct (getTrade (tradeId params) s) as [trade|] eqn:Hget.
  - destruct (closeTrade_found now params s trade Hget)
      as (t' & Hc & Hid & Hst & Hca & Hep & Hea & Hev & Hpnl & Hpct & Hen).
    rewrite Hc. simpl fst. simpl snd.
    split; [split; discriminate|].
    split; [discriminate|].
    split.
    + intros trade0 E. injection E as <-.
      exists t'. repeat split; try assumption.
      * apply (storeTrade_closed_sets t' s Hst).
      * apply (storeTrade_closed_sets t' s Hst).
      * exists (json_trade t'). rewrite getTrade_emit, storeTrade_lookup.
        split; [reflexivity | exact Hst].
    + intros k t Hk Hopen. rewrite getTrade_emit.
      destruct (decide (k = id t')) as [-> | Hne].
      * exists (json_trade t'). rewrite storeTrade_lookup.
        split; [reflexivity|]. rewrite json_trade_status, Hst. discriminate.
      * exists t. rewrite (storeTrade_lookup_ne t' s k Hne). split; assumption.
  - unfold closeTrade. rewrite Hget. simpl.
    split; [split; reflexivity|].
    split; [reflexivity|].
    split; [discriminate|].
    intros k t Hk Hopen. exists t. split; assumption.
Qed.

Lemma C8_close_position_witness :
  exists t' : TradeHistoryEntry,
    fst (closeTrade 60000
           {| tradeId := "trade_s1"; cl_exitPrice := ofZ 200; cl_exitAmount := ofZ 100;
              cl_sellTransactionId := Some "tx"%string;
              cl_sellReason := Some (OtherReason "manual") |} s1_store) = Some t'
    /\ status t' = closed
    /\ realizedPnL t' = Some (sub (mul (ofZ 200) (ofZ 100)) (ofZ 10000)).
Proof.
  destruct (proj1 (proj2 (proj2
              (C8_close_position 60000
                 {| tradeId := "trade_s1"; cl_exitPrice := ofZ 200;
                    cl_exitAmount := ofZ 100;
                    cl_sellTransactionId := Some "tx"%string;
                    cl_sellReason := Some (OtherReason "manual") |} s1_store)))
              (TradeHistoryService.json_trade s1_position)
              ltac:(vm_compute; reflexivity))
    as (t' & H1 & _ & H3 & _ & _ & H6 & _).
  exists t'. split; [exact H1|]. split; [exact H3|]. exact H6.
Defined.

Lemma updateTradePrice_missing now (k : string) p s :
  getTrade k s = None -> updateTradePrice now k p s = s.
Proof. intros H. unfold updateTradePrice. rewrite H. reflexivity. Qed.

Lemma updateTradePrice_not_open now (k : string) p s t :
  getTrade k s = Some t -> status t <> open -> updateTradePrice now k p s = s.
Proof.
  intros H Hs. unfold updateTradePrice. rewrite H.
  destruct (decide (status t = open)); [contradiction | reflexivity].
Qed.

(** On an open position whose extrema are set and non-zero, a finite price
    extends them as a maximum and a minimum. *)
Lemma updateTradePrice_extends now (k : string) (q h l : Qc) s t :
  getTrade k s = Some t -> id t = k -> status t = open ->
  highestPrice t = Some (Fin h) -> h <> 0%Qc ->
  lowestPrice t = Some (Fin l) -> l <> 0%Qc ->
  exists t' : TradeHistoryEntry,
    getTrade k (updateTradePrice now k (Fin q) s) = Some t'
    /\ currentPrice t' = Some (Fin q)
    /\ lastPriceUpdate t' = Some now
    /\ highestPrice t' = Some (JS.max (Fin h) (Fin q))
    /\ lowestPrice t' = Some (JS.min (Fin l) (Fin q)).
Proof.
  intros Hget Hid Hopen Hh Hhz Hl Hlz. unfold updateTradePrice. rewrite Hget.
  destruct (decide (status t = open)); [|contradiction].
  rewrite !getTrade_emit.
  match goal with |- context [storeTrade ?u s] => set (t5 := u) end.
  assert (Hid5 : id t5 = k).
  { unfold t5. repeat match goal with |- context [if ?b then _ else _] => destruct b end;
      exact Hid. }
  exists (json_trade t5). rewrite <- Hid5 at 1. rewrite storeTrade_lookup.
  split; [reflexivity|].
  unfold t5, JS.max, JS.min, gtb.
  cbn [highestPrice set_currentPrice set_lastPriceUpdate].
  rewrite Hh. cbn [truthy_opt toNumber].
  rewrite (proj2 (truthy_Fin h) Hhz). cbn [negb orb].
  destruct (ltb (Fin h) (Fin q));
    cbn [lowestPrice set_highestPrice set_currentPrice set_lastPriceUpdate];
    rewrite Hl; cbn [truthy_opt toNumber];
    rewrite (proj2 (truthy_Fin l) Hlz); cbn [negb orb];
    destruct (ltb (Fin q) (Fin l)); simpl; rewrite ?Hh, ?Hl;
    repeat split; reflexivity.
Qed.

(** C9. The falsy-zero slip: a position whose recorded lowest price is 0
    (entry price 0, or a price update of 0) has its lowest price raised by
    the next positive price, where the minimum stays 0. *)
Theorem C9_lowest_price_rises_from_zero :
  extrema "trade_zero" zero_entry_store = Some (Some zero, Some zero)
  /\ extrema "trade_zero" (updateTradePrice 1 "trade_zero" (ofZ 5) zero_entry_store)
     = Some (Some (ofZ 5), Some (ofZ 5))
  /\ JS.min zero (ofZ 5) = zero
  /\ extrema "trade_s1" s1_store = Some (Some (ofZ 100), Some (ofZ 100))
  /\ extrema "trade_s1" (updateTradePrice 1 "trade_s1" zero s1_store)
     = Some (Some (ofZ 100), Some zero)
  /\ extrema "trade_s1"
       (updateTradePrice 2 "trade_s1" (ofZ 5)
          (updateTradePrice 1 "trade_s1" zero s1_store))
     = Some (Some (ofZ 100), Some (ofZ 5)).
Proof. repeat split; compute_done. Qed.

End PositionStore.

(** ** C10: the ratchet never moves down *)
Section Ratchet.

Import TradeWatcherService.

Local Open Scope Qc_scope.

(** Rational goals over [Qc], restated over [Q] for [lra] and [nra]. *)
Ltac qc_to_q :=
  unfold qc in *;
  unfold Qclt, Qcle, Qcdiv, Qcminus, Qcmult, Qcplus, Qcopp, Qcinv in *;
  repeat (unfold Q2Qc in *; cbn [this] in *; rewrite ?Qred_correct in * );
  unfold inject_Z in *;
  change (/ (100 # 1))%Q with (1 # 100)%Q in *.

Lemma trail_factor_pos (trail : Qc) : trail < qc 100 -> 0 < 1 - trail / qc 100.
Proof. intros H. qc_to_q. lra. Qed.

Lemma target_factor_pos (tp : Qc) : 0 < tp -> 0 < 1 + tp / qc 100.
Proof. intros H. qc_to_q. lra. Qed.

Lemma below_target (p0 q tp : Qc) :
  0 < p0 -> 0 < tp -> p0 * (1 + tp / qc 100) <= q -> p0 < q.
Proof. intros H1 H2 H3. qc_to_q. nra. Qed.

Lemma scale_lt (p0 q c : Qc) : p0 < q -> 0 < c -> p0 * c < q * c.
Proof. intros H1 H2. qc_to_q. nra. Qed.

Lemma product_pos (p c : Qc) : 0 < p -> 0 < c -> 0 < p * c.
Proof. intros H1 H2. qc_to_q. nra. Qed.

Lemma level_lt (n : Qc) : n < n + 1.
Proof. qc_to_q. lra. Qed.

Lemma level_pos (n : Qc) : 1 <= n -> n <> 0.
Proof. intros H E. subst n. qc_to_q. lra. Qed.

Lemma level_succ (n : Qc) : 1 <= n -> 1 <= n + 1.
Proof. intros H. qc_to_q. lra. Qed.

Lemma pos_nonzero (q : Qc) : 0 < q -> q <> 0.
Proof. intros H E. subst q. qc_to_q. lra. Qed.

Lemma stop_formula (q trail : Qc) :
  mul (Fin q) (sub one (div (Fin trail) hundred)) = Fin (q * (1 - trail / qc 100)).
Proof. rewrite div_hundred, one_Fin. reflexivity. Qed.

Lemma target_formula (q tp : Qc) :
  mul (Fin q) (add one (div (Fin tp) hundred)) = Fin (q * (1 + tp / qc 100)).
Proof. rewrite div_hundred, one_Fin. reflexivity. Qed.

Lemma stop_at_infinity (trail : Qc) :
  trail < qc 100 -> mul PInf (sub one (div (Fin trail) hundred)) = PInf.
Proof.
  intros H. rewrite div_hundred, one_Fin.
  change (sub (Fin 1) (Fin (trail / qc 100))) with (Fin (1 - trail / qc 100)).
  unfold mul, scale_inf. rewrite (proj2 (sgn_Gt _) (trail_factor_pos trail H)).
  reflexivity.
Qed.

Lemma target_at_infinity (tp : Qc) :
  0 < tp -> mul PInf (add one (div (Fin tp) hundred)) = PInf.
Proof.
  intros H. rewrite div_hundred, one_Fin.
  change (add (Fin 1) (Fin (tp / qc 100))) with (Fin (1 + tp / qc 100)).
  unfold mul, scale_inf. rewrite (proj2 (sgn_Gt _) (target_factor_pos tp H)).
  reflexivity.
Qed.

(** Once set, the activation flag stays set. *)
Lemma activation_is_kept (t : TradeHistoryEntry) (p : number) :
  truthy_bool (trailingStopActivated (sellConditions t)) = true ->
  truthy_bool (trailingStopActivated (sellConditions (fst (updateTrailingStopLoss t p)))) = true.
Proof.
  intros H. unfold updateTrailingStopLoss. rewrite H. cbn [negb].
  repeat match goal with |- context [if ?b then _ else _] => destruct b end;
    simpl; exact H.
Qed.

Lemma minus_one (x : Qc) : x <> 0 -> (0 + - x) / x = - (1).
Proof. intros H. field. exact H. Qed.

(** At price 0 the change is -100%, or [NaN] on a zero or infinite entry
    price: the machine does not activate. *)
Lemma no_activation_at_zero (t : TradeHistoryEntry) (tp : Qc) :
  0 < tp -> geb (priceChange t (Fin 0)) (Fin tp) = false.
Proof.
  intros Htp. unfold priceChange.
  destruct (entryPrice t) as [x| | |]; try reflexivity.
  change (sub (Fin 0) (Fin x)) with (Fin (0 + - x)).
  destruct (Qc_eq_dec x 0) as [-> | Hx].
  - reflexivity.
  - assert (E : div (Fin (0 + - x)) (Fin x) = Fin (- (1))).
    { unfold div. destruct (sgn x) eqn:S.
      - apply sgn_Eq in S. contradiction.
      - rewrite (minus_one x Hx). reflexivity.
      - rewrite (minus_one x Hx). reflexivity. }
    rewrite E. unfold hundred. rewrite ofZ_Fin.
    change (mul (Fin (- (1))) (Fin (qc 100))) with (Fin (- (1) * qc 100)).
    destruct (geb (Fin (- (1) * qc 100)) (Fin tp)) eqn:G; [|reflexivity].
    apply geb_Fin in G. exfalso.
    assert (K : - (1) * qc 100 < 0) by reflexivity.
    apply (Qclt_not_le _ _ Htp). apply Qclt_le_weak.
    apply (Qcle_lt_trans _ _ _ G K).
Qed.

(** One step of the machine at a price keeps it in a ratchet state. *)
Lemma ratchet_state_step (tp trail : Qc) (t : TradeHistoryEntry) (p : number) :
  0 < tp -> 0 < trail -> trail < qc 100 ->
  price p ->
  ratchet_state tp trail (sellConditions t) ->
  ratchet_state tp trail (sellConditions (fst (updateTrailingStopLoss t p))).
Proof.
  intros Htp Htr Htr100 (q & -> & Hq) (Etp & Etr & Hact).
  assert (Ttp : truthy_opt (takeProfitPercentage (sellConditions t)) = true).
  { rewrite Etp. apply truthy_Fin, pos_nonzero, Htp. }
  assert (Ttr : truthy_opt (trailingStopPercentage (sellConditions t)) = true).
  { rewrite Etr. apply truthy_Fin, pos_nonzero, Htr. }
  destruct (truthy_bool (trailingStopActivated (sellConditions t))) eqn:A.
  - destruct (Hact eq_refl) as (n & p0 & Hn & Hp0 & El & Es & Eg).
    assert (Tg : truthy (Fin (p0 * (1 + tp / qc 100))) = true).
    { apply truthy_Fin, pos_nonzero, product_pos;
        [exact Hp0 | apply target_factor_pos, Htp]. }
    rewrite (update_active_step t (Fin q) _ Ttp Ttr A Eg Tg).
    destruct (geb (Fin q) (Fin (p0 * (1 + tp / qc 100)))) eqn:G.
    + apply geb_Fin in G.
      pose proof (Qclt_trans _ _ _ Hp0 (below_target p0 q tp Hp0 Htp G)) as Hq0.
      rewrite Etp, Etr, El. cbn [toNumber or_else].
      rewrite (proj2 (truthy_Fin n) (level_pos n Hn)).
      rewrite stop_formula, target_formula, one_Fin.
      split; [exact Etp|]. split; [exact Etr|].
      intros _. exists (n + 1), q.
      split; [apply level_succ, Hn|]. split; [exact Hq0|].
      repeat split; reflexivity.
    + split; [exact Etp|]. split; [exact Etr|]. rewrite A. exact Hact.
  - rewrite (update_inactive_step t (Fin q) Ttp Ttr A). rewrite Etp. cbn [toNumber].
    destruct (Qcle_lt_or_eq 0 q Hq) as [Hq0 | <-].
    + destruct (geb (priceChange t (Fin q)) (Fin tp)).
      * rewrite Etr. cbn [toNumber].
        rewrite stop_formula, target_formula, one_Fin.
        split; [exact Etp|]. split; [exact Etr|].
        intros _. exists 1, q.
        split; [apply Qcle_refl|]. split; [exact Hq0|].
        repeat split; reflexivity.
      * split; [exact Etp|]. split; [exact Etr|]. rewrite A. discriminate.
    + rewrite (no_activation_at_zero t tp Htp).
      split; [exact Etp|]. split; [exact Etr|]. rewrite A. discriminate.
Qed.

Lemma ratchet_state_watch (tp trail : Qc) (history : list number) :
  0 < tp -> 0 < trail -> trail < qc 100 ->
  Forall price history ->
  forall t : TradeHistoryEntry,
    ratchet_state tp trail (sellConditions t) ->
    ratchet_state tp trail (sellConditions (watch history t)).
Proof.
  intros Htp Htr Htr100 Hall. induction Hall as [|p l Hp _ IH]; intros t Ht.
  - exact Ht.
  - simpl. apply IH. apply ratchet_state_step; assumption.
Qed.

(** From a ratchet state, one more update either changes nothing or moves
    level, stop and target up together. *)
Lemma ratchet_state_moves_up (tp trail : Qc) (t : TradeHistoryEntry) (p : number) :
  0 < tp -> 0 < trail -> trail < qc 100 ->
  ratchet_state tp trail (sellConditions t) ->
  truthy_bool (trailingStopActivated (sellConditions t)) = true ->
  let c := sellConditions t in
  let c' := sellConditions (fst (updateTrailingStopLoss t p)) in
  (stepLevel c' = stepLevel c
   /\ currStopPrice c' = currStopPrice c
   /\ nextTargetPrice c' = nextTargetPrice c)
  \/ (ltb (toNumber (stepLevel c)) (toNumber (stepLevel c')) = true
      /\ ltb (toNumber (currStopPrice c)) (toNumber (currStopPrice c')) = true
      /\ ltb (toNumber (nextTargetPrice c)) (toNumber (nextTargetPrice c')) = true).
Proof.
  intros Htp Htr Htr100 (Etp & Etr & Hact) A c c'.
  assert (Ttp : truthy_opt (takeProfitPercentage (sellConditions t)) = true).
  { rewrite Etp. apply truthy_Fin, pos_nonzero, Htp. }
  assert (Ttr : truthy_opt (trailingStopPercentage (sellConditions t)) = true).
  { rewrite Etr. apply truthy_Fin, pos_nonzero, Htr. }
  destruct (Hact A) as (n & p0 & Hn & Hp0 & El & Es & Eg).
  assert (Tg : truthy (Fin (p0 * (1 + tp / qc 100))) = true).
  { apply truthy_Fin, pos_nonzero, product_pos;
      [exact Hp0 | apply target_factor_pos, Htp]. }
  unfold c'. rewrite (update_active_step t p _ Ttp Ttr A Eg Tg).
  destruct (geb p (Fin (p0 * (1 + tp / qc 100)))) eqn:G; [|left; repeat split].
  right. unfold c. rewrite Etp, Etr, El, Es, Eg. cbn [toNumber or_else].
  rewrite (proj2 (truthy_Fin n) (level_pos n Hn)).
  cbn [stepLevel currStopPrice nextTargetPrice set_nextTargetPrice set_currStopPrice
       set_stepLevel toNumber].
  rewrite one_Fin.
  split; [apply ltb_Fin, level_lt|].
  destruct p as [q| | |].
  - apply geb_Fin in G.
    pose proof (below_target p0 q tp Hp0 Htp G) as Hlt.
    rewrite stop_formula, target_formula. split; apply ltb_Fin, scale_lt;
      [exact Hlt | apply trail_factor_pos, Htr100
      | exact Hlt | apply target_factor_pos, Htp].
  - rewrite <- one_Fin, (stop_at_infinity trail Htr100), (target_at_infinity tp Htp).
    split; reflexivity.
  - discriminate G.
  - discriminate G.
Qed.

(** C10. Take a trade with 0 < trailing stop < 100 and take profit > 0,
    watched over any sequence of prices (non-negative reals) from a state
    in which the stepped stop was not active.  If the stepped stop has been
    activated, any further update, at any price, either leaves stepLevel,
    currStopPrice and nextTargetPrice unchanged or strictly increases all
    three; and trailingStopActivated, once set, is never reset, whatever
    the trade. *)
Theorem C10_ratchet_never_moves_down :
  forall (t0 : TradeHistoryEntry) (history : list number) (p : number) (tp trail : Qc),
    takeProfitPercentage (sellConditions t0) = Some (Fin tp) ->
    trailingStopPercentage (sellConditions t0) = Some (Fin trail) ->
    0 < tp -> 0 < trail -> trail < qc 100 ->
    truthy_bool (trailingStopActivated (sellConditions t0)) = false ->
    Forall price history ->
    let t := watch history t0 in
    let c := sellConditions t in
    let c' := sellConditions (fst (updateTrailingStopLoss t p)) in
    truthy_bool (trailingStopActivated c) = true ->
    truthy_bool (trailingStopActivated c') = true
    /\ ((stepLevel c' = stepLevel c
         /\ currStopPrice c' = currStopPrice c
         /\ nextTargetPrice c' = nextTargetPrice c)
        \/ (ltb (toNumber (stepLevel c)) (toNumber (stepLevel c')) = true
            /\ ltb (toNumber (currStopPrice c)) (toNumber (currStopPrice c')) = true
            /\ ltb (toNumber (nextTargetPrice c)) (toNumber (nextTargetPrice c')) = true)).
Proof.
  intros t0 history p tp trail Etp Etr Htp Htr Htr100 A0 Hall t c c' A.
  split; [apply activation_is_kept, A|].
  apply (ratchet_state_moves_up tp trail t p Htp Htr Htr100); [|exact A].
  apply ratchet_state_watch; try assumption.
  split; [exact Etp|]. split; [exact Etr|]. rewrite A0. discriminate.
Qed.

Lemma C10_ratchet_never_moves_down_witness :
  let t := watch [ofZ 140; ofZ 150; ofZ 200] s1_position in
  let c := sellConditions t in
  let c' := sellConditions (fst (updateTrailingStopLoss t (ofZ 230))) in
  truthy_bool (trailingStopActivated c') = true
  /\ ((stepLevel c' = stepLevel c
       /\ currStopPrice c' = currStopPrice c
       /\ nextTargetPrice c' = nextTargetPrice c)
      \/ (ltb (toNumber (stepLevel c)) (toNumber (stepLevel c')) = true
          /\ ltb (toNumber (currStopPrice c)) (toNumber (currStopPrice c')) = true
          /\ ltb (toNumber (nextTargetPrice c)) (toNumber (nextTargetPrice c')) = true)).
Proof.
  refine (C10_ratchet_never_moves_down s1_position [ofZ 140; ofZ 150; ofZ 200]
            (ofZ 230) (qc 50) (qc 10) _ _ _ _ _ _ _ _).
  - reflexivity.
  - reflexivity.
  - reflexivity.
  - reflexivity.
  - reflexivity.
  - reflexivity.
  - repeat constructor.
    + exists (qc 140). split; [reflexivity | vm_compute; discriminate].
    + exists (qc 150). split; [reflexivity | vm_compute; discriminate].
    + exists (qc 200). split; [reflexivity | vm_compute; discriminate].
  - vm_compute. reflexivity.
Defined.

End Ratchet.

(** ** C5: bounded prediction retries *)
Section PredictionRetries.

Import RedisCacheService BotCoreEngine.

Variable filterEngine : MindmapFilterEngine.MindmapData -> MindmapFilterEngine.FilterResult.
Variable predictTrade : nat -> string -> Outcome MLPredictionService.PredictionResult.
Variable performSwap : nat -> SwapRequest -> Outcome SwapResult.
Variable buyAmount : number.
Variable risk : TradeExecutor.RiskManagementConfig.

Local Abbreviation process :=
  (processToken filterEngine predictTrade performSwap buyAmount risk).
Local Abbreviation rejects := (fun token w => nextApproved predictTrade token w = false).

Lemma process_rejected now token data w :
  isTokenProcessed now token (cache w) = false ->
  isInSet now token (prediction_failed (cache w)) = false ->
  MindmapFilterEngine.passed (filterEngine data) = true ->
  rejects token w ->
  process now token (Some data) w = (tt, afterRejection now token w).
Proof.
  intros Hp Hf Hpass Hrej.
  unfold processToken, evaluateAndExecute, mbind, M_bind, bind, readCache.
  rewrite Hp, Hf. unfold countEvaluation. rewrite Hpass. cbn [negb].
  unfold predict. cbn [predictionCalls].
  unfold nextApproved in Hrej. rewrite Hrej. cbn [negb].
  unfold afterRejection.
  destruct (incrementPredictionRetryCount now token (cache w)) as [n c] eqn:E.
  cbn [cache]. rewrite E.
  destruct (MAX_PREDICTION_RETRIES <=? n); reflexivity.
Qed.

Lemma process_short_circuit now token provided w :
  isInSet now token (prediction_failed (cache w)) = true ->
  process now token provided w = (tt, w).
Proof.
  intros Hf. unfold processToken, mbind, M_bind, bind, readCache.
  destruct (isTokenProcessed now token (cache w)); [reflexivity|].
  rewrite Hf. reflexivity.
Qed.

Lemma isInSet_added now later token k :
  now <= later < now + RETRY_TTL ->
  isInSet later token (addToSet now token RETRY_TTL k) = true.
Proof.
  intros H. unfold isInSet. apply bool_decide_eq_true_2.
  unfold addToSet, live_members at 1. cbn [set_expires members].
  rewrite (proj2 (Z.ltb_lt later (now + RETRY_TTL))) by lia.
  apply elem_of_union_r, elem_of_singleton. reflexivity.
Qed.

Lemma afterRejection_retry now token w :
  prediction_retry (cache (afterRejection now token w)) !! token
  = Some (getPredictionRetryCount now token (cache w) + 1, now + RETRY_TTL).
Proof.
  unfold afterRejection, incrementPredictionRetryCount.
  destruct (MAX_PREDICTION_RETRIES <=? _); cbn; apply lookup_insert_eq.
Qed.

Lemma afterRejection_count now later token w :
  now <= later < now + RETRY_TTL ->
  getPredictionRetryCount later token (cache (afterRejection now token w))
  = getPredictionRetryCount now token (cache w) + 1.
Proof.
  intros H. unfold getPredictionRetryCount at 1. rewrite afterRejection_retry.
  rewrite (proj2 (Z.ltb_lt later (now + RETRY_TTL))) by lia. reflexivity.
Qed.

Lemma afterRejection_processed now token w :
  processed_tokens (cache (afterRejection now token w)) = processed_tokens (cache w).
Proof.
  unfold afterRejection, incrementPredictionRetryCount.
  destruct (MAX_PREDICTION_RETRIES <=? _); reflexivity.
Qed.

Lemma afterRejection_failed now token w :
  prediction_failed (cache (afterRejection now token w))
  = if MAX_PREDICTION_RETRIES <=? getPredictionRetryCount now token (cache w) + 1
    then addToSet now token RETRY_TTL (prediction_failed (cache w))
    else prediction_failed (cache w).
Proof.
  unfold afterRejection, incrementPredictionRetryCount.
  destruct (MAX_PREDICTION_RETRIES <=? _); reflexivity.
Qed.

Lemma afterRejection_calls now token w :
  predictionCalls (afterRejection now token w) = predictionCalls w ++ [token]
  /\ swapCalls (afterRejection now token w) = swapCalls w.
Proof.
  unfold afterRejection, incrementPredictionRetryCount. split; reflexivity.
Qed.

Lemma isInSet_not_member now token k :
  token ∉ members k -> isInSet now token k = false.
Proof.
  intros H. unfold isInSet. apply bool_decide_eq_false_2.
  unfold live_members. destruct (now <? set_expires k); [exact H|].
  apply not_elem_of_empty.
Qed.

(** C5. Each evaluation that the prediction gate rejects calls the
    prediction service once, makes no swap call, and stores the token's
    retry counter, incremented, with a 1-hour TTL; when the new count
    reaches MAX_PREDICTION_RETRIES = 3 the token enters the
    predictionFailed set, also for 1 hour.  While a token is in that set,
    evaluating it changes nothing and calls nothing.  In particular, after
    three consecutive rejections (each within the TTL of the previous one),
    a fourth evaluation within the TTL makes no prediction call. *)
Theorem C5_bounded_prediction_retries :
  (RETRY_TTL = 3600 /\ MAX_PREDICTION_RETRIES = 3)
  /\ (forall now token data w,
        isTokenProcessed now token (cache w) = false ->
        isInSet now token (prediction_failed (cache w)) = false ->
        MindmapFilterEngine.passed (filterEngine data) = true ->
        rejects token w ->
        let count := getPredictionRetryCount now token (cache w) in
        let w' := snd (process now token (Some data) w) in
        predictionCalls w' = predictionCalls w ++ [token]
        /\ swapCalls w' = swapCalls w
        /\ prediction_retry (cache w') !! token = Some (count + 1, now + RETRY_TTL)
        /\ prediction_failed (cache w')
           = (if MAX_PREDICTION_RETRIES <=? count + 1
              then addToSet now token RETRY_TTL (prediction_failed (cache w))
              else prediction_failed (cache w))
        /\ (MAX_PREDICTION_RETRIES <= count + 1 ->
            forall later, now <= later < now + RETRY_TTL ->
              isInSet later token (prediction_failed (cache w')) = true))
  /\ (forall now token provided w,
        isInSet now token (prediction_failed (cache w)) = true ->
        process now token provided w = (tt, w))
  /\ (forall t1 t2 t3 t4 token d1 d2 d3 provided w0,
        t1 <= t2 < t1 + RETRY_TTL ->
        t2 <= t3 < t2 + RETRY_TTL ->
        t3 <= t4 < t3 + RETRY_TTL ->
        token ∉ members (processed_tokens (cache w0)) ->
        token ∉ members (prediction_failed (cache w0)) ->
        getPredictionRetryCount t1 token (cache w0) = 0 ->
        MindmapFilterEngine.passed (filterEngine d1) = true ->
        MindmapFilterEngine.passed (filterEngine d2) = true ->
        MindmapFilterEngine.passed (filterEngine d3) = true ->
        (forall n : nat,
           (n < 3)%nat ->
           MLPredictionService.approved
             (MLPredictionService.predict
                (predictTrade (length (predictionCalls w0) + n) token)) = false) ->
        let w1 := snd (process t1 token (Some d1) w0) in
        let w2 := snd (process t2 token (Some d2) w1) in
        let w3 := snd (process t3 token (Some d3) w2) in
        predictionCalls w3 = predictionCalls w0 ++ [token; token; token]
        /\ process t4 token provided w3 = (tt, w3)
        /\ predictionCalls (snd (process t4 token provided w3)) = predictionCalls w3).
Proof.
  split; [split; reflexivity|]. split; [|split].
  - intros now token data w Hp Hf Hpass Hrej count w'. unfold w'.
    rewrite (process_rejected now token data w Hp Hf Hpass Hrej). cbn [snd].
    destruct (afterRejection_calls now token w) as [Hc Hs].
    split; [exact Hc|]. split; [exact Hs|].
    split; [apply afterRejection_retry|].
    split; [apply afterRejection_failed|].
    intros Hmax later Hl. rewrite afterRejection_failed. fold count.
    rewrite (proj2 (Z.leb_le _ _) Hmax). apply isInSet_added, Hl.
  - intros. apply process_short_circuit. assumption.
  - intros t1 t2 t3 t4 token d1 d2 d3 provided w0 H12 H23 H34 Hproc Hfail H0
      P1 P2 P3 Hrej w1 w2 w3.
    assert (R1 : rejects token w0).
    { unfold nextApproved. rewrite <- (Nat.add_0_r (length _)). apply Hrej. lia. }
    assert (E1 : w1 = afterRejection t1 token w0).
    { unfold w1. rewrite process_rejected; try assumption; [reflexivity| |];
        apply isInSet_not_member; assumption. }
    assert (C1 : getPredictionRetryCount t2 token (cache w1) = 1).
    { rewrite E1, afterRejection_count by lia. rewrite H0. reflexivity. }
    assert (F1 : prediction_failed (cache w1) = prediction_failed (cache w0)).
    { rewrite E1, afterRejection_failed, H0. reflexivity. }
    assert (S1 : processed_tokens (cache w1) = processed_tokens (cache w0)).
    { rewrite E1. apply afterRejection_processed. }
    assert (L1 : predictionCalls w1 = predictionCalls w0 ++ [token]).
    { rewrite E1. apply afterRejection_calls. }
    assert (R2 : rejects token w1).
    { unfold nextApproved. rewrite L1, length_app. apply Hrej. simpl. lia. }
    assert (E2 : w2 = afterRejection t2 token w1).
    { unfold w2. rewrite process_rejected; try assumption; [reflexivity| |].
      - unfold isTokenProcessed. rewrite S1. apply isInSet_not_member, Hproc.
      - rewrite F1. apply isInSet_not_member, Hfail. }
    assert (C2 : getPredictionRetryCount t3 token (cache w2) = 2).
    { rewrite E2, afterRejection_count by lia. rewrite C1. reflexivity. }
    assert (F2 : prediction_failed (cache w2) = prediction_failed (cache w0)).
    { rewrite E2, afterRejection_failed, C1. exact F1. }
    assert (S2 : processed_tokens (cache w2) = processed_tokens (cache w0)).
    { rewrite E2, afterRejection_processed. exact S1. }
    assert (L2 : predictionCalls w2 = predictionCalls w0 ++ [token; token]).
    { rewrite E2. rewrite (proj1 (afterRejection_calls t2 token w1)), L1.
      rewrite <- app_assoc. reflexivity. }
    assert (R3 : rejects token w2).
    { unfold nextApproved. rewrite L2, length_app. apply Hrej. simpl. lia. }
    assert (E3 : w3 = afterRejection t3 token w2).
    { unfold w3. rewrite process_rejected; try assumption; [reflexivity| |].
      - unfold isTokenProcessed. rewrite S2. apply isInSet_not_member, Hproc.
      - rewrite F2. apply isInSet_not_member, Hfail. }
    assert (L3 : predictionCalls w3 = predictionCalls w0 ++ [token; token; token]).
    { rewrite E3. rewrite (proj1 (afterRejection_calls t3 token w2)), L2.
      rewrite <- app_assoc. reflexivity. }
    assert (F3 : isInSet t4 token (prediction_failed (cache w3)) = true).
    { rewrite E3, afterRejection_failed, C2.
      change (MAX_PREDICTION_RETRIES <=? 2 + 1) with true. cbv iota.
      apply isInSet_added, H34. }
    split; [exact L3|].
    rewrite (process_short_circuit t4 token provided w3 F3).
    split; reflexivity.
Qed.

End PredictionRetries.

Lemma C5_bounded_prediction_retries_witness :
  let process :=
    BotCoreEngine.processToken permissive_filter rejecting_endpoint filling_backend
      (ofZ 1) s5_risk in
  let w1 := snd (process 0 "TokenX"%string (Some (s4_snapshot 0)) initial_world) in
  let w2 := snd (process 1000 "TokenX"%string (Some (s4_snapshot 1000)) w1) in
  let w3 := snd (process 2000 "TokenX"%string (Some (s4_snapshot 2000)) w2) in
  process 3000 "TokenX"%string None w3 = (tt, w3).
Proof.
  refine (proj1 (proj2
            (proj2 (proj2 (proj2
               (C5_bounded_prediction_retries permissive_filter rejecting_endpoint
                  filling_backend (ofZ 1) s5_risk)))
               0 1000 2000 3000 "TokenX"%string
               (s4_snapshot 0) (s4_snapshot 1000) (s4_snapshot 2000) None initial_world
               _ _ _ _ _ _ _ _ _ _))).
  - unfold RedisCacheService.RETRY_TTL. lia.
  - unfold RedisCacheService.RETRY_TTL. lia.
  - unfold RedisCacheService.RETRY_TTL. lia.
  - simpl. apply not_elem_of_empty.
  - simpl. apply not_elem_of_empty.
  - reflexivity.
  - reflexivity.
  - reflexivity.
  - reflexivity.
  - intros n _. reflexivity.
Defined.

(** ** C2: the per-token lock and the buy *)
Section PendingTradeLock.

Import RedisCacheService.

(** C2, as stated, fails: with the lock of a token held, [execute] still
    calls the swap backend and reports a successful buy. *)
Lemma C2_execute_ignores_the_lock :
  let held := snd (acquirePendingTradeLock 0 "TokenX" empty_cache) in
  let w := set_cache held initial_world in
  let buy :=
    TradeExecutor.execute filling_backend 10
      {| TradeExecutor.tokenMint := "TokenX"; TradeExecutor.amount := ofZ 1;
         TradeExecutor.riskConfig := s5_risk; TradeExecutor.prediction := None |} w in
  fst (acquirePendingTradeLock 10 "TokenX" (cache w)) = false
  /\ TradeExecutor.success (fst buy) = true
  /\ length (swapCalls (snd buy)) = 1%nat
  /\ pending_trade (cache (snd buy)) = pending_trade (cache w).
Proof. cbv zeta. repeat split; vm_compute; reflexivity. Qed.

Lemma acquire_when_free now token c :
  isLocked now token c = false ->
  acquirePendingTradeLock now token c
  = (true, set_pending_trade (<[token := now + LOCK_TTL]> (pending_trade c)) c).
Proof. intros H. unfold acquirePendingTradeLock. rewrite H. reflexivity. Qed.

Lemma acquire_when_held now token c :
  isLocked now token c = true -> acquirePendingTradeLock now token c = (false, c).
Proof. intros H. unfold acquirePendingTradeLock. rewrite H. reflexivity. Qed.

Lemma held_after_acquire now later token c :
  now <= later < now + LOCK_TTL ->
  isLocked later token
    (set_pending_trade (<[token := now + LOCK_TTL]> (pending_trade c)) c) = true.
Proof.
  intros H. unfold isLocked. cbn [pending_trade set_pending_trade].
  rewrite lookup_insert_eq. apply Z.ltb_lt. lia.
Qed.

Lemma execute_swaps performSwap now trade w :
  swapCalls (snd (TradeExecutor.execute performSwap now trade w))
  = swapCalls w ++ [TradeExecutor.buyRequest trade]
  /\ pending_trade (cache (snd (TradeExecutor.execute performSwap now trade w)))
     = pending_trade (cache w).
Proof.
  unfold TradeExecutor.execute, mbind, M_bind, bind, TradeExecutor.callSwap.
  destruct (performSwap _ _) as [r | msg]; [|split; reflexivity].
  destruct (sr_success r); split; reflexivity.
Qed.

(** C2 (amended). TradeExecutor.execute takes no lock: it always issues
    the swap call and leaves the per-token lock as it is.  The lock is the
    cache's acquirePendingTradeLock, with a 60-second TTL: it succeeds
    exactly when the token has no live lock, a failed acquisition changes
    nothing, and of two acquisitions for the same token less than 60
    seconds apart, with no release in between, exactly the first
    succeeds. *)
Theorem C2_lock_is_not_taken_by_execute :
  LOCK_TTL = 60
  /\ (forall performSwap now trade w,
        swapCalls (snd (TradeExecutor.execute performSwap now trade w))
        = swapCalls w ++ [TradeExecutor.buyRequest trade]
        /\ pending_trade (cache (snd (TradeExecutor.execute performSwap now trade w)))
           = pending_trade (cache w))
  /\ (forall now token c,
        fst (acquirePendingTradeLock now token c) = negb (isLocked now token c)
        /\ (fst (acquirePendingTradeLock now token c) = false ->
            snd (acquirePendingTradeLock now token c) = c)
        /\ (fst (acquirePendingTradeLock now token c) = true ->
            pending_trade (snd (acquirePendingTradeLock now token c)) !! token
            = Some (now + LOCK_TTL)))
  /\ (forall t1 t2 token c,
        isLocked t1 token c = false ->
        t1 <= t2 < t1 + LOCK_TTL ->
        let first := acquirePendingTradeLock t1 token c in
        let second := acquirePendingTradeLock t2 token (snd first) in
        fst first = true /\ fst second = false /\ snd second = snd first).
Proof.
  split; [reflexivity|]. split; [|split].
  - intros. apply execute_swaps.
  - intros now token c. unfold acquirePendingTradeLock.
    destruct (isLocked now token c); cbn [fst snd negb].
    + split; [reflexivity|]. split; [reflexivity | discriminate].
    + split; [reflexivity|]. split; [discriminate|].
      intros _. cbn [pending_trade set_pending_trade]. apply lookup_insert_eq.
  - intros t1 t2 token c Hfree H first second. unfold second, first.
    rewrite (acquire_when_free t1 token c Hfree). cbn [fst snd].
    rewrite (acquire_when_held t2 token _ (held_after_acquire t1 t2 token c H)).
    repeat split.
Qed.

Lemma C2_lock_is_not_taken_by_execute_witness :
  let first := acquirePendingTradeLock 0 "TokenX" empty_cache in
  let second := acquirePendingTradeLock 10 "TokenX" (snd first) in
  fst first = true /\ fst second = false /\ snd second = snd first.
Proof.
  refine (proj2 (proj2 (proj2 C2_lock_is_not_taken_by_execute))
            0 10 "TokenX"%string empty_cache _ _).
  - reflexivity.
  - unfold LOCK_TTL. lia.
Defined.

End PendingTradeLock.

(** Rational goals over [Qc], restated over [Q] for [lra] and [nra]. *)
Ltac to_Q :=
  unfold qc in *;
  unfold Qclt, Qcle, Qcdiv, Qcminus, Qcmult, Qcplus, Qcopp, Qcinv in *;
  repeat (unfold Q2Qc in *; cbn [this] in *; rewrite ?Qred_correct in * );
  unfold inject_Z in *;
  change (/ (100 # 1))%Q with (1 # 100)%Q in *.

(** ** The watcher's evaluation of a trade: price bounds and exits *)
Section WatcherTick.

Import TradeWatcherService.

Local Open Scope Qc_scope.

Lemma not_ltb_geb (x y : Qc) : ltb (Fin x) (Fin y) = false -> geb (Fin x) (Fin y) = true.
Proof.
  intros H. apply geb_Fin. destruct (Qclt_le_dec x y) as [L|L]; [|exact L].
  apply ltb_Fin in L. congruence.
Qed.





Lemma leb_Fin_false (x y : Qc) : leb (Fin x) (Fin y) = false <-> y < x.
Proof.
  split; intros H.
  - destruct (Qclt_le_dec y x) as [L|L]; [exact L|].
    apply leb_Fin in L. congruence.
  - destruct (leb (Fin x) (Fin y)) eqn:E; [|reflexivity].
    apply leb_Fin in E. exfalso. apply (Qclt_not_le _ _ H E).
Qed.

Lemma geb_Fin_false (x y : Qc) : geb (Fin x) (Fin y) = false <-> x < y.
Proof. apply leb_Fin_false. Qed.


End WatcherTick.

(** ** The position store: its indices, queries and deletion *)
Section StoreQueries.

Import TradeHistoryService.

Local Set Warnings "-clear-no-such-hyp".

Lemma consistent_empty : consistent empty_store.
Proof.
  assert (N : forall (k : string) (P : TradeHistoryEntry -> Prop),
            ~ exists t, (∅ : gmap string TradeHistoryEntry) !! k = Some t /\ P t).
  { intros k P (t & H & _). rewrite lookup_empty in H. discriminate. }
  split; simpl.
  - intros k t H. rewrite lookup_empty in H. discriminate.
  - intros k t H. rewrite lookup_empty in H. discriminate.
  - intros k. split; [set_solver | intros H; destruct (N _ _ H)].
  - intros k. split; [set_solver | intros H; destruct (N _ _ H)].
  - intros a k. rewrite lookup_empty. split; [set_solver | intros H; destruct (N _ _ H)].
  - intros m k. rewrite lookup_empty. split; [set_solver | intros H; destruct (N _ _ H)].
  - intros a. rewrite lookup_empty. discriminate.
  - intros m. rewrite lookup_empty. discriminate.
Qed.

Lemma index_add_members (a b k v : string) (m : gmap string (gset string)) :
  k ∈ default ∅ (index_add a v m !! b)
  <-> k ∈ default ∅ (m !! b) \/ (a = b /\ k = v).
Proof.
  unfold index_add. destruct (decide (a = b)) as [->|Hab].
  - rewrite lookup_insert_eq. simpl. rewrite elem_of_union, elem_of_singleton. tauto.
  - rewrite lookup_insert_ne by exact Hab. split; [tauto | intros [H|[H _]]; [exact H | contradiction]].
Qed.

Lemma index_add_keys (a b v : string) (m : gmap string (gset string)) :
  m !! b <> Some ∅ -> index_add a v m !! b <> Some ∅.
Proof.
  intros H. unfold index_add. destruct (decide (a = b)) as [->|Hab].
  - rewrite lookup_insert_eq. intros E. injection E as E.
    assert (K : v ∈ (∅ : gset string)) by (rewrite <- E; set_solver).
    set_solver.
  - rewrite lookup_insert_ne by exact Hab. exact H.
Qed.

(** Writing an entry that is open or closed, under an id that is free or
    held by an entry of the same agent and token, keeps the store
    consistent. *)
Lemma storeTrade_consistent (t : TradeHistoryEntry) (s : Store) :
  consistent s -> status t <> failed ->
  (forall t0, trades s !! id t = Some t0 -> agentId t0 = agentId t /\ tokenMint t0 = tokenMint t) ->
  consistent (storeTrade t s).
Proof.
  intros C Hst Hsame. destruct C as [Ck Cs Co Cc Ca Ct Cak Ctk].
  assert (L : forall k x, <[id t := json_trade t]> (trades s) !! k = Some x ->
              (k = id t /\ x = json_trade t) \/ (k <> id t /\ trades s !! k = Some x)).
  { intros k x H. destruct (decide (k = id t)) as [->|Hk].
    - rewrite lookup_insert_eq in H. left. split; congruence.
    - rewrite lookup_insert_ne in H by congruence. right. split; assumption. }
  split; unfold storeTrade; cbn [trades agent_trades token_trades open_trades closed_trades].
  - intros k x H. destruct (L k x H) as [[-> ->]|[_ H']]; [reflexivity | eauto].
  - intros k x H. destruct (L k x H) as [[-> ->]|[_ H']]; [exact Hst | eauto].
  - intros k. destruct (decide (k = id t)) as [->|Hk].
    + rewrite lookup_insert_eq. destruct (status t) eqn:E; try contradiction.
      * split; [intros _; exists (json_trade t); split; [reflexivity | exact E] | set_solver].
      * split; [set_solver | intros (x & Hx & Hs); injection Hx as <-; simpl in Hs; congruence].
    + rewrite lookup_insert_ne by congruence. rewrite <- Co.
      destruct (status t); set_solver.
  - intros k. destruct (decide (k = id t)) as [->|Hk].
    + rewrite lookup_insert_eq. destruct (status t) eqn:E; try contradiction.
      * split; [set_solver | intros (x & Hx & Hs); injection Hx as <-; simpl in Hs; congruence].
      * split; [intros _; exists (json_trade t); split; [reflexivity | exact E] | set_solver].
    + rewrite lookup_insert_ne by congruence. rewrite <- Cc.
      destruct (status t); set_solver.
  - intros a k. rewrite index_add_members. destruct (decide (k = id t)) as [->|Hk].
    + rewrite lookup_insert_eq. split.
      * intros [H|[<- _]]; [|exists (json_trade t); split; reflexivity].
        apply Ca in H as (t0 & H0 & <-). destruct (Hsame t0 H0) as [-> _].
        exists (json_trade t). split; reflexivity.
      * intros (x & Hx & <-). injection Hx as <-. right. split; reflexivity.
    + rewrite lookup_insert_ne by congruence. rewrite Ca. split; [|tauto].
      intros [H|[_ H]]; [exact H | contradiction].
  - intros m k. rewrite index_add_members. destruct (decide (k = id t)) as [->|Hk].
    + rewrite lookup_insert_eq. split.
      * intros [H|[<- _]]; [|exists (json_trade t); split; reflexivity].
        apply Ct in H as (t0 & H0 & <-). destruct (Hsame t0 H0) as [_ ->].
        exists (json_trade t). split; reflexivity.
      * intros (x & Hx & <-). injection Hx as <-. right. split; reflexivity.
    + rewrite lookup_insert_ne by congruence. rewrite Ct. split; [|tauto].
      intros [H|[_ H]]; [exact H | contradiction].
  - intros a. apply index_add_keys, Cak.
  - intros m. apply index_add_keys, Ctk.
Qed.

Lemma emit_consistent e s : consistent s -> consistent (emit e s).
Proof. intros [? ? ? ? ? ? ? ?]. split; assumption. Qed.

Lemma index_remove_members (a b k v : string) (m : gmap string (gset string)) :
  k ∈ default ∅ (index_remove a v m !! b)
  <-> k ∈ default ∅ (m !! b) /\ ~ (a = b /\ k = v).
Proof.
  unfold index_remove. destruct (m !! a) as [ids|] eqn:E.
  - destruct (decide (ids ∖ {[v]} = ∅)) as [D|D].
    + destruct (decide (a = b)) as [<-|Hab].
      * rewrite lookup_delete_eq, E. simpl. set_solver.
      * rewrite lookup_delete_ne by exact Hab. tauto.
    + destruct (decide (a = b)) as [<-|Hab].
      * rewrite lookup_insert_eq, E. simpl. set_solver.
      * rewrite lookup_insert_ne by exact Hab. tauto.
  - destruct (decide (a = b)) as [<-|Hab].
    + rewrite E. simpl. set_solver.
    + tauto.
Qed.

Lemma index_remove_keys (a b v : string) (m : gmap string (gset string)) :
  m !! b <> Some ∅ -> index_remove a v m !! b <> Some ∅.
Proof.
  intros H. unfold index_remove. destruct (m !! a) as [ids|] eqn:E; [|exact H].
  destruct (decide (ids ∖ {[v]} = ∅)) as [D|D].
  - destruct (decide (a = b)) as [<-|Hab].
    + rewrite lookup_delete_eq. discriminate.
    + rewrite lookup_delete_ne by exact Hab. exact H.
  - destruct (decide (a = b)) as [<-|Hab].
    + rewrite lookup_insert_eq. congruence.
    + rewrite lookup_insert_ne by exact Hab. exact H.
Qed.

Lemma deleteTrade_consistent (k : string) (s : Store) :
  consistent s -> consistent (snd (deleteTrade k s)).
Proof.
  intros C. unfold deleteTrade, getTrade. destruct (trades s !! k) as [t|] eqn:E; [|exact C].
  destruct C as [Ck Cs Co Cc Ca Ct Cak Ctk].
  assert (L : forall j x, delete k (trades s) !! j = Some x <-> j <> k /\ trades s !! j = Some x).
  { intros j x. rewrite lookup_delete_Some. split; intros [H1 H2]; split; congruence. }
  split; cbn [snd trades agent_trades token_trades open_trades closed_trades].
  - intros j x H. apply L in H as [_ H]. eauto.
  - intros j x H. apply L in H as [_ H]. eauto.
  - intros j. rewrite elem_of_difference, elem_of_singleton, Co.
    split.
    + intros [(x & Hx & Hs) Hj]. exists x. split; [apply L; split; assumption | exact Hs].
    + intros (x & Hx & Hs). apply L in Hx as [Hj Hx]. split; [eauto | exact Hj].
  - intros j. rewrite elem_of_difference, elem_of_singleton, Cc.
    split.
    + intros [(x & Hx & Hs) Hj]. exists x. split; [apply L; split; assumption | exact Hs].
    + intros (x & Hx & Hs). apply L in Hx as [Hj Hx]. split; [eauto | exact Hj].
  - intros a j. rewrite index_remove_members, Ca. split.
    + intros [(x & Hx & Hs) Hn]. exists x. split; [|exact Hs]. apply L. split; [|exact Hx].
      intros ->. apply Hn. split; [|reflexivity]. congruence.
    + intros (x & Hx & Hs). apply L in Hx as [Hj Hx]. split; [eauto | tauto].
  - intros m j. rewrite index_remove_members, Ct. split.
    + intros [(x & Hx & Hs) Hn]. exists x. split; [|exact Hs]. apply L. split; [|exact Hx].
      intros ->. apply Hn. split; [|reflexivity]. congruence.
    + intros (x & Hx & Hs). apply L in Hx as [Hj Hx]. split; [eauto | tauto].
  - intros a. apply index_remove_keys, Cak.
  - intros m. apply index_remove_keys, Ctk.
Qed.

Lemma createTrade_consistent (k : string) now params s :
  consistent s -> getTrade k s = None -> consistent (snd (createTrade k now params s)).
Proof.
  intros C Hk. unfold createTrade. cbn [snd]. apply emit_consistent.
  apply storeTrade_consistent; [exact C | discriminate |].
  cbn [id]. unfold getTrade in Hk. intros t0 H. congruence.
Qed.

Lemma updateTradePrice_consistent now (k : string) p s :
  consistent s -> consistent (updateTradePrice now k p s).
Proof.
  intros C. unfold updateTradePrice, getTrade.
  destruct (trades s !! k) as [t|] eqn:E; [|exact C].
  destruct (decide (status t = open)) as [Ho|]; [|exact C].
  do 2 apply emit_consistent. apply storeTrade_consistent; [exact C | |].
  - repeat match goal with |- context [if ?b then _ else _] => destruct b end;
      cbn; rewrite Ho; discriminate.
  - assert (I : forall u, id (set_updatedAt now u) = id u /\ agentId (set_updatedAt now u) = agentId u
                          /\ tokenMint (set_updatedAt now u) = tokenMint u)
      by (intros; repeat split; reflexivity).
    pose proof (keyed s C k t E) as Hid.
    repeat match goal with |- context [if ?b then _ else _] => destruct b end;
      cbn; rewrite Hid; intros t0 H0; rewrite E in H0; injection H0 as <-; split; reflexivity.
Qed.

Lemma closeTrade_consistent now params s :
  consistent s -> consistent (snd (closeTrade now params s)).
Proof.
  intros C. unfold closeTrade, getTrade.
  destruct (trades s !! tradeId params) as [t|] eqn:E; [|exact C].
  cbn [snd]. apply emit_consistent. pose proof (keyed s C _ t E) as Hid.
  apply storeTrade_consistent; [exact C | |].
  - destruct (cl_sellTransactionId params), (cl_sellReason params); cbn; discriminate.
  - destruct (cl_sellTransactionId params), (cl_sellReason params); cbn;
      rewrite Hid; intros t0 H0; rewrite E in H0; injection H0 as <-; split; reflexivity.
Qed.

(** X5. The operations of the store keep it consistent: starting from a
    consistent store, creating a position under an unused id, updating a
    price, closing and deleting leave the status sets and both indices in
    agreement with the entries. *)
Theorem store_stays_consistent (s : Store) :
  consistent s ->
  (forall (k : string) now params,
      getTrade k s = None -> consistent (snd (createTrade k now params s)))
  /\ (forall now (k : string) p, consistent (updateTradePrice now k p s))
  /\ (forall now params, consistent (snd (closeTrade now params s)))
  /\ (forall k : string, consistent (snd (deleteTrade k s))).
Proof.
  intros C. split; [|split; [|split]].
  - intros k now params H. apply createTrade_consistent; assumption.
  - intros now k p. apply updateTradePrice_consistent, C.
  - intros now params. apply closeTrade_consistent, C.
  - intros k. apply deleteTrade_consistent, C.
Qed.

Lemma store_stays_consistent_witness :
  consistent (snd (createTrade "trade_s1" 0 s1_params empty_store)).
Proof.
  apply (proj1 (store_stays_consistent empty_store consistent_empty)).
  reflexivity.
Defined.

Lemma insertNewestFirst_perm t l : insertNewestFirst t l ≡ₚ t :: l.
Proof.
  induction l as [|u l IH]; [reflexivity|]. simpl.
  destruct (createdAt u <=? createdAt t); [reflexivity|].
  rewrite IH. apply Permutation_swap.
Qed.

Lemma sortNewestFirst_perm l : sortNewestFirst l ≡ₚ l.
Proof.
  induction l as [|t l IH]; [reflexivity|]. simpl.
  rewrite insertNewestFirst_perm. rewrite IH. reflexivity.
Qed.

Lemma insertNewestFirst_sorted t l :
  StronglySorted newerFirst l -> StronglySorted newerFirst (insertNewestFirst t l).
Proof.
  induction 1 as [|u l Hl IH Hu]; simpl.
  - repeat constructor.
  - destruct (createdAt u <=? createdAt t) eqn:E.
    + apply Z.leb_le in E. constructor; [constructor; assumption|].
      constructor; [exact E|].
      eapply Forall_impl; [exact Hu|]. intros y Hy. unfold newerFirst in *. lia.
    + apply Z.leb_gt in E. constructor; [exact IH|].
      rewrite insertNewestFirst_perm. constructor; [unfold newerFirst; lia | exact Hu].
Qed.

Lemma sortNewestFirst_sorted l : StronglySorted newerFirst (sortNewestFirst l).
Proof.
  induction l as [|t l IH]; simpl; [constructor | apply insertNewestFirst_sorted, IH].
Qed.

Lemma elem_of_fetch (t : TradeHistoryEntry) (ids : list string) (s : Store) :
  t ∈ fetch ids s <-> exists k, k ∈ ids /\ getTrade k s = Some t.
Proof. unfold fetch. apply list_elem_of_omap. Qed.

Lemma elem_of_filter_bool {A : Type} (f : A -> bool) (x : A) (l : list A) :
  x ∈ List.filter f l <-> x ∈ l /\ f x = true.
Proof. rewrite !list_elem_of_In. apply filter_In. Qed.

Lemma NoDup_filter_bool {A : Type} (f : A -> bool) (l : list A) :
  NoDup l -> NoDup (List.filter f l).
Proof.
  induction 1 as [|x l Hx Hl IH]; simpl; [constructor|].
  destruct (f x); [|exact IH]. constructor; [|exact IH].
  rewrite elem_of_filter_bool. tauto.
Qed.

Lemma fetch_cons (k : string) (ids : list string) (s : Store) :
  fetch (k :: ids) s
  = match getTrade k s with Some t => t :: fetch ids s | None => fetch ids s end.
Proof. reflexivity. Qed.

Lemma NoDup_fetch (ids : list string) (s : Store) :
  consistent s -> NoDup ids -> NoDup (fetch ids s).
Proof.
  intros C. induction 1 as [|k ids Hk Hids IH]; [constructor|].
  rewrite fetch_cons. destruct (getTrade k s) as [t|] eqn:E; [|exact IH].
  constructor; [|exact IH].
  rewrite elem_of_fetch. intros (j & Hj & Ej).
  pose proof (keyed s C _ _ E). pose proof (keyed s C _ _ Ej). congruence.
Qed.

(** X6. On a consistent store [getOpenTrades] returns exactly the open
    positions (those of the agent, when one is named), each once, newest
    first. *)
Theorem getOpenTrades_exact (agent : option string) (s : Store) :
  consistent s ->
  (forall t, t ∈ getOpenTrades agent s
             <-> getTrade (id t) s = Some t /\ status t = open
                 /\ (truthy_str agent = true -> Some (agentId t) = agent))
  /\ NoDup (getOpenTrades agent s)
  /\ StronglySorted newerFirst (getOpenTrades agent s).
Proof.
  intros C. unfold getOpenTrades. split; [|split].
  - intros t. rewrite sortNewestFirst_perm, elem_of_filter_bool, elem_of_fetch.
    split.
    + intros [(k & Hk & Ht) Hf]. apply elem_of_elements in Hk.
      pose proof (keyed s C _ _ Ht) as Hid. rewrite Hid.
      apply (open_listed s C) in Hk as (t0 & H0 & Ho). unfold getTrade in Ht.
      assert (t0 = t) by congruence. subst t0.
      split; [exact Ht|]. split; [exact Ho|]. intros Ha. rewrite Ha in Hf.
      apply bool_decide_eq_true_1 in Hf. exact Hf.
    + intros (Ht & Ho & Ha). split.
      * exists (id t). split; [|exact Ht]. apply elem_of_elements.
        apply (open_listed s C). exists t. split; assumption.
      * destruct (truthy_str agent); [|reflexivity].
        apply bool_decide_eq_true_2, Ha. reflexivity.
  - rewrite sortNewestFirst_perm. apply NoDup_filter_bool, NoDup_fetch; [exact C|].
    apply NoDup_elements.
  - apply sortNewestFirst_sorted.
Qed.

Lemma s1_store_consistent : consistent s1_store.
Proof. apply createTrade_consistent; [apply consistent_empty | reflexivity]. Qed.

Lemma getOpenTrades_exact_witness :
  NoDup (getOpenTrades None s1_store)
  /\ StronglySorted newerFirst (getOpenTrades None s1_store).
Proof. apply (getOpenTrades_exact None s1_store s1_store_consistent). Defined.

(** X7. On a consistent store the index queries are exact:
    [getTradesByAgent] returns the entries of the agent (of the wanted
    status, when one is given) and [getTradesByToken] the entries of the
    token, each once, newest first. *)
Theorem index_queries_exact (s : Store) :
  consistent s ->
  (forall (a : string) (wanted : option TradeStatus),
      (forall t, t ∈ getTradesByAgent a wanted s
                 <-> getTrade (id t) s = Some t /\ agentId t = a
                     /\ (forall st, wanted = Some st -> status t = st))
      /\ NoDup (getTradesByAgent a wanted s)
      /\ StronglySorted newerFirst (getTradesByAgent a wanted s))
  /\ (forall m : string,
        (forall t, t ∈ getTradesByToken m s <-> getTrade (id t) s = Some t /\ tokenMint t = m)
        /\ NoDup (getTradesByToken m s)
        /\ StronglySorted newerFirst (getTradesByToken m s)).
Proof.
  intros C. split.
  - intros a wanted. unfold getTradesByAgent, index_members. split; [|split].
    + intros t. rewrite sortNewestFirst_perm, elem_of_filter_bool, elem_of_fetch. split.
      * intros [(k & Hk & Ht) Hf]. apply elem_of_elements in Hk.
        pose proof (keyed s C _ _ Ht) as Hid. rewrite Hid.
        apply (agent_listed s C) in Hk as (t0 & H0 & Ha). unfold getTrade in Ht.
        assert (t0 = t) by congruence. subst t0.
        split; [exact Ht|]. split; [exact Ha|]. intros st ->.
        apply bool_decide_eq_true_1 in Hf. exact Hf.
      * intros (Ht & Ha & Hw). split.
        -- exists (id t). split; [|exact Ht]. apply elem_of_elements.
           apply (agent_listed s C). exists t. split; assumption.
        -- destruct wanted as [st|]; [|reflexivity].
           apply bool_decide_eq_true_2, Hw. reflexivity.
    + rewrite sortNewestFirst_perm. apply NoDup_filter_bool, NoDup_fetch; [exact C|].
      apply NoDup_elements.
    + apply sortNewestFirst_sorted.
  - intros m. unfold getTradesByToken, index_members. split; [|split].
    + intros t. rewrite sortNewestFirst_perm, elem_of_fetch. split.
      * intros (k & Hk & Ht). apply elem_of_elements in Hk.
        pose proof (keyed s C _ _ Ht) as Hid. rewrite Hid.
        apply (token_listed s C) in Hk as (t0 & H0 & Ha). unfold getTrade in Ht.
        assert (t0 = t) by congruence. subst t0. split; assumption.
      * intros (Ht & Ha). exists (id t). split; [|exact Ht]. apply elem_of_elements.
        apply (token_listed s C). exists t. split; assumption.
    + rewrite sortNewestFirst_perm. apply NoDup_fetch; [exact C | apply NoDup_elements].
    + apply sortNewestFirst_sorted.
Qed.

Lemma index_queries_exact_witness :
  NoDup (getTradesByToken "MINT" s1_store)
  /\ StronglySorted newerFirst (getTradesByToken "MINT" s1_store).
Proof.
  apply (proj2 (index_queries_exact s1_store s1_store_consistent) "MINT"%string).
Defined.

Lemma index_add_remove (a v : string) (m : gmap string (gset string)) :
  v ∉ default ∅ (m !! a) -> m !! a <> Some ∅ ->
  index_remove a v (index_add a v m) = m.
Proof.
  intros Hv Hne. unfold index_remove, index_add. rewrite lookup_insert_eq.
  destruct (m !! a) as [ids|] eqn:E; simpl in *.
  - assert (D : (ids ∪ {[v]}) ∖ {[v]} = ids) by set_solver.
    rewrite D. destruct (decide (ids = ∅)) as [->|_]; [congruence|].
    rewrite insert_insert_eq. apply insert_id. exact E.
  - assert (D : ((∅ : gset string) ∪ {[v]}) ∖ {[v]} = ∅) by set_solver.
    rewrite D. destruct (decide ((∅ : gset string) = ∅)) as [_|N]; [|congruence].
    rewrite delete_insert_eq. apply delete_id. exact E.
Qed.

(** X9. [deleteTrade] answers false and changes nothing for an id that is
    not stored; for a stored id it answers true and removes the entry and
    its id from both status sets and both indices, leaving the other
    entries alone.  On a consistent store, deleting a position just
    created under an unused id gives back the previous contents. *)
Theorem deleteTrade_removes (k : string) (s : Store) :
  (getTrade k s = None -> deleteTrade k s = (false, s))
  /\ (forall t, getTrade k s = Some t ->
        let s' := snd (deleteTrade k s) in
        fst (deleteTrade k s) = true
        /\ getTrade k s' = None
        /\ (k ∉ open_trades s') /\ (k ∉ closed_trades s')
        /\ (k ∉ default ∅ (agent_trades s' !! agentId t))
        /\ (k ∉ default ∅ (token_trades s' !! tokenMint t))
        /\ (forall j : string, j <> k -> getTrade j s' = getTrade j s))
  /\ (forall now params,
        consistent s -> getTrade k s = None ->
        contents (snd (deleteTrade k (snd (createTrade k now params s)))) = contents s).
Proof.
  split; [|split].
  - intros H. unfold deleteTrade. rewrite H. reflexivity.
  - intros t H s'. subst s'. unfold deleteTrade. rewrite H. cbn [fst snd].
    unfold getTrade. cbn [trades open_trades closed_trades agent_trades token_trades].
    repeat split.
    + apply lookup_delete_eq.
    + set_solver.
    + set_solver.
    + rewrite index_remove_members. intros [_ N]. apply N. split; reflexivity.
    + rewrite index_remove_members. intros [_ N]. apply N. split; reflexivity.
    + intros j Hj. apply lookup_delete_ne. congruence.
  - intros now params C Hk. unfold createTrade. cbn [snd].
    match goal with |- context [storeTrade ?t s] => set (trade := t) end.
    unfold deleteTrade. rewrite getTrade_emit.
    change k with (id trade) at 1. rewrite storeTrade_lookup. cbn [snd].
    unfold contents, emit, storeTrade.
    cbn [trades open_trades closed_trades agent_trades token_trades id status agentId
         tokenMint json_trade trade].
    unfold getTrade in Hk.
    assert (Ho : k ∉ open_trades s).
    { intros H. apply (open_listed s C) in H as (t & Ht & _). congruence. }
    assert (Hc : k ∉ closed_trades s).
    { intros H. apply (closed_listed s C) in H as (t & Ht & _). congruence. }
    assert (Ha : k ∉ default ∅ (agent_trades s !! cp_agentId params)).
    { intros H. apply (agent_listed s C) in H as (t & Ht & _). congruence. }
    assert (Hm : k ∉ default ∅ (token_trades s !! cp_tokenMint params)).
    { intros H. apply (token_listed s C) in H as (t & Ht & _). congruence. }
    rewrite delete_insert_eq, (delete_id _ _ Hk).
    change (agentId (json_trade trade)) with (cp_agentId params).
    change (tokenMint (json_trade trade)) with (cp_tokenMint params).
    rewrite (index_add_remove _ _ _ Ha (agent_keys s C _)).
    rewrite (index_add_remove _ _ _ Hm (token_keys s C _)).
    f_equal; [f_equal|]; set_solver.
Qed.

Lemma deleteTrade_removes_witness :
  contents (snd (deleteTrade "trade_s1" s1_store)) = contents empty_store.
Proof.
  apply (proj2 (proj2 (deleteTrade_removes "trade_s1" empty_store)) 0 s1_params
           consistent_empty).
  reflexivity.
Defined.

Lemma deleteTrade_trades (k : string) (s : Store) :
  trades (snd (deleteTrade k s)) = delete k (trades s)
  /\ emitted (snd (deleteTrade k s)) = emitted s.
Proof.
  unfold deleteTrade, getTrade. destruct (trades s !! k) eqn:E; cbn [snd trades emitted].
  - split; reflexivity.
  - split; [|reflexivity]. symmetry. apply delete_id. exact E.
Qed.

Lemma deleteAll_trades (ids : list string) (s : Store) :
  let s' := foldl (fun acc i => snd (deleteTrade i acc)) s ids in
  (consistent s -> consistent s')
  /\ (forall j : string, trades s' !! j = if decide (j ∈ ids) then None else trades s !! j)
  /\ emitted s' = emitted s.
Proof.
  revert s. induction ids as [|i ids IH]; intros s; cbn [foldl].
  - split; [tauto|]. split; [|reflexivity]. intros j.
    destruct (decide (j ∈ [])) as [H|_]; [inversion H | reflexivity].
  - destruct (IH (snd (deleteTrade i s))) as (IC & IT & IE).
    destruct (deleteTrade_trades i s) as [Ht He].
    split; [|split].
    + intros C. apply IC, deleteTrade_consistent, C.
    + intros j. rewrite IT, Ht.
      destruct (decide (j ∈ ids)) as [Hj|Hj].
      * rewrite decide_True by (right; exact Hj). reflexivity.
      * destruct (decide (j = i)) as [->|Hji].
        -- rewrite decide_True by left. apply lookup_delete_eq.
        -- rewrite decide_False by (rewrite elem_of_cons; tauto).
           apply lookup_delete_ne. congruence.
    + rewrite IE. exact He.
Qed.

(** X10. On a consistent store [clearAll] leaves nothing: no entry, no
    index key, and both status sets empty. *)
Theorem clearAll_empties (s : Store) :
  consistent s -> contents (clearAll s) = contents empty_store.
Proof.
  intros C. unfold clearAll.
  set (ids := elements (open_trades s) ++ elements (closed_trades s)).
  destruct (deleteAll_trades ids s) as (IC & IT & _).
  set (s' := foldl (fun acc i => snd (deleteTrade i acc)) s ids) in *.
  specialize (IC C).
  assert (T : trades s' = ∅).
  { apply map_eq. intros j. rewrite IT, lookup_empty.
    destruct (decide (j ∈ ids)) as [_|Hj]; [reflexivity|].
    destruct (trades s !! j) as [t|] eqn:E; [|reflexivity].
    exfalso. apply Hj. unfold ids. rewrite elem_of_app, !elem_of_elements.
    destruct (status t) eqn:St.
    - left. apply (open_listed s C). eauto.
    - right. apply (closed_listed s C). eauto.
    - destruct (settled s C _ _ E St). }
  assert (E : forall (m : gmap string (gset string)),
             (forall a, m !! a <> Some ∅) ->
             (forall a k, k ∈ default ∅ (m !! a) -> exists t, trades s' !! k = Some t) ->
             m = ∅).
  { intros m Hne Hl. apply map_eq. intros a. rewrite lookup_empty.
    destruct (m !! a) as [S|] eqn:Ea; [|reflexivity]. exfalso.
    destruct (set_choose_or_empty S) as [[k Hk]|HS].
    - destruct (Hl a k) as (t & Ht); [rewrite Ea; exact Hk|].
      rewrite T, lookup_empty in Ht. discriminate.
    - apply (Hne a). rewrite Ea. f_equal. apply leibniz_equiv. exact HS. }
  unfold contents. cbn [trades agent_trades token_trades open_trades closed_trades empty_store].
  rewrite T.
  rewrite (E (agent_trades s')).
  - rewrite (E (token_trades s')); [reflexivity | apply (token_keys s' IC) |].
    intros m k H. apply (token_listed s' IC) in H as (t & Ht & _). eauto.
  - apply (agent_keys s' IC).
  - intros a k H. apply (agent_listed s' IC) in H as (t & Ht & _). eauto.
Qed.

Lemma clearAll_empties_witness : contents (clearAll s1_store) = contents empty_store.
Proof. apply (clearAll_empties s1_store s1_store_consistent). Defined.

Lemma sorted_sublist {A : Type} (R : A -> A -> Prop) (l' l : list A) :
  sublist l' l -> StronglySorted R l -> StronglySorted R l'.
Proof.
  induction 1 as [|x l1 l2 Hs IH|x l1 l2 Hs IH]; intros H.
  - constructor.
  - apply StronglySorted_inv in H as [H1 H2]. constructor; [apply IH, H1|].
    rewrite Forall_forall in *. intros y Hy. apply H2.
    eapply elem_of_sublist; eassumption.
  - apply StronglySorted_inv in H as [H1 _]. apply IH, H1.
Qed.

Lemma slice_sublist {A : Type} (a b : Z) (l : list A) : sublist (slice a b l) l.
Proof.
  unfold slice. etransitivity; [apply sublist_take | apply sublist_drop].
Qed.

Lemma slice_page {A : Type} (offset limit : Z) (l : list A) :
  0 <= offset -> 0 <= limit ->
  slice offset (offset + limit) l = take (Z.to_nat limit) (drop (Z.to_nat offset) l).
Proof.
  intros Ho Hl. unfold slice.
  rewrite (proj2 (Z.ltb_ge offset 0) Ho), (proj2 (Z.ltb_ge (offset + limit) 0)) by lia.
  destruct (Z_le_gt_dec offset (Z.of_nat (length l))) as [H|H].
  - rewrite (Z.min_l offset) by exact H.
    destruct (Z_le_gt_dec (offset + limit) (Z.of_nat (length l))) as [K|K].
    + rewrite Z.min_l by exact K. f_equal. lia.
    + rewrite Z.min_r by lia.
      rewrite (take_ge _ (Z.to_nat limit)) by (rewrite length_drop; lia).
      apply take_ge. rewrite length_drop. lia.
  - rewrite !Z.min_r by lia. rewrite Z.sub_diag. cbn [Z.to_nat take].
    rewrite (drop_ge l (Z.to_nat offset)) by lia. symmetry. apply take_nil.
Qed.

Lemma elem_of_option_filter {A B : Type} (o : option B) (f : B -> A -> bool)
    (x : A) (l : list A) :
  x ∈ match o with Some b => List.filter (f b) l | None => l end ->
  x ∈ l /\ (forall b, o = Some b -> f b x = true).
Proof.
  destruct o as [b|]; intros H.
  - apply elem_of_filter_bool in H as [H1 H2]. split; [exact H1|]. congruence.
  - split; [exact H | discriminate].
Qed.

(** X11. What [queryTrades] returns.  Every row is an entry of the store
    that meets the status, date and profit filters of the query, and the
    rows come newest first.  When the query pages with an offset that is
    not negative, the rows are those of the unpaged query from the offset
    on, at most [limit] of them, where a limit of 0 or no limit stands
    for 100. *)
Theorem queryTrades_rows (query : TradeQuery) (s : Store) :
  (forall t, t ∈ queryTrades query s ->
             (exists k, getTrade k s = Some t) /\ matches query t)
  /\ StronglySorted newerFirst (queryTrades query s)
  /\ ((q_offset query <> None \/ q_limit query <> None) ->
      0 <= or_elseZ (q_offset query) 0 -> 0 <= or_elseZ (q_limit query) 100 ->
      queryTrades query s
      = take (Z.to_nat (or_elseZ (q_limit query) 100))
          (drop (Z.to_nat (or_elseZ (q_offset query) 0)) (queryTrades (unpaged query) s))
      /\ (length (queryTrades query s) <= Z.to_nat (or_elseZ (q_limit query) 100))%nat).
Proof.
  unfold queryTrades.
  cbn [unpaged q_agentId q_tokenMint q_status q_startDate q_endDate q_minPnL q_maxPnL
       q_tags q_limit q_offset].
  set (found :=
    if truthy_str (q_agentId query)
    then getTradesByAgent (default ""%string (q_agentId query)) None s
    else if truthy_str (q_tokenMint query)
    then getTradesByToken (default ""%string (q_tokenMint query)) s
    else fetch (elements (open_trades s) ++ elements (closed_trades s)) s).
  assert (F : forall t, t ∈ found -> exists k, getTrade k s = Some t).
  { intros t. unfold found, getTradesByAgent, getTradesByToken.
    repeat match goal with |- context [if ?b then _ else _] => destruct b end;
      rewrite ?sortNewestFirst_perm, ?elem_of_filter_bool, elem_of_fetch;
      intros H; decompose [ex and] H; eauto. }
  match goal with
  | |- context [sortNewestFirst ?l] => set (f6 := l)
  end.
  assert (M : forall t, t ∈ f6 -> (exists k, getTrade k s = Some t) /\ matches query t).
  { intros t H. unfold f6 in H.
    destruct (q_tags query) as [[|tag more]|];
      [| apply elem_of_filter_bool in H as [H _] |];
      (apply (elem_of_option_filter _ (fun m t => leb (or_else (realizedPnL t) zero) m)) in H
         as [H Hmax];
       apply (elem_of_option_filter _ (fun m t => geb (or_else (realizedPnL t) zero) m)) in H
         as [H Hmin];
       apply (elem_of_option_filter _ (fun d t => openedAt t <=? d)) in H as [H Hend];
       apply (elem_of_option_filter _ (fun d t => d <=? openedAt t)) in H as [H Hstart];
       apply (elem_of_option_filter _ (fun st t => bool_decide (status t = st))) in H
         as [H Hst];
       (split; [apply F, H|]); repeat split;
       [ intros st E; exact (bool_decide_eq_true_1 _ (Hst st E))
       | intros d E; apply Z.leb_le, Hstart, E
       | intros d E; apply Z.leb_le, Hend, E
       | exact Hmin
       | exact Hmax ]). }
  assert (P : forall t, t ∈ match q_offset query, q_limit query with
                            | None, None => sortNewestFirst f6
                            | _, _ =>
                                slice (or_elseZ (q_offset query) 0)
                                  (or_elseZ (q_offset query) 0 + or_elseZ (q_limit query) 100)
                                  (sortNewestFirst f6)
                            end -> t ∈ f6).
  { intros t H. rewrite <- (sortNewestFirst_perm f6).
    destruct (q_offset query), (q_limit query); try exact H;
      (eapply elem_of_sublist; [exact H | apply slice_sublist]). }
  split; [|split].
  - intros t H. apply M, P, H.
  - destruct (q_offset query), (q_limit query);
      try (eapply sorted_sublist; [apply slice_sublist|]); apply sortNewestFirst_sorted.
  - intros Hpaged Ho Hl.
    assert (E : match q_offset query, q_limit query with
                | None, None => sortNewestFirst f6
                | _, _ =>
                    slice (or_elseZ (q_offset query) 0)
                      (or_elseZ (q_offset query) 0 + or_elseZ (q_limit query) 100)
                      (sortNewestFirst f6)
                end
                = take (Z.to_nat (or_elseZ (q_limit query) 100))
                    (drop (Z.to_nat (or_elseZ (q_offset query) 0)) (sortNewestFirst f6))).
    { destruct (q_offset query), (q_limit query); try (apply slice_page; assumption).
      destruct Hpaged as [N|N]; destruct (N eq_refl). }
    rewrite E. split; [reflexivity|]. rewrite length_take. lia.
Qed.

Lemma queryTrades_rows_witness :
  (length (queryTrades
             {| q_agentId := None; q_tokenMint := None; q_status := Some open;
                q_startDate := None; q_endDate := None; q_minPnL := None;
                q_maxPnL := None; q_tags := None; q_limit := Some 0%Z; q_offset := None |}
             s1_store) <= 100)%nat.
Proof.
  refine (proj2 (proj2 (proj2 (queryTrades_rows _ s1_store)) _ _ _)).
  - right. discriminate.
  - reflexivity.
  - discriminate.
Defined.

Lemma filter_disjoint_length {A : Type} (f g : A -> bool) (l : list A) :
  (forall x, f x = true -> g x = true -> False) ->
  (length (List.filter f l) + length (List.filter g l) <= length l)%nat.
Proof.
  intros D. induction l as [|x l IH]; simpl; [lia|].
  destruct (f x) eqn:Ef, (g x) eqn:Eg; simpl; try lia.
  destruct (D x Ef Eg).
Qed.

Lemma count_le {A B : Type} (l : list A) (l' : list B) :
  (length l <= length l')%nat -> leb (count l) (count l') = true.
Proof.
  intros H. unfold count. rewrite !ofZ_Fin. apply leb_Fin, qc_le. lia.
Qed.

Lemma count_add {A B : Type} (l : list A) (l' : list B) :
  add (count l) (count l') = ofZ (Z.of_nat (length l + length l')).
Proof.
  unfold count. rewrite !ofZ_Fin. cbn [add]. f_equal.
  rewrite Nat2Z.inj_add. unfold qc. apply Qc_is_canon. simpl.
  rewrite !Qred_correct. unfold inject_Z, Qplus, Qeq. simpl. lia.
Qed.

Lemma ratio_in_range (w c : Z) :
  0 <= w -> w <= c -> 0 < c ->
  (0 <= qc w / qc c * qc 100 /\ qc w / qc c * qc 100 <= qc 100)%Qc.
Proof.
  intros Hw Hwc Hc.
  pose proof (qc_le 0 w Hw) as A. pose proof (qc_le w c Hwc) as B.
  pose proof (qc_lt 0 c Hc) as P.
  assert (E : (qc w = qc w / qc c * qc c)%Qc).
  { field. apply pos_nonzero. exact P. }
  set (x := (qc w / qc c)%Qc) in *.
  set (a := qc w) in *. set (b := qc c) in *. clearbody x a b.
  assert (Z0 : qc 0 = 0%Qc) by reflexivity. rewrite Z0 in *.
  subst a. split; to_Q; nra.
Qed.

(** X12. The counts of [getAgentStats] are coherent: winners and losers
    together are at most the closed trades, open and closed trades
    together at most the total, and the win rate lies between 0 and 100;
    an agent without closed trades has a win rate and an average profit
    of 0 rather than the result of a division by zero. *)
Theorem getAgentStats_counts (agent : string) (startDate endDate : option Z) (s : Store) :
  let stats := getAgentStats agent startDate endDate s in
  leb (add (winningTrades stats) (losingTrades stats)) (closedTrades stats) = true
  /\ leb (add (openTrades stats) (closedTrades stats)) (totalTrades stats) = true
  /\ leb zero (winRate stats) = true /\ leb (winRate stats) hundred = true
  /\ (closedTrades stats = zero ->
      winRate stats = zero /\ averagePnL stats = zero /\ totalPnL stats = zero).
Proof.
  intros stats. subst stats. unfold getAgentStats.
  match goal with
  | |- context [List.filter (fun t => bool_decide (status t = closed)) ?l] => set (inRange := l)
  end.
  set (closedOnes := List.filter (fun t => bool_decide (status t = closed)) inRange).
  set (openOnes := List.filter (fun t => bool_decide (status t = open)) inRange).
  set (winning := List.filter (fun t => gtb (or_else (realizedPnL t) zero) zero) closedOnes).
  set (losing := List.filter (fun t => ltb (or_else (realizedPnL t) zero) zero) closedOnes).
  cbn [winningTrades losingTrades closedTrades openTrades totalTrades winRate averagePnL
       totalPnL].
  assert (WL : (length winning + length losing <= length closedOnes)%nat).
  { apply filter_disjoint_length. intros t Hg Hl. unfold gtb in Hg.
    destruct (or_else (realizedPnL t) zero) as [x| | |]; try discriminate.
    rewrite zero_Fin in *. apply ltb_Fin in Hg, Hl.
    apply (Qclt_not_le _ _ Hg). apply Qclt_le_weak, Hl. }
  assert (OC : (length openOnes + length closedOnes <= length inRange)%nat).
  { apply filter_disjoint_length. intros t Ho Hc.
    apply bool_decide_eq_true in Ho, Hc. congruence. }
  assert (W : (length winning <= length closedOnes)%nat) by lia.
  split; [|split; [|split; [|split]]].
  - rewrite count_add. unfold count. rewrite !ofZ_Fin. apply leb_Fin, qc_le. lia.
  - rewrite count_add. unfold count. rewrite !ofZ_Fin. apply leb_Fin, qc_le. lia.
  - destruct closedOnes as [|c0 cs] eqn:E; [reflexivity|].
    unfold count. rewrite !ofZ_Fin.
    rewrite div_Fin_pos by (apply (qc_lt 0); simpl length; lia).
    unfold hundred. rewrite ofZ_Fin, zero_Fin. cbn [mul]. apply leb_Fin.
    apply ratio_in_range; simpl length in *; lia.
  - destruct closedOnes as [|c0 cs] eqn:E.
    + rewrite zero_Fin. unfold hundred. rewrite ofZ_Fin. apply leb_Fin. apply (qc_le 0 100). lia.
    + unfold count. rewrite !ofZ_Fin.
      rewrite div_Fin_pos by (apply (qc_lt 0); simpl length; lia).
      unfold hundred. rewrite ofZ_Fin. cbn [mul]. apply leb_Fin.
      apply ratio_in_range; simpl length in *; lia.
  - intros Hz. destruct closedOnes as [|c0 cs] eqn:E; [repeat split; reflexivity|].
    exfalso. unfold count, zero in Hz. rewrite !ofZ_Fin in Hz.
    assert (Hq : qc (Z.of_nat (length (c0 :: cs))) = qc 0) by congruence.
    assert (K : (qc 0 < qc (Z.of_nat (length (c0 :: cs))))%Qc) by (apply qc_lt; simpl length; lia).
    rewrite Hq in K. apply (pos_nonzero _ K). reflexivity.
Qed.
End StoreQueries.

(** ** The shared cache: expiry, locks and counters *)
Section CacheKeys.

Import RedisCacheService.

Local Set Warnings "-clear-no-such-hyp".

Lemma live_after_add (now later ttl : Z) (value : string) (k : SetKey) :
  live_members later (addToSet now value ttl k)
  = if later <? now + ttl then live_members now k ∪ {[value]} else ∅.
Proof. reflexivity. Qed.

(** X14. The processed tokens share one expiry.  Marking a token makes it
    processed for 1800 seconds, but the expiry belongs to the set: marking
    a second token while the first is still processed keeps the first
    processed until 1800 seconds after the second mark, and from that
    instant on no token is processed. *)
Theorem processed_tokens_share_expiry (now1 now2 later : Z) (a b : string) (c : Cache) :
  now1 <= now2 -> now2 < now1 + 1800 ->
  let c1 := markTokenProcessed now1 a c in
  let c2 := markTokenProcessed now2 b c1 in
  (isTokenProcessed later a c1 = true <-> later < now1 + 1800)
  /\ (isTokenProcessed later a c2 = true <-> later < now2 + 1800)
  /\ (isTokenProcessed later b c2 = true <-> later < now2 + 1800)
  /\ (now2 + 1800 <= later -> forall token : string, isTokenProcessed later token c2 = false).
Proof.
  intros H1 H2 c1 c2. subst c1 c2.
  unfold isTokenProcessed, markTokenProcessed, isInSet, DEFAULT_TTL.
  cbn [processed_tokens set_processed_tokens].
  rewrite !live_after_add.
  rewrite (proj2 (Z.ltb_lt now2 (now1 + 1800)) H2).
  repeat split.
  - intros H. apply bool_decide_eq_true in H.
    destruct (later <? now1 + 1800) eqn:E; [apply Z.ltb_lt, E | set_solver].
  - intros H. apply bool_decide_eq_true.
    rewrite (proj2 (Z.ltb_lt _ _) H). set_solver.
  - intros H. apply bool_decide_eq_true in H.
    destruct (later <? now2 + 1800) eqn:E; [apply Z.ltb_lt, E | set_solver].
  - intros H. apply bool_decide_eq_true.
    rewrite (proj2 (Z.ltb_lt _ _) H). set_solver.
  - intros H. apply bool_decide_eq_true in H.
    destruct (later <? now2 + 1800) eqn:E; [apply Z.ltb_lt, E | set_solver].
  - intros H. apply bool_decide_eq_true.
    rewrite (proj2 (Z.ltb_lt _ _) H). set_solver.
  - intros H token. apply bool_decide_eq_false.
    rewrite (proj2 (Z.ltb_ge _ _) H). set_solver.
Qed.

Lemma processed_tokens_share_expiry_witness :
  isTokenProcessed 2500 "TokenA"
    (markTokenProcessed 1000 "TokenB" (markTokenProcessed 0 "TokenA" empty_cache)) = true.
Proof.
  apply (proj1 (proj2 (processed_tokens_share_expiry 0 1000 2500 "TokenA" "TokenB"
                         empty_cache ltac:(lia) ltac:(lia)))).
  lia.
Defined.

(** X15. The life of a lock.  A lock that was released can be taken again
    at once; a lock that was not released can be taken again from 60
    seconds after it was taken; and taking or releasing the lock of one
    token leaves the locks of the other tokens as they are. *)
Theorem pending_trade_lock_life (now later : Z) (token : string) (c : Cache) :
  fst (acquirePendingTradeLock later token (releasePendingTradeLock token c)) = true
  /\ (now + 60 <= later ->
      fst (acquirePendingTradeLock later token (snd (acquirePendingTradeLock now token c)))
      = negb (isLocked later token c))
  /\ (forall other : string, other <> token ->
        isLocked later other (snd (acquirePendingTradeLock now token c))
        = isLocked later other c
        /\ isLocked later other (releasePendingTradeLock token c) = isLocked later other c).
Proof.
  unfold acquirePendingTradeLock, releasePendingTradeLock, LOCK_TTL. repeat split.
  - unfold isLocked at 1. cbn [pending_trade set_pending_trade].
    rewrite lookup_delete_eq. reflexivity.
  - intros H. destruct (isLocked now token c) eqn:E; cbn [snd].
    + destruct (isLocked later token c); reflexivity.
    + unfold isLocked at 1. cbn [pending_trade set_pending_trade].
      rewrite lookup_insert_eq. rewrite (proj2 (Z.ltb_ge later (now + 60)) H).
      cbn [fst]. unfold isLocked in *. destruct (pending_trade c !! token) as [e|]; [|reflexivity].
      apply Z.ltb_ge in E. rewrite (proj2 (Z.ltb_ge later e)) by lia. reflexivity.
  - destruct (isLocked now token c); cbn [snd]; [reflexivity|].
    unfold isLocked. cbn [pending_trade set_pending_trade].
    rewrite lookup_insert_ne by congruence. reflexivity.
  - unfold isLocked. cbn [pending_trade set_pending_trade].
    rewrite lookup_delete_ne by congruence. reflexivity.
Qed.

Lemma pending_trade_lock_life_witness :
  fst (acquirePendingTradeLock 60 "TokenX"
         (snd (acquirePendingTradeLock 0 "TokenX" empty_cache))) = true.
Proof.
  apply (proj1 (proj2 (pending_trade_lock_life 0 60 "TokenX" empty_cache))). lia.
Defined.

(** X16. The entry counter.  [incrementEntryCount] answers one more than
    [getEntryCount] gave at that instant (so 2 for a token that was
    processed before counters existed); for the next 1800 seconds
    [getEntryCount] gives that answer and the token is processed; the
    counters of other tokens are left alone. *)
Theorem entry_count_increments (now later : Z) (token : string) (k : Counted) :
  let n := fst (incrementEntryCount now token k) in
  let k' := snd (incrementEntryCount now token k) in
  n = getEntryCount now token k + 1
  /\ (later < now + 1800 ->
      getEntryCount later token k' = n /\ isTokenProcessed later token (keys k') = true)
  /\ (forall other : string, other <> token ->
        storedEntryCount later other k' = storedEntryCount later other k).
Proof.
  intros n k'. subst n k'. unfold incrementEntryCount, getEntryCount, DEFAULT_TTL.
  cbn [fst snd keys entry_count]. split; [reflexivity|]. split; [intros H; split|].
  - unfold storedEntryCount at 1. cbn [entry_count].
    rewrite lookup_insert_eq, (proj2 (Z.ltb_lt later (now + 1800)) H). reflexivity.
  - unfold isTokenProcessed, markTokenProcessed, isInSet, DEFAULT_TTL.
    cbn [processed_tokens set_processed_tokens]. rewrite live_after_add.
    rewrite (proj2 (Z.ltb_lt later (now + 1800)) H).
    apply bool_decide_eq_true. set_solver.
  - intros other H. unfold storedEntryCount. cbn [entry_count].
    rewrite lookup_insert_ne by congruence. reflexivity.
Qed.

Lemma entry_count_increments_witness :
  getEntryCount 10 "TokenA"
    (snd (incrementEntryCount 0 "TokenA"
            {| keys := markTokenProcessed 0 "TokenA" empty_cache; entry_count := ∅ |}))
  = 2.
Proof.
  refine (proj1 (proj1 (proj2 (entry_count_increments 0 10 "TokenA"
                                 {| keys := markTokenProcessed 0 "TokenA" empty_cache;
                                    entry_count := ∅ |})) _)).
  lia.
Defined.

End CacheKeys.

(** ** The buy path: executor and orchestrator *)
Section BuyOnce.

Import RedisCacheService.

Local Set Warnings "-clear-no-such-hyp".

Lemma processed_after_mark (now later : Z) (token : string) (c : Cache) :
  later < now + 1800 -> isTokenProcessed later token (markTokenProcessed now token c) = true.
Proof.
  intros H. unfold isTokenProcessed, markTokenProcessed, isInSet, DEFAULT_TTL.
  cbn [processed_tokens set_processed_tokens]. rewrite live_after_add.
  rewrite (proj2 (Z.ltb_lt _ _) H). apply bool_decide_eq_true. set_solver.
Qed.

(** X18. What a buy leaves in the cache.  [TradeExecutor.execute] reports
    success exactly when the swap backend returned a successful result.
    After a success the token is processed for 1800 seconds and its
    snapshot is gone; after a failure, or an exception of the backend, the
    cache is as it was, so that the token can be evaluated again. *)
Theorem execute_marks_only_on_success (performSwap : nat -> SwapRequest -> Outcome SwapResult)
    (now : Z) (trade : TradeExecutor.TradeRequest) (w : World) :
  let result := fst (TradeExecutor.execute performSwap now trade w) in
  let w' := snd (TradeExecutor.execute performSwap now trade w) in
  let token := TradeExecutor.tokenMint trade in
  (TradeExecutor.success result = true
   <-> exists r, performSwap (length (swapCalls w)) (TradeExecutor.buyRequest trade)
                 = Returned r /\ sr_success r = true)
  /\ (TradeExecutor.success result = true ->
      (forall later, later < now + 1800 -> isTokenProcessed later token (cache w') = true)
      /\ (forall later, getMindmapData later token (cache w') = None)
      /\ (forall (later : Z) (other : string), other <> token ->
            getMindmapData later other (cache w') = getMindmapData later other (cache w)))
  /\ (TradeExecutor.success result = false ->
      cache w' = cache w /\ TradeExecutor.error result <> None).
Proof.
  intros result w' token. subst result w' token.
  unfold TradeExecutor.execute, mbind, M_bind, bind, TradeExecutor.callSwap.
  destruct (performSwap _ _) as [r | msg] eqn:E.
  - destruct (sr_success r) eqn:S; cbn [negb fst snd TradeExecutor.success cache].
    + split; [split; [intros _; exists r; split; [reflexivity | exact S] | reflexivity]|].
      split; [|discriminate]. intros _.
      unfold writeCache, ret, set_cache. cbn [cache fst snd]. repeat split.
      * intros later H. unfold isTokenProcessed, deleteMindmapData.
        cbn [processed_tokens set_mindmaps]. apply processed_after_mark, H.
      * intros later. unfold getMindmapData, deleteMindmapData. cbn [mindmaps set_mindmaps].
        rewrite lookup_delete_eq. reflexivity.
      * intros later other H. unfold getMindmapData, deleteMindmapData, markTokenProcessed.
        cbn [mindmaps set_mindmaps set_processed_tokens].
        rewrite lookup_delete_ne by congruence. reflexivity.
    + split; [split; [discriminate | intros (r' & Hr & Hs); congruence]|].
      split; [discriminate|]. intros _. split; [reflexivity | discriminate].
  - cbn [fst snd TradeExecutor.success cache].
    split; [split; [discriminate | intros (r' & Hr & _); discriminate]|].
    split; [discriminate|]. intros _. split; [reflexivity | discriminate].
Qed.

Lemma execute_marks_only_on_success_witness :
  isTokenProcessed 100 "TokenX"
    (cache (snd (TradeExecutor.execute filling_backend 0
                   {| TradeExecutor.tokenMint := "TokenX"; TradeExecutor.amount := ofZ 1;
                      TradeExecutor.riskConfig := s5_risk;
                      TradeExecutor.prediction := None |} initial_world))) = true.
Proof.
  refine (proj1 (proj1 (proj2 (execute_marks_only_on_success filling_backend 0
                                 {| TradeExecutor.tokenMint := "TokenX";
                                    TradeExecutor.amount := ofZ 1;
                                    TradeExecutor.riskConfig := s5_risk;
                                    TradeExecutor.prediction := None |} initial_world)) _)
            100 _).
  - reflexivity.
  - lia.
Defined.

(** X19. The executor with the duplicate check buys a token at most once
    per 1800 seconds.  For a processed token it sends no request and
    answers that the duplicate was prevented; after a successful buy a
    second [execute] for the token, within 1800 seconds, is such a refusal;
    and a buy that failed leaves the cache as it was. *)
Theorem queued_execute_prevents_duplicates
    (performSwap : nat -> QueuedTradeExecutor.HttpSwapRequest
                   -> Outcome QueuedTradeExecutor.HttpSwapResult)
    (now later : Z) (trade : TradeExecutor.TradeRequest) (s : QueuedTradeExecutor.State) :
  let execute := QueuedTradeExecutor.execute performSwap in
  let token := TradeExecutor.tokenMint trade in
  (isTokenProcessed now token (QueuedTradeExecutor.cache s) = true ->
   execute now trade s = (duplicate_refused token, s))
  /\ (TradeExecutor.success (fst (execute now trade s)) = true ->
      later < now + 1800 ->
      let s' := snd (execute now trade s) in
      length (QueuedTradeExecutor.requests s')
      = S (length (QueuedTradeExecutor.requests s))
      /\ execute later trade s' = (duplicate_refused token, s'))
  /\ (TradeExecutor.success (fst (execute now trade s)) = false ->
      QueuedTradeExecutor.cache (snd (execute now trade s)) = QueuedTradeExecutor.cache s).
Proof.
  intros execute token. subst execute token. unfold QueuedTradeExecutor.execute.
  destruct (isTokenProcessed now (TradeExecutor.tokenMint trade) (QueuedTradeExecutor.cache s))
    eqn:P.
  - split; [reflexivity|]. split; [discriminate | reflexivity].
  - split; [discriminate|].
    destruct (performSwap _ _) as [r | msg].
    + destruct (QueuedTradeExecutor.hr_success r);
        cbn [negb fst snd TradeExecutor.success QueuedTradeExecutor.cache
             QueuedTradeExecutor.requests].
      * split; [|discriminate]. intros _ H. split; [rewrite length_app; simpl; lia|].
        unfold isTokenProcessed, deleteMindmapData. cbn [processed_tokens set_mindmaps].
        pose proof (processed_after_mark now later (TradeExecutor.tokenMint trade)
                      (QueuedTradeExecutor.cache s) H) as K.
        unfold isTokenProcessed in K. rewrite K. reflexivity.
      * split; [discriminate | reflexivity].
    + cbn [fst snd TradeExecutor.success QueuedTradeExecutor.cache].
      split; [discriminate | reflexivity].
Qed.

Lemma queued_execute_prevents_duplicates_witness :
  let trade :=
    {| TradeExecutor.tokenMint := "TokenX"%string; TradeExecutor.amount := ofZ 1;
       TradeExecutor.riskConfig := s5_risk; TradeExecutor.prediction := None |} in
  let s := {| QueuedTradeExecutor.cache := empty_cache; QueuedTradeExecutor.requests := [] |} in
  let s' := snd (QueuedTradeExecutor.execute queueing_server 0 trade s) in
  QueuedTradeExecutor.execute queueing_server 100 trade s'
  = (duplicate_refused "TokenX", s').
Proof.
  intros trade s s'.
  refine (proj2 (proj1 (proj2 (queued_execute_prevents_duplicates queueing_server 0 100
                                 trade s)) _ _)).
  - reflexivity.
  - lia.
Defined.

End BuyOnce.

(** ** The orchestrator: when a token is bought *)
Section Pipeline.

Import RedisCacheService BotCoreEngine.

Variable filterEngine : MindmapFilterEngine.MindmapData -> MindmapFilterEngine.FilterResult.
Variable predictTrade : nat -> string -> Outcome MLPredictionService.PredictionResult.
Variable performSwap : nat -> SwapRequest -> Outcome SwapResult.
Variable buyAmount : number.
Variable risk : TradeExecutor.RiskManagementConfig.

Local Abbreviation process :=
  (processToken filterEngine predictTrade performSwap buyAmount risk).
Local Abbreviation request := (engineRequest buyAmount risk).

Lemma app_one_ne {A : Type} (l : list A) (x : A) : l ++ [x] <> l.
Proof.
  intros H. apply (f_equal length) in H. rewrite length_app in H. simpl in H. lia.
Qed.

(** The snapshot an evaluation of a token works on, if it gets that far. *)
Lemma process_cases now token provided w :
  (process now token provided w = (tt, w)
   /\ (isTokenProcessed now token (cache w) = true
       \/ isInSet now token (prediction_failed (cache w)) = true
       \/ (provided = None /\ getMindmapData now token (cache w) = None)))
  \/ (exists data,
        isTokenProcessed now token (cache w) = false
        /\ isInSet now token (prediction_failed (cache w)) = false
        /\ (provided = Some data
            \/ (provided = None /\ getMindmapData now token (cache w) = Some data))
        /\ process now token provided w
           = evaluateAndExecute filterEngine predictTrade performSwap buyAmount risk
               now token data w).
Proof.
  unfold processToken, mbind, M_bind, bind, readCache.
  destruct (isTokenProcessed now token (cache w)); [left; split; [reflexivity | tauto]|].
  destruct (isInSet now token (prediction_failed (cache w)));
    [left; split; [reflexivity | tauto]|].
  destruct provided as [data|].
  - right. exists data. repeat split. left. reflexivity.
  - destruct (getMindmapData now token (cache w)) as [data|] eqn:E.
    + right. exists data. repeat split. right. split; reflexivity.
    + left. split; [reflexivity | tauto].
Qed.

(** X20. The orchestrator never swaps without an approval.  One
    evaluation of a token makes at most one prediction call and at most
    one swap call; it makes a swap call only for a token that is neither
    processed nor failed, whose snapshot passed the filter and whose
    prediction was approved; and it counts a trade only when the token
    was marked processed. *)
Theorem no_swap_without_approval (now : Z) (token : string)
    (provided : option MindmapFilterEngine.MindmapData) (w : World) :
  let w' := snd (process now token provided w) in
  (predictionCalls w' = predictionCalls w \/ predictionCalls w' = predictionCalls w ++ [token])
  /\ (swapCalls w' = swapCalls w \/ swapCalls w' = swapCalls w ++ [request token])
  /\ (swapCalls w' <> swapCalls w ->
      predictionCalls w' = predictionCalls w ++ [token]
      /\ nextApproved predictTrade token w = true
      /\ isTokenProcessed now token (cache w) = false
      /\ isInSet now token (prediction_failed (cache w)) = false
      /\ exists data,
           (provided = Some data
            \/ (provided = None /\ getMindmapData now token (cache w) = Some data))
           /\ MindmapFilterEngine.passed (filterEngine data) = true)
  /\ (tradesExecuted w' <> tradesExecuted w ->
      swapCalls w' = swapCalls w ++ [request token]
      /\ forall later, later < now + 1800 -> isTokenProcessed later token (cache w') = true).
Proof.
  intros w'. subst w'.
  destruct (process_cases now token provided w) as [[-> _] | (data & Hp & Hf & Hd & ->)].
  { cbn [snd]. split; [left; reflexivity|]. split; [left; reflexivity|].
    split; intros H; destruct (H eq_refl). }
  unfold evaluateAndExecute, mbind, M_bind, bind, readCache, countEvaluation.
  destruct (MindmapFilterEngine.passed (filterEngine data)) eqn:Hpass; cbn [negb].
  2:{ cbn [snd ret predictionCalls swapCalls tradesExecuted].
      split; [left; reflexivity|]. split; [left; reflexivity|].
      split; intros H; destruct (H eq_refl). }
  unfold predict. cbn [predictionCalls].
  fold (nextApproved predictTrade token w).
  destruct (nextApproved predictTrade token w) eqn:Happ; cbn [negb].
  2:{ destruct (incrementPredictionRetryCount now token _) as [n c].
      destruct (MAX_PREDICTION_RETRIES <=? n);
        cbn [snd ret writeCache set_cache predictionCalls swapCalls tradesExecuted];
        (split; [right; reflexivity|]); (split; [left; reflexivity|]);
        split; intros H; destruct (H eq_refl). }
  unfold TradeExecutor.execute, mbind, M_bind, bind, TradeExecutor.callSwap.
  cbn [swapCalls cache predictionCalls tokensEvaluated tradesExecuted].
  fold (request token).
  destruct (performSwap (length (swapCalls w)) (request token)) as [r | msg].
  - destruct (sr_success r); cbn [negb].
    + unfold writeCache, ret, countTrade, set_cache.
      cbn [fst snd TradeExecutor.success predictionCalls swapCalls tradesExecuted cache].
      split; [right; reflexivity|]. split; [right; reflexivity|]. split.
      * intros _. repeat split; try assumption. exists data. split; assumption.
      * intros _. split; [reflexivity|]. intros later H.
        unfold isTokenProcessed, deleteMindmapData. cbn [processed_tokens set_mindmaps].
        apply processed_after_mark, H.
    + cbn [fst snd ret TradeExecutor.success predictionCalls swapCalls tradesExecuted cache].
      split; [right; reflexivity|]. split; [right; reflexivity|]. split.
      * intros _. repeat split; try assumption. exists data. split; assumption.
      * intros H. destruct (H eq_refl).
  - cbn [fst snd ret TradeExecutor.success predictionCalls swapCalls tradesExecuted cache].
    split; [right; reflexivity|]. split; [right; reflexivity|]. split.
    + intros _. repeat split; try assumption. exists data. split; assumption.
    + intros H. destruct (H eq_refl).
Qed.

(** X21. A token is bought once.  When a snapshot passes the filter, the
    prediction is approved and the swap succeeds, the evaluation makes one
    prediction call and one swap call and counts one trade; from then on,
    for 1800 seconds, every evaluation of the token returns at once, with
    no prediction call and no swap call, and the snapshot of the token is
    gone from the cache. *)
Theorem bought_token_is_skipped (now : Z) (token : string)
    (data : MindmapFilterEngine.MindmapData) (w : World) (r : SwapResult) :
  isTokenProcessed now token (cache w) = false ->
  isInSet now token (prediction_failed (cache w)) = false ->
  MindmapFilterEngine.passed (filterEngine data) = true ->
  nextApproved predictTrade token w = true ->
  performSwap (length (swapCalls w)) (request token) = Returned r ->
  sr_success r = true ->
  let w' := snd (process now token (Some data) w) in
  predictionCalls w' = predictionCalls w ++ [token]
  /\ swapCalls w' = swapCalls w ++ [request token]
  /\ tradesExecuted w' = tradesExecuted w + 1
  /\ (forall later provided, later < now + 1800 -> process later token provided w' = (tt, w'))
  /\ (forall later, getMindmapData later token (cache w') = None).
Proof.
  intros Hp Hf Hpass Happ Hswap Hok w'. subst w'.
  unfold processToken, mbind, M_bind, bind, readCache. rewrite Hp, Hf.
  unfold evaluateAndExecute, mbind, M_bind, bind, readCache, countEvaluation.
  rewrite Hpass. cbn [negb]. unfold predict. cbn [predictionCalls].
  unfold nextApproved in Happ. rewrite Happ. cbn [negb].
  unfold TradeExecutor.execute, mbind, M_bind, bind, TradeExecutor.callSwap.
  cbn [swapCalls cache predictionCalls tokensEvaluated tradesExecuted].
  fold (request token). rewrite Hswap, Hok. cbn [negb].
  unfold writeCache, ret, countTrade, set_cache.
  cbn [fst snd TradeExecutor.success predictionCalls swapCalls tradesExecuted cache].
  repeat split.
  - intros later provided H.
    assert (K : isTokenProcessed later token
                  (deleteMindmapData token (markTokenProcessed now token (cache w))) = true).
    { unfold isTokenProcessed, deleteMindmapData. cbn [processed_tokens set_mindmaps].
      apply processed_after_mark, H. }
    unfold processToken, mbind, M_bind, bind, readCache.
    cbn [cache TradeExecutor.tokenMint]. rewrite K. reflexivity.
  - intros later. unfold getMindmapData, deleteMindmapData.
    cbn [mindmaps set_mindmaps TradeExecutor.tokenMint].
    rewrite lookup_delete_eq. reflexivity.
Qed.

End Pipeline.

Lemma no_swap_without_approval_witness :
  let process :=
    BotCoreEngine.processToken permissive_filter approving_endpoint filling_backend
      (ofZ 1) s5_risk in
  let w' := snd (process 0 "TokenX"%string (Some (s4_snapshot 0)) initial_world) in
  nextApproved approving_endpoint "TokenX" initial_world = true.
Proof.
  intros process w'.
  refine (proj1 (proj2 (proj1 (proj2 (proj2
            (no_swap_without_approval permissive_filter approving_endpoint filling_backend
               (ofZ 1) s5_risk 0 "TokenX"%string (Some (s4_snapshot 0)) initial_world))) _))).
  vm_compute. discriminate.
Defined.

Lemma bought_token_is_skipped_witness :
  let process :=
    BotCoreEngine.processToken permissive_filter approving_endpoint filling_backend
      (ofZ 1) s5_risk in
  let w' := snd (process 0 "TokenX"%string (Some (s4_snapshot 0)) initial_world) in
  process 100 "TokenX"%string (Some (s4_snapshot 100)) w' = (tt, w').
Proof.
  intros process w'.
  refine (proj1 (proj2 (proj2 (proj2
            (bought_token_is_skipped permissive_filter approving_endpoint filling_backend
               (ofZ 1) s5_risk 0 "TokenX"%string (s4_snapshot 0) initial_world
               {| sr_success := true; sr_message := Some "Swap successful"%string;
                  sr_txid := Some "tx"%string |} _ _ _ _ _ _)))) 100 _ _);
    reflexivity.
Defined.

(** ** The orchestrator: its event handlers *)
Section Handlers.

Import RedisCacheService BotCoreEngine.

Local Set Warnings "-clear-no-such-hyp".

Lemma connectionOf_alter (wallet other : string)
    (f : MindmapFilterEngine.KOLConnection -> MindmapFilterEngine.KOLConnection)
    (l : list (string * MindmapFilterEngine.KOLConnection)) :
  connectionOf other (alterConnection wallet f l)
  = if String.eqb other wallet then f <$> connectionOf wallet l else connectionOf other l.
Proof.
  induction l as [|[k c] l IH]; simpl.
  - destruct (String.eqb other wallet); reflexivity.
  - destruct (String.eqb k wallet) eqn:E; simpl.
    + apply String.eqb_eq in E. subst k.
      destruct (String.eqb other wallet) eqn:E'.
      * apply String.eqb_eq in E'. subst other. rewrite String.eqb_refl. reflexivity.
      * rewrite String.eqb_sym, E'. reflexivity.
    + destruct (String.eqb k other) eqn:E'.
      * apply String.eqb_eq in E'. subst k. rewrite E. reflexivity.
      * exact IH.
Qed.

Lemma length_alterConnection wallet f l : length (alterConnection wallet f l) = length l.
Proof.
  induction l as [|[k c] l IH]; simpl; [reflexivity|].
  destruct (String.eqb k wallet); simpl; congruence.
Qed.

Lemma connectionOf_app (wallet other : string) (c : MindmapFilterEngine.KOLConnection)
    (l : list (string * MindmapFilterEngine.KOLConnection)) :
  connectionOf other (l ++ [(wallet, c)])
  = match connectionOf other l with
    | Some x => Some x
    | None => if String.eqb wallet other then Some c else None
    end.
Proof.
  induction l as [|[k x] l IH]; simpl; [reflexivity|].
  destruct (String.eqb k other); [reflexivity | exact IH].
Qed.

Lemma mathMin_hundred (x : number) : ltb hundred (mathMin hundred x) = false.
Proof.
  unfold hundred. rewrite ofZ_Fin. destruct x as [q| | |]; try reflexivity.
  - unfold mathMin. destruct (ltb (Fin q) (Fin (qc 100))) eqn:E.
    + destruct (ltb (Fin (qc 100)) (Fin q)) eqn:E'; [|reflexivity].
      apply ltb_Fin in E, E'. exfalso. apply (Qclt_not_le _ _ E). apply Qclt_le_weak, E'.
    + destruct (ltb (Fin (qc 100)) (Fin (qc 100))) eqn:E'; [|reflexivity].
      apply ltb_Fin in E'. exfalso. apply (Qclt_not_le _ _ E'). apply Qcle_refl.
Qed.

(** X22. What one trade does to a snapshot.  [recalculateMindmapMetrics]
    counts the trade once in the network total; the actor of the trade has
    a connection afterwards (a new one, appended, if the snapshot did not
    know the actor) whose trade count is one more than before, whose last
    trade time is that of the trade, whose trade types include the type of
    the trade and whose influence score is never above 100; the
    connections of the other actors are as they were. *)
Theorem recalculated_snapshot (date : Z) (d : MindmapFilterEngine.MindmapData)
    (trade : KOLTrade) :
  let d' := recalculateMindmapMetrics date d trade in
  let wallet := kolWallet trade in
  let before := connectionOf wallet (MindmapFilterEngine.kolConnections d) in
  MindmapFilterEngine.totalTrades (MindmapFilterEngine.networkMetrics d')
  = add (MindmapFilterEngine.totalTrades (MindmapFilterEngine.networkMetrics d)) one
  /\ MindmapFilterEngine.tokenMint d' = MindmapFilterEngine.tokenMint d
  /\ MindmapFilterEngine.lastUpdate d' = date
  /\ (exists c',
        connectionOf wallet (MindmapFilterEngine.kolConnections d') = Some c'
        /\ MindmapFilterEngine.tradeCount c'
           = add (match before with
                  | Some c => MindmapFilterEngine.tradeCount c
                  | None => zero
                  end) one
        /\ MindmapFilterEngine.lastTradeTime c' = timestamp trade
        /\ MindmapFilterEngine.includes (tradeType (tradeData trade))
             (MindmapFilterEngine.tradeTypes c') = true
        /\ ltb hundred (MindmapFilterEngine.influenceScore c') = false)
  /\ (forall other : string, other <> wallet ->
        connectionOf other (MindmapFilterEngine.kolConnections d')
        = connectionOf other (MindmapFilterEngine.kolConnections d))
  /\ length (MindmapFilterEngine.kolConnections d')
     = (length (MindmapFilterEngine.kolConnections d)
        + match before with Some _ => 0 | None => 1 end)%nat.
Proof.
  intros d' wallet before. subst d' wallet before. unfold recalculateMindmapMetrics.
  cbn [MindmapFilterEngine.networkMetrics MindmapFilterEngine.totalTrades
       MindmapFilterEngine.tokenMint MindmapFilterEngine.lastUpdate
       MindmapFilterEngine.kolConnections].
  split; [reflexivity|]. split; [reflexivity|]. split; [reflexivity|].
  assert (T : forall c, MindmapFilterEngine.includes (tradeType (tradeData trade))
                          (MindmapFilterEngine.tradeTypes (recordTrade trade c)) = true).
  { intros c. unfold recordTrade. cbn [MindmapFilterEngine.tradeTypes].
    destruct (MindmapFilterEngine.includes _ (MindmapFilterEngine.tradeTypes c)) eqn:E;
      [exact E|].
    unfold MindmapFilterEngine.includes. rewrite existsb_app. simpl.
    rewrite String.eqb_refl. apply orb_true_r. }
  destruct (connectionOf (kolWallet trade) (MindmapFilterEngine.kolConnections d))
    as [c|] eqn:E.
  - split; [|split].
    + exists (recordTrade trade c). rewrite connectionOf_alter, String.eqb_refl, E.
      split; [reflexivity|]. split; [reflexivity|]. split; [reflexivity|].
      split; [apply T | apply mathMin_hundred].
    + intros other H. rewrite connectionOf_alter.
      rewrite (proj2 (String.eqb_neq other (kolWallet trade)) H). reflexivity.
    + rewrite length_alterConnection. lia.
  - split; [|split].
    + eexists. rewrite connectionOf_alter, String.eqb_refl, connectionOf_app, E.
      rewrite String.eqb_refl. split; [reflexivity|].
      split; [reflexivity|]. split; [reflexivity|].
      split; [apply T | apply mathMin_hundred].
    + intros other H. rewrite connectionOf_alter.
      rewrite (proj2 (String.eqb_neq other (kolWallet trade)) H).
      rewrite connectionOf_app.
      destruct (connectionOf other _); [reflexivity|].
      rewrite String.eqb_sym, (proj2 (String.eqb_neq other (kolWallet trade)) H).
      reflexivity.
    + rewrite length_alterConnection, length_app. simpl. lia.
Qed.

Lemma recalculated_snapshot_witness :
  MindmapFilterEngine.totalTrades
    (MindmapFilterEngine.networkMetrics (recalculateMindmapMetrics 6000 (s4_snapshot 0) s4_trade))
  = add (ofZ 10) one.
Proof. apply (proj1 (recalculated_snapshot 6000 (s4_snapshot 0) s4_trade)). Defined.

Lemma add_token_NoDup (o : option string) (l : list string) :
  NoDup l ->
  NoDup match o with
        | Some t =>
            if negb (String.eqb t "") && negb (existsb (String.eqb t) l) then l ++ [t] else l
        | None => l
        end.
Proof.
  intros H. destruct o as [t|]; [|exact H].
  destruct (negb (String.eqb t "") && negb (existsb (String.eqb t) l)) eqn:E; [|exact H].
  apply andb_true_iff in E as [_ E]. apply negb_true_iff in E.
  apply NoDup_app. split; [exact H|]. split; [|apply NoDup_singleton].
  intros x Hx Hx'. apply list_elem_of_singleton in Hx'. subst x.
  assert (K : existsb (String.eqb t) l = true).
  { apply existsb_exists. exists t. split; [apply list_elem_of_In, Hx | apply String.eqb_refl]. }
  congruence.
Qed.

Lemma affectedTokens_NoDup (td : TradeData) : NoDup (affectedTokens td).
Proof.
  unfold affectedTokens. cbv zeta.
  apply add_token_NoDup, add_token_NoDup, (add_token_NoDup (mint td) []), NoDup_nil_2.
Qed.

(** One step of [handleKOLTradeUpdate]. *)
Lemma refresh_step now date trade (tokens : list string) (w : World) :
  NoDup tokens ->
  let w' :=
    foldl
      (fun acc tokenMint =>
         match getMindmapData now tokenMint (cache acc) with
         | None => acc
         | Some cachedData =>
             set_cache
               (updateMindmapData now tokenMint
                  (recalculateMindmapMetrics date cachedData trade) (cache acc)) acc
         end) w tokens in
  w' = set_cache (set_mindmaps (mindmaps (cache w')) (cache w)) w
  /\ forall token : string,
       mindmaps (cache w') !! token
       = match getMindmapData now token (cache w) with
         | Some d =>
             if bool_decide (token ∈ tokens)
             then Some (recalculateMindmapMetrics date d trade, now + 1800)
             else mindmaps (cache w) !! token
         | None => mindmaps (cache w) !! token
         end.
Proof.
  intros H. revert w. induction H as [|t tokens Ht Hn IH]; intros w; cbn [foldl].
  - split; [destruct w as [[? ? ? ? ?] ? ? ? ?]; reflexivity|].
    intros token. destruct (getMindmapData now token (cache w)); [|reflexivity].
    rewrite bool_decide_eq_false_2 by (apply not_elem_of_nil). reflexivity.
  - match goal with |- context [foldl _ ?x tokens] => set (w1 := x) end.
    destruct (IH w1) as [E L]. clear IH.
    set (w' := foldl _ w1 tokens) in *.
    assert (W1 : w1 = set_cache (set_mindmaps (mindmaps (cache w1)) (cache w)) w).
    { unfold w1. destruct (getMindmapData now t (cache w));
        destruct w as [[? ? ? ? ?] ? ? ? ?]; reflexivity. }
    split.
    + rewrite E at 1. rewrite W1 at 1 2. reflexivity.
    + intros token. rewrite L.
      assert (M : forall k, k <> t -> mindmaps (cache w1) !! k = mindmaps (cache w) !! k).
      { intros k Hk. unfold w1. destruct (getMindmapData now t (cache w)); [|reflexivity].
        unfold updateMindmapData. cbn [cache set_cache mindmaps set_mindmaps].
        apply lookup_insert_ne. congruence. }
      destruct (decide (token = t)) as [->|Hne].
      * rewrite (bool_decide_eq_false_2 (t ∈ tokens)) by exact Ht.
        rewrite (bool_decide_eq_true_2 (t ∈ t :: tokens)) by left.
        unfold w1. destruct (getMindmapData now t (cache w)) as [d|] eqn:G.
        -- unfold getMindmapData at 1, updateMindmapData, DEFAULT_TTL.
           cbn [cache set_cache mindmaps set_mindmaps]. rewrite lookup_insert_eq.
           destruct (now <? now + 1800); reflexivity.
        -- rewrite G. reflexivity.
      * assert (G : getMindmapData now token (cache w1) = getMindmapData now token (cache w)).
        { unfold getMindmapData. rewrite (M token Hne). reflexivity. }
        rewrite G, (M token Hne).
        destruct (getMindmapData now token (cache w)); [|reflexivity].
        destruct (bool_decide (token ∈ tokens)) eqn:B.
        -- apply bool_decide_eq_true in B.
           rewrite bool_decide_eq_true_2 by (right; exact B). reflexivity.
        -- apply bool_decide_eq_false in B.
           rewrite bool_decide_eq_false_2; [reflexivity|].
           rewrite elem_of_cons. tauto.
Qed.

(** X23. A trade of a watched actor refreshes the snapshots it concerns.
    [handleKOLTradeUpdate] replaces the snapshot of each token the trade
    names ([mint], [tokenIn], [tokenOut]) that has one in the cache by its
    recalculation, once even when the trade names the token twice, and
    restarts its 1800 seconds.  It creates no snapshot, touches no other
    snapshot, and changes nothing else in the world. *)
Theorem kol_trade_refreshes_snapshots (now date : Z) (trade : KOLTrade) (w : World) :
  let w' := snd (handleKOLTradeUpdate now date trade w) in
  w' = set_cache (set_mindmaps (mindmaps (cache w')) (cache w)) w
  /\ forall token : string,
       mindmaps (cache w') !! token
       = match getMindmapData now token (cache w) with
         | Some d =>
             if bool_decide (token ∈ affectedTokens (tradeData trade))
             then Some (recalculateMindmapMetrics date d trade, now + 1800)
             else mindmaps (cache w) !! token
         | None => mindmaps (cache w) !! token
         end.
Proof.
  intros w'. subst w'. unfold handleKOLTradeUpdate. cbn [snd].
  apply refresh_step, affectedTokens_NoDup.
Qed.

Variable filterEngine : MindmapFilterEngine.MindmapData -> MindmapFilterEngine.FilterResult.
Variable predictTrade : nat -> string -> Outcome MLPredictionService.PredictionResult.
Variable performSwap : nat -> SwapRequest -> Outcome SwapResult.
Variable buyAmount : number.
Variable risk : TradeExecutor.RiskManagementConfig.

Local Abbreviation process :=
  (processToken filterEngine predictTrade performSwap buyAmount risk).
Local Abbreviation handle :=
  (handleMindmapUpdate filterEngine predictTrade performSwap buyAmount risk).

(** What an evaluation does to the snapshots: nothing, unless it buys. *)
Lemma process_snapshots now token provided w :
  let w' := snd (process now token provided w) in
  (tradesExecuted w' = tradesExecuted w /\ mindmaps (cache w') = mindmaps (cache w))
  \/ (tradesExecuted w' = tradesExecuted w + 1
      /\ mindmaps (cache w') = delete token (mindmaps (cache w))
      /\ forall later, later < now + 1800 -> isTokenProcessed later token (cache w') = true).
Proof.
  intros w'. subst w'.
  destruct (process_cases filterEngine predictTrade performSwap buyAmount risk
              now token provided w) as [[-> _] | (data & _ & _ & _ & ->)].
  { left. split; reflexivity. }
  unfold evaluateAndExecute, mbind, M_bind, bind, readCache, countEvaluation.
  destruct (MindmapFilterEngine.passed (filterEngine data)); cbn [negb];
    [|left; split; reflexivity].
  unfold predict. cbn [predictionCalls].
  destruct (MLPredictionService.approved _); cbn [negb].
  2:{ left. unfold incrementPredictionRetryCount.
      destruct (MAX_PREDICTION_RETRIES <=? _); split; reflexivity. }
  unfold TradeExecutor.execute, mbind, M_bind, bind, TradeExecutor.callSwap.
  cbn [swapCalls cache predictionCalls tokensEvaluated tradesExecuted].
  destruct (performSwap _ _) as [r | msg]; [|left; split; reflexivity].
  destruct (sr_success r); cbn [negb]; [|left; split; reflexivity].
  right. unfold writeCache, ret, countTrade, set_cache.
  cbn [fst snd TradeExecutor.success tradesExecuted cache TradeExecutor.tokenMint].
  split; [reflexivity|]. split; [reflexivity|].
  intros later H. unfold isTokenProcessed, deleteMindmapData.
  cbn [processed_tokens set_mindmaps]. apply processed_after_mark, H.
Qed.

(** X24. A snapshot that arrives is kept unless it leads to a buy.  An
    event without a token or without a snapshot, or for wrapped SOL,
    changes nothing.  Any other event either leaves its snapshot in the
    cache, readable for 1800 seconds, with no trade counted, or ends in
    exactly one trade, after which the token is processed and has no
    snapshot. *)
Theorem mindmap_update_keeps_or_buys (now : Z) (event : MindmapEvent) (w : World) :
  let w' := snd (handle now event w) in
  let snapshot :=
    match ev_data event with Some d => Some d | None => ev_mindmapData event end in
  ((truthy_str (ev_tokenMint event) = false
    \/ ev_tokenMint event = Some MindmapFilterEngine.NATIVE_SOL_ADDRESS
    \/ snapshot = None) -> w' = w)
  /\ (forall token data,
        ev_tokenMint event = Some token -> token <> ""%string ->
        token <> MindmapFilterEngine.NATIVE_SOL_ADDRESS ->
        snapshot = Some data ->
        (tradesExecuted w' = tradesExecuted w
         /\ forall later, getMindmapData later token (cache w')
                          = if later <? now + 1800 then Some data else None)
        \/ (tradesExecuted w' = tradesExecuted w + 1
            /\ (forall later, getMindmapData later token (cache w') = None)
            /\ forall later, later < now + 1800 ->
                             isTokenProcessed later token (cache w') = true)).
Proof.
  intros w' snapshot. subst w'. unfold handleMindmapUpdate. fold snapshot. split.
  - intros [H | [H | H]].
    + destruct (ev_tokenMint event) as [token|]; [|reflexivity].
      destruct snapshot; [|reflexivity]. simpl in H. apply negb_false_iff in H.
      rewrite H. reflexivity.
    + rewrite H. destruct snapshot; [|reflexivity].
      rewrite String.eqb_refl. destruct (String.eqb _ ""); reflexivity.
    + rewrite H. destruct (ev_tokenMint event); reflexivity.
  - intros token data Ht He Hn Hs. rewrite Ht, Hs.
    rewrite (proj2 (String.eqb_neq _ _) He), (proj2 (String.eqb_neq _ _) Hn).
    unfold mbind, M_bind, bind, writeCache, readCache. cbn [snd fst cache set_cache].
    assert (C : forall later,
               getMindmapData later token (cacheMindmapData now token data (cache w))
               = if later <? now + 1800 then Some data else None).
    { intros later. unfold getMindmapData, cacheMindmapData, DEFAULT_TTL.
      cbn [mindmaps set_mindmaps]. rewrite lookup_insert_eq. reflexivity. }
    destruct (isTokenProcessed now token (cacheMindmapData now token data (cache w))).
    + left. split; [reflexivity | exact C].
    + destruct (process_snapshots now token (Some data)
                  (set_cache (cacheMindmapData now token data (cache w)) w))
        as [[T M] | (T & M & P)].
      * left. split; [exact T|]. intros later. rewrite <- C.
        unfold getMindmapData. rewrite M. reflexivity.
      * right. split; [exact T|]. split; [|exact P].
        intros later. unfold getMindmapData. rewrite M, lookup_delete_eq. reflexivity.
Qed.

End Handlers.

Lemma mindmap_update_keeps_or_buys_witness :
  snd (BotCoreEngine.handleMindmapUpdate permissive_filter approving_endpoint filling_backend
         (ofZ 1) s5_risk 0
         {| BotCoreEngine.ev_tokenMint :=
              Some MindmapFilterEngine.NATIVE_SOL_ADDRESS;
            BotCoreEngine.ev_data := Some (s4_snapshot 0);
            BotCoreEngine.ev_mindmapData := None |} initial_world)
  = initial_world.
Proof.
  apply (proj1 (mindmap_update_keeps_or_buys permissive_filter approving_endpoint
                  filling_backend (ofZ 1) s5_risk 0 _ initial_world)).
  right. left. reflexivity.
Defined.

(** ** The filter engine: its on-chain block and its counts *)
Section FilterCounts.

Import MindmapFilterEngine.

Local Open Scope Qc_scope.

Lemma qc_plus (a b : Z) : qc a + qc b = qc (a + b)%Z.
Proof.
  apply Qc_is_canon. unfold Qcplus, qc, Q2Qc. simpl this.
  rewrite !Qred_correct. rewrite inject_Z_plus. reflexivity.
Qed.

Lemma add_ofZ (a b : Z) : add (ofZ a) (ofZ b) = ofZ (a + b)%Z.
Proof. rewrite !ofZ_Fin. cbn [add]. rewrite qc_plus. reflexivity. Qed.

(** A loop that counts the elements that satisfy a test. *)
Lemma fold_count {A : Type} (p : A -> bool) (l : list A) (k : Z) :
  fold_left (fun acc x => if p x then add acc one else acc) l (ofZ k)
  = ofZ (k + Z.of_nat (length (List.filter p l)))%Z.
Proof.
  revert k. induction l as [|x l IH]; intros k; cbn [fold_left List.filter length].
  - f_equal. lia.
  - destruct (p x); cbn [length].
    + change (add (ofZ k) one) with (add (ofZ k) (ofZ 1)).
      rewrite add_ofZ, IH. f_equal. lia.
    + apply IH.
Qed.

Lemma filter_length_le {A : Type} (p : A -> bool) (l : list A) :
  (length (List.filter p l) <= length l)%nat.
Proof. induction l as [|x l IH]; simpl; [lia|]. destruct (p x); simpl; lia. Qed.

Lemma viralVelocity_count now d :
  calculateViralVelocity now d = ofZ (Z.of_nat (length (recentActors now d))).
Proof.
  unfold calculateViralVelocity, recentActors.
  apply (fold_count (fun kc => (now - 60000 <? lastTradeTime (snd kc))%Z) _ 0%Z).
Qed.

Lemma consensus_share d :
  calculateConsensus d
  = match kolConnections d with
    | [] => zero
    | _ => Fin (qc (Z.of_nat (length (buyingActors d)))
                / qc (Z.of_nat (length (kolConnections d))) * qc 100)
    end.
Proof.
  unfold calculateConsensus, buyingActors.
  rewrite (fold_count (fun kc => includes "buy" (tradeTypes (snd kc))) _ 0%Z).
  assert (F : forall (l : list (string * KOLConnection)) k,
             fold_left (fun acc _ => add acc one) l (ofZ k)
             = ofZ (k + Z.of_nat (length l))%Z).
  { induction l as [|x l IH]; intros k; cbn [fold_left length].
    - f_equal. lia.
    - change (add (ofZ k) one) with (add (ofZ k) (ofZ 1)). rewrite add_ofZ, IH. f_equal. lia. }
  assert (F0 : fold_left (fun acc (_ : string * KOLConnection) => add acc one)
                 (kolConnections d) zero
               = ofZ (Z.of_nat (length (kolConnections d)))) by apply (F _ 0%Z).
  rewrite F0. cbn [Z.add].
  destruct (kolConnections d) as [|x l] eqn:E; [reflexivity|].
  assert (P : qc 0 < qc (Z.of_nat (length (x :: l)))) by (apply qc_lt; simpl length; lia).
  rewrite !ofZ_Fin, zero_Fin.
  destruct (eqb (Fin (qc (Z.of_nat (length (x :: l))))) (Fin 0)) eqn:Z0.
  - apply eqb_Fin in Z0. exfalso. apply (pos_nonzero _ P Z0).
  - rewrite (div_Fin_pos _ _ P). unfold hundred. rewrite ofZ_Fin. reflexivity.
Qed.

(** X26. The counts behind the signals.  The viral velocity is the number
    of actors whose last trade is less than a minute old, and never
    exceeds the number of connected actors; the consensus score is the
    share of the actors that have bought, in percent, between 0 and 100 (0
    for a snapshot without actors).  So VIRAL_SPIKE is signalled only when
    the recent actors reach the threshold, HIGH_CONSENSUS only on a
    snapshot of at least 3 actors, and SMART_MONEY only when it is
    required. *)
Theorem signals_count_actors (c : FilterCriteria) (now : Z) (d : MindmapData) :
  calculateViralVelocity now d = ofZ (Z.of_nat (length (recentActors now d)))
  /\ (length (recentActors now d) <= length (kolConnections d))%nat
  /\ (exists q, calculateConsensus d = Fin q /\ 0 <= q /\ q <= qc 100)
  /\ (In VIRAL_SPIKE (detectSignals c now d) ->
      geb (ofZ (Z.of_nat (length (recentActors now d)))) (toNumber (minViralVelocity c)) = true)
  /\ (In HIGH_CONSENSUS (detectSignals c now d) -> (3 <= length (kolConnections d))%nat)
  /\ (In SMART_MONEY (detectSignals c now d) -> requireSmartMoney c = Some true).
Proof.
  split; [apply viralVelocity_count|]. split; [apply filter_length_le|]. split.
  { rewrite consensus_share. destruct (kolConnections d) as [|x l] eqn:E.
    - exists 0. split; [apply zero_Fin|]. split; [apply Qcle_refl | apply (qc_le 0 100); lia].
    - eexists. split; [reflexivity|]. rewrite <- E.
      assert (B : (length (buyingActors d) <= length (kolConnections d))%nat)
        by apply filter_length_le.
      apply (ratio_in_range (Z.of_nat (length (buyingActors d)))
               (Z.of_nat (length (kolConnections d)))); try lia.
      rewrite E. simpl length. lia. }
  unfold detectSignals. rewrite viralVelocity_count.
  split; [|split]; intros H; apply in_app_or in H as [H | H].
  - destruct (truthy_opt (minViralVelocity c)); [|destruct H].
    cbn [andb] in H. destruct (geb _ _); [reflexivity | destruct H].
  - exfalso. apply in_app_or in H as [H | H];
      repeat match type of H with
             | context [if ?b then _ else _] => destruct b
             end; simpl in H; intuition discriminate.
  - exfalso.
    repeat match type of H with
           | context [if ?b then _ else _] => destruct b
           end; simpl in H; intuition discriminate.
  - apply in_app_or in H as [H | H].
    + exfalso.
      repeat match type of H with
             | context [if ?b then _ else _] => destruct b
             end; simpl in H; intuition discriminate.
    + destruct (truthy_opt (minConsensusScore c) && geb _ _) ; [|destruct H].
      cbn [andb] in H.
      destruct (geb (countConnectedKOLs d) (ofZ 3)) eqn:G; [|destruct H].
      unfold countConnectedKOLs in G. rewrite !ofZ_Fin in G. apply geb_Fin in G.
      destruct (le_lt_dec 3 (length (kolConnections d))) as [K|K]; [exact K|].
      exfalso. apply (Qclt_not_le (qc (Z.of_nat (length (kolConnections d)))) (qc 3));
        [apply qc_lt; lia | exact G].
  - exfalso.
    repeat match type of H with
           | context [if ?b then _ else _] => destruct b
           end; simpl in H; intuition discriminate.
  - apply in_app_or in H as [H | H].
    + destruct (requireSmartMoney c) as [[|]|]; [reflexivity | |];
        cbn [truthy_bool andb] in H; destruct H.
    + exfalso.
      repeat match type of H with
             | context [if ?b then _ else _] => destruct b
             end; simpl in H; intuition discriminate.
Qed.

End FilterCounts.

(** ** The ledger: priority fee and paper trades *)
Section LedgerFacts.

Variable show : number -> string.
Variable toFixed4 : number -> string.

Local Open Scope Qc_scope.

Local Set Warnings "-clear-no-such-hyp".

Lemma clamp_in_range (q lo hi : Qc) :
  lo <= hi ->
  exists r, mathMin (mathMax (Fin q) (Fin lo)) (Fin hi) = Fin r /\ lo <= r /\ r <= hi.
Proof.
  intros H. unfold mathMax. destruct (ltb (Fin q) (Fin lo)) eqn:E.
  - unfold mathMin. destruct (ltb (Fin hi) (Fin lo)) eqn:E'.
    + apply ltb_Fin in E'. exfalso. apply (Qclt_not_le _ _ E' H).
    + exists lo. split; [reflexivity|]. split; [apply Qcle_refl | exact H].
  - apply not_ltb_geb in E. apply geb_Fin in E.
    unfold mathMin. destruct (ltb (Fin hi) (Fin q)) eqn:E'.
    + exists hi. split; [reflexivity|]. split; [exact H | apply Qcle_refl].
    + apply not_ltb_geb in E'. apply geb_Fin in E'.
      exists q. split; [reflexivity|]. split; assumption.
Qed.

Lemma fallback_fee_capped : cappedFee (ofQ 5 10000) /\ ofQ 5 10000 <> zero.
Proof.
  split.
  - right. eexists. split; [reflexivity|]. split; vm_compute; discriminate.
  - unfold ofQ, zero. rewrite ofZ_Fin. intros H. injection H as H. discriminate.
Qed.

(** X27. The priority fee is capped.  Whatever the chain reports about
    recent fees, and also when the query fails, [getDynamicPriorityFee]
    answers a fee between 0.0001 and 0.01 SOL, given that the fee it has
    cached, if any, is in that range; and the fee it caches is again in
    that range.  It changes nothing else in the ledger. *)
Theorem priority_fee_is_capped (x : AgentLedgerTools.Outside) (l : AgentLedgerTools.Ledger) :
  cappedFee (AgentLedgerTools.lastPriorityFee l) ->
  let fee := fst (AgentLedgerTools.getDynamicPriorityFee x l) in
  let l' := snd (AgentLedgerTools.getDynamicPriorityFee x l) in
  (exists q, fee = Fin q /\ Q2Qc (1 # 10000) <= q /\ q <= Q2Qc (1 # 100))
  /\ cappedFee (AgentLedgerTools.lastPriorityFee l')
  /\ AgentLedgerTools.wallet l' = AgentLedgerTools.wallet l /\ AgentLedgerTools.history l' = AgentLedgerTools.history l /\ AgentLedgerTools.sent l' = AgentLedgerTools.sent l.
Proof.
  intros C fee l'. subst fee l'.
  assert (F : exists q, ofQ 5 10000 = Fin q /\ Q2Qc (1 # 10000) <= q /\ q <= Q2Qc (1 # 100)).
  { eexists. split; [reflexivity|]. split; vm_compute; discriminate. }
  assert (G : gtb (AgentLedgerTools.lastPriorityFee l) zero = true ->
              exists q, AgentLedgerTools.lastPriorityFee l = Fin q /\ Q2Qc (1 # 10000) <= q
                        /\ q <= Q2Qc (1 # 100)).
  { intros H. destruct C as [C | C]; [|exact C]. rewrite C in H. discriminate. }
  unfold AgentLedgerTools.getDynamicPriorityFee.
  destruct (gtb (AgentLedgerTools.lastPriorityFee l) zero) eqn:Pos; cbn [andb].
  - destruct (AgentLedgerTools.dateNow x - AgentLedgerTools.lastPriorityFeeTime l <? AgentLedgerTools.PRIORITY_FEE_CACHE_TTL_MS)%Z.
    + cbn [fst snd]. split; [apply G; reflexivity|]. repeat split; exact C.
    + destruct (AgentLedgerTools.recentFees x) as [[[|s samples]|]|msg]; cbn [fst snd];
        try (split; [exact F|]; repeat split; exact C).
      * destruct (AgentLedgerTools.percentileFee (s :: samples)) as [micro|]; cbn [fst snd AgentLedgerTools.lastPriorityFee
                                                                  AgentLedgerTools.wallet AgentLedgerTools.history AgentLedgerTools.sent].
        -- unfold ofQ, ofZ. cbn [mul].
           rewrite div_Fin_pos by (vm_compute; reflexivity).
           destruct (clamp_in_range
                       (Q2Qc (inject_Z micro) * Q2Qc (1 # 1000000)
                        / Q2Qc (inject_Z 1000000000))
                       (Q2Qc (1 # 10000)) (Q2Qc (1 # 100))) as (r & Er & Hr);
             [vm_compute; discriminate|].
           rewrite Er. split; [exists r; split; [reflexivity | exact Hr]|].
           split; [right; exists r; split; [reflexivity | exact Hr]|].
           repeat split.
        -- split; [exact F|]. repeat split; exact C.
      * split; [apply G; reflexivity|]. repeat split; exact C.
  - destruct (AgentLedgerTools.recentFees x) as [[[|s samples]|]|msg]; cbn [fst snd];
      try (split; [exact F|]; repeat split; exact C).
    destruct (AgentLedgerTools.percentileFee (s :: samples)) as [micro|]; cbn [fst snd AgentLedgerTools.lastPriorityFee
                                                                AgentLedgerTools.wallet AgentLedgerTools.history AgentLedgerTools.sent].
    + unfold ofQ, ofZ. cbn [mul].
      rewrite div_Fin_pos by (vm_compute; reflexivity).
      destruct (clamp_in_range
                  (Q2Qc (inject_Z micro) * Q2Qc (1 # 1000000)
                   / Q2Qc (inject_Z 1000000000))
                  (Q2Qc (1 # 10000)) (Q2Qc (1 # 100))) as (r & Er & Hr);
        [vm_compute; discriminate|].
      rewrite Er. split; [exists r; split; [reflexivity | exact Hr]|].
      split; [right; exists r; split; [reflexivity | exact Hr]|].
      repeat split.
    + split; [exact F|]. repeat split; exact C.
Qed.

Lemma priority_fee_is_capped_witness :
  exists q,
    fst (AgentLedgerTools.getDynamicPriorityFee
           (outside_at 1000 None [(10, 900000000000); (11, 20000); (12, 0)]%Z) new_ledger)
    = Fin q
    /\ Q2Qc (1 # 10000) <= q /\ q <= Q2Qc (1 # 100).
Proof.
  apply (priority_fee_is_capped
           (outside_at 1000 None [(10, 900000000000); (11, 20000); (12, 0)]%Z) new_ledger).
  left. reflexivity.
Defined.

Lemma getBalance_set_eq (m : string) (v : number) (w : PaperWalletService.Wallet) :
  PaperWalletService.getBalance m (PaperWalletService.set_balance m v w) = v.
Proof.
  unfold PaperWalletService.getBalance, PaperWalletService.set_balance.
  cbn [PaperWalletService.balances]. rewrite lookup_insert_eq. reflexivity.
Qed.

Lemma getBalance_set_ne (m k : string) (v : number) (w : PaperWalletService.Wallet) :
  m <> k ->
  PaperWalletService.getBalance k (PaperWalletService.set_balance m v w)
  = PaperWalletService.getBalance k w.
Proof.
  intros H. unfold PaperWalletService.getBalance, PaperWalletService.set_balance.
  cbn [PaperWalletService.balances]. rewrite lookup_insert_ne by exact H. reflexivity.
Qed.

Lemma MOCK_FEE_Fin : AgentLedgerTools.MOCK_FEE = Fin mockFee.
Proof. reflexivity. Qed.

Lemma TOLERANCE_Fin : AgentLedgerTools.TOLERANCE = Fin tolerance.
Proof. reflexivity. Qed.

Lemma ltb_Fin_false (x y : Qc) : ltb (Fin x) (Fin y) = false <-> y <= x.
Proof.
  split; intros H.
  - apply geb_Fin, not_ltb_geb, H.
  - destruct (ltb (Fin x) (Fin y)) eqn:E; [|reflexivity].
    apply ltb_Fin in E. exfalso. apply (Qclt_not_le _ _ E H).
Qed.

Lemma eqb_zero_pos (a : Qc) : 0 < a -> eqb (Fin a) zero = false.
Proof.
  intros H. destruct (eqb (Fin a) zero) eqn:E; [|reflexivity].
  rewrite zero_Fin in E. apply eqb_Fin in E. exfalso. exact (pos_nonzero a H E).
Qed.

Lemma or_else_pos (a : Qc) (d : number) : 0 < a -> or_else (Some (Fin a)) d = Fin a.
Proof.
  intros H. unfold or_else. rewrite (proj2 (truthy_Fin a) (pos_nonzero a H)). reflexivity.
Qed.

End LedgerFacts.

(** ** Texts: what a message can contain *)
Section Texts.

Lemma append_cons (c : Ascii.ascii) (a b : string) :
  String c a +:+ b = String c (a +:+ b).
Proof. reflexivity. Qed.

Lemma append_assoc_text (a b c : string) : (a +:+ b) +:+ c = a +:+ b +:+ c.
Proof.
  induction a as [|ch a IH]; [reflexivity|]. rewrite !append_cons, IH. reflexivity.
Qed.

Lemma strip_app (a b : string) : strip (a +:+ b) = strip a +:+ strip b.
Proof.
  induction a as [|ch a IH]; [reflexivity|]. rewrite append_cons. cbn [strip].
  destruct (numeric ch); rewrite IH; reflexivity.
Qed.

Lemma strip_numeral (s : string) : numeral s = true -> strip s = EmptyString.
Proof.
  induction s as [|ch s IH]; [reflexivity|]. cbn [numeral strip].
  intros H. apply andb_true_iff in H as [Hc Hs]. rewrite Hc. apply IH, Hs.
Qed.

Lemma prefix_split (n h : string) : String.prefix n h = true -> exists v, h = n +:+ v.
Proof.
  revert h. induction n as [|c n IH]; intros h H.
  - exists h. reflexivity.
  - destruct h as [|c' h]; [discriminate|]. cbn [String.prefix] in H.
    destruct (Ascii.ascii_dec c c') as [->|]; [|discriminate].
    destruct (IH h H) as [v ->]. exists v. reflexivity.
Qed.

Lemma prefix_append (n v : string) : String.prefix n (n +:+ v) = true.
Proof.
  induction n as [|c n IH]; [destruct v; reflexivity|].
  rewrite append_cons. cbn [String.prefix].
  destruct (Ascii.ascii_dec c c); [exact IH | congruence].
Qed.

Lemma str_includes_head (n h : string) :
  String.prefix n h = true -> str_includes n h = true.
Proof. intros H. destruct h; cbn [str_includes]; rewrite H; reflexivity. Qed.

Lemma str_includes_split (n h : string) :
  str_includes n h = true -> exists u v, h = u +:+ n +:+ v.
Proof.
  induction h as [|c h IH]; cbn [str_includes]; intros H.
  - apply orb_true_iff in H as [H|H]; [|discriminate].
    destruct (prefix_split _ _ H) as [v E]. exists EmptyString, v. exact E.
  - apply orb_true_iff in H as [H|H].
    + destruct (prefix_split _ _ H) as [v E]. exists EmptyString, v. exact E.
    + destruct (IH H) as (u & v & E). exists (String c u), v. rewrite append_cons, E. reflexivity.
Qed.

Lemma str_includes_append (u n v : string) : str_includes n (u +:+ n +:+ v) = true.
Proof.
  induction u as [|c u IH].
  - change (EmptyString +:+ n +:+ v) with (n +:+ v).
    apply str_includes_head, prefix_append.
  - rewrite append_cons. cbn [str_includes]. rewrite IH. apply orb_true_r.
Qed.

(** A message that contains a text contains each part of it; a part
    without numeric characters is still there once the numeric characters
    of the message are taken out. *)
Lemma str_includes_strip (u g v h : string) :
  strip g = g ->
  str_includes (u +:+ g +:+ v) h = true ->
  str_includes g (strip h) = true.
Proof.
  intros G H. destruct (str_includes_split _ _ H) as (a & b & ->).
  rewrite !strip_app, G. rewrite !append_assoc_text.
  rewrite <- (append_assoc_text (strip a) (strip u)).
  apply str_includes_append.
Qed.

End Texts.

(** ** The watcher's sales, carried out against the ledger *)
Section WatcherSales.

Import TradeWatcherLoop.

Variable show : number -> string.
Variable toFixed4 : number -> string.
Variable env : AgentLedgerTools.Env.

Local Open Scope Qc_scope.

Local Set Warnings "-clear-no-such-hyp".

(** The request [executeSell] sends for a trade. *)
Lemma or_else_Fin_zero (c : Qc) : or_else (Some (Fin c)) zero = Fin c.
Proof.
  unfold or_else. destruct (truthy (Fin c)) eqn:E; [reflexivity|].
  destruct (Qc_eq_dec c 0) as [->|N]; [reflexivity|].
  apply truthy_Fin in N. congruence.
Qed.

(** A paper sale the wallet covers. *)
Lemma paper_sell_paid (x : AgentLedgerTools.Outside) (l : AgentLedgerTools.Ledger)
    (m : string) (a p b : Qc) :
  AgentLedgerTools.SIMULATING env = true ->
  m <> "SOL" ->
  0 < a -> 0 < p ->
  AgentLedgerTools.tokenPrice x = Returned (Some (Fin p)) ->
  PaperWalletService.getBalance m (AgentLedgerTools.wallet l) = Fin b ->
  a <= b ->
  exists w',
    AgentLedgerTools.performSwap show toFixed4 env x
      {| AgentLedgerTools.amount := Fin a; AgentLedgerTools.action := AgentLedgerTools.sell;
         AgentLedgerTools.mint := m; AgentLedgerTools.watchConfig := None;
         AgentLedgerTools.prediction := None |} l
    = ({| AgentLedgerTools.success := true;
          AgentLedgerTools.message := Some "Paper Swap successful";
          AgentLedgerTools.data :=
            Some {| AgentLedgerTools.swapResponse :=
                      Some {| AgentLedgerTools.rate :=
                                Some {| AgentLedgerTools.amountIn := Some (Fin a);
                                        AgentLedgerTools.amountOut := Some (Fin (a * p));
                                        AgentLedgerTools.executionPrice := Some (Fin p) |};
                              AgentLedgerTools.txid := Some (AgentLedgerTools.simTxid x);
                              AgentLedgerTools.transactionId := None |};
                    AgentLedgerTools.entryPrice := Fin p |} |},
       AgentLedgerTools.set_wallet w' l)
    /\ PaperWalletService.getBalance m w' = Fin (b - a)
    /\ PaperWalletService.getBalance "SOL" w'
       = add (PaperWalletService.getBalance "SOL" (AgentLedgerTools.wallet l))
             (Fin (a * p - mockFee)).
Proof.
  intros Sim Hm Ha Hp Price Bal Hab.
  assert (Tol : a - tolerance <= b).
  { apply Qcle_trans with a; [|exact Hab]. unfold tolerance. to_Q. lra. }
  unfold AgentLedgerTools.performSwap. rewrite Sim.
  unfold AgentLedgerTools.validateTradeBalanceMock.
  cbn [AgentLedgerTools.action AgentLedgerTools.amount AgentLedgerTools.mint].
  rewrite Bal, TOLERANCE_Fin. cbn [sub neg add].
  change (a + - tolerance) with (a - tolerance).
  rewrite (proj2 (ltb_Fin_false _ _) Tol).
  cbn [AgentLedgerTools.v_success negb AgentLedgerTools.v_available].
  rewrite (proj2 (ltb_Fin_false _ _) Hab). cbn [andb].
  unfold AgentLedgerTools.performSwapMock, AgentLedgerTools.with_amount.
  cbn [AgentLedgerTools.action AgentLedgerTools.amount AgentLedgerTools.mint].
  rewrite (eqb_zero_pos a Ha), Price, Bal, TOLERANCE_Fin, MOCK_FEE_Fin. cbn [sub neg add mul].
  change (a + - tolerance) with (a - tolerance).
  rewrite (proj2 (ltb_Fin_false _ _) Tol).
  unfold PaperWalletService.withdraw. rewrite Bal.
  rewrite (proj2 (ltb_Fin_false _ _) Hab). cbn [sub neg add].
  rewrite (or_else_pos p _ Hp).
  eexists. split; [reflexivity|].
  unfold PaperWalletService.deposit. cbn [snd]. split.
  - rewrite getBalance_set_ne by congruence. apply getBalance_set_eq.
  - rewrite getBalance_set_eq. rewrite getBalance_set_ne by exact Hm. reflexivity.
Qed.

(** What the store holds after a position was closed. *)
Lemma closeTrade_stored (now : Z) (params : TradeHistoryService.CloseParams)
    (s : TradeHistoryService.Store) (trade : TradeHistoryEntry) :
  TradeHistoryService.getTrade (TradeHistoryService.tradeId params) s = Some trade ->
  id trade = TradeHistoryService.tradeId params ->
  let s' := snd (TradeHistoryService.closeTrade now params s) in
  (exists t',
     TradeHistoryService.getTrade (TradeHistoryService.tradeId params) s' = Some t'
     /\ status t' = closed /\ closedAt t' = Some now
     /\ exitPrice t'
        = TradeHistoryService.json_number (Some (TradeHistoryService.cl_exitPrice params))
     /\ exitAmount t'
        = TradeHistoryService.json_number (Some (TradeHistoryService.cl_exitAmount params))
     /\ exitValue t'
        = TradeHistoryService.json_number
            (Some (mul (TradeHistoryService.cl_exitPrice params)
                       (TradeHistoryService.cl_exitAmount params)))
     /\ realizedPnL t'
        = TradeHistoryService.json_number
            (Some (sub (mul (TradeHistoryService.cl_exitPrice params)
                            (TradeHistoryService.cl_exitAmount params))
                       (entryValue trade)))
     /\ sellReason t'
        = match TradeHistoryService.cl_sellReason params with
          | Some r => Some r
          | None => sellReason trade
          end
     /\ sellTransactionId t'
        = match TradeHistoryService.cl_sellTransactionId params with
          | Some tx => Some tx
          | None => sellTransactionId trade
          end)
  /\ (TradeHistoryService.tradeId params ∉ TradeHistoryService.open_trades s')
  /\ (TradeHistoryService.tradeId params ∈ TradeHistoryService.closed_trades s').
Proof.
  intros H I s'. subst s'. unfold TradeHistoryService.closeTrade. rewrite H. cbn [snd].
  match goal with
  | |- context [TradeHistoryService.storeTrade ?t s] => set (t10 := t)
  end.
  assert (I10 : id t10 = TradeHistoryService.tradeId params).
  { rewrite <- I. unfold t10.
    destruct (TradeHistoryService.cl_sellTransactionId params),
      (TradeHistoryService.cl_sellReason params); reflexivity. }
  assert (S10 : status t10 = closed).
  { unfold t10.
    destruct (TradeHistoryService.cl_sellTransactionId params),
      (TradeHistoryService.cl_sellReason params); reflexivity. }
  split.
  - exists (TradeHistoryService.json_trade t10). split.
    { rewrite getTrade_emit, <- I10. apply storeTrade_lookup. }
    unfold t10.
    destruct (TradeHistoryService.cl_sellTransactionId params),
      (TradeHistoryService.cl_sellReason params); repeat split; reflexivity.
  - rewrite <- I10. apply (storeTrade_closed_sets t10 s S10).
Qed.

Lemma processing_released (i : string) (P : gset string) :
  i ∉ P -> (P ∪ {[i]}) ∖ {[i]} = P.
Proof. intros H. set_solver. Qed.

(** X29. A paper position that reached its hold limit is sold at the
    simulation price.  In simulation mode, for a stored position whose
    hold limit of [k] minutes has elapsed and whose tokens the paper
    wallet holds, one pass of the watcher sells the entry amount [a] at
    the price [p] the price service quotes, whatever the price cache
    holds: the position is stored as closed at the instant of the close
    with exit price [p], exit amount [a], exit value [p * a] and the hold
    limit as reason, it moves from the open set to the closed set, the
    wallet gives [a] tokens and receives [a * p] SOL less the mock fee, and
    the trade is no longer marked as in flight. *)
Theorem hold_limit_sells_paper_position (clock : TradeWatcherService.Clock)
    (feed : TradeWatcherService.PriceFeed) (x : AgentLedgerTools.Outside) (closeTime : Z)
    (t : TradeHistoryEntry) (d : Desk) (k : Z) (a p b : Qc) :
  AgentLedgerTools.SIMULATING env = true ->
  (id t ∉ processingTrades d) ->
  TradeHistoryService.getTrade (id t) (historyOf d) = Some t ->
  tokenMint t <> "SOL" ->
  maxHoldTimeMinutes (sellConditions t) = Some (ofZ k) ->
  (0 < k)%Z ->
  (k * 60000 <= TradeWatcherService.atStart clock - openedAt t)%Z ->
  entryAmount t = Fin a -> 0 < a ->
  AgentLedgerTools.tokenPrice x = Returned (Some (Fin p)) -> 0 < p ->
  PaperWalletService.getBalance (tokenMint t) (AgentLedgerTools.wallet (ledger d)) = Fin b ->
  a <= b ->
  let d' := processOpenTrade show toFixed4 env clock feed x closeTime t d in
  (exists t',
     TradeHistoryService.getTrade (id t) (historyOf d') = Some t'
     /\ status t' = closed /\ closedAt t' = Some closeTime
     /\ exitPrice t' = Some (Fin p) /\ exitAmount t' = Some (Fin a)
     /\ exitValue t' = Some (Fin (p * a))
     /\ sellReason t'
        = Some (MaxHoldTimeReached
                  (TradeWatcherService.holdTimeMinutes (TradeWatcherService.atStart clock) t)))
  /\ (id t ∉ TradeHistoryService.open_trades (historyOf d'))
  /\ (id t ∈ TradeHistoryService.closed_trades (historyOf d'))
  /\ PaperWalletService.getBalance (tokenMint t) (AgentLedgerTools.wallet (ledger d'))
     = Fin (b - a)
  /\ PaperWalletService.getBalance "SOL" (AgentLedgerTools.wallet (ledger d'))
     = add (PaperWalletService.getBalance "SOL" (AgentLedgerTools.wallet (ledger d)))
           (Fin (a * p - mockFee))
  /\ processingTrades d' = processingTrades d.
Proof.
  intros Sim Free Stored Hm Hold Hk Due Amount Ha Price Hp Bal Hab d'. subst d'.
  unfold processOpenTrade. rewrite (bool_decide_eq_false_2 _ Free).
  unfold evaluateTrade, TradeWatcherService.evaluateTrade.
  rewrite Hold. cbn [truthy_opt toNumber].
  rewrite (truthy_ofZ k) by lia. rewrite (hold_time_reaches _ k t Due). cbn [andb foldl perform].
  unfold executeSell. rewrite (bool_decide_eq_false_2 _ Free).
  cbn [set_processingTrades ledger]. rewrite Amount.
  destruct (paper_sell_paid x (ledger d) (tokenMint t) a p b Sim Hm Ha Hp Price Bal Hab)
    as (w' & -> & Tok & Sol).
  cbn [AgentLedgerTools.success AgentLedgerTools.data AgentLedgerTools.swapResponse
       AgentLedgerTools.rate AgentLedgerTools.txid AgentLedgerTools.transactionId
       AgentLedgerTools.executionPrice AgentLedgerTools.amountIn].
  rewrite (or_else_pos p _ Hp), (or_else_pos a _ Ha).
  unfold inHistory, historyOf, set_ledger, set_processingTrades, AgentLedgerTools.set_history,
    AgentLedgerTools.set_wallet.
  cbn [ledger processingTrades AgentLedgerTools.history AgentLedgerTools.wallet].
  match goal with
  | |- context [TradeHistoryService.closeTrade closeTime ?ps _] => set (params := ps)
  end.
  destruct (closeTrade_stored closeTime params (AgentLedgerTools.history (ledger d)) t Stored
              eq_refl) as ((t' & Get & St & Cl & Px & Am & Val & _ & Why & _) & Op & Clo).
  split; [|split; [exact Op | split; [exact Clo | split; [exact Tok | split; [exact Sol|]]]]].
  - exists t'. split; [exact Get|]. split; [exact St|]. split; [exact Cl|].
    split; [exact Px|]. split; [exact Am|]. split; [exact Val | exact Why].
  - apply processing_released, Free.
Qed.

(** The refusal of the live validation for a sale without tokens names
    none of the three balances, whatever the two numbers are. *)
Lemma live_refusal_not_missing (a b : number) :
  (forall v, numeral (show v) = true) ->
  signalsMissingBalance
    ("Insufficient token balance for sell trade. Required: " +:+ show a
     +:+ ", Available: " +:+ show b) = false.
Proof.
  intros Num.
  set (msg := "Insufficient token balance for sell trade. Required: " +:+ show a
              +:+ ", Available: " +:+ show b).
  assert (S : strip msg
              = strip "Insufficient token balance for sell trade. Required: "
                +:+ strip ", Available: ").
  { unfold msg. rewrite !strip_app. rewrite !(strip_numeral (show _)) by apply Num.
    reflexivity. }
  unfold signalsMissingBalance.
  destruct (str_includes "No token balance" msg) eqn:E1.
  { exfalso. apply (str_includes_strip "N" "o " "token balance") in E1; [|reflexivity].
    rewrite S in E1. vm_compute in E1. discriminate. }
  destruct (str_includes "insufficient funds" msg) eqn:E2.
  { exfalso. apply (str_includes_strip "insufficient fun" "ds" "") in E2; [|reflexivity].
    rewrite S in E2. vm_compute in E2. discriminate. }
  destruct (str_includes "Insufficient Paper" msg) eqn:E3.
  { exfalso. apply (str_includes_strip "Insufficient " "P" "aper") in E3; [|reflexivity].
    rewrite S in E3. vm_compute in E3. discriminate. }
  reflexivity.
Qed.

Lemma desk_restored (d : Desk) (i : string) :
  (i ∉ processingTrades d) ->
  set_processingTrades
    (processingTrades (set_ledger (ledger d) (set_processingTrades (processingTrades d ∪ {[i]}) d))
     ∖ {[i]})
    (set_ledger (ledger d) (set_processingTrades (processingTrades d ∪ {[i]}) d))
  = d.
Proof.
  intros Free. destruct d as [l P e]. unfold set_processingTrades, set_ledger.
  cbn [ledger processingTrades priceEvents] in *. f_equal. apply processing_released, Free.
Qed.

(** The live validation of a sale without fee balance or without tokens. *)
Lemma live_validation_refuses (x : AgentLedgerTools.Outside)
    (params : AgentLedgerTools.SwapParams) :
  (forall v, numeral (show v) = true) ->
  AgentLedgerTools.action params = AgentLedgerTools.sell ->
  (AgentLedgerTools.feeBalance x = Returned false
   \/ (AgentLedgerTools.feeBalance x = Returned true
       /\ exists tb,
            AgentLedgerTools.tokenBalance x = Returned tb
            /\ (AgentLedgerTools.tb_status tb = false
                \/ AgentLedgerTools.tb_balance tb = None
                \/ AgentLedgerTools.tb_balance tb = Some zero))) ->
  AgentLedgerTools.v_success (AgentLedgerTools.validateTradeBalance show toFixed4 x params)
  = false
  /\ signalsMissingBalance
       (AgentLedgerTools.v_message
          (AgentLedgerTools.validateTradeBalance show toFixed4 x params)) = false.
Proof.
  intros Num Sell Gone. unfold AgentLedgerTools.validateTradeBalance.
  destruct Gone as [Fee | (Fee & tb & Tok & Empty)]; rewrite Fee.
  - split; [reflexivity|]. vm_compute. reflexivity.
  - rewrite Sell, Tok.
    destruct (AgentLedgerTools.tb_balance tb) as [held|] eqn:B.
    + assert (C : negb (AgentLedgerTools.tb_status tb) || eqb held zero = true).
      { destruct Empty as [St | [No | Zero]].
        - rewrite St. reflexivity.
        - discriminate.
        - injection Zero as ->. apply orb_true_r. }
      rewrite C. split; [reflexivity|]. apply live_refusal_not_missing, Num.
    + split; [reflexivity|]. apply live_refusal_not_missing, Num.
Qed.

(** X17. A live position whose tokens are gone is never closed by a sale.
    In live mode, when the wallet lacks the fee balance, or when the chain
    reports no token account, a failed read or a balance of 0 for the
    token, [performSwap] refuses the sale before anything is sent to the
    swap client, and its refusal contains none of the three texts after
    which [executeSell] closes a position (a number being written with
    digits, sign, point, exponent or as NaN or Infinity).  [executeSell]
    therefore leaves the history, the ledger and the in-flight marks
    exactly as they were: the position stays open and the sale is tried
    again at the next pass. *)
Theorem emptied_live_position_stays_open (x : AgentLedgerTools.Outside) (closeTime : Z)
    (t : TradeHistoryEntry) (reason : SellReason) (price : number) (d : Desk) :
  (forall v, numeral (show v) = true) ->
  AgentLedgerTools.SIMULATING env = false ->
  (AgentLedgerTools.feeBalance x = Returned false
   \/ (AgentLedgerTools.feeBalance x = Returned true
       /\ exists tb,
            AgentLedgerTools.tokenBalance x = Returned tb
            /\ (AgentLedgerTools.tb_status tb = false
                \/ AgentLedgerTools.tb_balance tb = None
                \/ AgentLedgerTools.tb_balance tb = Some zero))) ->
  executeSell show toFixed4 env x closeTime t reason price d = d.
Proof.
  intros Num Live Gone. unfold executeSell.
  destruct (bool_decide (id t ∈ processingTrades d)) eqn:Busy; [reflexivity|].
  apply bool_decide_eq_false_1 in Busy.
  cbn [set_processingTrades ledger].
  unfold AgentLedgerTools.performSwap. rewrite Live. cbv zeta.
  match goal with
  | |- context [AgentLedgerTools.validateTradeBalance show toFixed4 x ?ps] =>
      destruct (live_validation_refuses x ps Num eq_refl Gone) as [Refused Unnamed]
  end.
  rewrite Refused.
  cbn [negb AgentLedgerTools.success AgentLedgerTools.failure AgentLedgerTools.message].
  rewrite Unnamed, andb_false_r.
  apply desk_restored, Busy.
Qed.

End WatcherSales.

Lemma hold_limit_sells_paper_position_witness :
  id bought_position
  ∈ TradeHistoryService.closed_trades
      (TradeWatcherLoop.historyOf
         (TradeWatcherLoop.processOpenTrade show_nought show_nought paper_env hour_later
            silent_feed (outside_at 3601000 (Some one) []) 3601000 bought_position
            bought_desk)).
Proof.
  refine (proj1 (proj2 (proj2
            (hold_limit_sells_paper_position show_nought show_nought paper_env hour_later
               silent_feed (outside_at 3601000 (Some one) []) 3601000 bought_position
               bought_desk 60 (Q2Qc (1 # 4) / Q2Qc (1 # 2))%Qc (Q2Qc (inject_Z 1))
               (Q2Qc (inject_Z 0) + Q2Qc (1 # 4) / Q2Qc (1 # 2))%Qc
               _ _ _ _ _ _ _ _ _ _ _ _ _)))).
  - reflexivity.
  - apply not_elem_of_empty.
  - vm_compute. reflexivity.
  - intros H. vm_compute in H. discriminate.
  - vm_compute. reflexivity.
  - lia.
  - vm_compute. discriminate.
  - vm_compute. reflexivity.
  - vm_compute. reflexivity.
  - reflexivity.
  - vm_compute. reflexivity.
  - vm_compute. reflexivity.
  - vm_compute. discriminate.
Defined.

Lemma emptied_live_position_stays_open_witness :
  TradeWatcherLoop.executeSell show_nought show_nought live_env emptied_chain 3601000
    bought_position ForceClosePricingError one bought_desk
  = bought_desk.
Proof.
  apply (emptied_live_position_stays_open show_nought show_nought live_env emptied_chain
           3601000 bought_position ForceClosePricingError one bought_desk).
  - intros v. reflexivity.
  - reflexivity.
  - right. split; [reflexivity|]. eexists. split; [reflexivity|].
    right. right. reflexivity.
Defined.

(** * The properties that turn on arithmetic, in double precision *)

(** ** C1: the stepped trailing stop *)
Section SteppedTrailingInDoubles.

Import TradeWatcherService Rounded.TradeWatcherService InDoubles.

Lemma rounded_update_inactive t p :
  let c := sellConditions t in
  truthy_opt (takeProfitPercentage c) = true ->
  truthy_opt (trailingStopPercentage c) = true ->
  truthy_bool (trailingStopActivated c) = false ->
  sellConditions (fst (updateTrailingStopLoss t p)) =
    if geb (priceChange t p) (toNumber (takeProfitPercentage c)) then
      set_nextTargetPrice (Some (targetAt c p))
        (set_currStopPrice (Some (stopAt c p))
           (set_stepLevel (Some one) (set_trailingStopActivated (Some true) c)))
    else c.
Proof.
  intros c Htp Htr Hin. unfold updateTrailingStopLoss. fold c.
  rewrite Htp, Htr, Hin. simpl negb. cbv iota. simpl orb. cbv iota.
  fold (priceChange t p). fold (stopAt c p). fold (targetAt c p).
  destruct (geb (priceChange t p) _); [reflexivity|].
  destruct (_ || _); reflexivity.
Qed.

Lemma rounded_update_active t p g :
  let c := sellConditions t in
  truthy_opt (takeProfitPercentage c) = true ->
  truthy_opt (trailingStopPercentage c) = true ->
  truthy_bool (trailingStopActivated c) = true ->
  nextTargetPrice c = Some g -> truthy g = true ->
  sellConditions (fst (updateTrailingStopLoss t p)) =
    if geb p g then
      set_nextTargetPrice (Some (targetAt c p))
        (set_currStopPrice (Some (stopAt c p))
           (set_stepLevel (Some (Binary64.add (or_else (stepLevel c) one) one)) c))
    else c.
Proof.
  intros c Htp Htr Hact Hg Hgt. unfold updateTrailingStopLoss. fold c.
  rewrite Htp, Htr, Hact, Hg. simpl negb. cbv iota. simpl orb. cbv iota.
  simpl truthy_opt. rewrite Hgt. simpl toNumber.
  fold (stopAt c p). fold (targetAt c p).
  destruct (geb p g); [reflexivity|].
  destruct (_ || _); reflexivity.
Qed.

Ltac rounded_iff :=
  simpl; rewrite ?andb_false_r; simpl;
  repeat match goal with |- context [if ?b then _ else _] => destruct b end;
  simpl;
  (split;
   [ intros ?; first [discriminate | repeat split; reflexivity]
   | intros H; decompose [and] H; first [discriminate | reflexivity] ]).

Lemma rounded_check_stepped now t p :
  truthy_opt (trailingStopPercentage (sellConditions t)) = true ->
  isSteppedStop (checkSellConditions now t p) = true <->
  maxHoldRule now t = false /\ stopLossRule t p = false
  /\ truthy_bool (trailingStopActivated (sellConditions t)) = true
  /\ truthy_opt (currStopPrice (sellConditions t)) = true
  /\ leb p (toNumber (currStopPrice (sellConditions t))) = true.
Proof.
  intros Htr. unfold checkSellConditions.
  fold (priceChange t p). fold (guardedPriceChange t p).
  fold (maxHoldRule now t). fold (stopLossRule t p).
  rewrite Htr. simpl negb. rewrite andb_false_r. simpl andb at 1.
  destruct (maxHoldRule now t); [rounded_iff|].
  destruct (stopLossRule t p); [rounded_iff|].
  cbv iota.
  destruct (truthy_bool (trailingStopActivated (sellConditions t))); [|rounded_iff].
  destruct (truthy_opt (currStopPrice (sellConditions t))); [|rounded_iff].
  simpl andb. cbv iota.
  destruct (leb p _); rounded_iff.
Qed.

Lemma rounded_check_no_max_hold now now' t p :
  maxHoldTimeMinutes (sellConditions t) = None ->
  checkSellConditions now t p = checkSellConditions now' t p.
Proof. intros H. unfold checkSellConditions. rewrite H. reflexivity. Qed.

(** A watcher tick that finds the price 200 in the cache, on the position
    of scenario S1 after the prices 140, 150, 200, 230: it stores the
    updated position and queues the sell. *)
Lemma rounded_s1_tick_sells (clock : Clock) (error : bool) :
  let t4 := watch [ofZ 140; ofZ 150; ofZ 200; ofZ 230] s1_position in
  exists t' : TradeHistoryEntry,
    evaluateTrade clock {| cachedPrice := Some (ofZ 200); priceError := error |} t4
    = [GetCachedPrice "MINT"; UpdateTrade t'; EmitPriceUpdate "MINT" (ofZ 200);
       ExecuteSell t' (SteppedStopTriggered (ofZ 100) (ofZ 207)) (ofZ 200)].
Proof.
  intros t4. eexists. unfold evaluateTrade.
  replace (maxHoldTimeMinutes (sellConditions t4)) with (@None number)
    by (vm_compute; reflexivity).
  cbn [truthy_opt andb cachedPrice].
  match goal with
  | |- context [checkSellConditions ?n ?t ?p] =>
      rewrite (rounded_check_no_max_hold n 0 t p) by (vm_compute; reflexivity);
      replace (checkSellConditions 0 t p)
        with (Some (SteppedStopTriggered (ofZ 100) (ofZ 207)))
        by (symmetry; compute_done)
  end.
  reflexivity.
Qed.

(** C1, as stated, fails: a position with a 20% stop loss whose stepped
    stop is active at 135 and whose price falls to 70 is sold for the
    reason "stop loss", not "stepped stop", although trailing is active
    and the price is below currStopPrice. *)
Lemma C1_stop_loss_preempts_stepped_stop :
  let t := s1_active_with_stop_loss in
  truthy_opt (takeProfitPercentage (sellConditions t)) = true
  /\ truthy_opt (trailingStopPercentage (sellConditions t)) = true
  /\ truthy_bool (trailingStopActivated (sellConditions t)) = true
  /\ currStopPrice (sellConditions t) = Some (ofZ 135)
  /\ leb (ofZ 70) (toNumber (currStopPrice (sellConditions t))) = true
  /\ checkSellConditions 0 t (ofZ 70) = Some (StopLossTriggered (ofZ (-30)))
  /\ isSteppedStop (checkSellConditions 0 t (ofZ 70)) = false.
Proof. repeat split; compute_done. Qed.

(** C1 (amended). For a position with both takeProfitPct and
    trailingStopPct set, on each price update: while inactive, if (price -
    entryPrice) / entryPrice * 100 >= takeProfitPct the machine activates
    with stepLevel = 1, currStopPrice = price * (1 - trailingStopPct / 100)
    and nextTargetPrice = price * (1 + takeProfitPct / 100), and otherwise
    the sell conditions are unchanged; while active (with the non-zero
    level and target that activation sets), if price >= nextTargetPrice
    the level increments and both prices are recomputed from the price,
    and otherwise the sell conditions are unchanged.  The exit "stepped
    stop" fires exactly when neither the max-hold rule nor the stop-loss
    rule, which are tried first, matches, trailing is active with a
    non-zero currStopPrice, and price <= currStopPrice.  Every expression
    is evaluated as the source evaluates it, in double precision,
    operation by operation: at entry 100 with a take profit of 29 the
    price 129 gives a change of 28.999999999999996 and does not activate.
    Scenario S1 (entry 100, take profit 50, trailing 10, prices 140, 150,
    200, 230, then 200) runs as the specification lists it. *)
Theorem C1_stepped_trailing_machine :
  (forall (t : TradeHistoryEntry) (p : number),
     let c := sellConditions t in
     let c' := sellConditions (fst (updateTrailingStopLoss t p)) in
     let tp := toNumber (takeProfitPercentage c) in
     let trail := toNumber (trailingStopPercentage c) in
     truthy_opt (takeProfitPercentage c) = true ->
     truthy_opt (trailingStopPercentage c) = true ->
     (truthy_bool (trailingStopActivated c) = false ->
        (geb (Binary64.mul (Binary64.div (Binary64.sub p (entryPrice t)) (entryPrice t))
                hundred) tp = true ->
           trailingStopActivated c' = Some true
           /\ stepLevel c' = Some one
           /\ currStopPrice c'
              = Some (Binary64.mul p (Binary64.sub one (Binary64.div trail hundred)))
           /\ nextTargetPrice c'
              = Some (Binary64.mul p (Binary64.add one (Binary64.div tp hundred))))
        /\ (geb (Binary64.mul (Binary64.div (Binary64.sub p (entryPrice t)) (entryPrice t))
                   hundred) tp = false -> c' = c))
     /\ (forall n g : number,
           truthy_bool (trailingStopActivated c) = true ->
           stepLevel c = Some n -> truthy n = true ->
           nextTargetPrice c = Some g -> truthy g = true ->
           (geb p g = true ->
              trailingStopActivated c' = trailingStopActivated c
              /\ stepLevel c' = Some (Binary64.add n one)
              /\ currStopPrice c'
                 = Some (Binary64.mul p (Binary64.sub one (Binary64.div trail hundred)))
              /\ nextTargetPrice c'
                 = Some (Binary64.mul p (Binary64.add one (Binary64.div tp hundred))))
           /\ (geb p g = false -> c' = c)))
  /\ (forall (now : Z) (t : TradeHistoryEntry) (p : number),
        truthy_opt (takeProfitPercentage (sellConditions t)) = true ->
        truthy_opt (trailingStopPercentage (sellConditions t)) = true ->
        (isSteppedStop (checkSellConditions now t p) = true <->
         maxHoldRule now t = false /\ stopLossRule t p = false
         /\ truthy_bool (trailingStopActivated (sellConditions t)) = true
         /\ truthy_opt (currStopPrice (sellConditions t)) = true
         /\ leb p (toNumber (currStopPrice (sellConditions t))) = true))
  /\ (let t := set_sellConditions
                 {| takeProfitPercentage := Some (ofZ 29); stopLossPercentage := None;
                    trailingStopPercentage := Some (ofZ 10); trailingStopActivated := None;
                    maxHoldTimeMinutes := None; stepLevel := None;
                    nextTargetPrice := None; currStopPrice := None |} s1_position in
      ltb (priceChange t (ofZ 129)) (ofZ 29) = true
      /\ sellConditions (fst (updateTrailingStopLoss t (ofZ 129))) = sellConditions t)
  /\ (let t1 := watch [ofZ 140] s1_position in
      let t2 := watch [ofZ 140; ofZ 150] s1_position in
      let t3 := watch [ofZ 140; ofZ 150; ofZ 200] s1_position in
      let t4 := watch [ofZ 140; ofZ 150; ofZ 200; ofZ 230] s1_position in
      (truthy_bool (trailingStopActivated (sellConditions t1)) = false
       /\ highestPrice t1 = Some (ofZ 140))
      /\ (trailingStopActivated (sellConditions t2) = Some true
          /\ stepLevel (sellConditions t2) = Some (ofZ 1)
          /\ currStopPrice (sellConditions t2) = Some (ofZ 135)
          /\ nextTargetPrice (sellConditions t2) = Some (ofZ 225))
      /\ (stepLevel (sellConditions t3) = Some (ofZ 1)
          /\ sellConditions t3 = sellConditions t2)
      /\ (stepLevel (sellConditions t4) = Some (ofZ 2)
          /\ currStopPrice (sellConditions t4) = Some (ofZ 207)
          /\ nextTargetPrice (sellConditions t4) = Some (ofZ 345))
      /\ (forall now : Z,
            checkSellConditions now t4 (ofZ 200)
            = Some (SteppedStopTriggered (ofZ 100) (ofZ 207)))
      /\ (forall (clock : Clock) (error : bool),
          exists t' : TradeHistoryEntry,
            evaluateTrade clock {| cachedPrice := Some (ofZ 200); priceError := error |} t4
            = [GetCachedPrice "MINT"; UpdateTrade t'; EmitPriceUpdate "MINT" (ofZ 200);
               ExecuteSell t' (SteppedStopTriggered (ofZ 100) (ofZ 207)) (ofZ 200)])).
Proof.
  split; [|split; [|split]].
  - intros t p c c' tp trail Htp Htr. split.
    + intros Hin. unfold c'.
      rewrite (rounded_update_inactive t p Htp Htr Hin). fold c tp trail.
      unfold priceChange, stopAt, targetAt. fold tp trail.
      split; intros ->; [repeat split | reflexivity].
    + intros n g Hact Hn Hnt Hg Hgt. unfold c'.
      rewrite (rounded_update_active t p g Htp Htr Hact Hg Hgt). fold c tp trail.
      unfold stopAt, targetAt. fold tp trail.
      split; intros ->; [|reflexivity].
      repeat split. simpl. rewrite Hn. simpl. rewrite Hnt. reflexivity.
  - intros now t p _ Htr. apply rounded_check_stepped, Htr.
  - cbv zeta. split; compute_done.
  - cbv zeta. repeat split; try compute_done.
    + intros now. rewrite (rounded_check_no_max_hold now 0) by compute_done.
      compute_done.
    + intros clock error. destruct (rounded_s1_tick_sells clock error) as [t' Ht'].
      exists t'. exact Ht'.
Qed.

Lemma C1_stepped_trailing_machine_witness :
  let t := watch [ofZ 140] s1_position in
  let c' := sellConditions (fst (updateTrailingStopLoss t (ofZ 150))) in
  trailingStopActivated c' = Some true
  /\ stepLevel c' = Some one
  /\ currStopPrice c'
     = Some (Binary64.mul (ofZ 150) (Binary64.sub one (Binary64.div (ofZ 10) hundred)))
  /\ nextTargetPrice c'
     = Some (Binary64.mul (ofZ 150) (Binary64.add one (Binary64.div (ofZ 50) hundred))).
Proof.
  pose proof (proj1 C1_stepped_trailing_machine
                (watch [ofZ 140] s1_position) (ofZ 150)) as H.
  cbv zeta in H.
  destruct (H ltac:(vm_compute; reflexivity) ltac:(vm_compute; reflexivity)) as [Hin _].
  destruct (Hin ltac:(vm_compute; reflexivity)) as [Hact _].
  exact (Hact ltac:(vm_compute; reflexivity)).
Defined.

End SteppedTrailingInDoubles.

(** ** The exits of the watcher, in double precision *)
Section ExitsInDoubles.

Import TradeWatcherService Rounded.TradeWatcherService InDoubles.

Local Open Scope Qc_scope.

Lemma positive_truthy (q : Qc) : 0 < q -> truthy (Fin q) = true.
Proof. intros H. apply truthy_Fin, pos_nonzero, H. Qed.

(** A number at or above a positive level is above every level that is
    not positive. *)
Lemma above_positive_level (c : number) (hi lo : Qc) :
  0 < hi -> lo <= 0 -> geb c (Fin hi) = true -> leb c (Fin lo) = false.
Proof.
  intros Hhi Hlo G. destruct c as [x| | |]; try discriminate; try reflexivity.
  apply geb_Fin in G. apply leb_Fin_false.
  apply Qcle_lt_trans with 0; [exact Hlo|].
  apply Qclt_le_trans with hi; assumption.
Qed.

(** X2. The fixed exits.  For a position with a positive entry price, a
    stop loss of [sl] percent and a take profit of [tp] percent, no
    trailing stop, and its holding limit not reached, [checkSellConditions]
    decides on the change (price - entry) / entry * 100 as it computes it,
    in double precision: it sells on the stop loss when the change is at
    most [-sl], else on the take profit when the change is at least [tp],
    and else not at all.  A price exactly on the level entry * (1 - sl/100)
    need not sell: for scenario S2 (entry 1.00, stop loss 20) the price 0.80
    gives a change of -19.999999999999996 and no exit, and 0.79 is sold. *)
Theorem fixed_exit_thresholds :
  (forall (now : Z) (t : TradeHistoryEntry) (p : number) (e tp sl : Qc),
     entryPrice t = Fin e -> 0 < e ->
     takeProfitPercentage (sellConditions t) = Some (Fin tp) -> 0 < tp ->
     stopLossPercentage (sellConditions t) = Some (Fin sl) -> 0 < sl ->
     truthy_opt (trailingStopPercentage (sellConditions t)) = false ->
     truthy_bool (trailingStopActivated (sellConditions t)) = false ->
     maxHoldRule now t = false ->
     let change :=
       Binary64.mul (Binary64.div (Binary64.sub p (Fin e)) (Fin e)) hundred in
     checkSellConditions now t p
     = if leb change (Fin (- sl)) then Some (StopLossTriggered change)
       else if geb change (Fin tp) then Some (TakeProfitReached change)
       else None)
  /\ (forall now : Z,
        ltb (ofZ (-20)) (priceChange s2_position (Binary64.ofQ 8 10)) = true
        /\ checkSellConditions now s2_position (Binary64.ofQ 8 10) = None
        /\ checkSellConditions now s2_position (Binary64.ofQ 79 100)
           = Some (StopLossTriggered (priceChange s2_position (Binary64.ofQ 79 100)))).
Proof.
  split.
  - intros now t p e tp sl He Hpos Htp Htp0 Hsl Hsl0 Htr Hact Hhold change.
    unfold checkSellConditions. fold (maxHoldRule now t). rewrite Hhold.
    rewrite He, Hsl, Htp, Htr, Hact. cbn [truthy_opt toNumber neg negb andb].
    rewrite zero_Fin, (proj2 (gtb_Fin e 0) Hpos).
    rewrite (positive_truthy sl Hsl0), (positive_truthy tp Htp0). cbn [andb].
    fold change. destruct (leb change (Fin (- sl))); [reflexivity|].
    destruct (geb change (Fin tp)); reflexivity.
  - intros now. split; [compute_done|]. split.
    + rewrite (rounded_check_no_max_hold now 0) by reflexivity. compute_done.
    + rewrite (rounded_check_no_max_hold now 0) by reflexivity. compute_done.
Qed.

Lemma fixed_exit_thresholds_witness :
  checkSellConditions 0 s2_position (ofQ 1 2)
  = Some (StopLossTriggered (Binary64.mul (Binary64.div (Binary64.sub (ofQ 1 2) (Fin 1)) (Fin 1))
                               hundred)).
Proof.
  pose proof (proj1 fixed_exit_thresholds 0%Z s2_position (ofQ 1 2) 1 (qc 50) (qc 20)) as H.
  cbv zeta in H.
  rewrite H; [reflexivity | try reflexivity ..].
Defined.

(** X3. The continuous trailing stop.  For a position with a trailing stop
    of [tr] percent and no take profit, no stop loss, a positive highest
    price, and its holding limit not reached, [checkSellConditions] sells
    exactly when the drop (price - highest) / highest * 100, as it computes
    it in double precision, is at most [-tr].  A price exactly on the level
    highest * (1 - tr/100) need not sell: with a highest price of 100 and
    a trailing stop of 29 the price 71 gives a drop of -28.999999999999996
    and no exit, and 70 is sold. *)
Theorem continuous_trailing_threshold :
  (forall (now : Z) (t : TradeHistoryEntry) (p : number) (h tr : Qc),
     truthy_opt (takeProfitPercentage (sellConditions t)) = false ->
     truthy_opt (stopLossPercentage (sellConditions t)) = false ->
     trailingStopPercentage (sellConditions t) = Some (Fin tr) -> 0 < tr ->
     truthy_bool (trailingStopActivated (sellConditions t)) = false ->
     highestPrice t = Some (Fin h) -> 0 < h ->
     maxHoldRule now t = false ->
     let drop := Binary64.mul (Binary64.div (Binary64.sub p (Fin h)) (Fin h)) hundred in
     checkSellConditions now t p
     = if leb drop (Fin (- tr)) then Some (TrailingStopTriggered drop) else None)
  /\ (forall now : Z,
        ltb (ofZ (-29)) (trailingDrop trailing_only_position (ofZ 71)) = true
        /\ checkSellConditions now trailing_only_position (ofZ 71) = None
        /\ checkSellConditions now trailing_only_position (ofZ 70)
           = Some (TrailingStopTriggered (ofZ (-30)))).
Proof.
  split.
  - intros now t p h tr Htp Hsl Htr Htr0 Hact Hh Hh0 Hhold drop.
    unfold checkSellConditions. fold (maxHoldRule now t). rewrite Hhold.
    rewrite Hsl, Htp, Htr, Hact, Hh. cbn [truthy_opt toNumber neg negb andb].
    rewrite (positive_truthy tr Htr0), (positive_truthy h Hh0). cbn [andb].
    fold drop. reflexivity.
  - intros now. split; [compute_done|]. split.
    + rewrite (rounded_check_no_max_hold now 0) by reflexivity. compute_done.
    + rewrite (rounded_check_no_max_hold now 0) by reflexivity. compute_done.
Qed.

Lemma continuous_trailing_threshold_witness :
  checkSellConditions 0 trailing_only_position (ofZ 50)
  = Some (TrailingStopTriggered
            (Binary64.mul (Binary64.div (Binary64.sub (ofZ 50) (Fin (qc 100))) (Fin (qc 100)))
               hundred)).
Proof.
  pose proof (proj1 continuous_trailing_threshold 0%Z trailing_only_position (ofZ 50)
                (qc 100) (qc 29)) as H.
  cbv zeta in H.
  rewrite H; [reflexivity | try reflexivity ..].
Defined.

(** [updateTrailingStopLoss] changes neither the entry price, nor the
    opening time, nor the limits of a position. *)
Lemma rounded_update_keeps (t : TradeHistoryEntry) (p : number) :
  let t' := fst (updateTrailingStopLoss t p) in
  entryPrice t' = entryPrice t /\ openedAt t' = openedAt t
  /\ maxHoldTimeMinutes (sellConditions t') = maxHoldTimeMinutes (sellConditions t)
  /\ stopLossPercentage (sellConditions t') = stopLossPercentage (sellConditions t)
  /\ takeProfitPercentage (sellConditions t') = takeProfitPercentage (sellConditions t)
  /\ trailingStopPercentage (sellConditions t') = trailingStopPercentage (sellConditions t).
Proof.
  unfold updateTrailingStopLoss.
  repeat match goal with
         | |- context [if ?b then _ else _] => destruct b
         end; repeat split; reflexivity.
Qed.

(** X4. The evaluation that activates the stepped trailing stop.  When
    the change (price - entry) / entry * 100, as computed in double
    precision, reaches the take profit of a position whose trailing stop is
    configured and not yet active, [updateTrailingStopLoss] activates the
    machine with the stop price * (1 - trailing/100), and
    [checkSellConditions], at that same price, never answers with the take
    profit: it sells only on the stepped stop, and only if the stop as
    computed is not below the price.  For scenario S1 the activation at
    150 sets the stop 135 and does not sell. *)
Theorem activation_tick_does_not_sell :
  (forall (now : Z) (t : TradeHistoryEntry) (p : number) (e tp tr : Qc),
     entryPrice t = Fin e -> 0 < e ->
     takeProfitPercentage (sellConditions t) = Some (Fin tp) -> 0 < tp ->
     trailingStopPercentage (sellConditions t) = Some (Fin tr) -> 0 < tr ->
     truthy_bool (trailingStopActivated (sellConditions t)) = false ->
     match stopLossPercentage (sellConditions t) with
     | None => True
     | Some (Fin sl) => 0 <= sl
     | Some _ => False
     end ->
     maxHoldRule now t = false ->
     let change :=
       Binary64.mul (Binary64.div (Binary64.sub p (Fin e)) (Fin e)) hundred in
     let stop :=
       Binary64.mul p (Binary64.sub one (Binary64.div (Fin tr) hundred)) in
     geb change (Fin tp) = true ->
     let t' := fst (updateTrailingStopLoss t p) in
     trailingStopActivated (sellConditions t') = Some true
     /\ currStopPrice (sellConditions t') = Some stop
     /\ checkSellConditions now t' p
        = if truthy stop && leb p stop then Some (SteppedStopTriggered change stop)
          else None)
  /\ (forall now : Z,
        let t' := fst (updateTrailingStopLoss s1_position (ofZ 150)) in
        currStopPrice (sellConditions t') = Some (ofZ 135)
        /\ checkSellConditions now t' (ofZ 150) = None).
Proof.
  split.
  - intros now t p e tp tr He Hpos Htp Htp0 Htr Htr0 Hact Hsl Hhold change stop Hc t'.
    assert (Ttp : truthy_opt (takeProfitPercentage (sellConditions t)) = true)
      by (rewrite Htp; apply positive_truthy, Htp0).
    assert (Ttr : truthy_opt (trailingStopPercentage (sellConditions t)) = true)
      by (rewrite Htr; apply positive_truthy, Htr0).
    assert (C : sellConditions t' =
      set_nextTargetPrice (Some (targetAt (sellConditions t) p))
        (set_currStopPrice (Some stop)
           (set_stepLevel (Some one)
              (set_trailingStopActivated (Some true) (sellConditions t))))).
    { subst t'. rewrite (rounded_update_inactive t p Ttp Ttr Hact).
      unfold priceChange. rewrite He, Htp. cbn [toNumber]. fold change. rewrite Hc.
      unfold stopAt. rewrite Htr. reflexivity. }
    destruct (rounded_update_keeps t p) as (E' & O' & _). fold t' in E', O'.
    split; [rewrite C; reflexivity|]. split; [rewrite C; reflexivity|].
    unfold checkSellConditions.
    assert (M : truthy_opt (maxHoldTimeMinutes (sellConditions t'))
                && geb (holdTimeMinutes now t')
                     (toNumber (maxHoldTimeMinutes (sellConditions t'))) = false).
    { unfold holdTimeMinutes. rewrite O', C. exact Hhold. }
    rewrite M. rewrite E', He. rewrite zero_Fin, (proj2 (gtb_Fin e 0) Hpos).
    fold change. rewrite C.
    cbn [stopLossPercentage takeProfitPercentage trailingStopPercentage trailingStopActivated
         currStopPrice set_nextTargetPrice set_currStopPrice set_stepLevel
         set_trailingStopActivated truthy_bool truthy_opt toNumber].
    rewrite Htp, Htr. cbn [truthy_opt toNumber].
    rewrite (positive_truthy tp Htp0), (positive_truthy tr Htr0). cbn [negb andb].
    rewrite ?andb_false_r.
    assert (S : truthy_opt (stopLossPercentage (sellConditions t))
                && leb change (neg (toNumber (stopLossPercentage (sellConditions t))))
                = false).
    { destruct (stopLossPercentage (sellConditions t)) as [[sl| | |]|];
        try contradiction; [|reflexivity].
      cbn [truthy_opt toNumber neg].
      rewrite (above_positive_level change tp (- sl) Htp0); [apply andb_false_r| |exact Hc].
      to_Q. lra. }
    rewrite S. destruct (truthy stop); cbn [andb]; [|reflexivity].
    destruct (leb p stop); reflexivity.
  - intros now t'. split; [compute_done|].
    rewrite (rounded_check_no_max_hold now 0) by reflexivity. compute_done.
Qed.

Lemma activation_tick_does_not_sell_witness :
  trailingStopActivated
    (sellConditions (fst (updateTrailingStopLoss s1_position (ofZ 150)))) = Some true.
Proof.
  pose proof (proj1 activation_tick_does_not_sell 0%Z s1_position (ofZ 150)
                (qc 100) (qc 50) (qc 10)) as H.
  cbv zeta in H.
  refine (proj1 (H _ _ _ _ _ _ _ _ _ _)); try reflexivity; try exact I.
Defined.

End ExitsInDoubles.

(** ** The position store, in double precision *)
Section StoreInDoubles.

Import TradeHistoryService.

Local Set Warnings "-clear-no-such-hyp".

(** X8. A position that was created reads back as it was returned, when
    every number it holds is finite: its entry price, its entry amount and
    their product, as [createTrade] computes it in double precision, the
    numbers of its sell conditions and those of its prediction.  It is
    open, stored under its id, listed in the open set and in the indices
    of its agent and its token, not in the closed set, and its extrema and
    current price are the entry price.  No other entry changes. *)
Theorem createTrade_round_trip (k : string) (now : Z) (params : CreateParams) (s : Store)
    (q a v : Qc) :
  cp_entryPrice params = Fin q ->
  cp_entryAmount params = Fin a ->
  Binary64.mul (Fin q) (Fin a) = Fin v ->
  json_conditions (default no_conditions (cp_sellConditions params))
  = default no_conditions (cp_sellConditions params) ->
  json_prediction <$> cp_prediction params = cp_prediction params ->
  let trade := fst (Rounded.TradeHistoryService.createTrade k now params s) in
  let s' := snd (Rounded.TradeHistoryService.createTrade k now params s) in
  getTrade k s' = Some trade
  /\ id trade = k /\ status trade = open
  /\ (k ∈ open_trades s') /\ (k ∉ closed_trades s')
  /\ (k ∈ default ∅ (agent_trades s' !! cp_agentId params))
  /\ (k ∈ default ∅ (token_trades s' !! cp_tokenMint params))
  /\ highestPrice trade = Some (Fin q) /\ lowestPrice trade = Some (Fin q)
  /\ currentPrice trade = Some (Fin q)
  /\ entryPrice trade = Fin q /\ entryAmount trade = Fin a /\ entryValue trade = Fin v
  /\ (forall j : string, j <> k -> getTrade j s' = getTrade j s).
Proof.
  intros Hq Ha Hv Hc _ trade s'. subst trade s'.
  unfold Rounded.TradeHistoryService.createTrade. cbn [fst snd].
  rewrite getTrade_emit.
  match goal with |- context [storeTrade ?t s] => set (trade := t) end.
  assert (J : json_trade trade = trade).
  { unfold json_trade, trade. cbn. rewrite Hc, Hq. reflexivity. }
  repeat split.
  - change k with (id trade) at 1. rewrite storeTrade_lookup. congruence.
  - unfold storeTrade, emit. cbn. set_solver.
  - unfold storeTrade, emit. cbn. set_solver.
  - unfold storeTrade, emit. cbn [agent_trades agentId trade]. apply index_add_members.
    right. split; reflexivity.
  - unfold storeTrade, emit. cbn [token_trades tokenMint trade]. apply index_add_members.
    right. split; reflexivity.
  - unfold trade. cbn [highestPrice]. rewrite Hq. reflexivity.
  - unfold trade. cbn [lowestPrice]. rewrite Hq. reflexivity.
  - unfold trade. cbn [currentPrice]. rewrite Hq. reflexivity.
  - unfold trade. cbn [entryPrice]. exact Hq.
  - unfold trade. cbn [entryAmount]. exact Ha.
  - unfold trade. cbn [entryValue]. rewrite Hq, Ha. exact Hv.
  - intros j Hj. rewrite getTrade_emit. apply storeTrade_lookup_ne. exact Hj.
Qed.

Lemma createTrade_round_trip_witness :
  getTrade "trade_s1"
    (snd (Rounded.TradeHistoryService.createTrade "trade_s1" 0 s1_params empty_store))
  = Some (fst (Rounded.TradeHistoryService.createTrade "trade_s1" 0 s1_params empty_store)).
Proof.
  apply (createTrade_round_trip "trade_s1" 0 s1_params empty_store (qc 100) (qc 100)
           (qc 10000)); compute_done.
Defined.

End StoreInDoubles.

(** ** The on-chain block of the filter, in double precision *)
Section OnChainInDoubles.

Import MindmapFilterEngine Rounded.MindmapFilterEngine FilterInDoubles.

(** X25. The on-chain block fails closed, and the liquidity floor is not
    enforced.  With a market-cap floor the block lets a token through
    exactly when a price is known, the supply was fetched and is not 0,
    the SOL price was fetched, and (price x SOL price) x supply, as the
    source computes it in double precision, is not below the floor; with
    a liquidity floor alone it lets a token through exactly when a price
    is known, whatever the floor is.  A snapshot that passes [evaluate]
    was let through by the block.  A product that equals the floor in
    exact arithmetic can fall below it: a price of 0.0000001 SOL, SOL at
    150 USD and a supply of 1000000000 give 14999.999999999998, which a
    floor of 15000 rejects. *)
Theorem on_chain_gate :
  (forall (c : FilterCriteria) (chain : ChainView) (m : Metrics),
     (gtb (toNumber (minMarketCapUsd c)) zero = true ->
      (onChainChecks c chain m = None
       <-> exists price supply sol,
             pricedAt chain = Returned (Some price) /\ truthy price = true
             /\ tokenSupply chain = Returned (true, supply) /\ eqb supply zero = false
             /\ solPriceUsd chain = Returned sol
             /\ ltb (Binary64.mul (Binary64.mul price sol) supply)
                    (toNumber (minMarketCapUsd c)) = false))
     /\ (gtb (toNumber (minMarketCapUsd c)) zero = false ->
         gtb (toNumber (minLiquidityUsd c)) zero = true ->
         (onChainChecks c chain m = None
          <-> exists price, pricedAt chain = Returned (Some price) /\ truthy price = true))
     /\ (forall now d,
           passed (evaluate c now chain d) = true -> onChainChecks c chain m = None))
  /\ (forall m : Metrics,
        let cap := Binary64.mul (Binary64.mul (Binary64.ofQ 1 10000000) (ofZ 150))
                     (ofZ 1000000000) in
        ltb cap (ofZ 15000) = true
        /\ onChainChecks (s4_with_cap (ofZ 15000)) boundary_chain m
           = Some (reject (MarketCapBelowMinimum cap (ofZ 15000)) m None)).
Proof.
  split; [|intros m; split; [compute_done | reflexivity]].
  intros c chain m.
  assert (I : forall m', onChainChecks c chain m' = None -> onChainChecks c chain m = None).
  { intros m'. unfold onChainChecks.
    repeat match goal with
           | |- context [if ?b then _ else _] => destruct b
           | |- context [match ?o with Returned _ => _ | Thrown _ => _ end] => destruct o
           | |- context [let (_, _) := ?p in _] => destruct p
           end; try discriminate; reflexivity. }
  split; [|split].
  - intros Hcap. unfold onChainChecks. rewrite Hcap. cbn [orb]. fold (pricedAt chain).
    destruct (pricedAt chain) as [[price|]|msg].
    + cbn [truthy_opt toNumber]. destruct (truthy price) eqn:Tp; cbn [negb].
      * destruct (tokenSupply chain) as [[ok supply]|msg].
        -- destruct ok; cbn [negb orb].
           ++ destruct (eqb supply zero) eqn:Es.
              ** split; [discriminate|]. intros (p & s & q & _ & _ & E & Z & _).
                 injection E as <-. congruence.
              ** destruct (solPriceUsd chain) as [sol|msg].
                 --- destruct (ltb (Binary64.mul (Binary64.mul price sol) supply) _) eqn:L.
                     +++ split; [discriminate|].
                         intros (p & s & q & Ep & _ & E & _ & Eq & L').
                         injection Ep as <-. injection E as <-. injection Eq as <-.
                         congruence.
                     +++ split; [|reflexivity]. intros _. exists price, supply, sol.
                         repeat split; assumption.
                 --- split; [discriminate|]. intros (p & s & q & _ & _ & _ & _ & E & _).
                     discriminate.
           ++ split; [discriminate|]. intros (p & s & q & _ & _ & E & _). discriminate.
        -- split; [discriminate|]. intros (p & s & q & _ & _ & E & _). discriminate.
      * split; [discriminate|]. intros (p & s & q & E & T & _). injection E as <-. congruence.
    + cbn [truthy_opt negb]. split; [discriminate|].
      intros (p & s & q & E & _). discriminate.
    + split; [discriminate|]. intros (p & s & q & E & _). discriminate.
  - intros Hcap Hliq. unfold onChainChecks. rewrite Hcap, Hliq. cbn [orb].
    fold (pricedAt chain).
    destruct (pricedAt chain) as [[price|]|msg].
    + cbn [truthy_opt]. destruct (truthy price) eqn:Tp; cbn [negb].
      * split; [|reflexivity]. intros _. exists price. split; [reflexivity | exact Tp].
      * split; [discriminate|]. intros (p & E & T). injection E as <-. congruence.
    + cbn [truthy_opt negb]. split; [discriminate|]. intros (p & E & _). discriminate.
    + split; [discriminate|]. intros (p & E & _). discriminate.
  - intros now d H. unfold evaluate in H.
    destruct (String.eqb (tokenMint d) NATIVE_SOL_ADDRESS); [discriminate|].
    repeat match type of H with
           | context [if ?b then _ else _] => destruct b; try discriminate
           end.
    match type of H with
    | context [onChainChecks c chain ?m'] =>
        destruct (onChainChecks c chain m') as [rejected|] eqn:E; [|apply (I m'), E]
    end.
    exfalso. revert E H. unfold onChainChecks, reject.
    repeat match goal with
           | |- context [if ?b then _ else _] => destruct b
           | |- context [match ?o with Returned _ => _ | Thrown _ => _ end] => destruct o
           | |- context [let (_, _) := ?p in _] => destruct p
           end; intros E H; try discriminate; injection E as <-; discriminate.
Qed.

Lemma on_chain_gate_witness :
  onChainChecks (s4_with_cap (ofZ 100000)) answering_chain
    (metrics (evaluate (s4_with_cap (ofZ 100000)) 0 answering_chain (s4_snapshot 0))) = None.
Proof.
  apply (proj1 (proj1 on_chain_gate (s4_with_cap (ofZ 100000)) answering_chain _)).
  - vm_compute. reflexivity.
  - exists (Binary64.ofQ 1 1000), (ofZ 1000000), (ofZ 150).
    repeat split; vm_compute; reflexivity.
Defined.

End OnChainInDoubles.

(** ** The paper trades and the sales of the watcher, in double precision *)
Section LedgerInDoublesFacts.

Import LedgerInDoubles.

Variable show : number -> string.
Variable toFixed4 : number -> string.

Local Open Scope Qc_scope.

Local Set Warnings "-clear-no-such-hyp".

Lemma this_opp (q : Qc) : this (- q) = Qopp (this q).
Proof.
  unfold Qcopp, Q2Qc. cbn [this]. rewrite Qred_opp, (canon q). reflexivity.
Qed.

Lemma round64_opp (q : Qc) : Binary64.round64 (- q) = neg (Binary64.round64 q).
Proof.
  unfold Binary64.round64. rewrite this_opp.
  destruct q as [[n d] c]. cbn [this Qopp Qnum Qden].
  destruct n as [|n|n].
  - reflexivity.
  - change (- Z.pos n)%Z with (Z.neg n). cbv iota.
    destruct (Binary64.nearest_double n d); reflexivity.
  - change (- Z.neg n)%Z with (Z.pos n). cbv iota.
    destruct (Binary64.nearest_double n d) as [m|]; cbn [neg]; [|reflexivity].
    rewrite Qcopp_involutive. reflexivity.
Qed.

Lemma round64_zero (q : Qc) : q = 0 -> Binary64.round64 q = Fin q.
Proof. intros ->. reflexivity. Qed.

(** Nothing at no price, and a whole value lost. *)
Lemma rounded_total_loss (c v : Qc) :
  representable v ->
  Binary64.sub (Binary64.mul (Fin c) zero) (Fin v) = Fin (- v).
Proof.
  intros R. unfold Binary64.mul, Binary64.sub, Binary64.rnd. rewrite zero_Fin.
  cbn [mul]. rewrite (round64_zero (c * 0)) by ring.
  cbn [sub neg add]. replace (c * 0 + - v) with (- v) by ring.
  rewrite round64_opp, R. reflexivity.
Qed.

(** X28. A paper buy is paid from the paper wallet and recorded.  In
    simulation mode, buying for [a] SOL at a token price [p] with [s] SOL
    in the wallet succeeds exactly when [s] is neither below [a] nor below
    the sum of [a] and the mock fee of 0.000005 SOL as the source computes
    it, in double precision.  It then takes that sum from the SOL
    balance, adds the quotient [a / p], as computed and when it is finite,
    to the token balance, and records an open position under the new trade
    id: simulated, entered at [p] with that quotient as amount, with the
    sell conditions of the request completed from the environment.  A buy the wallet cannot pay fails and
    changes nothing.  The sum is rounded: a wallet of 0.020005 SOL does
    not pay a buy of 0.02 SOL, because 0.02 + 0.000005 is computed as
    0.020005000000000002. *)
Theorem paper_buy_accounts :
  (forall (env : AgentLedgerTools.Env) (x : AgentLedgerTools.Outside)
          (l : AgentLedgerTools.Ledger) (m : string)
          (wc : option AgentLedgerTools.WatchConfig) (pred : option PredictionInfo)
          (a p s y : Qc),
     AgentLedgerTools.SIMULATING env = true ->
     m <> "SOL" ->
     0 < a -> 0 < p ->
     AgentLedgerTools.tokenPrice x = Returned (Some (Fin p)) ->
     PaperWalletService.getBalance "SOL" (AgentLedgerTools.wallet l) = Fin s ->
     Binary64.div (Fin a) (Fin p) = Fin y ->
     let total := Binary64.add (Fin a) Rounded.AgentLedgerTools.MOCK_FEE in
     let params :=
       {| AgentLedgerTools.amount := Fin a; AgentLedgerTools.action := AgentLedgerTools.buy;
          AgentLedgerTools.mint := m; AgentLedgerTools.watchConfig := wc;
          AgentLedgerTools.prediction := pred |} in
     let r := fst (Rounded.AgentLedgerTools.performSwap show toFixed4 env x params l) in
     let l' := snd (Rounded.AgentLedgerTools.performSwap show toFixed4 env x params l) in
     (ltb (Fin s) (Fin a) = false -> ltb (Fin s) total = false ->
      AgentLedgerTools.success r = true
      /\ PaperWalletService.getBalance "SOL" (AgentLedgerTools.wallet l')
         = Binary64.sub (Fin s) total
      /\ PaperWalletService.getBalance m (AgentLedgerTools.wallet l')
         = Binary64.add (PaperWalletService.getBalance m (AgentLedgerTools.wallet l)) (Fin y)
      /\ exists t,
           TradeHistoryService.getTrade (AgentLedgerTools.newTradeId x)
             (AgentLedgerTools.history l') = Some t
           /\ status t = open /\ tokenMint t = m /\ isSimulation t = Some true
           /\ entryPrice t = Fin p /\ entryAmount t = Fin y
           /\ openedAt t = AgentLedgerTools.dateNow x
           /\ sellConditions t
              = TradeHistoryService.json_conditions
                  (AgentLedgerTools.sellConditionsOf env wc))
     /\ (ltb (Fin s) (Fin a) = true \/ ltb (Fin s) total = true ->
         AgentLedgerTools.success r = false /\ l' = l))
  /\ (ltb (Binary64.ofQ 20005 1000000)
          (Binary64.add (Binary64.ofQ 2 100) Rounded.AgentLedgerTools.MOCK_FEE) = true
      /\ AgentLedgerTools.success
           (fst (Rounded.AgentLedgerTools.performSwap show toFixed4 paper_env
                   (outside_at 1000 (Some (ofQ 1 2)) []) tight_buy tight_ledger)) = false).
Proof.
  split; [|split; [compute_done | reflexivity]].
  intros env x l m wc pred a p s y Sim Hm Ha Hp Price Bal Hy total params r l'.
  subst r l' params.
  assert (Z : eqb (Fin a) zero = false) by (apply eqb_zero_pos, Ha).
  unfold Rounded.AgentLedgerTools.performSwap. rewrite Sim.
  unfold Rounded.AgentLedgerTools.validateTradeBalanceMock.
  cbn [AgentLedgerTools.action AgentLedgerTools.amount]. rewrite Bal.
  destruct (ltb (Fin s) (Fin a)) eqn:Short; cbn [AgentLedgerTools.v_success negb].
  - cbn [fst snd AgentLedgerTools.success AgentLedgerTools.failure]. split.
    + intros F. discriminate.
    + intros _. split; reflexivity.
  - cbn [AgentLedgerTools.v_available andb].
    unfold Rounded.AgentLedgerTools.performSwapMock, AgentLedgerTools.with_amount.
    cbn [AgentLedgerTools.amount AgentLedgerTools.action AgentLedgerTools.mint
         AgentLedgerTools.watchConfig AgentLedgerTools.prediction].
    rewrite Short. cbn [andb]. rewrite Z, Price. rewrite Bal. fold total.
    destruct (ltb (Fin s) total) eqn:Fees.
    + cbn [fst snd AgentLedgerTools.success AgentLedgerTools.failure]. split.
      * intros _ F. discriminate.
      * intros _. split; reflexivity.
    + unfold Rounded.PaperWalletService.withdraw. rewrite Bal, Fees. rewrite Hy.
      cbn [fst snd AgentLedgerTools.success AgentLedgerTools.action AgentLedgerTools.mint].
      split; [|intros [F|F]; discriminate].
      intros _ _. split; [reflexivity|].
      unfold Rounded.AgentLedgerTools.recordBuy, AgentLedgerTools.set_history,
        AgentLedgerTools.set_wallet.
      cbn [AgentLedgerTools.wallet AgentLedgerTools.history].
      unfold Rounded.PaperWalletService.deposit. cbn [snd].
      rewrite (getBalance_set_ne "SOL" m) by congruence.
      split; [|split].
      * rewrite getBalance_set_ne by congruence. apply getBalance_set_eq.
      * apply getBalance_set_eq.
      * unfold Rounded.TradeHistoryService.createTrade. cbn [snd].
        rewrite getTrade_emit.
        match goal with
        | |- context [TradeHistoryService.storeTrade ?t _] => set (trade := t)
        end.
        exists (TradeHistoryService.json_trade trade). split.
        { change (AgentLedgerTools.newTradeId x) with (id trade). apply storeTrade_lookup. }
        unfold trade.
        cbn [status tokenMint isSimulation entryPrice entryAmount openedAt sellConditions
             TradeHistoryService.json_trade
             TradeHistoryService.cp_tokenMint TradeHistoryService.cp_isSimulation
             TradeHistoryService.cp_entryPrice TradeHistoryService.cp_entryAmount
             TradeHistoryService.cp_sellConditions AgentLedgerTools.rate
             AgentLedgerTools.executionPrice AgentLedgerTools.amountOut
             AgentLedgerTools.mint].
        rewrite !or_else_Fin_zero.
        repeat split.
Qed.

End LedgerInDoublesFacts.

Lemma paper_buy_accounts_witness :
  AgentLedgerTools.success
    (fst (Rounded.AgentLedgerTools.performSwap show_nought show_nought paper_env
            (outside_at 1000 (Some (ofQ 1 2)) []) quarter_buy funded_ledger))
  = true.
Proof.
  refine (proj1 (proj1 (proj1 (paper_buy_accounts show_nought show_nought) paper_env
                          (outside_at 1000 (Some (ofQ 1 2)) []) funded_ledger "MINT"
                          None None (Q2Qc (1 # 4)) (Q2Qc (1 # 2)) (Q2Qc (inject_Z 1))
                          (Q2Qc (1 # 2)) _ _ _ _ _ _ _) _ _)).
  - reflexivity.
  - discriminate.
  - reflexivity.
  - reflexivity.
  - reflexivity.
  - reflexivity.
  - compute_done.
  - reflexivity.
  - compute_done.
Defined.

(** ** Rounding never drops below a whole number already reached *)
Section RoundingFacts.

Lemma nearest_floor (a b : Z) : a / b <= Binary64.nearest a b.
Proof.
  unfold Binary64.nearest.
  destruct (2 * (a mod b) ?= b); [destruct (Z.even (a / b))|..]; lia.
Qed.

Lemma exponent_bound (n d : positive) :
  Z.pos n < 2 ^ 53 * Z.pos d -> Binary64.exponent n d <= 52.
Proof.
  intros H. unfold Binary64.exponent.
  set (e := Z.log2 (Z.pos n) - Z.log2 (Z.pos d)).
  assert (He : e <= 53).
  { pose proof (Z.log2_spec (Z.pos d) eq_refl) as [_ Hd].
    assert (Hn : Z.pos n < 2 ^ (54 + Z.log2 (Z.pos d))).
    { replace (54 + Z.log2 (Z.pos d)) with (53 + Z.succ (Z.log2 (Z.pos d))) by lia.
      rewrite Z.pow_add_r by (pose proof (Z.log2_nonneg (Z.pos d)); lia).
      nia. }
    apply Z.log2_lt_pow2 in Hn; [|reflexivity].
    subst e. lia. }
  unfold Binary64.scaled.
  destruct (0 <=? e) eqn:E0.
  - destruct (Z.shiftl (Z.pos d) e <=? Z.pos n) eqn:B; [|lia].
    apply Z.leb_le in B, E0. rewrite Z.shiftl_mul_pow2 in B by exact E0.
    destruct (Z.eq_dec e 53) as [->|]; [|lia]. lia.
  - apply Z.leb_gt in E0. destruct (_ <=? _); lia.
Qed.

Lemma qc_below (k : Z) (a : Z) (b : positive) :
  k * Z.pos b <= a -> (Q2Qc (inject_Z k) <= Q2Qc (Qmake a b))%Qc.
Proof.
  intros H. unfold Qcle. cbn [this Q2Qc]. rewrite !Qred_correct.
  unfold Qle. cbn [Qnum Qden inject_Z]. lia.
Qed.

Lemma nearest_double_above (n d : positive) (k : Z) :
  k * Z.pos d <= Z.pos n -> Z.pos n < 2 ^ 53 * Z.pos d ->
  match Binary64.nearest_double n d with
  | Some m => (Q2Qc (inject_Z k) <= m)%Qc
  | None => True
  end.
Proof.
  intros Hk Hn. unfold Binary64.nearest_double.
  pose proof (exponent_bound n d Hn) as He.
  set (u := Z.max (Binary64.exponent n d - 52) (-1074)).
  assert (Hu : u <= 0) by lia.
  unfold Binary64.scaled.
  destruct (0 <=? u) eqn:E0.
  - apply Z.leb_le in E0. assert (U : u = 0) by lia. rewrite U.
    rewrite !Z.shiftl_0_r.
    destruct (2 ^ 1024 <=? _); [exact I|].
    change (inject_Z (Binary64.nearest (Z.pos n) (Z.pos d)))
      with (Qmake (Binary64.nearest (Z.pos n) (Z.pos d)) 1).
    apply qc_below.
    pose proof (nearest_floor (Z.pos n) (Z.pos d)).
    assert (k <= Z.pos n / Z.pos d) by (apply Z.div_le_lower_bound; lia).
    lia.
  - apply Z.leb_gt in E0.
    rewrite !Z.shiftl_mul_pow2 by lia. rewrite Z.mul_1_l.
    apply qc_below.
    assert (P : 0 < 2 ^ (- u)) by (apply Z.pow_pos_nonneg; lia).
    rewrite Z2Pos.id by exact P.
    pose proof (nearest_floor (Z.pos n * 2 ^ (- u)) (Z.pos d)).
    assert (k * 2 ^ (- u) <= Z.pos n * 2 ^ (- u) / Z.pos d)
      by (apply Z.div_le_lower_bound; nia).
    lia.
Qed.

(** A quotient that has reached the whole number [k] is not rounded below
    it. *)
Lemma round64_above (q : Qc) (k : Z) :
  0 < k -> (Q2Qc (inject_Z k) <= q)%Qc -> (q < Q2Qc (inject_Z (2 ^ 53)))%Qc ->
  geb (Binary64.round64 q) (ofZ k) = true.
Proof.
  intros Hk Hlow Hhigh. destruct q as [[n d] c].
  unfold Qcle in Hlow. unfold Qclt in Hhigh. cbn [this Q2Qc] in Hlow, Hhigh.
  rewrite Qred_correct in Hlow, Hhigh.
  unfold Qle in Hlow. unfold Qlt in Hhigh. cbn [Qnum Qden inject_Z] in Hlow, Hhigh.
  unfold Binary64.round64. cbn [this Qnum Qden].
  destruct n as [|n|n]; [lia| |lia].
  pose proof (nearest_double_above n d k ltac:(lia) ltac:(lia)) as A.
  destruct (Binary64.nearest_double n d) as [m|]; [|reflexivity].
  apply geb_Fin. exact A.
Qed.

End RoundingFacts.

Section HoldLimit.

Import TradeWatcherService.

Local Open Scope Qc_scope.

(** Whole minutes, in double precision: the hold time reaches [k] minutes
    as soon as [k * 60000] milliseconds have elapsed, the boundary
    included. *)
Lemma rounded_hold_time_reaches (now k : Z) (t : TradeHistoryEntry) :
  (0 < k)%Z -> (k * 60000 <= now - openedAt t)%Z -> (now - openedAt t < 2 ^ 53)%Z ->
  geb (Rounded.TradeWatcherService.holdTimeMinutes now t) (ofZ k) = true.
Proof.
  intros Hk H Hd. unfold Rounded.TradeWatcherService.holdTimeMinutes.
  change (1000 * 60)%Z with 60000%Z. unfold Binary64.div.
  rewrite (ofZ_Fin (now - openedAt t)), (ofZ_Fin 60000).
  assert (Hpos : 0 < qc 60000) by reflexivity.
  rewrite (div_Fin_pos _ _ Hpos). cbn [Binary64.rnd].
  assert (Low : qc k <= qc (now - openedAt t) / qc 60000).
  { apply Qcmult_lt_0_le_reg_r with (z := qc 60000); [exact Hpos|].
    unfold Qcdiv. rewrite <- Qcmult_assoc, Qcmult_inv_l, Qcmult_1_r.
    - rewrite qc_mult. apply qc_le, H.
    - intros E. rewrite E in Hpos. discriminate. }
  apply round64_above; [exact Hk | exact Low |].
  apply Qcle_lt_trans with (y := qc (now - openedAt t)).
  - apply Qcmult_lt_0_le_reg_r with (z := qc 60000); [exact Hpos|].
    unfold Qcdiv. rewrite <- Qcmult_assoc, Qcmult_inv_l, Qcmult_1_r.
    + rewrite qc_mult. apply qc_le. lia.
    + intros E. rewrite E in Hpos. discriminate.
  - apply qc_lt. exact Hd.
Qed.

End HoldLimit.

(** ** The sales of the watcher, in double precision *)
Section SalesInDoubles.

Import TradeWatcherLoop LedgerInDoubles.

Variable show : number -> string.
Variable toFixed4 : number -> string.
Variable env : AgentLedgerTools.Env.

Local Open Scope Qc_scope.

Local Set Warnings "-clear-no-such-hyp".

(** A sale records no position and deletes none. *)
Lemma rounded_sell_keeps_history (x : AgentLedgerTools.Outside)
    (params : AgentLedgerTools.SwapParams) (l : AgentLedgerTools.Ledger) :
  AgentLedgerTools.action params = AgentLedgerTools.sell ->
  AgentLedgerTools.history
    (snd (Rounded.AgentLedgerTools.performSwap show toFixed4 env x params l))
  = AgentLedgerTools.history l.
Proof.
  intros Sell. unfold Rounded.AgentLedgerTools.performSwap.
  destruct (negb _); [reflexivity|].
  destruct (AgentLedgerTools.SIMULATING env).
  - unfold Rounded.AgentLedgerTools.performSwapMock, AgentLedgerTools.with_amount.
    cbn [AgentLedgerTools.amount AgentLedgerTools.action AgentLedgerTools.mint].
    rewrite Sell.
    destruct (eqb _ zero); [reflexivity|].
    destruct (AgentLedgerTools.tokenPrice x) as [[price|]|msg]; try reflexivity.
    destruct (ltb _ _); [reflexivity|].
    destruct (Rounded.PaperWalletService.withdraw _ _ _ _) as [[out|msg] w1]; reflexivity.
  - unfold Rounded.AgentLedgerTools.liveSwap. rewrite Sell.
    match goal with
    | |- context [match ?o with Some total => _ | None => (None, l) end] =>
        destruct o as [total|]; [|reflexivity]
    end.
    destruct (eqb total zero); [reflexivity|].
    assert (F : AgentLedgerTools.history
                  (snd (Rounded.AgentLedgerTools.getDynamicPriorityFee x l))
                = AgentLedgerTools.history l).
    { unfold Rounded.AgentLedgerTools.getDynamicPriorityFee.
      repeat match goal with
             | |- context [if ?b then _ else _] => destruct b
             | |- context [match ?o with Returned _ => _ | Thrown _ => _ end] => destruct o
             | |- context [match ?o with Some _ => _ | None => _ end] => destruct o
             | |- context [match ?o with [] => _ | _ :: _ => _ end] => destruct o
             end; reflexivity. }
    destruct (Rounded.AgentLedgerTools.getDynamicPriorityFee x l) as [fee l1].
    cbn [snd] in F.
    destruct (AgentLedgerTools.clientSwap x _) as [answer|msg]; [|exact F].
    destruct (negb (AgentLedgerTools.cr_success answer)); exact F.
Qed.

(** What the store holds after a position was closed. *)
Lemma rounded_closeTrade_stored (now : Z) (params : TradeHistoryService.CloseParams)
    (s : TradeHistoryService.Store) (trade : TradeHistoryEntry) :
  TradeHistoryService.getTrade (TradeHistoryService.tradeId params) s = Some trade ->
  id trade = TradeHistoryService.tradeId params ->
  let s' := snd (Rounded.TradeHistoryService.closeTrade now params s) in
  (exists t',
     TradeHistoryService.getTrade (TradeHistoryService.tradeId params) s' = Some t'
     /\ status t' = closed /\ closedAt t' = Some now
     /\ exitPrice t'
        = TradeHistoryService.json_number (Some (TradeHistoryService.cl_exitPrice params))
     /\ exitAmount t'
        = TradeHistoryService.json_number (Some (TradeHistoryService.cl_exitAmount params))
     /\ realizedPnL t'
        = TradeHistoryService.json_number
            (Some (Binary64.sub
                     (Binary64.mul (TradeHistoryService.cl_exitPrice params)
                        (TradeHistoryService.cl_exitAmount params))
                     (entryValue trade)))
     /\ sellReason t'
        = match TradeHistoryService.cl_sellReason params with
          | Some r => Some r
          | None => sellReason trade
          end)
  /\ (TradeHistoryService.tradeId params ∉ TradeHistoryService.open_trades s')
  /\ (TradeHistoryService.tradeId params ∈ TradeHistoryService.closed_trades s').
Proof.
  intros H I s'. subst s'. unfold Rounded.TradeHistoryService.closeTrade. rewrite H.
  cbn [snd].
  match goal with
  | |- context [TradeHistoryService.storeTrade ?t s] => set (t10 := t)
  end.
  assert (I10 : id t10 = TradeHistoryService.tradeId params).
  { rewrite <- I. unfold t10.
    destruct (TradeHistoryService.cl_sellTransactionId params),
      (TradeHistoryService.cl_sellReason params); reflexivity. }
  assert (S10 : status t10 = closed).
  { unfold t10.
    destruct (TradeHistoryService.cl_sellTransactionId params),
      (TradeHistoryService.cl_sellReason params); reflexivity. }
  split.
  - exists (TradeHistoryService.json_trade t10). split.
    { rewrite getTrade_emit, <- I10. apply storeTrade_lookup. }
    unfold t10.
    destruct (TradeHistoryService.cl_sellTransactionId params),
      (TradeHistoryService.cl_sellReason params); repeat split; reflexivity.
  - rewrite <- I10. apply (storeTrade_closed_sets t10 s S10).
Qed.

(** What [executeSell] does with the answer of the ledger. *)
Lemma rounded_executeSell_cases (x : AgentLedgerTools.Outside) (closeTime : Z)
    (t : TradeHistoryEntry) (reason : SellReason) (price : number) (d : Desk) :
  (id t ∉ processingTrades d) ->
  TradeHistoryService.getTrade (id t) (historyOf d) = Some t ->
  let answer :=
    fst (Rounded.AgentLedgerTools.performSwap show toFixed4 env x (sellRequest t) (ledger d)) in
  let d' := Rounded.TradeWatcherLoop.executeSell show toFixed4 env x closeTime t reason price d in
  processingTrades d' = processingTrades d
  /\ ledger d'
     = AgentLedgerTools.set_history (historyOf d')
         (snd (Rounded.AgentLedgerTools.performSwap show toFixed4 env x (sellRequest t)
                 (ledger d)))
  /\ (AgentLedgerTools.success answer = true ->
      (exists t',
         TradeHistoryService.getTrade (id t) (historyOf d') = Some t'
         /\ status t' = closed /\ closedAt t' = Some closeTime
         /\ sellReason t' = Some reason
         /\ exitPrice t'
            = TradeHistoryService.json_number
                (Some (or_else (reportedPrice answer) (or_else (Some price) zero)))
         /\ exitAmount t'
            = TradeHistoryService.json_number
                (Some (or_else (reportedAmount answer) (entryAmount t))))
      /\ (id t ∉ TradeHistoryService.open_trades (historyOf d'))
      /\ (id t ∈ TradeHistoryService.closed_trades (historyOf d')))
  /\ (AgentLedgerTools.success answer = false -> namesMissingBalance answer = true ->
      (exists t' msg,
         AgentLedgerTools.message answer = Some msg
         /\ TradeHistoryService.getTrade (id t) (historyOf d') = Some t'
         /\ status t' = closed /\ closedAt t' = Some closeTime
         /\ sellReason t' = Some (ForceCloseMessage msg)
         /\ exitPrice t'
            = TradeHistoryService.json_number (Some (or_else (Some price) zero))
         /\ exitAmount t' = Some zero
         /\ realizedPnL t'
            = TradeHistoryService.json_number
                (Some (Binary64.sub (Binary64.mul (or_else (Some price) zero) zero)
                         (entryValue t))))
      /\ (id t ∉ TradeHistoryService.open_trades (historyOf d'))
      /\ (id t ∈ TradeHistoryService.closed_trades (historyOf d')))
  /\ (AgentLedgerTools.success answer = false -> namesMissingBalance answer = false ->
      historyOf d' = historyOf d).
Proof.
  intros Free Stored answer d'. subst answer d'.
  unfold Rounded.TradeWatcherLoop.executeSell. rewrite (bool_decide_eq_false_2 _ Free).
  cbn [set_processingTrades ledger]. fold (sellRequest t).
  pose proof (rounded_sell_keeps_history x (sellRequest t) (ledger d) eq_refl) as K.
  destruct (Rounded.AgentLedgerTools.performSwap show toFixed4 env x (sellRequest t) (ledger d))
    as [result l1].
  cbn [fst snd] in *.
  assert (S1 : TradeHistoryService.getTrade (id t) (AgentLedgerTools.history l1) = Some t)
    by (rewrite K; exact Stored).
  unfold namesMissingBalance, reportedPrice, reportedAmount, reportedRate.
  destruct (AgentLedgerTools.success result) eqn:Ok.
  - unfold inHistory, historyOf, set_ledger, set_processingTrades, AgentLedgerTools.set_history.
    cbn [ledger processingTrades AgentLedgerTools.history AgentLedgerTools.wallet].
    match goal with
    | |- context [Rounded.TradeHistoryService.closeTrade closeTime ?ps _] => set (params := ps)
    end.
    destruct (rounded_closeTrade_stored closeTime params (AgentLedgerTools.history l1) t S1
                eq_refl) as ((t' & Get & St & Cl & Px & Am & _ & Why) & Op & Clo).
    split; [apply processing_released, Free|]. split; [reflexivity|].
    split; [|split; [discriminate | discriminate]].
    intros _. split; [|split; [exact Op | exact Clo]].
    exists t'. split; [exact Get|]. split; [exact St|]. split; [exact Cl|].
    split; [exact Why|]. split; [exact Px | exact Am].
  - destruct (AgentLedgerTools.message result) as [msg|] eqn:M.
    + destruct (negb (String.eqb msg "") && signalsMissingBalance msg) eqn:Named.
      * unfold inHistory, historyOf, set_ledger, set_processingTrades,
          AgentLedgerTools.set_history.
        cbn [ledger processingTrades AgentLedgerTools.history AgentLedgerTools.wallet].
        match goal with
        | |- context [Rounded.TradeHistoryService.closeTrade closeTime ?ps _] =>
            set (params := ps)
        end.
        destruct (rounded_closeTrade_stored closeTime params (AgentLedgerTools.history l1) t S1
                    eq_refl) as ((t' & Get & St & Cl & Px & Am & Pnl & Why) & Op & Clo).
        split; [apply processing_released, Free|]. split; [reflexivity|].
        split; [discriminate|]. split; [|discriminate].
        intros _ _. split; [|split; [exact Op | exact Clo]].
        exists t', msg. split; [reflexivity|]. split; [exact Get|]. split; [exact St|].
        split; [exact Cl|]. split; [exact Why|]. split; [exact Px|].
        split; [exact Am | exact Pnl].
      * unfold historyOf, set_ledger, set_processingTrades, AgentLedgerTools.set_history.
        cbn [ledger processingTrades AgentLedgerTools.history].
        split; [apply processing_released, Free|].
        split; [destruct l1; reflexivity|].
        split; [discriminate|]. split; [discriminate|]. intros _ _. exact K.
    + unfold historyOf, set_ledger, set_processingTrades, AgentLedgerTools.set_history.
      cbn [ledger processingTrades AgentLedgerTools.history].
      split; [apply processing_released, Free|].
      split; [destruct l1; reflexivity|].
      split; [discriminate|]. split; [discriminate|]. intros _ _. exact K.
Qed.

(** A paper sale the wallet does not cover. *)
Lemma rounded_paper_sell_short (x : AgentLedgerTools.Outside) (l : AgentLedgerTools.Ledger)
    (t : TradeHistoryEntry) (a b : Qc) :
  AgentLedgerTools.SIMULATING env = true ->
  entryAmount t = Fin a ->
  PaperWalletService.getBalance (tokenMint t) (AgentLedgerTools.wallet l) = Fin b ->
  ltb (Fin b) (Binary64.sub (Fin a) Rounded.AgentLedgerTools.TOLERANCE) = true ->
  Rounded.AgentLedgerTools.performSwap show toFixed4 env x (sellRequest t) l
  = (AgentLedgerTools.failure
       (Some ("Insufficient Paper Token Balance. Required: " +:+ show (Fin a)
              +:+ ", Available: " +:+ show (Fin b))), l).
Proof.
  intros Sim Amount Bal Short.
  unfold Rounded.AgentLedgerTools.performSwap. rewrite Sim.
  unfold Rounded.AgentLedgerTools.validateTradeBalanceMock, sellRequest.
  cbn [AgentLedgerTools.action AgentLedgerTools.amount AgentLedgerTools.mint].
  rewrite Amount, Bal, Short.
  cbn [AgentLedgerTools.v_success negb AgentLedgerTools.v_message]. reflexivity.
Qed.

Lemma or_else_twice (o : option number) :
  or_else (Some (or_else o zero)) zero = or_else o zero.
Proof.
  destruct o as [a|]; cbn [or_else]; [|reflexivity].
  destruct (truthy a) eqn:T; [rewrite T|]; reflexivity.
Qed.

(** X30. A paper position without its tokens is closed as a total loss.
    In simulation mode, when the paper wallet holds less than the entry
    amount of a stored position less the tolerance of 0.000000001, as the
    source computes that difference in double precision, [executeSell]
    does not sell: the refusal of the ledger names the paper balance, and
    the position is stored as closed with the reason
    [Force Close: <refusal>], an exit amount of 0 at the price handed in,
    and a realized loss of its whole entry value, a double.  The wallet is left as it
    was and the trade is no longer marked as in flight.  A trade whose sale
    is in flight is left alone.  The difference is rounded: for an entry
    amount of 10000000 it is 9999999.999999998, so that a wallet holding
    9999999.999999998, which is what (10000000 + 7000000.4) - 7000000.4
    leaves, is not refused: the position is sold for the reason handed in,
    with the whole balance as exit amount. *)
Theorem missing_paper_tokens_force_close :
  (forall (x : AgentLedgerTools.Outside) (closeTime : Z) (t : TradeHistoryEntry)
          (reason : SellReason) (d : Desk) (a b c v : Qc),
     AgentLedgerTools.SIMULATING env = true ->
     TradeHistoryService.getTrade (id t) (historyOf d) = Some t ->
     entryAmount t = Fin a ->
     entryValue t = Fin v -> representable v ->
     PaperWalletService.getBalance (tokenMint t) (AgentLedgerTools.wallet (ledger d)) = Fin b ->
     ltb (Fin b) (Binary64.sub (Fin a) Rounded.AgentLedgerTools.TOLERANCE) = true ->
     let d' :=
       Rounded.TradeWatcherLoop.executeSell show toFixed4 env x closeTime t reason (Fin c) d in
     ((id t ∈ processingTrades d) -> d' = d)
     /\ ((id t ∉ processingTrades d) ->
         (exists t',
            TradeHistoryService.getTrade (id t) (historyOf d') = Some t'
            /\ status t' = closed /\ closedAt t' = Some closeTime
            /\ exitPrice t' = Some (Fin c) /\ exitAmount t' = Some zero
            /\ realizedPnL t' = Some (Fin (- v))
            /\ sellReason t'
               = Some (ForceCloseMessage
                         ("Insufficient Paper Token Balance. Required: " +:+ show (Fin a)
                          +:+ ", Available: " +:+ show (Fin b))))
         /\ (id t ∉ TradeHistoryService.open_trades (historyOf d'))
         /\ (id t ∈ TradeHistoryService.closed_trades (historyOf d'))
         /\ AgentLedgerTools.wallet (ledger d') = AgentLedgerTools.wallet (ledger d)
         /\ processingTrades d' = processingTrades d))
  /\ (let least := Binary64.sub (ofZ 10000000) Rounded.AgentLedgerTools.TOLERANCE in
      let held := PaperWalletService.getBalance "MINT" (AgentLedgerTools.wallet worn_ledger) in
      let d' :=
        Rounded.TradeWatcherLoop.executeSell show_nought show_nought paper_env
          (outside_at 2000 (Some one) []) 2000 worn_position (MaxHoldTimeReached (ofZ 60))
          one worn_desk in
      least = Binary64.ofQ 9999999999999998 1000000000
      /\ entryAmount worn_position = ofZ 10000000
      /\ held = least
      /\ ltb held (entryAmount worn_position) = true
      /\ option_map (fun t' => (status t', sellReason t', exitAmount t'))
           (TradeHistoryService.getTrade (id worn_position) (historyOf d'))
         = Some (closed, Some (MaxHoldTimeReached (ofZ 60)), Some held)
      /\ PaperWalletService.getBalance "MINT" (AgentLedgerTools.wallet (ledger d')) = zero).
Proof.
  split; [|cbv zeta; repeat split; compute_done].
  intros x closeTime t reason d a b c v Sim Stored Amount Value Rep Bal Short d'. subst d'.
  split.
  - intros Busy. unfold Rounded.TradeWatcherLoop.executeSell.
    rewrite (bool_decide_eq_true_2 _ Busy). reflexivity.
  - intros Free.
    destruct (rounded_executeSell_cases x closeTime t reason (Fin c) d Free Stored)
      as (P & L & _ & Forced & _).
    rewrite (rounded_paper_sell_short x (ledger d) t a b Sim Amount Bal Short) in L, Forced.
    cbn [fst snd] in L, Forced.
    set (msg := "Insufficient Paper Token Balance. Required: " +:+ show (Fin a)
                +:+ ", Available: " +:+ show (Fin b)) in *.
    assert (Named : namesMissingBalance (AgentLedgerTools.failure (Some msg)) = true).
    { unfold namesMissingBalance. cbn [AgentLedgerTools.message AgentLedgerTools.failure].
      apply andb_true_iff. split; [reflexivity|].
      unfold signalsMissingBalance. apply orb_true_iff. right.
      apply str_includes_head.
      change msg with ("Insufficient Paper"
                       +:+ (" Token Balance. Required: " +:+ show (Fin a)
                            +:+ ", Available: " +:+ show (Fin b))).
      apply prefix_append. }
    destruct (Forced eq_refl Named)
      as ((t' & m' & M & Get & St & Cl & Why & Px & Am & Pnl) & Op & Clo).
    cbn [AgentLedgerTools.message AgentLedgerTools.failure] in M. injection M as <-.
    split; [|split; [exact Op | split; [exact Clo | split; [rewrite L; reflexivity | exact P]]]].
    exists t'. split; [exact Get|]. split; [exact St|]. split; [exact Cl|].
    rewrite or_else_Fin_zero in Px, Pnl. rewrite Value, (rounded_total_loss c v Rep) in Pnl.
    split; [exact Px|]. split; [exact Am|]. split; [exact Pnl | exact Why].
Qed.

(** C4, as stated, fails.  On the paper desk, exactly 60 minutes after the
    position was opened with a hold limit of 60 minutes and with no price
    in the cache, the evaluation hands the sale a price of 0, yet the
    position is closed at the price 1 that the swap reports, not at 0; and
    when the price service has no quote for the swap, the sale fails and
    the position is still open after the evaluation. *)
Lemma C4_exit_follows_the_swap :
  let quoted := outside_at 3601000 (Some one) [] in
  let unquoted := outside_at 3601000 None [] in
  let tick x :=
    Rounded.TradeWatcherLoop.processOpenTrade show_nought show_nought paper_env hour_later
      silent_feed x 3601000 bought_position bought_desk in
  Rounded.TradeWatcherService.evaluateTrade hour_later silent_feed bought_position
  = [TradeWatcherService.GetCachedPrice (tokenMint bought_position);
     TradeWatcherService.ExecuteSell bought_position (MaxHoldTimeReached (ofZ 60)) zero]
  /\ option_map status
       (TradeHistoryService.getTrade (id bought_position) (historyOf bought_desk))
     = Some open
  /\ option_map (fun t' => (status t', exitPrice t', sellReason t'))
       (TradeHistoryService.getTrade (id bought_position) (historyOf (tick quoted)))
     = Some (closed, Some one, Some (MaxHoldTimeReached (ofZ 60)))
  /\ option_map status
       (TradeHistoryService.getTrade (id bought_position) (historyOf (tick unquoted)))
     = Some open.
Proof. cbv zeta. repeat split; compute_done. Qed.

(** C4 (amended). A position whose hold limit is set and reached (the
    boundary included) is handed to [executeSell] for the reason "max hold
    time reached" before the watcher looks at the price feed: whatever the
    feed holds, the evaluation only reads the cached price, to pass it (or
    0 when there is none) to the sale; it neither consults the negative
    cache nor updates the position.  A limit of [k] whole minutes is
    reached as soon as [k * 60000] milliseconds have elapsed, the quotient
    being computed in double precision.  What is recorded follows the swap:
    when the swap succeeds the position is closed for that reason at the
    execution price the swap reports, or at the price handed in when it
    reports none; when the swap fails with a message that names a missing
    balance the position is closed at the price handed in with an exit
    amount of 0; after any other failure the position is left as it was,
    still open. *)
Theorem C4_max_hold_short_circuit :
  (forall (clock : TradeWatcherService.Clock) (feed : TradeWatcherService.PriceFeed)
          (trade : TradeHistoryEntry) (m : number),
     maxHoldTimeMinutes (sellConditions trade) = Some m ->
     truthy m = true ->
     geb (Rounded.TradeWatcherService.holdTimeMinutes (TradeWatcherService.atStart clock) trade)
         m = true ->
     Rounded.TradeWatcherService.evaluateTrade clock feed trade =
       [TradeWatcherService.GetCachedPrice (tokenMint trade);
        TradeWatcherService.ExecuteSell trade
          (MaxHoldTimeReached
             (Rounded.TradeWatcherService.holdTimeMinutes
                (TradeWatcherService.atStart clock) trade))
          (or_else (TradeWatcherService.cachedPrice feed) zero)])
  /\ (forall (clock : TradeWatcherService.Clock) (feed : TradeWatcherService.PriceFeed)
             (trade : TradeHistoryEntry) (k : Z),
        maxHoldTimeMinutes (sellConditions trade) = Some (ofZ k) ->
        (0 < k)%Z ->
        (k * 60000 <= TradeWatcherService.atStart clock - openedAt trade)%Z ->
        (TradeWatcherService.atStart clock - openedAt trade < 2 ^ 53)%Z ->
        Rounded.TradeWatcherService.evaluateTrade clock feed trade =
          [TradeWatcherService.GetCachedPrice (tokenMint trade);
           TradeWatcherService.ExecuteSell trade
             (MaxHoldTimeReached
                (Rounded.TradeWatcherService.holdTimeMinutes
                   (TradeWatcherService.atStart clock) trade))
             (or_else (TradeWatcherService.cachedPrice feed) zero)]
        /\ (TradeWatcherService.cachedPrice feed = None ->
            Rounded.TradeWatcherService.evaluateTrade clock feed trade =
              [TradeWatcherService.GetCachedPrice (tokenMint trade);
               TradeWatcherService.ExecuteSell trade
                 (MaxHoldTimeReached
                    (Rounded.TradeWatcherService.holdTimeMinutes
                       (TradeWatcherService.atStart clock) trade)) zero]))
  /\ (forall (clock : TradeWatcherService.Clock) (feed : TradeWatcherService.PriceFeed)
             (x : AgentLedgerTools.Outside) (closeTime : Z) (trade : TradeHistoryEntry)
             (d : Desk) (m : number),
        maxHoldTimeMinutes (sellConditions trade) = Some m ->
        truthy m = true ->
        geb (Rounded.TradeWatcherService.holdTimeMinutes
               (TradeWatcherService.atStart clock) trade) m = true ->
        (id trade ∉ processingTrades d) ->
        TradeHistoryService.getTrade (id trade) (historyOf d) = Some trade ->
        let reason :=
          MaxHoldTimeReached
            (Rounded.TradeWatcherService.holdTimeMinutes
               (TradeWatcherService.atStart clock) trade) in
        let handed := or_else (TradeWatcherService.cachedPrice feed) zero in
        let answer :=
          fst (Rounded.AgentLedgerTools.performSwap show toFixed4 env x (sellRequest trade)
                 (ledger d)) in
        let d' :=
          Rounded.TradeWatcherLoop.processOpenTrade show toFixed4 env clock feed x closeTime
            trade d in
        (AgentLedgerTools.success answer = true ->
         exists t',
           TradeHistoryService.getTrade (id trade) (historyOf d') = Some t'
           /\ status t' = closed /\ closedAt t' = Some closeTime
           /\ sellReason t' = Some reason
           /\ exitPrice t'
              = TradeHistoryService.json_number (Some (or_else (reportedPrice answer) handed))
           /\ exitAmount t'
              = TradeHistoryService.json_number
                  (Some (or_else (reportedAmount answer) (entryAmount trade))))
        /\ (AgentLedgerTools.success answer = false -> namesMissingBalance answer = true ->
            exists t' msg,
              AgentLedgerTools.message answer = Some msg
              /\ TradeHistoryService.getTrade (id trade) (historyOf d') = Some t'
              /\ status t' = closed /\ closedAt t' = Some closeTime
              /\ sellReason t' = Some (ForceCloseMessage msg)
              /\ exitPrice t' = TradeHistoryService.json_number (Some handed)
              /\ exitAmount t' = Some zero)
        /\ (AgentLedgerTools.success answer = false -> namesMissingBalance answer = false ->
            historyOf d' = historyOf d))
  /\ (forall feed : TradeWatcherService.PriceFeed,
        Rounded.TradeWatcherService.evaluateTrade s3_clock feed s3_position
        = [TradeWatcherService.GetCachedPrice (tokenMint s3_position);
           TradeWatcherService.ExecuteSell s3_position (MaxHoldTimeReached (ofZ 60))
             (or_else (TradeWatcherService.cachedPrice feed) zero)]).
Proof.
  assert (G : forall clock feed trade m,
             maxHoldTimeMinutes (sellConditions trade) = Some m ->
             truthy m = true ->
             geb (Rounded.TradeWatcherService.holdTimeMinutes
                    (TradeWatcherService.atStart clock) trade) m = true ->
             Rounded.TradeWatcherService.evaluateTrade clock feed trade =
               [TradeWatcherService.GetCachedPrice (tokenMint trade);
                TradeWatcherService.ExecuteSell trade
                  (MaxHoldTimeReached
                     (Rounded.TradeWatcherService.holdTimeMinutes
                        (TradeWatcherService.atStart clock) trade))
                  (or_else (TradeWatcherService.cachedPrice feed) zero)]).
  { intros clock feed trade m Hm Ht Hge. unfold Rounded.TradeWatcherService.evaluateTrade.
    rewrite Hm. simpl truthy_opt. simpl toNumber. rewrite Ht, Hge. reflexivity. }
  split; [exact G|]. split.
  { intros clock feed trade k Hm Hk Hd Hrange.
    assert (E := G clock feed trade (ofZ k) Hm
                   (truthy_ofZ k ltac:(lia))
                   (rounded_hold_time_reaches _ _ _ Hk Hd Hrange)).
    split; [exact E|]. intros Hnone. rewrite E, Hnone. reflexivity. }
  split.
  - intros clock feed x closeTime trade d m Hm Ht Hge Free Stored reason handed answer d'.
    subst d'. unfold Rounded.TradeWatcherLoop.processOpenTrade.
    rewrite (bool_decide_eq_false_2 _ Free).
    unfold Rounded.TradeWatcherLoop.evaluateTrade.
    rewrite (G clock feed trade m Hm Ht Hge).
    cbn [foldl Rounded.TradeWatcherLoop.perform]. fold reason handed.
    destruct (rounded_executeSell_cases x closeTime trade reason handed d Free Stored)
      as (_ & _ & Sold & Forced & Kept).
    fold answer in Sold, Forced, Kept.
    unfold handed in Sold, Forced. rewrite or_else_twice in Sold, Forced. fold handed in Sold, Forced.
    split; [|split; [|exact Kept]].
    + intros Ok. destruct (Sold Ok) as (E & _). exact E.
    + intros Ko Named.
      destruct (Forced Ko Named)
        as ((t' & msg & M & Get & St & Cl & Why & Px & Am & _) & _).
      exists t', msg. repeat split; assumption.
  - intros feed.
    assert (H60 : Rounded.TradeWatcherService.holdTimeMinutes
                    (TradeWatcherService.atStart s3_clock) s3_position = ofZ 60)
      by compute_done.
    rewrite (G s3_clock feed s3_position (ofZ 60)) by compute_done.
    rewrite H60. reflexivity.
Qed.

End SalesInDoubles.

Lemma missing_paper_tokens_force_close_witness :
  id bought_position
  ∈ TradeHistoryService.closed_trades
      (TradeWatcherLoop.historyOf
         (Rounded.TradeWatcherLoop.executeSell show_nought show_nought paper_env
            (outside_at 3601000 (Some one) []) 3601000 LedgerInDoubles.bought_position
            ForceClosePricingError (Fin 0) LedgerInDoubles.emptied_desk)).
Proof.
  refine (proj1 (proj2 (proj2 (proj2
            (proj1 (missing_paper_tokens_force_close show_nought show_nought paper_env)
               (outside_at 3601000 (Some one) []) 3601000 LedgerInDoubles.bought_position
               ForceClosePricingError LedgerInDoubles.emptied_desk
               (Q2Qc (1 # 2)) (Q2Qc (inject_Z 0)) 0%Qc (Q2Qc (1 # 4))
               _ _ _ _ _ _ _) _)))).
  - reflexivity.
  - compute_done.
  - compute_done.
  - compute_done.
  - compute_done.
  - compute_done.
  - compute_done.
  - apply not_elem_of_empty.
Defined.

Lemma C4_max_hold_short_circuit_witness :
  Rounded.TradeWatcherService.evaluateTrade s3_clock dead_feed s3_position =
    [TradeWatcherService.GetCachedPrice (tokenMint s3_position);
     TradeWatcherService.ExecuteSell s3_position
       (MaxHoldTimeReached
          (Rounded.TradeWatcherService.holdTimeMinutes
             (TradeWatcherService.atStart s3_clock) s3_position)) zero].
Proof.
  refine (proj1 (C4_max_hold_short_circuit show_nought show_nought paper_env) s3_clock
            dead_feed s3_position (ofZ 60) _ _ _).
  - reflexivity.
  - reflexivity.
  - compute_done.
Defined.
